(* ===== verification/_CoqProject ===== *)
-Q . S2P
Prelude.v
Store.v
Physics.v
World.v
Session.v
Matchmaking.v
Invites.v
Connection.v
System.v
Chat.v
ChatGateway.v
Profile.v
Auth.v
UserController.v
Browser.v
TwoFACard.v
Client.v
Loop.v
Forms.v
ChatPage.v
ChatMenu.v
ChatView.v
ChatBar.v
AddChannel.v
ChatEffects.v
Avatar.v
Pages.v
Lobby.v
ProfilePage.v
Players.v
ProfileCards.v
