(* ===== verification/Prelude.v ===== *)
(** * Ft_transcendence: a verification development of the Pong and chat server

    The program (src/app/) is a NestJS backend and a React frontend.  The
    backend has two socket.io gateways and an HTTP API over one Prisma
    (PostgreSQL) database:
    - the game gateway (backend/src/game/game.gateway.ts) runs matchmaking,
      invitations and the matches themselves, with GameService
      (game.service.ts) and the UserService calls it needs
      (user/user.service.ts);
    - the chat gateway (backend/src/chat/chat.gateway.ts) runs channels,
      private conversations, moderation and messages, with ChannelService
      and ChatService (channel.service.ts, chat.service.ts);
    - the HTTP API (auth/ and user/user.controller.ts) logs users in
      through the 42 OAuth provider, issues JWTs, runs the 2FA protocol and
      serves profiles, rankings, renames, avatars and friends.
    The gateways and controllers only meet in the database: the game
    writes presence, win/loss counters and game rows; the chat reads the
    users and their block lists; the HTTP side creates users, renames
    them (also in the game rows and chat messages) and adds friends.
    The frontend (frontend/src/) talks to both gateways over one shared
    socket: the game page (components/Game/Pong.tsx) runs the match loop
    against the game gateway, which trusts the snapshots it sends; the
    chat page (components/Chat/) asks the chat gateway for lists again
    when an ['update'] event arrives, from either gateway; the forms and
    the home and profile pages call the HTTP API.

    ** Files, in dependency order

    - Prelude.v (this file): the handler monad [M S A := S -> outcome A * S]
      (an exception is [Exn], side effects before it are kept, as in an
      [async] method without a transaction), its notations in [gw_scope],
      [catch], [deref] (a [TypeError] on [null]), [zoom] (a call on a part
      of the state), [for_each], the [preserves] predicate with the tactics
      [preserve], [preserve_cases], [preserve_deep] and the hint database
      [gw]; JavaScript's insertion-ordered [Map] ([jsmap]), [findIndex],
      [find], [splice] and the list lemmas the components share.
    - Store.v: the [User] and [Game] rows, the Prisma primitives (a unique
      key lookup is [find_first]; an [update] of a missing row throws) and
      the modules [UserService] and [GameService], one definition per
      method; the setoid [records_eq] (same games, same counters per user)
      with its [Proper] instances.
    - Physics.v: the pure kinematics of [ballMove] and [handlePaddleMovement]
      (positions in exact rationals, the speed an integer) and the serve
      loop of [generateRandomBallDirection].
    - World.v: the game gateway's state [World] (waitingQueue, invitations,
      players, the socket.io rooms behind the [RoomAdapter] class, the
      emitted events, the pending [setTimeout] callbacks, the database).
    - Session.v, Matchmaking.v, Invites.v, Connection.v: the game gateway's
      handlers (modules [Session], [Matchmaking], [Invites], [Connection]),
      each a computation on [World] that calls Store.v through [db_call].
    - System.v: the game gateway as a step relation: any message, socket
      connection or disconnection, or the oldest pending timer.
    - Chat.v: the chat tables ([Channel], [ChannelUser], [Message]) with
      Prisma's unique and foreign keys, the modules [ChannelService] and
      [ChatService]; ChatGateway.v: the chat gateway's nineteen handlers on
      [ChatWorld] and the chat server as the step relation [cstep].
    - Profile.v: the rest of user.service.ts (module [ProfileService]) on
      [AppDB], the database with the columns only the HTTP side reads and
      the friends join table.
    - Auth.v: signed tokens, the passport strategies, [JwtGuard] and
      [Jwt2faGuard], [AuthService] and the routes of [AuthController] on
      [Server]; UserController.v: the routes of user.controller.ts and the
      HTTP server as the set of routes [http_handle], with the invariant
      that no stored secret is empty and 2FA is on only with a stored
      secret ([server_ok]); [!twoFactorSecret] is JavaScript's negation
      ([js_truthy]), true for an empty secret too.  The secrets
      [2fa/generate] stores come from [authenticator.generateSecret()],
      which answers non-empty base32 text ([secret_generated]); the
      authenticator is a parameter that accepts no code without a
      secret.
    - Browser.v: the browser of one user against that server: the
      [tokenJwt] cookie, the user [AuthContext] fetches on each page
      load, the routes of App.tsx with [ProtectedRoute] and [LoginPage]'s
      redirect ([App]), the login buttons (module [LoginBtn]), the pages
      [Verify2FA], [Register2FA], [TurnOff2FA], the settings card's
      [handle2FA] (module [UserSettings]) and [Header.handleLogout]; each
      action is a computation [Browser -> SM Browser] on [Server], and
      [browse] runs the one the page shown offers.
    - TwoFACard.v: the 2FA card of User/UserSettings.tsx with its own
      state (module [TwoFACard]: the checkbox, the save button's guard,
      [handle2FA], [removeElement("2fa")] and the content shown).
    - Client.v: the game page: [allVar], the closure variables [prev] and
      [curr], the React state, and module [Pong] with the key listeners
      [paddleMove] and [paddleStop], [handleMapSelect], [handleGameMode],
      every socket listener ([on_server]), the canvas effect [setup], the
      [countdown] tick, the sending part of [render] and the end screen
      [handleGameEnd] chooses; each a function
      on [Client] returning the messages emitted ([ClientMsg]).  Module
      [KeySpec] is the abstract view of the keyboard (the movement keys
      held, most recent first).
    - Loop.v: one match end to end: two pages and the game gateway as the
      step relation [dstep] on [Duel]: a page acts, the gateway handles
      its messages one by one with [System.handle], and the events each
      handler emits reach the pages whose sockets the rooms name.
    - Forms.v: [isAlphanumeric] (functions/isAlphanumeric.tsx), the
      username card of User/UserSettings.tsx with its availability checks
      in flight, and the channel form of Chat/Conversations/
      AddConversation.tsx.
    - ChatPage.v: the [update] listener of Chat/ChatPage.tsx (the bits of
      contexts/ChatContext.tsx's [Update]), the conditions of the user
      menu (Chat/UserSidebar/UserMenu.tsx), and module [ChatActions]
      (Chat/ChatActions/ChatActions.tsx) with the page's copy of the
      block list, composed with the chat server's [chat_handle].
    - ChatMenu.v: every item of Chat/UserSidebar/UserMenu.tsx (module
      [UserMenu]: when it is shown or disabled, what its click sends as a
      [MenuMsg]), the two menus and the effect of UserList.tsx (module
      [UserList]), and the home page (module [HomePage]: the fetch of the
      general information, the welcome line, [handleAddFriend]).
    - ChatView.v: the rest of Chat/ChatPage.tsx (module [ChatView]): the
      selected conversation, the answers of the list requests,
      [sendMessage], [updateMessages], the listeners [recvMessage] and
      [handleAnnounce], and the message list without blocked senders.
    - ChatBar.v: the rest of Chat/ChatActions/ChatActions.tsx (module
      [ChatActionsBar]: the bar a conversation shows, its settings
      popover, the [target] of a private conversation) and
      Chat/Conversations/Section.tsx (module [Section]: the public
      channels not joined, the click that joins one with its
      acknowledgement, the click that selects a conversation), with the
      step relation [vstep] of the page's view over the gateway's answers
      and the user's clicks.
    - AddChannel.v: the popup of Chat/Conversations/AddConversation.tsx
      (module [AddConversation]: its task, name form, type, password and
      anchor, its buttons, select and inputs, and [submit], the
      [addChannel] request sent to the gateway's [createChannel] or
      [joinChannel] with its acknowledgement), and the step relation
      [pstep] of the popup under the user's inputs and the answers.
    - ChatEffects.v: the socket listeners of Chat/ChatPage.tsx as one
      function [on_payload] from a gateway event to the new view and the
      page's reactions (module [ChatListeners]), its mount and
      [selectedId] effects, and the conversation pane it draws.
    - Avatar.v: the avatar card of User/UserSettings.tsx (module
      [AvatarCard]: the MIME check of [handleChange], the save button,
      [removeElement("avatar")], [handleAvatar] with its reload) and the
      route [POST /users/upload-avatar] of user/user.controller.ts
      ([uploadAvatarRoute]: [JwtGuard], multer's [fileFilter] and stored
      name as [FileInterceptor], [uploadFile]); the two regular
      expressions are the string functions [mime_ok] and [ext_ok].
    - Pages.v: the home page's [Ranking], the profile's [Stats] rank and
      medal with the [requestedUser] of User/UserProfile.tsx, the
      result of the game history cards, and the show-more toggle of
      Home/RecentGames.tsx (module [RecentGames]).
    - Lobby.v: the [MatchMaking] page (Game/MatchMaking.tsx, with the
      button it draws) and the invitation popup (Chat/Invite/
      InvitePopup.tsx, with its modal), and a pair of pages
      of one kind against the game gateway ([Pair], [serve], [act_A],
      [act_B]): a page's handler runs, the gateway handles its messages
      with [System.handle], and the emitted events reach the pages whose
      sockets the targets name ([deliver_to]).
    - ProfilePage.v: the profile page User/UserProfile.tsx (module
      [UserProfile]: its state, [fetchProfile] with its [catch], the
      redirect to the not-found page) against [GET /users/:id/profile]
      ([getProfileRoute]: the route of UserController.v behind
      JavaScript's [parseInt], the string function [parse_int]).
    - Players.v: [getPlayers] (Game/Utils/getPlayers.tsx) and the effect
      of Pong.tsx that stores its result (module [Players]): the page's
      objects as a heap, React's [players] state as a location, the two
      requests in flight with the object their callbacks captured, which
      the browser completes in any order, and the names a render draws;
      module [RecentGameCard], the avatar requests of
      Home/RecentGames.tsx's cards, answered through React's updater.
    - ProfileCards.v: the cards of the profile page: [Stats]
      (ProfileUtils/Stats.tsx: the fetch of the ranking, the score line,
      the medal) and [GameHistory] (ProfileUtils/GameHistory.tsx: the
      cards' scores and result, the list with its toggle and hook slot).

    ** What is proved

    - Game sessions: the score limit ends the match with the right winner
      and notifications; a forfeit gives one win and one loss; the
      acknowledgment [gameFinished] sets [isFinished] on its row and
      changes nothing else (and nothing more when repeated); the deferred score write
      is bounded by the limit; [updateUser] counts a result twice when
      called twice; the tie-break of [gameMode].
    - Kinematics: the integer rounding routine equals
      [Math.round(Math.sqrt(s/40))]; every paddle hit raises the speed by
      at least 15; the paddle and edge bounces; paddles stay on the canvas;
      the serve satisfies [0.2 < |x| < 0.9], is one of four directions, and
      its loop stops at the first draw it accepts and serves that
      draw's direction.
    - Matchmaking and invitations: FIFO pairing, no double queueing, the
      queue and invitation invariants in every reachable state of the game
      gateway (System.v), the blocked-invite scenario, the accepted
      invitation, and [inviteDeclined] dropping the wrong invitation.
    - Connections: forfeit on disconnection, and the crash that leaves a
      dead socket registered when the game room is empty.
    - Chat: the table keys hold in every reachable state of the chat
      server (kept by the Prisma primitives of the model); [join]'s admission guards; moderation needs rights; a banned
      member still posts; a former owner still moderates; the private
      conversation names collide; refused kicks are still announced;
      [PRIVATE] channels are joinable by name; [blockUser] is a toggle.
    - HTTP: only [2fa/authenticate], after a verified code, signs a token
      that passes [JwtGuard] for a 2FA user; the guard's 2FA check; the
      42 login's token is refused while 2FA is on; a logged-in user
      renames any user; two routes act without any token; [changeName]
      renames everywhere or nowhere; the profile's friend partition; the
      ranking is a sorted permutation; over every sequence of requests 2FA
      is never on without a non-empty secret, so the callback's redirect
      to [/2fa/reg] (a path the frontend has no route for) never happens.
    - Browser session (Browser.v): after the 42 login of a 2FA user, no
      visit or navigation reaches a protected page before the code;
      entering the right code loads the home page logged in, with the
      socket connected; over any sequence of actions a protected page is
      never shown without a user and the socket is connected exactly on
      protected pages; logging out drops the cookie but the server still
      takes the old token.
    - The 2FA card (TwoFACard.v): with save enabled it shows what
      Browser.v's abstraction of the card chooses; closing the content
      flips the checkbox, which puts it back on the user's setting after
      a save, but against it when the box was ticked back meanwhile.
    - Menus (ChatMenu.v): after [Add Friend] in a user menu the home page
      lists the target among the friends and not among the other users.
    - Conversations (ChatView.v): a message the gateway posts to a
      channel reaches every page showing the channel, hidden only from a
      reader who blocked its sender.
    - The conversation bar (ChatBar.v): the page's ids are typed by
      their sign (channels positive, private conversations negated) in
      every view [vstep] reaches, so a message goes to the selected
      conversation with the right kind and the bar shows that kind's
      buttons; the [Options] button tests the conversation's id, not
      the other user's, against the block list; clicking a public
      channel joins and selects it, except a public channel with a
      password, which the page can never join.
    - Avatars (Avatar.v): saving a file whose name the server takes
      reloads the page with the new avatar URL; a name it refuses
      changes nothing, although the page's MIME check may have enabled
      save ([me.PNG]); the stored name keeps the image extension except
      for a name that is only an extension.
    - Game page: the key listeners refine the held-keys view (two keys at
      most, no uppercase [W], which sticks); the canvas set-up follows the
      mode table; the cleanup leaks the keyup listener.
    - A match end to end (Loop.v): the server side of every run of
      [dstep] is a run of the gateway, so its registry invariant holds;
      a frame in [INIT] starts the game on both pages (liveness of the
      spec's AwaitingReady -> Playing); a frame of play moves the ball on
      both pages by the abstract tick (collide, then advance); a match
      won by score is reported once by each page and counted once.
    - Frontend checks: [isAlphanumeric] decides the name spec (1 to 12
      letters, digits or hyphens); checks answered in order only enable
      saving a free valid name, and out of order a taken one; the channel
      form never submits a private conversation's name; the chat page
      refreshes exactly the lists whose [toUpdate] bit is set; the menu
      offers moderation exactly when the gateway allows it, and [Admin]
      to a former owner the gateway refuses; the rank on one's own profile
      is the ranking's number, and on a profile reached by id it is never
      shown (a string compared with numbers by [===]).  The page's copy of
      the block list stays equal to the server's row over any sequence of
      [Block] clicks (a refinement: the page's [splice] of the first
      occurrence matches the server's [filter] because neither list ever
      holds a duplicate).
    - Lobby (Lobby.v): two free users joining the empty queue from their
      pages both reach the same new game; accepting the shown invitation
      takes both players to the game, while the popup forgets every other
      invitation the gateway keeps; declining drops another user's
      invitation; the popup's cleanup declines nothing.
    - Channel popup (AddChannel.v): every popup the user reaches is well
      typed ([popup_wf], preserved by [pstep]), so an enabled submit
      always sends a non-empty alphanumeric name and a Prisma type other
      than [DM]; creating a channel with a fresh name inserts it with the
      hash of the typed password and its creator as [OWNER], then closes
      the popup and selects the channel; a taken name leaves the popup
      open, the tables unchanged, and alerts the sender.
    - Chat listeners (ChatEffects.v): the first render asks for the
      five lists and the selected conversation's messages; an
      announcement for the open conversation is drawn last, as the
      server's.
    - Players (Players.v): the answers to [getPlayers]' requests, in
      either order, fill the object React holds without a render: the
      names appear only at the next render some other update causes;
      a recent game card's avatars, set through updaters, both appear
      whichever answer comes first, each with its render.
    - Profile cards (ProfileCards.v): on one's own profile the medal is
      the user's place among the users with a game in the server's
      ranking by ratio, everyone above at least as good and everyone
      below at most; the game history shows the first three games and
      its button alternates with the whole list.
    - Profile page (ProfilePage.v): [parseInt] reads back every
      [String(n)] of at most 64 digits, so the menu's [Profile] item
      opens the profile of its target; the page at [String(n)] followed
      by any text that does not continue the digits ([2abc]) is the very
      page of [String(n)], showing user [n] instead of the not-found page;
      a segment with no digits, or the id of no user, ends on the
      not-found redirect.
    Each claim carries its id in its comment and, when it has hypotheses,
    a witness lemma applying it to a concrete state.

    ** Bounds and modelling choices

    - JavaScript numbers: positions are [Q]; every operation the server
      applies to them is exact there, whereas the doubles round; the
      cosines, sines and [2 * Math.PI] are the doubles' decimal values.
      Integer ids, scores and times are [Z].  [String(n)] uses a fuel of
      64 digits, more than the 16 of any safe integer.
    - [Math.random()] is an input: a value, or the list of values a loop
      draws; the serve loop recurses on that list (no fuel).
    - Time ([new Date()]) is a parameter of each handler; bcrypt is an
      idealised hash ([compare] is equality with the hash); the otplib
      check is the parameter [totp_verify]; a JWT signature is idealised
      as membership in the server's signed set.
    - The Prisma schema is not in the repository: its keys and defaults
      are taken from the code (unique channel names, memberships keyed by
      (channelId, userId), a channel deleted with its memberships, users
      unique by id, authId and username, [isTwoFactorEnabled] false by
      default, [ChannelType] the strings PUBLIC, PRIVATE and DM:
      [prisma_type]).  A [findMany] without [orderBy] returns rows in insertion
      order; [orderBy: username] uses character-code order.
    - One handler runs to completion before the next; a pending timer
      fires between two handlers, the oldest first.
    - On the frontend, an emitted event is delivered to a page before the
      next message is handled (Loop.v's interleaving); keys and codes of
      [KeyboardEvent]s are strings; [allVar.ts] and [gameStatus.ts] are
      absent from the repository: [allVar]'s fields are taken from their
      uses (the held key initially [""]) and the status codes from the
      server's [GameStatus].  JavaScript values compared with [===] are
      [JsVal]s (number, string, undefined).  React state updates take
      effect at once; an effect runs when the model's action says so.
      [isAlphanumeric]'s loop is a [Fixpoint] with fuel the string's
      length, the loop's own bound, so it never runs out.
      [acceptInvite]'s second [navigate], 10 ms later, is taken as
      immediate; [blockUser] goes to the chat gateway, outside the game
      gateway's model.  [Verify2FA]'s 400 ms before its reload is a shift
      of the time given to the reload; the cookie's own two-hour expiry
      is not modelled, it equals the token's.  A path is the list of its
      segments; the cookie ["[object Promise]"] authenticates no one.
      Players.v is the one place where a render is an explicit step: the
      state it reads is a shared object mutated outside React.
    - [parseInt] ([parse_int]) skips ASCII white space only and reads
      into an unbounded integer; Prisma's rejection of a [NaN] id, which
      the route's [catch] turns into [undefined], is written as that
      answer.  A [NULL] [initialBallSpeed] is read as 0 where
      [ballMove] resets the ball after a point; [server.to(undefined)] reaches no one;
      JavaScript's double division is exact rational division and V8's
      stable sort is a stable insertion sort, equal on the comparators
      the code passes.

    ** Not modelled

    - The interleaving of two handlers at their [await] points (the spec's
      races on one session): the steps are whole handlers.
    - Drawing on the canvas, the 60 fps throttle of [render], the
      map-content timeout and the resize
      listener of Pong.tsx: they change only what is drawn.  The markup
      (HomePage.tsx's user lists are commented out of it); the layouts,
      NotFound and the game status pages, which only draw; the avatar
      preview image and the file's bytes; the scrolling and QR image of
      Register2FA; the hover images of the login and logout buttons, the
      header's navigation links and the guest login's input toggle,
      which only change what is drawn; the axios calls themselves (their answers are inputs).
    - channel.controller.ts is commented out entirely and game.controller.ts
      declares no route: there is nothing to model; main.ts and the Nest
      modules only wire the services.  Multer's writing of the file to
      disk; the 42 API,
      qrcode and the otplib internals. *)

From stdpp Require Import base list strings.
From Stdlib Require Import ZArith Lia.

(** ** The handler monad

    Every NestJS gateway handler of the server is an [async] method that
    reads and writes shared state (the gateway's fields, the Prisma
    database, the socket.io rooms) and may stop half-way through with an
    uncaught exception (a Prisma error outside a [try], or a [TypeError]
    on a [null] record).  Side effects made before the exception are kept:
    there is no rollback.  A computation is therefore a function from the
    state to an outcome and the state reached, with the exception a value
    of [outcome]. *)

Inductive outcome (A : Type) : Type :=
  | Ok (a : A)
  | Exn.
Arguments Ok {A} a.
Arguments Exn {A}.

Definition M (S A : Type) : Type := S -> outcome A * S.

Section Monad.
Context {S : Type}.

Definition ret {A} (a : A) : M S A := fun s => (Ok a, s).

Definition bind {A B} (c : M S A) (k : A -> M S B) : M S B :=
  fun s => match c s with
           | (Ok a, s') => k a s'
           | (Exn, s') => (Exn, s')
           end.

Definition throw {A} : M S A := fun s => (Exn, s).

Definition get : M S S := fun s => (Ok s, s).

Definition put (s : S) : M S unit := fun _ => (Ok tt, s).

Definition modify (f : S -> S) : M S unit := fun s => (Ok tt, f s).

Definition gets {A} (f : S -> A) : M S A := fun s => (Ok (f s), s).

(** [try { c } catch { h }]: the handler runs in the state the failed
    [c] left behind. *)
Definition catch {A} (c : M S A) (h : M S A) : M S A :=
  fun s => match c s with
           | (Ok a, s') => (Ok a, s')
           | (Exn, s') => h s'
           end.

(** [x!] on a value that may be [null]: a [TypeError] when it is. *)
Definition deref {A} (o : option A) : M S A :=
  match o with Some a => ret a | None => throw end.

Definition when (b : bool) (c : M S unit) : M S unit :=
  if b then c else ret tt.

(** Running a computation for its final state only. *)
Definition exec {A} (c : M S A) (s : S) : S := snd (c s).
Definition eval {A} (c : M S A) (s : S) : outcome A := fst (c s).
End Monad.

Declare Scope gw_scope.
Delimit Scope gw_scope with gw.
Notation "'let*' x ':=' c 'in' k" := (bind c (fun x => k))
  (at level 10, x name, c at level 100, k at level 200) : gw_scope.
Notation "c ;; k" := (bind c (fun _ => k))
  (at level 100, k at level 200, right associativity) : gw_scope.
Open Scope gw_scope.

(** Lifting a computation on a component of a larger state. *)
Definition zoom {S T A} (getf : S -> T) (setf : T -> S -> S) (c : M T A) : M S A :=
  fun s => let (o, t) := c (getf s) in (o, setf t s).

(** [arr.forEach(f)] with a callback that does not await. *)
Fixpoint for_each {S A} (f : A -> M S unit) (l : list A) : M S unit :=
  match l with
  | [] => ret tt
  | x :: l' => f x;; for_each f l'
  end.

(** ** Monad laws and running lemmas *)

Section MonadLaws.
Context {S : Type}.

Lemma bind_ret_l {A B} (a : A) (k : A -> M S B) s : bind (ret a) k s = k a s.
Proof. reflexivity. Qed.

Lemma exec_bind_ret {A} (c : M S A) s : exec (c;; ret tt) s = exec c s.
Proof. unfold exec, bind, ret. by destruct (c s) as [[] ?]. Qed.

Lemma bind_ret_r {A} (c : M S A) s : bind c ret s = c s.
Proof. unfold bind, ret. by destruct (c s) as [[] ?]. Qed.

Lemma bind_assoc {A B C} (c : M S A) (k1 : A -> M S B) (k2 : B -> M S C) s :
  bind (bind c k1) k2 s = bind c (fun a => bind (k1 a) k2) s.
Proof. unfold bind. by destruct (c s) as [[] ?]. Qed.

Lemma bind_Ok {A B} (c : M S A) (k : A -> M S B) s a s' :
  c s = (Ok a, s') -> bind c k s = k a s'.
Proof. unfold bind. by intros ->. Qed.

Lemma bind_Exn {A B} (c : M S A) (k : A -> M S B) s s' :
  c s = (Exn, s') -> bind c k s = (Exn, s').
Proof. unfold bind. by intros ->. Qed.

(** A computation preserves a predicate when every run does, whatever
    its outcome. *)
Definition preserves {A} (P : S -> Prop) (c : M S A) : Prop :=
  forall s, P s -> P (snd (c s)).

Lemma preserves_ret {A} P (a : A) : preserves P (ret a).
Proof. by intros s Hs. Qed.

Lemma preserves_throw {A} P : preserves P (@throw S A).
Proof. by intros s Hs. Qed.

Lemma preserves_get P : preserves P get.
Proof. by intros s Hs. Qed.

Lemma preserves_bind {A B} P (c : M S A) (k : A -> M S B) :
  preserves P c -> (forall a, preserves P (k a)) -> preserves P (bind c k).
Proof.
  intros Hc Hk s Hs. unfold bind.
  specialize (Hc s Hs). destruct (c s) as [[a|] s']; [by apply Hk | done].
Qed.

Lemma preserves_catch {A} P (c h : M S A) :
  preserves P c -> preserves P h -> preserves P (catch c h).
Proof.
  intros Hc Hh s Hs. unfold catch.
  specialize (Hc s Hs). destruct (c s) as [[a|] s']; [done | by apply Hh].
Qed.

Lemma preserves_when P b (c : M S unit) : preserves P c -> preserves P (when b c).
Proof. intros Hc. destruct b; [done | apply preserves_ret]. Qed.

Lemma preserves_deref {A} P (o : option A) : preserves P (deref o).
Proof. destruct o; [apply preserves_ret | apply preserves_throw]. Qed.

Lemma preserves_gets {A} P (f : S -> A) : preserves P (gets f).
Proof. by intros s Hs. Qed.

Lemma preserves_modify P (f : S -> S) : (forall s, P s -> P (f s)) -> preserves P (modify f).
Proof. intros Hf s Hs. by apply Hf. Qed.

Lemma preserves_run {A} P (c : M S A) s : preserves P c -> P s -> P (snd (c s)).
Proof. intros Hc Hs. by apply Hc. Qed.

Lemma bind_modify {B} (f : S -> S) (k : unit -> M S B) s : bind (modify f) k s = k tt (f s).
Proof. done. Qed.

(** [let* s := get in k s]: the continuation runs in the state it read. *)
Lemma preserves_bind_get {B} P (k : S -> M S B) :
  (forall s, P s -> P (snd (k s s))) -> preserves P (bind get k).
Proof. intros Hk s Hs. by apply Hk. Qed.
End MonadLaws.

Create HintDb gw discriminated.
Create Rewrite HintDb gw_rw.
#[export] Hint Resolve preserves_ret preserves_throw preserves_get preserves_gets
  preserves_catch preserves_when preserves_deref : gw.

(** [preserves_bind] is applied by the tactic below rather than as a hint,
    because its second premise quantifies over the bound value. *)
Ltac preserve_step :=
  first
    [ apply preserves_bind; [| intros ?]
    | apply preserves_catch
    | apply preserves_when
    | progress eauto with gw ].
Ltac preserve := repeat preserve_step.

(** [preserve], also splitting on the conditionals and matches of the
    handler's code; a [get] keeps the state it read, as a hypothesis. *)
Ltac preserve_cases :=
  repeat first
    [ match goal with |- preserves _ (bind get _) => apply preserves_bind_get; intros ? ? end
    | preserve_step
    | match goal with |- preserves _ (if ?b then _ else _) => destruct b end
    | match goal with |- preserves _ (match ?x with _ => _ end) => destruct x end ].

(** Back from a goal about one run [P (snd (c s))], with [P s] among
    the hypotheses, to [preserves P c]. *)
Ltac resume :=
  match goal with |- context [snd (?c ?s)] =>
    pattern (snd (c s)); apply (preserves_run _ c s); [|try assumption] end.

(** [preserve_cases] through every [get] of the handler. *)
Ltac preserve_deep := preserve_cases; repeat (resume; preserve_cases).

(** Unfolds the monad plumbing of a concrete handler run. *)
Ltac run_m :=
  cbv beta iota delta [bind ret throw get put modify gets catch deref when exec eval zoom] in *;
  simpl in *.

(** ** Insertion-ordered maps: the JavaScript [Map]

    A JavaScript [Map] iterates its entries in insertion order;
    [set] on a present key keeps its position and replaces the value,
    [set] on a new key appends the entry.  The gateway's
    [players : Map<string, number>] relies on that order
    ([getKeyByValue] returns the first socket of a user). *)

Section JsMap.
Context {K V : Type} `{EqDecision K}.

Definition jsmap := list (K * V).

Fixpoint jm_get (m : jsmap) (k : K) : option V :=
  match m with
  | [] => None
  | (k', v) :: m' => if decide (k = k') then Some v else jm_get m' k
  end.

Fixpoint jm_set (m : jsmap) (k : K) (v : V) : jsmap :=
  match m with
  | [] => [(k, v)]
  | (k', v') :: m' => if decide (k = k') then (k, v) :: m' else (k', v') :: jm_set m' k v
  end.

Fixpoint jm_delete (m : jsmap) (k : K) : jsmap :=
  match m with
  | [] => []
  | (k', v) :: m' => if decide (k = k') then jm_delete m' k else (k', v) :: jm_delete m' k
  end.

Definition jm_values (m : jsmap) : list V := map snd m.

Lemma jm_get_set_eq m k v : jm_get (jm_set m k v) k = Some v.
Proof.
  induction m as [|[k' v'] m IH]; simpl; [by rewrite decide_True|].
  destruct (decide (k = k')) as [->|Hne]; simpl; [by rewrite decide_True|].
  by rewrite decide_False.
Qed.

Lemma jm_get_set_ne m k k' v : k' <> k -> jm_get (jm_set m k v) k' = jm_get m k'.
Proof.
  intros Hne. induction m as [|[k1 v1] m IH]; simpl.
  - by rewrite decide_False.
  - destruct (decide (k = k1)) as [->|Hk]; simpl.
    + by rewrite !decide_False.
    + by destruct (decide (k' = k1)).
Qed.

Lemma jm_get_delete_eq m k : jm_get (jm_delete m k) k = None.
Proof.
  induction m as [|[k1 v1] m IH]; [done|]. simpl.
  repeat (case_decide; simpl); naive_solver.
Qed.

Lemma jm_get_delete_ne m k k' : k' <> k -> jm_get (jm_delete m k) k' = jm_get m k'.
Proof.
  intros Hne. induction m as [|[k1 v1] m IH]; [done|]. simpl.
  repeat (case_decide; simpl); naive_solver.
Qed.
End JsMap.
Arguments jsmap : clear implicits.

(** [getKeyByValue] of game.gateway.ts: the first key, in insertion
    order, whose value is [value]. *)
Fixpoint getKeyByValue {K V} `{EqDecision V} (m : jsmap K V) (value : V) : option K :=
  match m with
  | [] => None
  | (k, v) :: m' => if decide (v = value) then Some k else getKeyByValue m' value
  end.

Lemma getKeyByValue_Some {K V} `{EqDecision V} (m : jsmap K V) value k :
  getKeyByValue m value = Some k -> In (k, value) m.
Proof.
  induction m as [|[k1 v1] m IH]; simpl; [done|].
  case_decide; [intros [= ->]; subst; by left | intros; right; auto].
Qed.

Lemma getKeyByValue_None {K V} `{EqDecision V} (m : jsmap K V) value :
  getKeyByValue m value = None <-> value ∉ jm_values m.
Proof.
  induction m as [|[k1 v1] m IH]; simpl; [split; [intros _; apply not_elem_of_nil|done]|].
  unfold jm_values in *; simpl. rewrite not_elem_of_cons.
  case_decide; subst; [naive_solver|]. rewrite IH. naive_solver.
Qed.

(** ** Arrays: [findIndex] and [splice] *)

(** [arr.findIndex(p)]: the first index whose element satisfies [p];
    [None] stands for the [-1] of JavaScript. *)
Fixpoint findIndex {A} (p : A -> bool) (l : list A) : option nat :=
  match l with
  | [] => None
  | x :: l' => if p x then Some 0 else S <$> findIndex p l'
  end.

(** [arr.splice(i, 1)], for the remaining array. *)
Fixpoint remove_at {A} (i : nat) (l : list A) : list A :=
  match l, i with
  | [], _ => []
  | _ :: l', 0 => l'
  | x :: l', S i' => x :: remove_at i' l'
  end.

(** [arr.find(p)] *)
Fixpoint find_first {A} (p : A -> bool) (l : list A) : option A :=
  match l with
  | [] => None
  | x :: l' => if p x then Some x else find_first p l'
  end.

Lemma find_first_Some {A} (p : A -> bool) l x :
  find_first p l = Some x -> x ∈ l /\ p x = true.
Proof.
  induction l as [|y l IH]; simpl; [done|].
  destruct (p y) eqn:Hp; [intros [= <-]; split; [left|done]|].
  intros Hx. destruct (IH Hx). split; [by right|done].
Qed.

Lemma find_first_None {A} (p : A -> bool) l :
  find_first p l = None -> forall x, x ∈ l -> p x = false.
Proof.
  induction l as [|y l IH]; simpl; [intros _ x Hx; by apply not_elem_of_nil in Hx|].
  destruct (p y) eqn:Hp; [done|]. intros Hn x [->|Hx]%elem_of_cons; auto.
Qed.

Lemma find_first_app_r {A} (p : A -> bool) l y :
  find_first p l = None -> find_first p (l ++ [y]) = if p y then Some y else None.
Proof. induction l as [|x l IH]; simpl; [done|]. destruct (p x); [done|auto]. Qed.

Lemma find_first_app_l {A} (p : A -> bool) l k y :
  find_first p l = Some y -> find_first p (l ++ k) = Some y.
Proof. induction l as [|x l IH]; simpl; [done|]. destruct (p x); [done|auto]. Qed.

(** [arr.some(p)] *)
Definition some {A} (p : A -> bool) (l : list A) : bool := existsb p l.

Lemma findIndex_lookup {A} (p : A -> bool) l i :
  findIndex p l = Some i -> exists x, l !! i = Some x /\ p x = true.
Proof.
  revert i. induction l as [|x l IH]; intros i; simpl; [done|].
  destruct (p x) eqn:Hp; [intros [= <-]; by exists x|].
  destruct (findIndex p l) as [j|] eqn:Hj; simpl; [|done].
  intros [= <-]. by apply IH.
Qed.

Lemma findIndex_None {A} (p : A -> bool) l :
  findIndex p l = None <-> Forall (fun x => p x = false) l.
Proof.
  induction l as [|x l IH]; simpl; [split; [constructor|done]|].
  rewrite Forall_cons. destruct (p x) eqn:Hp; [naive_solver|].
  destruct (findIndex p l); simpl; naive_solver.
Qed.

Lemma length_remove_at {A} (l : list A) i :
  i < length l -> length (remove_at i l) = pred (length l).
Proof.
  revert i. induction l as [|x l IH]; intros [|i] Hi; simpl in *; try lia.
  rewrite IH; [|lia]. destruct l; simpl in *; lia.
Qed.

Lemma remove_at_sublist {A} (l : list A) i : sublist (remove_at i l) l.
Proof.
  revert i. induction l as [|x l IH]; intros [|i]; simpl.
  - constructor.
  - constructor.
  - by apply sublist_cons.
  - by apply sublist_skip.
Qed.

Lemma elem_of_remove_at {A} (l : list A) i x : x ∈ remove_at i l -> x ∈ l.
Proof. intros Hx. eapply elem_of_sublist; [done|apply remove_at_sublist]. Qed.

(** Removing the element found by [findIndex] removes exactly the first
    element satisfying [p]. *)
Lemma remove_at_findIndex {A} (p : A -> bool) l i :
  findIndex p l = Some i ->
  exists l1 x l2, l = l1 ++ x :: l2 /\ Forall (fun y => p y = false) l1 /\ p x = true /\
             remove_at i l = l1 ++ l2.
Proof.
  revert i. induction l as [|y l IH]; intros i; simpl; [done|].
  destruct (p y) eqn:Hp.
  - intros [= <-]. exists [], y, l. done.
  - destruct (findIndex p l) as [j|] eqn:Hj; simpl; [|done]. intros [= <-].
    destruct (IH j eq_refl) as (l1 & x & l2 & -> & Hl1 & Hx & Hr).
    exists (y :: l1), x, l2. simpl. rewrite Hr. split_and!; [done| |done|done].
    by constructor.
Qed.

Lemma length_remove_at_le {A} (l : list A) i : length (remove_at i l) <= length l.
Proof. apply sublist_length, remove_at_sublist. Qed.

#[export] Hint Resolve elem_of_remove_at remove_at_sublist : gw.

(** NoDup of a projection survives taking a sublist. *)
Lemma sublist_map {A B} (f : A -> B) (l1 l2 : list A) :
  sublist l1 l2 -> sublist (f <$> l1) (f <$> l2).
Proof. induction 1; simpl; by constructor. Qed.

Lemma NoDup_map_sublist {A B} (f : A -> B) (l1 l2 : list A) :
  sublist l1 l2 -> NoDup (f <$> l2) -> NoDup (f <$> l1).
Proof. intros Hs Hn. eapply sublist_NoDup; [done|]. by apply sublist_map. Qed.

Lemma NoDup_map_filter {A B} (f : A -> B) (P : A -> Prop) `{forall x, Decision (P x)} l :
  NoDup (f <$> l) -> NoDup (f <$> filter P l).
Proof. apply NoDup_map_sublist, sublist_filter. Qed.

Lemma filter_all {A} (P : A -> Prop) `{forall x, Decision (P x)} (l : list A) :
  (forall x, x ∈ l -> P x) -> filter P l = l.
Proof.
  induction l as [|x l IH]; intros Hl; [done|].
  rewrite filter_cons_True; [|apply Hl; by left]. f_equal. apply IH.
  intros y Hy. apply Hl. by right.
Qed.

Lemma find_first_map {A} (p : A -> bool) (h : A -> A) (l : list A) :
  (forall x, p (h x) = p x) -> find_first p (map h l) = h <$> find_first p l.
Proof.
  intros Hp. induction l as [|x l IH]; simpl; [done|]. rewrite Hp. by destruct (p x).
Qed.

Lemma some_false {A} (p : A -> bool) l : some p l = false -> forall y, y ∈ l -> p y = false.
Proof.
  unfold some. intros Hs y Hy. destruct (p y) eqn:E; [|done].
  assert (existsb p l = true) by (apply existsb_exists; exists y; by rewrite <- list_elem_of_In).
  congruence.
Qed.

Lemma some_true {A} (p : A -> bool) l y : y ∈ l -> p y = true -> some p l = true.
Proof. intros Hy Hp. apply existsb_exists. exists y. by rewrite <- list_elem_of_In. Qed.

(** Appending a new key to a list without duplicate keys. *)
Lemma NoDup_map_snoc {A B} (f : A -> B) l x :
  NoDup (map f l) -> (forall y, y ∈ l -> f y <> f x) -> NoDup (map f (l ++ [x])).
Proof.
  intros Hnd Hx. rewrite map_app. apply NoDup_app. split_and!; [done| |apply NoDup_singleton].
  intros b Hb1 Hb2. apply list_elem_of_fmap in Hb1 as (y & -> & Hy).
  apply list_elem_of_singleton in Hb2. by apply (Hx y).
Qed.

(** [findFirst] on a key column succeeds exactly on the keys present. *)
Lemma find_first_key_Some {A B} `{EqDecision B} (f : A -> B) b l :
  is_Some (find_first (fun x => bool_decide (f x = b)) l) <-> b ∈ map f l.
Proof.
  induction l as [|x l IH]; simpl.
  - split; [by intros [? ?] | intros H; by apply not_elem_of_nil in H].
  - rewrite elem_of_cons. case_bool_decide; [naive_solver|]. rewrite IH. naive_solver.
Qed.

Lemma map_filter_comm {A B} (f : A -> B) (P : B -> Prop) `{forall x, Decision (P x)} l :
  map f (filter (fun x => P (f x)) l) = filter P (map f l).
Proof.
  induction l as [|x l IH]; [done|]. simpl. rewrite !filter_cons. case_decide; simpl; by rewrite IH.
Qed.

(** Updating the elements a test selects, with a map that keeps a
    projection, keeps the projected list. *)
Lemma map_update_proj {A B} (g : A -> B) (p : A -> bool) (f : A -> A) l :
  (forall x, g (f x) = g x) -> map g (map (fun x => if p x then f x else x) l) = map g l.
Proof. intros Hf. induction l as [|x l IH]; simpl; [done|]. rewrite IH. by destruct (p x); [rewrite Hf|]. Qed.

Lemma NoDup_map_inj {A B} (f : A -> B) (l : list A) x y :
  NoDup (map f l) -> x ∈ l -> y ∈ l -> f x = f y -> x = y.
Proof.
  induction l as [|z l IH]; simpl; [by intros _ ?%not_elem_of_nil|].
  rewrite NoDup_cons. intros [Hz Hl] [->|Hx]%elem_of_cons [->|Hy]%elem_of_cons Hf; try done.
  - destruct Hz. rewrite Hf. by apply list_elem_of_fmap_2.
  - destruct Hz. rewrite <- Hf. by apply list_elem_of_fmap_2.
  - by apply IH.
Qed.

Lemma map_id_on {A} (f : A -> A) (l : list A) : (forall x, x ∈ l -> f x = x) -> map f l = l.
Proof.
  induction l as [|x l IH]; intros H; simpl; [done|]. rewrite H, IH; [done| |by left].
  intros y Hy. apply H. by right.
Qed.

Lemma preserves_for_each {S A} (P : S -> Prop) (f : A -> M S unit) l :
  (forall x, preserves P (f x)) -> preserves P (for_each f l).
Proof.
  intros Hf. induction l as [|x l IH]; simpl; [apply preserves_ret|].
  apply preserves_bind; [apply Hf|intros _; apply IH].
Qed.

(** A computation on a component preserves a predicate of the whole
    state when it preserves the component's part of it and writing the
    component back keeps the rest. *)
Lemma preserves_zoom {S T A} (P : S -> Prop) (Q : T -> Prop) (getf : S -> T) (setf : T -> S -> S)
    (c : M T A) :
  (forall s, P s -> Q (getf s)) -> (forall t s, Q t -> P s -> P (setf t s)) ->
  preserves Q c -> preserves P (zoom getf setf c).
Proof.
  intros Hget Hset Hc s Hs. unfold zoom.
  pose proof (Hc (getf s) (Hget s Hs)) as Hq. destruct (c (getf s)) as [o t]. simpl in *. auto.
Qed.

#[export] Hint Resolve preserves_for_each : gw.

(** The same over a list whose entries all satisfy [Q]. *)
Lemma preserves_for_each_Forall {S A} (P : S -> Prop) (Q : A -> Prop) (f : A -> M S unit) l :
  (forall x, Q x -> preserves P (f x)) -> Forall Q l -> preserves P (for_each f l).
Proof.
  intros Hf Hl. induction Hl as [|x l Hx _ IH]; simpl; [apply preserves_ret|].
  apply preserves_bind; [by apply Hf|intros _; apply IH].
Qed.

(** [s + ""] is [s]. *)
Lemma string_app_nil_r (s : string) : (s +:+ "")%string = s.
Proof. induction s as [|c s IH]; [done|]. exact (f_equal (String c) IH). Qed.

Lemma filter_ext_in {A} (P1 P2 : A -> Prop) `{forall x, Decision (P1 x)} `{forall x, Decision (P2 x)} (l : list A) :
  (forall x, x ∈ l -> P1 x <-> P2 x) -> filter P1 l = filter P2 l.
Proof.
  induction l as [|x l IH]; intros Hl; [done|]. rewrite !filter_cons.
  rewrite IH by (intros y Hy; apply Hl; by right).
  assert (Hx : P1 x <-> P2 x) by (apply Hl; by left).
  destruct (decide (P1 x)), (decide (P2 x)); tauto.
Qed.
