(* ===== verification/Store.v ===== *)
(** * The persistence layer: Prisma tables, UserService and GameService

    The database rows the game core reads and writes ([User], [Game]),
    the Prisma primitives it calls on them (findUnique, update, create,
    findMany) and the service methods of src/app/backend/src/user/user.service.ts
    and src/app/backend/src/game/game.service.ts that wrap them, as
    computations of the handler monad on the database state [DB]. *)

From stdpp Require Import base list strings.
From Stdlib Require Import ZArith Lia.
From S2P Require Import Prelude.

Open Scope Z_scope.

(** ** Rows *)

(** The [Status] enum of the Prisma schema. *)
Inductive Status := ONLINE | OFFLINE | INGAME | INQUEUE.

#[export] Instance Status_eq_dec : EqDecision Status.
Proof. solve_decision. Defined.

(** A user row, restricted to the columns the game and chat code read. *)
Record User := mkUser {
  u_id : Z;
  authId : Z;
  username : string;
  status : Status;
  wins : Z;
  loses : Z;
  usersBlocked : list Z
}.

#[export] Instance User_eq_dec : EqDecision User.
Proof. solve_decision. Defined.

(** A game row: the columns of [GameDto] and the player names and
    sockets that [createGame] stores.  [None] is the database [NULL]. *)
Record Game := mkGame {
  g_id : Z;
  gameMode : option string;
  leftPlayerId : Z;
  rightPlayerId : Z;
  leftPlayerName : option string;
  rightPlayerName : option string;
  leftPlayerSocket : option string;
  rightPlayerSocket : option string;
  scoreLeftPlayer : Z;
  scoreRightPlayer : Z;
  winnerId : option Z;
  loserId : option Z;
  isFinished : bool;
  hasLeft : bool;
  leftPlayerMap : bool;
  rightPlayerMap : bool;
  leftPlayerMode : option string;
  rightPlayerMode : option string;
  initialBallSpeed : option Z
}.

#[export] Instance Game_eq_dec : EqDecision Game.
Proof. solve_decision. Defined.

(** The database: the user table, the game table in creation order
    (the order of [createAt]) and the next autoincrement id. *)
Record DB := mkDB {
  users : list User;
  games : list Game;
  next_game_id : Z
}.

(** ** Prisma's partial updates

    [prisma.x.update({ where, data })] writes only the columns listed in
    [data]; each column written is one [GameField] or [UserField]. *)

Inductive GameField :=
  | GWinnerId (v : option Z)
  | GLoserId (v : option Z)
  | GIsFinished (b : bool)
  | GHasLeft (b : bool)
  | GLeftPlayerMap (b : bool)
  | GRightPlayerMap (b : bool)
  | GLeftPlayerMode (m : option string)
  | GRightPlayerMode (m : option string).

Definition set_game_field (g : Game) (f : GameField) : Game :=
  let 'mkGame i md lp rp ln rn ls rs sl sr w l fin hl lm rm lmo rmo ibs := g in
  match f with
  | GWinnerId v => mkGame i md lp rp ln rn ls rs sl sr v l fin hl lm rm lmo rmo ibs
  | GLoserId v => mkGame i md lp rp ln rn ls rs sl sr w v fin hl lm rm lmo rmo ibs
  | GIsFinished b => mkGame i md lp rp ln rn ls rs sl sr w l b hl lm rm lmo rmo ibs
  | GHasLeft b => mkGame i md lp rp ln rn ls rs sl sr w l fin b lm rm lmo rmo ibs
  | GLeftPlayerMap b => mkGame i md lp rp ln rn ls rs sl sr w l fin hl b rm lmo rmo ibs
  | GRightPlayerMap b => mkGame i md lp rp ln rn ls rs sl sr w l fin hl lm b lmo rmo ibs
  | GLeftPlayerMode m => mkGame i md lp rp ln rn ls rs sl sr w l fin hl lm rm m rmo ibs
  | GRightPlayerMode m => mkGame i md lp rp ln rn ls rs sl sr w l fin hl lm rm lmo m ibs
  end.

Definition apply_game_data (g : Game) (data : list GameField) : Game :=
  foldl set_game_field g data.

(** The fields of a [GameDto] that handlers change in memory before
    writing the whole object back with [updateGameDB]. *)
Definition set_scores (g : Game) (sl sr : Z) : Game :=
  let 'mkGame i md lp rp ln rn ls rs _ _ w l fin hl lm rm lmo rmo ibs := g in
  mkGame i md lp rp ln rn ls rs sl sr w l fin hl lm rm lmo rmo ibs.

Definition set_mode (g : Game) (md : option string) (ibs : option Z) : Game :=
  let 'mkGame i _ lp rp ln rn ls rs sl sr w l fin hl lm rm lmo rmo _ := g in
  mkGame i md lp rp ln rn ls rs sl sr w l fin hl lm rm lmo rmo ibs.

Inductive UserField :=
  | UStatus (s : Status)
  | UWins (n : Z)
  | ULoses (n : Z)
  | UBlockedPush (x : Z)
  | UBlockedSet (l : list Z).

Definition set_user_field (u : User) (f : UserField) : User :=
  let 'mkUser i a n s w l b := u in
  match f with
  | UStatus s' => mkUser i a n s' w l b
  | UWins w' => mkUser i a n s w' l b
  | ULoses l' => mkUser i a n s w l' b
  | UBlockedPush x => mkUser i a n s w l (b ++ [x])
  | UBlockedSet b' => mkUser i a n s w l b'
  end.

Definition apply_user_data (u : User) (data : list UserField) : User :=
  foldl set_user_field u data.

(** ** Prisma primitives *)

Section Prisma.

(** [findUnique({ where: { id } })] and [{ where: { authId } }]: the
    columns are unique, so the first match is the only one. *)
Definition user_by_id (d : DB) (i : Z) : option User :=
  find_first (fun u => bool_decide (u_id u = i)) (users d).
Definition user_by_authId (d : DB) (a : Z) : option User :=
  find_first (fun u => bool_decide (authId u = a)) (users d).
Definition game_by_id (d : DB) (i : Z) : option Game :=
  find_first (fun g => bool_decide (g_id g = i)) (games d).

(** [update] on a missing row throws ([RecordNotFound]). *)
Definition user_update (key : User -> bool) (data : list UserField) : M DB User :=
  fun d =>
    match find_first key (users d) with
    | None => (Exn, d)
    | Some u =>
        let u' := apply_user_data u data in
        (Ok u', mkDB (map (fun v => if key v then apply_user_data v data else v) (users d))
                     (games d) (next_game_id d))
    end.

Definition game_replace (i : Z) (f : Game -> Game) : M DB Game :=
  fun d =>
    match game_by_id d i with
    | None => (Exn, d)
    | Some g =>
        (Ok (f g), mkDB (users d)
                        (map (fun h => if decide (g_id h = i) then f h else h) (games d))
                        (next_game_id d))
    end.

Definition game_update (i : Z) (data : list GameField) : M DB Game :=
  game_replace i (fun g => apply_game_data g data).

(** [prisma.game.create]: a fresh autoincrement id, [NULL] mode,
    winner and loser, zero scores, flags false.  [leftPlayerId] and
    [rightPlayerId] are foreign keys to [User.authId] (the relations
    [leftPlayer]/[rightPlayer] that user.service.ts includes): the
    insert fails when either user does not exist. *)
Definition game_create (nameLP nameRP : option string) (socketLP socketRP : option string)
    (authIdLP authIdRP : Z) : M DB Game :=
  fun d =>
    match user_by_authId d authIdLP, user_by_authId d authIdRP with
    | Some _, Some _ =>
        let g := mkGame (next_game_id d) None authIdLP authIdRP nameLP nameRP socketLP socketRP
                        0 0 None None false false false false None None None in
        (Ok g, mkDB (users d) (games d ++ [g]) (next_game_id d + 1))
    | _, _ => (Exn, d)
    end.
End Prisma.

Definition key_id (i : Z) (u : User) : bool := bool_decide (u_id u = i).
Definition key_authId (a : Z) (u : User) : bool := bool_decide (authId u = a).

(** ** UserService (user.service.ts) *)

Module UserService.
Definition getUserById (i : Z) : M DB (option User) := gets (fun d => user_by_id d i).

(** [authId] may be [undefined] at a call site ([players.get] of an
    unknown socket); Prisma rejects an undefined unique key, and the
    [catch] turns the error into [undefined]. *)
Definition getUserByAuthId (a : option Z) : M DB (option User) :=
  match a with
  | None => ret None
  | Some a => gets (fun d => user_by_authId d a)
  end.

Definition getUserNameByAuthId (a : Z) : M DB (option string) :=
  gets (fun d => username <$> user_by_authId d a).

Definition setStatus (userId : Z) (s : Status) : M DB (option User) :=
  catch (let* u := user_update (key_id userId) [UStatus s] in ret (Some u)) (ret None).

Definition setStatusWithauthId (a : Z) (s : Status) : M DB unit :=
  catch (user_update (key_authId a) [UStatus s];; ret tt) (ret tt).

Definition blockUser (userId toBlockId : Z) : M DB User :=
  user_update (key_id userId) [UBlockedPush toBlockId].

Definition unblockUser (userId : Z) (updated : list Z) : M DB User :=
  user_update (key_id userId) [UBlockedSet updated].

Definition isBlocked (userId toCheckId : Z) : M DB bool :=
  gets (fun d => existsb (fun u => bool_decide (u_id u = userId) &&
                                   bool_decide (toCheckId ∈ usersBlocked u)) (users d)).

(** [addWin]: read the row, add one in memory, write the sum back.  The
    read and the write are separate Prisma calls. *)
Definition addWin (a : Z) : M DB unit :=
  catch (let* u := getUserByAuthId (Some a) in
         let* u := deref u in
         user_update (key_authId a) [UWins (wins u + 1)];; ret tt) (ret tt).

Definition addLose (a : Z) : M DB unit :=
  catch (let* u := getUserByAuthId (Some a) in
         let* u := deref u in
         user_update (key_authId a) [ULoses (loses u + 1)];; ret tt) (ret tt).

Definition checkStatus (a : Z) : M DB (option Status) :=
  gets (fun d => status <$> user_by_authId d a).
End UserService.

(** ** GameService (game.service.ts) *)

Module GameService.
Import UserService.

Definition createGame (nameLP nameRP : option string) (socketLP socketRP : option string)
    (authIdLP authIdRP : Z) : M DB (option Game) :=
  catch (let* g := game_create nameLP nameRP socketLP socketRP authIdLP authIdRP in
         ret (Some g)) (ret None).

Definition getGameById (i : Z) : M DB (option Game) := gets (fun d => game_by_id d i).

(** [findMany] ordered by [createAt] descending, [take: 1]: the most
    recently created game of the user. *)
Definition last_game_of (d : DB) (a : Z) : option Game :=
  last (filter (fun g => leftPlayerId g = a \/ rightPlayerId g = a) (games d)).

Definition findLastGame (a : Z) : M DB (option Game) := gets (fun d => last_game_of d a).

Definition updateGameDB (gameId : Z) (g : Game) : M DB (option Game) :=
  catch (let* g' := game_replace gameId (fun _ => g) in ret (Some g')) (ret None).

Definition updateScore (gameId scoreLP scoreRP limit : Z) : M DB unit :=
  if bool_decide (scoreRP > limit \/ scoreLP > limit) then ret tt else
  let* g := getGameById gameId in
  match g with
  | None => ret tt
  | Some g => updateGameDB gameId (set_scores g scoreLP scoreRP);; ret tt
  end.

Definition endMatchByScore (gameId scoreLP scoreRP scoreLimit : Z) : M DB (option Game) :=
  let* g := getGameById gameId in
  match g with
  | None => ret None
  | Some g =>
      if bool_decide (scoreLP = scoreLimit) then
        let g' := apply_game_data g [GWinnerId (Some (leftPlayerId g));
                                     GLoserId (Some (rightPlayerId g)); GIsFinished true] in
        updateGameDB gameId g';; ret (Some g')
      else if bool_decide (scoreRP = scoreLimit) then
        let g' := apply_game_data g [GWinnerId (Some (rightPlayerId g));
                                     GLoserId (Some (leftPlayerId g)); GIsFinished true] in
        updateGameDB gameId g';; ret (Some g')
      else ret (Some g)
  end.

Definition endMatchWinner (winner gameId : Z) : M DB unit :=
  let* g := getGameById gameId in
  match g with
  | None => ret tt
  | Some g =>
      let g' := apply_game_data g [GWinnerId (Some winner); GHasLeft true; GIsFinished true] in
      addWin winner;;
      updateGameDB gameId g';; ret tt
  end.

Definition endMatchLoser (loser gameId : Z) : M DB unit :=
  let* g := getGameById gameId in
  match g with
  | None => ret tt
  | Some g =>
      let g' := apply_game_data g [GLoserId (Some loser); GHasLeft true; GIsFinished true] in
      addLose loser;;
      updateGameDB gameId g';; ret tt
  end.

(** [handleLeave(game, payload)]: [game] is the row the caller read. *)
Definition handleLeave (g : Game) (userAuthId gameId : Z) : M DB unit :=
  if bool_decide (winnerId g = None /\ loserId g = None) then
    if bool_decide (leftPlayerId g = userAuthId) then
      endMatchWinner (rightPlayerId g) gameId;; endMatchLoser userAuthId gameId
    else if bool_decide (rightPlayerId g = userAuthId) then
      endMatchWinner (leftPlayerId g) gameId;; endMatchLoser userAuthId gameId
    else ret tt
  else ret tt.

Definition gameFinished (gameId : Z) : M DB unit :=
  catch (game_update gameId [GIsFinished true];; ret tt) (ret tt).

(** [checkDuplicateUser]: does the user hold two or more sockets? *)
Definition checkDuplicateUser (players : jsmap string Z) (a : Z) : bool :=
  bool_decide (2 <= Z.of_nat (length (filter (fun v => v = a) (jm_values players)))).
End GameService.

(** ** Lookups after writes *)

Lemma set_game_field_id g f : g_id (set_game_field g f) = g_id g.
Proof. destruct g, f; reflexivity. Qed.

Lemma apply_game_data_id g data : g_id (apply_game_data g data) = g_id g.
Proof.
  unfold apply_game_data. revert g. induction data as [|f data IH]; intros g; [done|].
  simpl. rewrite IH. apply set_game_field_id.
Qed.

Lemma set_user_field_keys u f :
  authId (set_user_field u f) = authId u /\ u_id (set_user_field u f) = u_id u.
Proof. destruct u, f; done. Qed.

Lemma apply_user_data_keys u data :
  authId (apply_user_data u data) = authId u /\ u_id (apply_user_data u data) = u_id u.
Proof.
  unfold apply_user_data. revert u. induction data as [|f data IH]; intros u; [done|].
  simpl. destruct (IH (set_user_field u f)) as [-> ->]. apply set_user_field_keys.
Qed.

(** The database after writing [g'] over the row [i]. *)
Definition db_write (d : DB) (i : Z) (f : Game -> Game) : DB :=
  mkDB (users d) (map (fun h => if decide (g_id h = i) then f h else h) (games d)) (next_game_id d).

Lemma game_replace_spec d i f g :
  game_by_id d i = Some g -> game_replace i f d = (Ok (f g), db_write d i f).
Proof. unfold game_replace. by intros ->. Qed.

Lemma game_by_id_id d i g : game_by_id d i = Some g -> g_id g = i.
Proof. unfold game_by_id. intros [_ H]%find_first_Some. by apply bool_decide_eq_true in H. Qed.

Lemma game_by_id_write d i f j :
  (forall g, g_id g = i -> g_id (f g) = i) ->
  game_by_id (db_write d i f) j =
    (fun g => if decide (g_id g = i) then f g else g) <$> game_by_id d j.
Proof.
  intros Hf. unfold game_by_id, db_write. simpl. apply find_first_map.
  intros x. cbv beta. destruct (decide (g_id x = i)) as [Hx|]; [by rewrite (Hf x Hx), Hx|done].
Qed.

Lemma game_by_id_write_eq d i f g :
  (forall g, g_id g = i -> g_id (f g) = i) -> game_by_id d i = Some g ->
  game_by_id (db_write d i f) i = Some (f g).
Proof.
  intros Hf Hg. rewrite game_by_id_write, Hg by done. simpl.
  by rewrite decide_True by (by eapply game_by_id_id).
Qed.

Lemma game_by_id_write_ne d i f j :
  (forall g, g_id g = i -> g_id (f g) = i) -> j <> i ->
  game_by_id (db_write d i f) j = game_by_id d j.
Proof.
  intros Hf Hne. rewrite game_by_id_write by done.
  destruct (game_by_id d j) as [g|] eqn:E; [|done]. simpl.
  rewrite decide_False; [done|]. apply game_by_id_id in E. congruence.
Qed.

Lemma user_by_authId_write d i f a : user_by_authId (db_write d i f) a = user_by_authId d a.
Proof. done. Qed.

#[export] Hint Rewrite user_by_authId_write : gw_rw.

(** The database after [user_update (key_authId a) data]. *)
Definition users_write (d : DB) (a : Z) (data : list UserField) : DB :=
  mkDB (map (fun v => if key_authId a v then apply_user_data v data else v) (users d))
       (games d) (next_game_id d).

Lemma user_update_authId_spec d a data u :
  user_by_authId d a = Some u ->
  user_update (key_authId a) data d = (Ok (apply_user_data u data), users_write d a data).
Proof. unfold user_update, user_by_authId, key_authId. by intros ->. Qed.

Lemma user_by_authId_users_write d a data x :
  user_by_authId (users_write d a data) x =
    (fun u => if decide (a = x) then apply_user_data u data else u) <$> user_by_authId d x.
Proof.
  unfold user_by_authId, users_write. simpl. rewrite find_first_map.
  - destruct (find_first _ (users d)) as [u|] eqn:E; [|done]. simpl. f_equal.
    apply find_first_Some in E as [_ E%bool_decide_eq_true]. unfold key_authId.
    subst. by repeat case_bool_decide; repeat case_decide.
  - intros v. unfold key_authId. destruct (bool_decide (authId v = a)); [|done].
    by rewrite (proj1 (apply_user_data_keys v data)).
Qed.

Lemma game_by_id_users_write d a data i : game_by_id (users_write d a data) i = game_by_id d i.
Proof. done. Qed.

#[export] Hint Rewrite game_by_id_users_write : gw_rw.

Definition wins_of (d : DB) (a : Z) : option Z := wins <$> user_by_authId d a.
Definition loses_of (d : DB) (a : Z) : option Z := loses <$> user_by_authId d a.

Lemma addWin_spec d a u :
  user_by_authId d a = Some u ->
  UserService.addWin a d = (Ok tt, users_write d a [UWins (wins u + 1)]).
Proof.
  intros Hu. unfold UserService.addWin. run_m. rewrite Hu. simpl.
  by rewrite (user_update_authId_spec d a _ u Hu).
Qed.

Lemma addLose_spec d a u :
  user_by_authId d a = Some u ->
  UserService.addLose a d = (Ok tt, users_write d a [ULoses (loses u + 1)]).
Proof.
  intros Hu. unfold UserService.addLose. run_m. rewrite Hu. simpl.
  by rewrite (user_update_authId_spec d a _ u Hu).
Qed.

(** A user update by any key keeps the game table, the id counter and
    the set of [authId]s present. *)
Lemma user_update_frame key data d :
  games (exec (user_update key data) d) = games d /\
  next_game_id (exec (user_update key data) d) = next_game_id d /\
  forall a, is_Some (user_by_authId (exec (user_update key data) d) a) <->
            is_Some (user_by_authId d a).
Proof.
  unfold exec, user_update. destruct (find_first key (users d)); simpl; [|done].
  split_and!; [done|done|]. intros a. unfold user_by_authId. simpl.
  rewrite find_first_map; [apply fmap_is_Some|].
  intros v. destruct (key v); [|done]. by rewrite (proj1 (apply_user_data_keys v data)).
Qed.

(** A user whose id is not the key keeps its row. *)
Lemma user_by_authId_user_update_other i data d b ub :
  user_by_authId d b = Some ub -> u_id ub <> i ->
  user_by_authId (exec (user_update (key_id i) data) d) b = Some ub.
Proof.
  intros Hb Hne. unfold exec, user_update. destruct (find_first _ (users d)); simpl; [|done].
  unfold user_by_authId in *. simpl. rewrite find_first_map, Hb; simpl.
  - unfold key_id. by rewrite bool_decide_eq_false_2.
  - intros v. destruct (key_id i v); [|done]. by rewrite (proj1 (apply_user_data_keys v data)).
Qed.

Lemma games_user_update key data d : games (exec (user_update key data) d) = games d.
Proof. apply user_update_frame. Qed.
Lemma next_game_id_user_update key data d :
  next_game_id (exec (user_update key data) d) = next_game_id d.
Proof. apply user_update_frame. Qed.

#[export] Hint Rewrite games_user_update next_game_id_user_update : gw_rw.

Lemma setStatus_run i st d :
  exists o, UserService.setStatus i st d = (Ok o, exec (user_update (key_id i) [UStatus st]) d).
Proof.
  unfold UserService.setStatus, exec, catch, bind, user_update.
  destruct (find_first (key_id i) (users d)); simpl; by eexists.
Qed.

(** The row [prisma.game.create] inserts. *)
Definition new_game (d : DB) (nameLP nameRP socketLP socketRP : option string)
    (authIdLP authIdRP : Z) : Game :=
  mkGame (next_game_id d) None authIdLP authIdRP nameLP nameRP socketLP socketRP
         0 0 None None false false false false None None None.

Lemma createGame_run nL nR sL sR aL aR d uL uR :
  user_by_authId d aL = Some uL -> user_by_authId d aR = Some uR ->
  GameService.createGame nL nR sL sR aL aR d =
    (Ok (Some (new_game d nL nR sL sR aL aR)),
     mkDB (users d) (games d ++ [new_game d nL nR sL sR aL aR]) (next_game_id d + 1)).
Proof.
  intros HL HR. unfold GameService.createGame, catch, bind, game_create. by rewrite HL, HR.
Qed.

(** ** Specifications of the GameService operations *)

Section GameServiceSpecs.
Import UserService GameService.

Lemma updateGameDB_spec d i g0 g :
  game_by_id d i = Some g0 -> updateGameDB i g d = (Ok (Some g), db_write d i (fun _ => g)).
Proof. intros H. unfold updateGameDB. run_m. by rewrite (game_replace_spec d i _ g0 H). Qed.

Lemma game_by_id_write_const d i g0 g :
  game_by_id d i = Some g0 -> g_id g = i -> game_by_id (db_write d i (fun _ => g)) i = Some g.
Proof. intros H Hg. by apply (game_by_id_write_eq d i (fun _ => g) g0). Qed.

Definition won_by_leave (g : Game) (w : Z) : Game :=
  apply_game_data g [GWinnerId (Some w); GHasLeft true; GIsFinished true].
Definition lost_by_leave (g : Game) (l : Z) : Game :=
  apply_game_data g [GLoserId (Some l); GHasLeft true; GIsFinished true].

Lemma endMatchWinner_spec d i g w u :
  game_by_id d i = Some g -> user_by_authId d w = Some u ->
  endMatchWinner w i d =
    (Ok tt, db_write (users_write d w [UWins (wins u + 1)]) i (fun _ => won_by_leave g w)).
Proof.
  intros Hg Hu. unfold endMatchWinner, getGameById. run_m. rewrite Hg.
  rewrite (addWin_spec d w u Hu). simpl.
  by rewrite (updateGameDB_spec _ i g) by (by rewrite game_by_id_users_write).
Qed.

Lemma endMatchLoser_spec d i g l u :
  game_by_id d i = Some g -> user_by_authId d l = Some u ->
  endMatchLoser l i d =
    (Ok tt, db_write (users_write d l [ULoses (loses u + 1)]) i (fun _ => lost_by_leave g l)).
Proof.
  intros Hg Hu. unfold endMatchLoser, getGameById. run_m. rewrite Hg.
  rewrite (addLose_spec d l u Hu). simpl.
  by rewrite (updateGameDB_spec _ i g) by (by rewrite game_by_id_users_write).
Qed.

Lemma user_by_authId_users_write_eq d a data u :
  user_by_authId d a = Some u -> user_by_authId (users_write d a data) a = Some (apply_user_data u data).
Proof. intros H. rewrite user_by_authId_users_write, H. simpl. by rewrite decide_True. Qed.

Lemma user_by_authId_users_write_ne d a data x :
  a <> x -> user_by_authId (users_write d a data) x = user_by_authId d x.
Proof.
  intros Hne. rewrite user_by_authId_users_write. destruct (user_by_authId d x); [|done].
  simpl. by rewrite decide_False.
Qed.

(** Both halves of a forfeit, run in sequence by [handleLeave]. *)
Lemma forfeit_run d i g a b ua ub :
  game_by_id d i = Some g -> a <> b ->
  user_by_authId d b = Some ub -> user_by_authId d a = Some ua ->
  let d' := snd ((endMatchWinner b i;; endMatchLoser a i) d) in
  game_by_id d' i = Some (lost_by_leave (won_by_leave g b) a) /\
  user_by_authId d' b = Some (apply_user_data ub [UWins (wins ub + 1)]) /\
  user_by_authId d' a = Some (apply_user_data ua [ULoses (loses ua + 1)]).
Proof.
  intros Hg Hab Hb Ha d'. subst d'.
  rewrite (bind_Ok _ _ d tt _ (endMatchWinner_spec d i g b ub Hg Hb)).
  assert (Hid : g_id g = i) by (by eapply game_by_id_id).
  assert (Hg1 : game_by_id (db_write (users_write d b [UWins (wins ub + 1)]) i
                                     (fun _ => won_by_leave g b)) i = Some (won_by_leave g b)).
  { apply (game_by_id_write_const _ _ g); [by rewrite game_by_id_users_write|].
    unfold won_by_leave. by rewrite apply_game_data_id. }
  rewrite (endMatchLoser_spec _ i (won_by_leave g b) a ua Hg1)
    by (rewrite user_by_authId_write, user_by_authId_users_write_ne; done).
  cbn [snd]. split_and!.
  - apply (game_by_id_write_const _ _ (won_by_leave g b)); [by rewrite game_by_id_users_write|].
    unfold lost_by_leave, won_by_leave. by rewrite !apply_game_data_id.
  - rewrite user_by_authId_write, user_by_authId_users_write_ne by done.
    by rewrite user_by_authId_write, user_by_authId_users_write_eq with (u := ub).
  - rewrite user_by_authId_write. apply user_by_authId_users_write_eq.
    by rewrite user_by_authId_write, user_by_authId_users_write_ne.
Qed.
End GameServiceSpecs.

Lemma forfeit_game_fields g a b :
  let g' := lost_by_leave (won_by_leave g b) a in
  winnerId g' = Some b /\ loserId g' = Some a /\ isFinished g' = true /\ hasLeft g' = true.
Proof. by destruct g. Qed.

Lemma wins_loses_apply u data :
  (data = [UWins (wins u + 1)] -> wins (apply_user_data u data) = wins u + 1 /\
                                  loses (apply_user_data u data) = loses u) /\
  (data = [ULoses (loses u + 1)] -> wins (apply_user_data u data) = wins u /\
                                    loses (apply_user_data u data) = loses u + 1).
Proof. destruct u; split; intros ->; done. Qed.

(** C2. Forfeit: when a player leaves a game whose outcome is not
    decided ([handleLeave], called by [leaveGame]), the other player
    becomes the winner and the leaver the loser, the row is finished and
    marked [hasLeft], and each counter moves by exactly one: the winner's
    wins and the leaver's losses, nothing else. *)
Theorem handleLeave_forfeit (d : DB) (g : Game) (i a b : Z) (ua ub : User) :
  game_by_id d i = Some g -> winnerId g = None -> loserId g = None ->
  (leftPlayerId g = a /\ rightPlayerId g = b \/ rightPlayerId g = a /\ leftPlayerId g = b) ->
  a <> b -> user_by_authId d a = Some ua -> user_by_authId d b = Some ub ->
  let d' := exec (GameService.handleLeave g a i) d in
  (exists g', game_by_id d' i = Some g' /\ winnerId g' = Some b /\ loserId g' = Some a /\
              isFinished g' = true /\ hasLeft g' = true) /\
  wins_of d' b = Some (wins ub + 1) /\ loses_of d' a = Some (loses ua + 1) /\
  wins_of d' a = Some (wins ua) /\ loses_of d' b = Some (loses ub).
Proof.
  intros Hg Hw Hl Hside Hab Ha Hb d'. subst d'. unfold GameService.handleLeave, exec.
  rewrite bool_decide_eq_true_2 by done.
  assert (Hrun : snd ((GameService.endMatchWinner b i;; GameService.endMatchLoser a i) d) =
                 snd ((if bool_decide (leftPlayerId g = a) then
                        (GameService.endMatchWinner (rightPlayerId g) i;; GameService.endMatchLoser a i)
                      else if bool_decide (rightPlayerId g = a) then
                        (GameService.endMatchWinner (leftPlayerId g) i;; GameService.endMatchLoser a i)
                      else ret tt) d)).
  { destruct Hside as [[-> ->]|[-> ->]].
    - by rewrite bool_decide_eq_true_2.
    - by rewrite bool_decide_eq_false_2, bool_decide_eq_true_2. }
  rewrite <- Hrun. destruct (forfeit_run d i g a b ua ub Hg Hab Hb Ha) as (H1 & H2 & H3).
  unfold wins_of, loses_of. rewrite H1, H2, H3. cbn [fmap option_fmap option_map].
  destruct (wins_loses_apply ub [UWins (wins ub + 1)]) as [[Hb1 Hb2] _]; [done|].
  destruct (wins_loses_apply ua [ULoses (loses ua + 1)]) as [_ [Ha1 Ha2]]; [done|].
  rewrite Hb1, Hb2, Ha1, Ha2. split_and!; try done.
  eexists. split; [done|]. apply forfeit_game_fields.
Qed.

(** ** Idempotence and bounds *)

Lemma db_write_idem d i f :
  (forall g, g_id g = i -> g_id (f g) = i) -> (forall g, f (f g) = f g) ->
  db_write (db_write d i f) i f = db_write d i f.
Proof.
  intros Hid Hf. unfold db_write. simpl. f_equal. rewrite map_map. apply map_ext.
  intros h. destruct (decide (g_id h = i)) as [E|E]; [by rewrite decide_True, Hf by auto|].
  by rewrite decide_False.
Qed.

Lemma gameFinished_run d i :
  GameService.gameFinished i d =
    match game_by_id d i with
    | Some _ => (Ok tt, db_write d i (fun g => apply_game_data g [GIsFinished true]))
    | None => (Ok tt, d)
    end.
Proof.
  unfold GameService.gameFinished, game_update, game_replace. run_m.
  by destruct (game_by_id d i).
Qed.

Lemma handleLeave_forfeit_witness :
  let ua := mkUser 1 10 "alice" INGAME 3 1 [] in
  let ub := mkUser 2 20 "bob" INGAME 0 2 [] in
  let g := mkGame 7 None 10 20 (Some "alice") (Some "bob") (Some "s1") (Some "s2")
                  2 1 None None false false true true None None (Some 40) in
  let d := mkDB [ua; ub] [g] 8 in
  let d' := exec (GameService.handleLeave g 10 7) d in
  (exists g', game_by_id d' 7 = Some g' /\ winnerId g' = Some 20 /\ loserId g' = Some 10 /\
              isFinished g' = true /\ hasLeft g' = true) /\
  wins_of d' 20 = Some 1 /\ loses_of d' 10 = Some 2 /\
  wins_of d' 10 = Some 3 /\ loses_of d' 20 = Some 2.
Proof.
  intros ua ub g d. apply (handleLeave_forfeit d g 7 10 20 ua ub);
    first [reflexivity | lia | (left; split; reflexivity)].
Defined.

(** C9. [gameFinished i] marks the game finished and changes nothing
    else: the row [i], when there is one, becomes a row whose
    [isFinished] is [true] and which differs from the old row in that
    field only; every other row, the user table and the id counter are
    as they were; without a row [i] the update throws and the [catch]
    leaves the database as it was.  A second acknowledgment changes
    nothing more. *)
Theorem gameFinished_marks_finished (d : DB) (i j : Z) :
  let d' := exec (GameService.gameFinished i) d in
  users d' = users d /\ next_game_id d' = next_game_id d /\
  (forall g, game_by_id d i = Some g -> exists g', game_by_id d' i = Some g' /\
     isFinished g' = true /\ set_game_field g' (GIsFinished (isFinished g)) = g) /\
  (game_by_id d i = None -> d' = d) /\
  (j <> i -> game_by_id d' j = game_by_id d j) /\
  exec (GameService.gameFinished i) d' = d'.
Proof.
  cbv zeta. unfold exec. rewrite !gameFinished_run.
  destruct (game_by_id d i) as [g|] eqn:E; cbn [snd]; [|split_and!; try done; by rewrite E].
  assert (Hid : forall h, g_id h = i -> g_id (apply_game_data h [GIsFinished true]) = i) by (intros h <-; by destruct h).
  rewrite (game_by_id_write_eq d i _ g Hid E). cbn [snd].
  split_and!; [done|done| |done| |].
  - intros g0 [= <-]. eexists. split; [reflexivity|]. by destruct g.
  - intros Hne. by apply game_by_id_write_ne.
  - apply db_write_idem; [done|]. intros h. by destruct h.
Qed.

Lemma gameFinished_marks_finished_witness :
  let g := mkGame 7 None 10 20 (Some "alice") (Some "bob") None None 5 2 None None false false
                  true true None None (Some 40) in
  exists g', game_by_id (exec (GameService.gameFinished 7) (mkDB [] [g] 8)) 7 = Some g' /\
    isFinished g' = true /\ set_game_field g' (GIsFinished false) = g.
Proof.
  intros g. destruct (gameFinished_marks_finished (mkDB [] [g] 8) 7 8) as (_ & _ & H & _).
  apply (H g). reflexivity.
Defined.

Lemma set_scores_id g l r : g_id (set_scores g l r) = g_id g.
Proof. by destruct g. Qed.

(** The deferred score write never stores a score above the limit
    it is given: after [updateScore i l r limit] every row is either as
    it was or is row [i] holding exactly [l] and [r], both at most
    [limit]. *)
Theorem updateScore_bounded (d : DB) (i l r limit j : Z) :
  let d' := exec (GameService.updateScore i l r limit) d in
  game_by_id d' j = game_by_id d j \/
  (j = i /\ exists g, game_by_id d' j = Some g /\ scoreLeftPlayer g = l /\
                      scoreRightPlayer g = r /\ l <= limit /\ r <= limit).
Proof.
  unfold GameService.updateScore, exec. case_bool_decide as Hlim; [by left|].
  unfold GameService.getGameById. run_m. destruct (game_by_id d i) as [g|] eqn:E; simpl;
    [|by left].
  rewrite (updateGameDB_spec d i g _ E). simpl.
  assert (Hid : g_id (set_scores g l r) = i) by (rewrite set_scores_id; by eapply game_by_id_id).
  destruct (decide (j = i)) as [->|Hne].
  - right. split; [done|]. exists (set_scores g l r).
    rewrite (game_by_id_write_const d i g) by done. split; [done|]. destruct g; simpl. lia.
  - left. by apply game_by_id_write_ne.
Qed.

Definition ended_by_score (g : Game) (w l : Z) : Game :=
  apply_game_data g [GWinnerId (Some w); GLoserId (Some l); GIsFinished true].

Lemma endMatchByScore_left_spec d i g sl sr lim :
  game_by_id d i = Some g -> sl = lim ->
  GameService.endMatchByScore i sl sr lim d =
    (Ok (Some (ended_by_score g (leftPlayerId g) (rightPlayerId g))),
     db_write d i (fun _ => ended_by_score g (leftPlayerId g) (rightPlayerId g))).
Proof.
  intros Hg ->. unfold GameService.endMatchByScore, GameService.getGameById. run_m. rewrite Hg.
  rewrite bool_decide_eq_true_2 by done. unfold bind. by rewrite (updateGameDB_spec d i g).
Qed.

Lemma ended_by_score_fields g w l :
  winnerId (ended_by_score g w l) = Some w /\ loserId (ended_by_score g w l) = Some l /\
  isFinished (ended_by_score g w l) = true /\ g_id (ended_by_score g w l) = g_id g.
Proof. by destruct g. Qed.

(** ** Win/loss records: an equivalence on databases

    Two databases with the same game table and the same win and loss
    counters for every [authId] cannot be told apart by the game core's
    outcome logic: status and block-list writes change neither.  The
    outcome operations respect this equivalence, so a status write
    interleaved anywhere in a handler can be rewritten away. *)

Definition record (u : User) : Z * Z := (wins u, loses u).

Definition records_eq (d1 d2 : DB) : Prop :=
  games d1 = games d2 /\ next_game_id d1 = next_game_id d2 /\
  forall a, record <$> user_by_authId d1 a = record <$> user_by_authId d2 a.

#[export] Instance records_eq_equiv : Equivalence records_eq.
Proof.
  split.
  - intros d. by split_and!.
  - intros d1 d2 (Hg & Hn & Hr). split_and!; [done|done|]. intros a. by rewrite Hr.
  - intros d1 d2 d3 (Hg & Hn & Hr) (Hg' & Hn' & Hr').
    split_and!; [congruence|congruence|]. intros a. by rewrite Hr, Hr'.
Qed.

#[export] Instance game_by_id_proper : Proper (records_eq ==> eq ==> eq) game_by_id.
Proof. intros d1 d2 (Hg & _ & _) i ? <-. unfold game_by_id. by rewrite Hg. Qed.

Lemma records_eq_user d1 d2 a :
  records_eq d1 d2 -> record <$> user_by_authId d1 a = record <$> user_by_authId d2 a.
Proof. intros (_ & _ & Hr). apply Hr. Qed.

#[export] Instance wins_of_proper : Proper (records_eq ==> eq ==> eq) wins_of.
Proof.
  intros d1 d2 Hr a ? <-. pose proof (records_eq_user _ _ a Hr) as Ha. unfold wins_of, record in *.
  destruct (user_by_authId d1 a), (user_by_authId d2 a); simpl in *; congruence.
Qed.

#[export] Instance loses_of_proper : Proper (records_eq ==> eq ==> eq) loses_of.
Proof.
  intros d1 d2 Hr a ? <-. pose proof (records_eq_user _ _ a Hr) as Ha. unfold loses_of, record in *.
  destruct (user_by_authId d1 a), (user_by_authId d2 a); simpl in *; congruence.
Qed.

(** A user update whose fields leave the counters alone. *)
Lemma user_update_records key data d :
  (forall u, record (apply_user_data u data) = record u) ->
  records_eq d (exec (user_update key data) d).
Proof.
  intros Hrec. unfold exec, user_update. destruct (find_first key (users d)); simpl; [|done].
  split_and!; [done|done|]. intros x. unfold user_by_authId. simpl.
  rewrite find_first_map.
  - destruct (find_first _ (users d)) as [v|]; simpl; [|done]. by destruct (key v); rewrite ?Hrec.
  - intros v. destruct (key v); [|done]. by rewrite (proj1 (apply_user_data_keys v data)).
Qed.

Lemma record_status u s : record (apply_user_data u [UStatus s]) = record u.
Proof. by destruct u. Qed.

Lemma setStatusWithauthId_records a s d :
  records_eq d (exec (UserService.setStatusWithauthId a s) d).
Proof.
  transitivity (exec (user_update (key_authId a) [UStatus s]) d);
    [apply user_update_records; intros u; apply record_status|].
  unfold UserService.setStatusWithauthId, exec, catch, bind, user_update.
  by destruct (find_first (key_authId a) (users d)).
Qed.

Lemma setStatus_records i s d : records_eq d (exec (UserService.setStatus i s) d).
Proof.
  destruct (setStatus_run i s d) as [o Ho]. unfold exec at 1. rewrite Ho.
  apply user_update_records; intros u; apply record_status.
Qed.

Lemma users_write_records d1 d2 a data :
  records_eq d1 d2 ->
  (forall u v, record u = record v -> record (apply_user_data u data) = record (apply_user_data v data)) ->
  records_eq (users_write d1 a data) (users_write d2 a data).
Proof.
  intros Hr Hd. destruct Hr as (Hg & Hn & Hu). split_and!; [done|done|]. intros x.
  rewrite !user_by_authId_users_write. specialize (Hu x).
  destruct (user_by_authId d1 x), (user_by_authId d2 x); simpl in *; try done.
  case_decide; [|done]. f_equal. apply Hd. congruence.
Qed.

Lemma addWin_missing a d : user_by_authId d a = None -> exec (UserService.addWin a) d = d.
Proof. intros H. unfold UserService.addWin, exec. run_m. by rewrite H. Qed.

Lemma addLose_missing a d : user_by_authId d a = None -> exec (UserService.addLose a) d = d.
Proof. intros H. unfold UserService.addLose, exec. run_m. by rewrite H. Qed.

#[export] Instance addWin_proper a :
  Proper (records_eq ==> records_eq) (exec (UserService.addWin a)).
Proof.
  intros d1 d2 Hr. pose proof (records_eq_user _ _ a Hr) as Ha.
  destruct (user_by_authId d1 a) as [u1|] eqn:E1, (user_by_authId d2 a) as [u2|] eqn:E2;
    simpl in Ha; try discriminate; [|by rewrite !addWin_missing].
  unfold exec. rewrite (addWin_spec _ _ _ E1), (addWin_spec _ _ _ E2). simpl.
  unfold record in Ha. injection Ha as Hw Hl. rewrite Hw.
  apply users_write_records; [done|]. intros u v Huv. destruct u, v. unfold record in *. simpl in *.
  congruence.
Qed.

#[export] Instance addLose_proper a :
  Proper (records_eq ==> records_eq) (exec (UserService.addLose a)).
Proof.
  intros d1 d2 Hr. pose proof (records_eq_user _ _ a Hr) as Ha.
  destruct (user_by_authId d1 a) as [u1|] eqn:E1, (user_by_authId d2 a) as [u2|] eqn:E2;
    simpl in Ha; try discriminate; [|by rewrite !addLose_missing].
  unfold exec. rewrite (addLose_spec _ _ _ E1), (addLose_spec _ _ _ E2). simpl.
  unfold record in Ha. injection Ha as Hw Hl. rewrite Hl.
  apply users_write_records; [done|]. intros u v Huv. destruct u, v. unfold record in *. simpl in *.
  congruence.
Qed.

(** [try { await prisma.game.update(...) } catch {}] *)
Definition try_game_update (i : Z) (data : list GameField) : M DB unit :=
  catch (game_update i data;; ret tt) (ret tt).

Lemma try_game_update_run d i data :
  exec (try_game_update i data) d =
    match game_by_id d i with
    | Some _ => db_write d i (fun h => apply_game_data h data)
    | None => d
    end.
Proof.
  unfold try_game_update, exec, catch, bind, game_update, game_replace.
  by destruct (game_by_id d i).
Qed.

#[export] Instance try_game_update_proper i data :
  Proper (records_eq ==> records_eq) (exec (try_game_update i data)).
Proof.
  intros d1 d2 Hr. rewrite !try_game_update_run. rewrite Hr.
  destruct (game_by_id d2 i); [|done]. destruct Hr as (Hg & Hn & Hu).
  split_and!; [simpl; by rewrite Hg | done | apply Hu].
Qed.

Lemma wins_of_write d i f a : wins_of (db_write d i f) a = wins_of d a.
Proof. done. Qed.
Lemma loses_of_write d i f a : loses_of (db_write d i f) a = loses_of d a.
Proof. done. Qed.

#[export] Hint Rewrite wins_of_write loses_of_write : gw_rw.

(** A win for [b] then a loss for [a]: each of the two counters moves
    by one, the other two stay, the game table is kept. *)
Lemma win_then_lose d a b ua ub :
  a <> b -> user_by_authId d a = Some ua -> user_by_authId d b = Some ub ->
  let d' := exec (UserService.addLose a) (exec (UserService.addWin b) d) in
  wins_of d' b = Some (wins ub + 1) /\ loses_of d' a = Some (loses ua + 1) /\
  wins_of d' a = Some (wins ua) /\ loses_of d' b = Some (loses ub) /\ games d' = games d.
Proof.
  intros Hab Ha Hb d'. subst d'.
  assert (Ha' : user_by_authId (users_write d b [UWins (wins ub + 1)]) a = Some ua)
    by (by rewrite user_by_authId_users_write_ne).
  unfold exec. rewrite (addWin_spec _ _ _ Hb). cbn [snd]. rewrite (addLose_spec _ _ _ Ha').
  cbn [snd].
  unfold wins_of, loses_of.
  rewrite (user_by_authId_users_write_ne _ a _ b) by done.
  rewrite (user_by_authId_users_write_eq _ a _ ua) by done.
  rewrite (user_by_authId_users_write_eq _ b _ ub) by done.
  by destruct ua, ub.
Qed.

(** ** The user table with unique ids *)

Lemma user_by_id_unique d i u v :
  NoDup (map u_id (users d)) -> user_by_id d i = Some u -> v ∈ users d -> u_id v = i -> v = u.
Proof.
  intros Hnd Hu Hv Hi. apply find_first_Some in Hu as [Hu Hk]. apply bool_decide_eq_true in Hk.
  eapply NoDup_map_inj; [done..|congruence].
Qed.

Lemma isBlocked_unique d uid t u :
  NoDup (map u_id (users d)) -> user_by_id d uid = Some u ->
  existsb (fun v => bool_decide (u_id v = uid) && bool_decide (t ∈ usersBlocked v)) (users d) =
  bool_decide (t ∈ usersBlocked u).
Proof.
  intros Hnd Hu. apply eq_bool_prop_intro. split.
  - intros [v [Hv Hp]]%Is_true_true_1%existsb_exists. apply andb_prop in Hp as [H1 H2].
    apply bool_decide_eq_true in H1. rewrite <- list_elem_of_In in Hv.
    rewrite (user_by_id_unique d uid u v) in H2; [|done..]. by apply Is_true_true_2.
  - intros Ht. apply Is_true_true_2, existsb_exists. exists u.
    apply find_first_Some in Hu as [Hu Hk]. rewrite <- list_elem_of_In. split; [done|].
    rewrite Hk. simpl. by apply Is_true_true_1.
Qed.

Lemma user_update_run d key data u :
  find_first key (users d) = Some u ->
  user_update key data d = (Ok (apply_user_data u data),
     mkDB (map (fun v => if key v then apply_user_data v data else v) (users d)) (games d) (next_game_id d)).
Proof. unfold user_update. by intros ->. Qed.

(** An update by id of a present row finds the updated row. *)
Lemma user_update_id_Some d uid data u :
  user_by_id d uid = Some u ->
  user_by_id (exec (user_update (key_id uid) data) d) uid = Some (apply_user_data u data).
Proof.
  intros Hu. unfold exec. rewrite (user_update_run d (key_id uid) data u Hu).
  assert (Hid : forall v, u_id (apply_user_data v data) = u_id v) by (intros v; apply apply_user_data_keys).
  unfold user_by_id in *. simpl. rewrite find_first_map, Hu; [simpl; unfold key_id; rewrite bool_decide_true; [done|]; apply find_first_Some in Hu as [_ Hk]; by apply bool_decide_eq_true in Hk|].
  intros v. unfold key_id. destruct (bool_decide (u_id v = uid)) eqn:E; simpl; by rewrite ?Hid, ?E.
Qed.

(** Any user update keeps every id present, with its [authId]. *)
Lemma user_by_id_user_update key data d j v :
  user_by_id d j = Some v ->
  exists v', user_by_id (exec (user_update key data) d) j = Some v' /\ u_id v' = u_id v /\ authId v' = authId v.
Proof.
  intros Hv. unfold exec, user_update. destruct (find_first key (users d)); simpl; [|by exists v].
  unfold user_by_id in *. simpl. rewrite find_first_map, Hv; simpl.
  - destruct (key v); [|by exists v]. eexists. split; [done|].
    by destruct (apply_user_data_keys v data) as [-> ->].
  - intros w. destruct (key w); [|done]. by rewrite (proj2 (apply_user_data_keys w data)).
Qed.

(** An update by id of a present row, with unique ids. *)
Lemma user_update_id_lookup d uid data u :
  NoDup (map u_id (users d)) -> user_by_id d uid = Some u ->
  let d' := exec (user_update (key_id uid) data) d in
  user_by_id d' uid = Some (apply_user_data u data) /\ NoDup (map u_id (users d')).
Proof.
  intros Hnd Hu d'. split; [by apply user_update_id_Some|]. subst d'. unfold exec.
  rewrite (user_update_run d (key_id uid) data u Hu). simpl.
  assert (Hid : forall v, u_id (apply_user_data v data) = u_id v) by (intros v; apply apply_user_data_keys).
  by rewrite map_update_proj.
Qed.

