(* ===== verification/Physics.v ===== *)
(** * Game Session kinematics: ball, paddles, score and the random serve

    The pure part of the [ballMove], [paddleMove] and [gameStart] handlers
    of src/app/backend/src/game/game.gateway.ts: the collision chain of
    [ballMove], the speed increase on a paddle hit, scoring and [reset],
    the paddle clamp of [handlePaddleMovement] and the rejection loop of
    [generateRandomBallDirection].  Positions and directions are rationals
    ([Q]): every operation the server applies to them (+, -, *, /2, 1/8,
    comparisons) is exact on [Q], while the client's doubles are rounded;
    the ball speed is an integer, since it starts at 40 or 50 and only ever
    grows by multiples of 15. *)

From stdpp Require Import base list strings.
From Stdlib Require Import ZArith Lia QArith Qabs Qround Lqa.
From S2P Require Import Prelude.

(** ** The data the client sends: [allVar] of Pong.tsx *)

(** [enum GameStatus] of game.gateway.ts, with its numeric codes. *)
Inductive GameStatus := MAP | INIT | PLAY | WIN | LOSE | LEAVE | FINISHED.

Definition status_code (s : GameStatus) : Z :=
  match s with
  | MAP => 0 | INIT => 1 | PLAY => 2 | WIN => 3 | LOSE => 4 | LEAVE => 5 | FINISHED => 6
  end%Z.

(** The fixed geometry of the canvas and paddles. *)
Record Frame := mkFrame {
  width : Q;
  height : Q;
  ballRadius : Q;
  paddleW : Q;
  paddleH : Q;
  leftPaddleX : Q;
  rightPaddleX : Q
}.

(** Ball kinematics: position, direction, speed and per-frame velocity. *)
Record Ball := mkBall {
  ballX : Q;
  ballY : Q;
  dirX : Q;
  dirY : Q;
  ballSpeed : Z;
  ballVelocity : Q
}.

(** The snapshot object of a [ballMove], [paddleMove] or [gameStart]
    message (the fields the server reads or writes). *)
Record GameData := mkGameData {
  gd_gameId : Z;
  frame : Frame;
  ball : Ball;
  leftPaddleY : Q;
  rightPaddleY : Q;
  scoreLeft : Z;
  scoreRight : Z;
  scoreLimit : Z;
  key : string;
  gd_leftPlayerId : Z;
  gameStatus : Z
}.

Definition with_ball (gd : GameData) (b : Ball) : GameData :=
  let 'mkGameData i f _ l r sl sr lim k lp st := gd in mkGameData i f b l r sl sr lim k lp st.
Definition with_paddles (gd : GameData) (l r : Q) : GameData :=
  let 'mkGameData i f b _ _ sl sr lim k lp st := gd in mkGameData i f b l r sl sr lim k lp st.
Definition with_scores (gd : GameData) (sl sr : Z) : GameData :=
  let 'mkGameData i f b l r _ _ lim k lp st := gd in mkGameData i f b l r sl sr lim k lp st.
Definition with_status (gd : GameData) (st : Z) : GameData :=
  let 'mkGameData i f b l r sl sr lim k lp _ := gd in mkGameData i f b l r sl sr lim k lp st.

(** Boolean [<] on [Q], for executable guards. *)
Definition qltb (a b : Q) : bool := negb (Qle_bool b a).

Lemma qltb_spec a b : qltb a b = true <-> (a < b)%Q.
Proof.
  unfold qltb. rewrite negb_true_iff. split.
  - intros H. apply Qnot_le_lt. intros Hle. apply Qle_bool_iff in Hle. congruence.
  - intros H. destruct (Qle_bool b a) eqn:E; [|done].
    apply Qle_bool_iff in E. exfalso. by apply (Qlt_not_le a b).
Qed.

Lemma qltb_false a b : qltb a b = false <-> (b <= a)%Q.
Proof.
  unfold qltb. rewrite negb_false_iff. apply Qle_bool_iff.
Qed.

(** ** Speed increase on a paddle hit

    [15 * Math.round(Math.sqrt(ballSpeed / 40))].  With
    [Math.round(y) = floor(y + 1/2)] and [y = sqrt(s/40)],
    [floor(y + 1/2) = floor((floor(2y) + 1) / 2)] and
    [floor(2y) = floor(sqrt(s/10)) = Z.sqrt(s / 10)], so the rounding is
    computed exactly on integers. *)
Definition round_sqrt_div40 (s : Z) : Z := ((Z.sqrt (s / 10) + 1) / 2)%Z.

(** [n = Math.round(Math.sqrt(s/40))] stated without square roots:
    [n - 1/2 <= sqrt(s/40) < n + 1/2], squared and multiplied by 40. *)
Definition rounds_sqrt_div40 (s n : Z) : Prop :=
  (0 <= n /\ (n = 0 \/ 10 * (2 * n - 1) ^ 2 <= s) /\ s < 10 * (2 * n + 1) ^ 2)%Z.

Definition speed_bump (s : Z) : Z := (s + 15 * round_sqrt_div40 s)%Z.

(** ** The collision chain of [ballMove] *)

Section Collisions.
Context (f : Frame).

Definition hits_wall (b : Ball) : bool :=
  qltb (ballY b - ballRadius f) 0 || qltb (height f) (ballY b + ballRadius f).

Definition hits_left (lY : Q) (b : Ball) : bool :=
  qltb (ballX b - ballRadius f) (leftPaddleX f + paddleW f) &&
  qltb lY (ballY b + ballRadius f) &&
  qltb (ballY b - ballRadius f) (lY + paddleH f) &&
  qltb (dirX b) 0.

Definition hits_right (rY : Q) (b : Ball) : bool :=
  qltb (rightPaddleX f) (ballX b + ballRadius f) &&
  qltb rY (ballY b + ballRadius f) &&
  qltb (ballY b - ballRadius f) (rY + paddleH f) &&
  qltb 0 (dirX b).

(** The edge effect: a ball hitting within 5 units of the top of the
    paddle while moving down, or of its bottom while moving up, also
    bounces vertically. *)
Definition edge_dirY (pY : Q) (b : Ball) : Q :=
  if qltb (ballY b) (pY + 5) && qltb 0 (dirY b) then - dirY b
  else if qltb (pY + paddleH f - 5) (ballY b) && qltb (dirY b) 0 then - dirY b
  else dirY b.

Definition paddle_bounce (pY : Q) (b : Ball) : Ball :=
  mkBall (ballX b) (ballY b) (- dirX b) (edge_dirY pY b) (speed_bump (ballSpeed b))
         (ballVelocity b).

Definition wall_bounce (b : Ball) : Ball :=
  mkBall (ballX b) (ballY b) (dirX b) (- dirY b) (ballSpeed b) (ballVelocity b).

Definition collide (lY rY : Q) (b : Ball) : Ball :=
  if hits_wall b then wall_bounce b
  else if hits_left lY b then paddle_bounce lY b
  else if hits_right rY b then paddle_bounce rY b
  else b.

(** The ball left the field on the right (a point for the left player)
    or on the left (a point for the right player). *)
Definition out_right (b : Ball) : bool := qltb (width f) (ballX b + ballRadius f).
Definition out_left (b : Ball) : bool := qltb (ballX b - ballRadius f) 0.

(** [reset(gameData)] after a point, with the speed set back to the
    game's initial speed. *)
Definition reset_ball (speed : Z) (b : Ball) : Ball :=
  mkBall (width f / 2) (height f / 2) 0 0 speed (ballVelocity b).

(** One frame of movement: [ballVelocity = 0.125 * ballSpeed]. *)
Definition advance (b : Ball) : Ball :=
  let v := (1 # 8) * inject_Z (ballSpeed b) in
  mkBall (ballX b + dirX b * v) (ballY b + dirY b * v) (dirX b) (dirY b) (ballSpeed b) v.
End Collisions.

(** The score update of a point: the left player scores when the ball
    leaves on the right, else the right player when it leaves on the left. *)
Definition score_point (gd : GameData) (b : Ball) : Z * Z :=
  if out_right (frame gd) b then (scoreLeft gd + 1, scoreRight gd)%Z
  else if out_left (frame gd) b then (scoreLeft gd, scoreRight gd + 1)%Z
  else (scoreLeft gd, scoreRight gd).

(** ** Paddle movement: [handlePaddleMovement] *)

Definition up_key (k : string) : bool :=
  bool_decide (k = "ArrowUp" \/ k = "w" \/ k = "W" \/ k = "z" \/ k = "Z")%string.
Definition down_key (k : string) : bool :=
  bool_decide (k = "ArrowDown" \/ k = "s" \/ k = "S")%string.

(** [player] is [payload[1]], the sender's auth id.  The up keys move
    the sender's paddle 10 units up, then clamp at 0 ... *)
Definition paddle_up (player : Z) (gd : GameData) : GameData :=
  if up_key (key gd) then
    let '(l, r) := if bool_decide (player = gd_leftPlayerId gd)
                   then (leftPaddleY gd - 10, rightPaddleY gd)
                   else (leftPaddleY gd, rightPaddleY gd - 10) in
    let '(l, r) := if qltb l 0 then (0, r) else if qltb r 0 then (l, 0) else (l, r) in
    with_paddles gd l r
  else gd.

(** ... and the down keys move it 10 units down, then clamp at
    [height - paddleH].  Each clamp is an [if / else if]: it fixes the
    left paddle when that one is out of range, and only otherwise looks
    at the right one. *)
Definition paddle_down (player : Z) (gd : GameData) : GameData :=
  let f := frame gd in
  if down_key (key gd) then
    let '(l, r) := if bool_decide (player = gd_leftPlayerId gd)
                   then (leftPaddleY gd + 10, rightPaddleY gd)
                   else (leftPaddleY gd, rightPaddleY gd + 10) in
    let '(l, r) := if qltb (height f) (paddleH f + l) then (height f - paddleH f, r)
                   else if qltb (height f) (paddleH f + r) then (l, height f - paddleH f)
                   else (l, r) in
    with_paddles gd l r
  else gd.

Definition handlePaddleMovement (player : Z) (gd : GameData) : GameData :=
  paddle_down player (paddle_up player gd).

(** ** The serve: [generateRandomBallDirection]

    [randomNumberBetween(0, 2 * Math.PI)] is
    [Math.floor(Math.random() * (2 * Math.PI - 0)) + 0]: an integer
    angle in [0..6], of which the cosine and sine are taken.  The
    random source is injected as the list of the values [Math.random()]
    returns, and [2 * Math.PI] and the cosines and sines of 0..6 are the
    double-precision values JavaScript computes, written in decimal. *)

Definition two_pi : Q := 6283185307179586 # 1000000000000000.

Definition randomNumberBetween (min max : Q) (r : Q) : Z :=
  (Qfloor (r * (max - min)) + Qfloor min)%Z.

Definition js_cos (k : Z) : Q :=
  match k with
  | 0%Z => 1
  | 1%Z => 5403023058681398 # 10000000000000000
  | 2%Z => -4161468365471424 # 10000000000000000
  | 3%Z => -9899924966004454 # 10000000000000000
  | 4%Z => -6536436208636119 # 10000000000000000
  | 5%Z => 28366218546322625 # 100000000000000000
  | 6%Z => 960170286650366 # 1000000000000000
  | _ => 0
  end.

Definition js_sin (k : Z) : Q :=
  match k with
  | 0%Z => 0
  | 1%Z => 8414709848078965 # 10000000000000000
  | 2%Z => 9092974268256817 # 10000000000000000
  | 3%Z => 1411200080598672 # 10000000000000000
  | 4%Z => -7568024953079282 # 10000000000000000
  | 5%Z => -9589242746631385 # 10000000000000000
  | 6%Z => -27941549819892586 # 100000000000000000
  | _ => 0
  end.

(** The loop condition: [|x| <= 0.2 || |x| >= 0.9]. *)
Definition reject_dir (x : Q) : bool :=
  Qle_bool (Qabs x) (2 # 10) || Qle_bool (9 # 10) (Qabs x).

Definition dir_of (r : Q) : Q * Q :=
  let k := randomNumberBetween 0 two_pi r in (js_cos k, js_sin k).

(** The [while] loop from direction [d], drawing from [rs]; [None] when
    the source runs dry before a direction is accepted. *)
Fixpoint gen_dir (d : Q * Q) (rs : list Q) : option (Q * Q) :=
  if reject_dir d.1 then
    match rs with
    | [] => None
    | r :: rs' => gen_dir (dir_of r) rs'
    end
  else Some d.

Definition generateRandomBallDirection (rs : list Q) : option (Q * Q) := gen_dir (0, 0) rs.

(** ** Automation for the guards *)

Ltac qltb_cases :=
  repeat match goal with
  | |- context [qltb ?a ?b] =>
      let E := fresh "E" in
      destruct (qltb a b) eqn:E; [apply qltb_spec in E | apply qltb_false in E]
  | H : context [qltb ?a ?b] |- _ =>
      let E := fresh "E" in
      destruct (qltb a b) eqn:E; [apply qltb_spec in E | apply qltb_false in E]
  end.

Lemma with_paddles_leftPaddleY gd l r : leftPaddleY (with_paddles gd l r) = l.
Proof. by destruct gd. Qed.
Lemma with_paddles_rightPaddleY gd l r : rightPaddleY (with_paddles gd l r) = r.
Proof. by destruct gd. Qed.
Lemma with_paddles_frame gd l r : frame (with_paddles gd l r) = frame gd.
Proof. by destruct gd. Qed.
Lemma with_paddles_key gd l r : key (with_paddles gd l r) = key gd.
Proof. by destruct gd. Qed.
Lemma with_paddles_leftPlayerId gd l r : gd_leftPlayerId (with_paddles gd l r) = gd_leftPlayerId gd.
Proof. by destruct gd. Qed.

#[export] Hint Rewrite with_paddles_leftPaddleY with_paddles_rightPaddleY with_paddles_frame
  with_paddles_key with_paddles_leftPlayerId : gw_rw.

(** ** The rounding of the speed increase *)

Lemma round_sqrt_div40_bounds (s : Z) :
  (0 <= s)%Z ->
  let t := Z.sqrt (s / 10) in
  (t * t <= s / 10 < (t + 1) * (t + 1) /\ 10 * (s / 10) <= s < 10 * (s / 10) + 10 /\
   2 * round_sqrt_div40 s <= t + 1 < 2 * round_sqrt_div40 s + 2 /\ 0 <= t)%Z.
Proof.
  intros Hs. cbv zeta. unfold round_sqrt_div40.
  assert (0 <= s / 10)%Z by (apply Z.div_pos; lia).
  pose proof (Z.sqrt_spec (s / 10) ltac:(lia)) as Ht. cbv zeta in Ht.
  pose proof (Z.sqrt_nonneg (s / 10)).
  set (t := Z.sqrt (s / 10)) in *.
  pose proof (Z.mod_pos_bound s 10 ltac:(lia)). pose proof (Z.div_mod s 10 ltac:(lia)).
  pose proof (Z.mod_pos_bound (t + 1) 2 ltac:(lia)). pose proof (Z.div_mod (t + 1) 2 ltac:(lia)).
  split_and!; lia.
Qed.

Lemma rounds_sqrt_div40_unique s n m :
  rounds_sqrt_div40 s n -> rounds_sqrt_div40 s m -> n = m.
Proof.
  unfold rounds_sqrt_div40. intros (Hn0 & Hn1 & Hn2) (Hm0 & Hm1 & Hm2).
  destruct (Z.lt_trichotomy n m) as [Hlt|[->|Hlt]]; [exfalso| done | exfalso].
  - destruct Hm1 as [->|Hm1]; [lia|].
    assert (2 * n + 1 <= 2 * m - 1)%Z by lia.
    assert ((2 * n + 1) ^ 2 <= (2 * m - 1) ^ 2)%Z by (apply Z.pow_le_mono_l; lia). lia.
  - destruct Hn1 as [->|Hn1]; [lia|].
    assert (2 * m + 1 <= 2 * n - 1)%Z by lia.
    assert ((2 * m + 1) ^ 2 <= (2 * n - 1) ^ 2)%Z by (apply Z.pow_le_mono_l; lia). lia.
Qed.

Lemma round_sqrt_div40_rounds s : (0 <= s)%Z -> rounds_sqrt_div40 s (round_sqrt_div40 s).
Proof.
  intros Hs. pose proof (round_sqrt_div40_bounds s Hs) as (Ht & Hq & Hn & Ht0). simpl in *.
  set (t := Z.sqrt (s / 10)) in *. set (n := round_sqrt_div40 s) in *.
  unfold rounds_sqrt_div40. split_and!; [lia| |].
  - destruct (decide (n = 0)%Z) as [|Hn0]; [by left|right].
    assert (0 <= 2 * n - 1 <= t)%Z by lia.
    assert ((2 * n - 1) ^ 2 <= t * t)%Z by (rewrite Z.pow_2_r; apply Z.mul_le_mono_nonneg; lia).
    lia.
  - assert (0 <= t + 1 <= 2 * n + 1)%Z by lia.
    assert ((t + 1) * (t + 1) <= (2 * n + 1) ^ 2)%Z
      by (rewrite Z.pow_2_r; apply Z.mul_le_mono_nonneg; lia).
    lia.
Qed.

(** The integer routine [round_sqrt_div40] computes
    [Math.round(Math.sqrt(s / 40))] for every non-negative speed: its value
    is the one integer [n >= 0] with [n - 1/2 <= sqrt(s/40) < n + 1/2]. *)
Theorem round_sqrt_div40_iff (s n : Z) :
  (0 <= s)%Z -> round_sqrt_div40 s = n <-> rounds_sqrt_div40 s n.
Proof.
  intros Hs. split.
  - intros <-. by apply round_sqrt_div40_rounds.
  - intros Hn. eapply rounds_sqrt_div40_unique; [|exact Hn]. by apply round_sqrt_div40_rounds.
Qed.

(** ** Speed *)

Lemma round_sqrt_div40_nonneg s : (0 <= round_sqrt_div40 s)%Z.
Proof.
  unfold round_sqrt_div40. pose proof (Z.sqrt_nonneg (s / 10)). apply Z.div_pos; lia.
Qed.

Lemma round_sqrt_div40_pos s : (10 <= s)%Z -> (1 <= round_sqrt_div40 s)%Z.
Proof.
  intros Hs. pose proof (round_sqrt_div40_rounds s ltac:(lia)) as (H0 & [Hn|Hn] & H2);
    [|nia]. rewrite Hn in H2. lia.
Qed.

(** C4. Every paddle hit raises a speed of at least 10 by at least 15: after
    [k] hits the speed is at least [s + 15 k] (monotonically increasing
    difficulty). *)
Theorem speed_bump_iter_ge (k : nat) (s : Z) :
  (10 <= s)%Z -> (s + 15 * Z.of_nat k <= Nat.iter k speed_bump s)%Z.
Proof.
  intros Hs. induction k as [|k IH]; simpl; [lia|].
  pose proof (round_sqrt_div40_pos (Nat.iter k speed_bump s) ltac:(lia)).
  unfold speed_bump at 1. lia.
Qed.

Lemma speed_bump_iter_ge_witness : (40 + 15 * 3 <= Nat.iter 3 speed_bump 40)%Z.
Proof. apply (speed_bump_iter_ge 3 40). lia. Defined.

(** A ball slower than 10 never speeds up: [Math.round(Math.sqrt(s/40))]
    is 0 there. *)
Lemma speed_bump_small s : (0 <= s < 10)%Z -> speed_bump s = s.
Proof.
  intros Hs. unfold speed_bump, round_sqrt_div40.
  rewrite (Z.div_small s 10) by lia. change ((Z.sqrt 0 + 1) / 2)%Z with 0%Z. lia.
Qed.

(** ** Paddle hits *)

(** A ball that hits the left paddle (and no wall) leaves it moving
    right, with its horizontal direction reversed, its speed raised by
    [15 * Math.round(Math.sqrt(speed / 40))], and its vertical direction
    reversed exactly when it struck within 5 units of the top edge moving
    down or of the bottom edge moving up. *)
Theorem collide_left_paddle (f : Frame) (lY rY : Q) (b : Ball) :
  hits_wall f b = false -> hits_left f lY b = true ->
  let b' := collide f lY rY b in
  (0 < dirX b')%Q /\ dirX b' = - dirX b /\
  ballSpeed b' = (ballSpeed b + 15 * round_sqrt_div40 (ballSpeed b))%Z /\
  dirY b' = (if qltb (ballY b) (lY + 5) && qltb 0 (dirY b) then - dirY b
             else if qltb (lY + paddleH f - 5) (ballY b) && qltb (dirY b) 0 then - dirY b
             else dirY b).
Proof.
  intros Hw Hl. unfold collide. rewrite Hw, Hl. simpl.
  unfold hits_left in Hl. apply andb_prop in Hl as [_ Hx]. apply qltb_spec in Hx.
  split_and!; [lra|done|done|done].
Qed.

(** The mirror statement for the right paddle. *)
Lemma collide_right_paddle (f : Frame) (lY rY : Q) (b : Ball) :
  hits_wall f b = false -> hits_left f lY b = false -> hits_right f rY b = true ->
  let b' := collide f lY rY b in
  (dirX b' < 0)%Q /\ dirX b' = - dirX b /\ ballSpeed b' = speed_bump (ballSpeed b).
Proof.
  intros Hw Hl Hr. unfold collide. rewrite Hw, Hl, Hr. simpl.
  unfold hits_right in Hr. apply andb_prop in Hr as [_ Hx]. apply qltb_spec in Hx.
  split_and!; [lra|done|done].
Qed.

(** A hit is only possible towards the paddle: a ball moving right never
    touches the left paddle, one moving left never the right paddle. *)
Lemma hits_left_moving_left f lY b : hits_left f lY b = true -> (dirX b < 0)%Q.
Proof. unfold hits_left. intros [_ H]%andb_prop. by apply qltb_spec. Qed.

Lemma hits_right_moving_right f rY b : hits_right f rY b = true -> (0 < dirX b)%Q.
Proof. unfold hits_right. intros [_ H]%andb_prop. by apply qltb_spec. Qed.

(** The spec's scenario: a ball at the top edge of the left paddle
    ([ballY = leftPaddleY]) moving down and left bounces vertically and
    horizontally, and its speed 40 becomes [40 + 15 * round(sqrt 1) = 55]. *)
Example collide_left_edge_scenario :
  let f := mkFrame 800 600 10 18 110 7 775 in
  let b := mkBall 30 245 (-(5403023058681398 # 10000000000000000)) (8414709848078965 # 10000000000000000) 40 5 in
  hits_wall f b = false /\ hits_left f 245 b = true /\
  collide f 245 245 b =
    mkBall 30 245 (5403023058681398 # 10000000000000000) (-(8414709848078965 # 10000000000000000)) 55 5.
Proof. vm_compute. split_and!; reflexivity. Qed.

(** ** Paddle bounds *)

Definition paddle_in_bounds (f : Frame) (y : Q) : Prop := (0 <= y <= height f - paddleH f)%Q.

Definition paddles_in_bounds (gd : GameData) : Prop :=
  paddle_in_bounds (frame gd) (leftPaddleY gd) /\ paddle_in_bounds (frame gd) (rightPaddleY gd).

Lemma paddle_up_frame player gd :
  frame (paddle_up player gd) = frame gd /\ key (paddle_up player gd) = key gd.
Proof.
  unfold paddle_up. destruct (up_key _); [|done].
  case_bool_decide; qltb_cases; by autorewrite with gw_rw.
Qed.

Lemma paddle_up_in_bounds player gd :
  (0 <= paddleH (frame gd) <= height (frame gd))%Q ->
  paddles_in_bounds gd -> paddles_in_bounds (paddle_up player gd).
Proof.
  unfold paddles_in_bounds, paddle_in_bounds, paddle_up. intros Hf [Hl Hr].
  destruct (up_key _); [|done]. case_bool_decide; qltb_cases;
    autorewrite with gw_rw; split; lra.
Qed.

Lemma paddle_down_in_bounds player gd :
  (0 <= paddleH (frame gd) <= height (frame gd))%Q ->
  paddles_in_bounds gd -> paddles_in_bounds (paddle_down player gd).
Proof.
  unfold paddles_in_bounds, paddle_in_bounds, paddle_down. intros Hf [Hl Hr].
  destruct (down_key _); [|done]. case_bool_decide; qltb_cases;
    autorewrite with gw_rw; split; lra.
Qed.

(** C6. [handlePaddleMovement] keeps both paddles on the canvas: if they
    were within [0, height - paddleH] before a key event, they still are
    after it, whichever player moved. *)
Theorem paddleMove_in_bounds (player : Z) (gd : GameData) :
  (0 <= paddleH (frame gd) <= height (frame gd))%Q ->
  paddles_in_bounds gd -> paddles_in_bounds (handlePaddleMovement player gd).
Proof.
  intros Hf Hb. unfold handlePaddleMovement. destruct (paddle_up_frame player gd) as [Hfr _].
  apply paddle_down_in_bounds; rewrite ?Hfr; [done|]. by apply paddle_up_in_bounds.
Qed.

Lemma paddleMove_in_bounds_witness :
  let gd := mkGameData 1 (mkFrame 800 600 10 18 110 7 775) (mkBall 400 300 1 0 40 5)
                       5 490 0 0 5 "ArrowUp" 10 (status_code PLAY) in
  paddles_in_bounds (handlePaddleMovement 10 gd).
Proof.
  intros gd. apply (paddleMove_in_bounds 10 gd);
    repeat split; vm_compute; discriminate.
Defined.

(** ** The serve *)

(** [Math.floor] on an interval of length one. *)
Lemma Qfloor_between (x : Q) (n : Z) : (inject_Z n <= x < inject_Z n + 1)%Q -> Qfloor x = n.
Proof.
  intros Hx. pose proof (Qfloor_le x). pose proof (Qlt_floor x).
  assert (inject_Z (Qfloor x) < inject_Z (n + 1))%Q
    by (rewrite inject_Z_plus; change (inject_Z 1) with 1%Q; lra).
  assert (inject_Z n < inject_Z (Qfloor x + 1))%Q by lra.
  rewrite <- Zlt_Qlt in *. lia.
Qed.

Lemma randomNumberBetween_range (r : Q) :
  (0 <= r < 1)%Q -> (0 <= randomNumberBetween 0 two_pi r <= 6)%Z.
Proof.
  intros Hr. unfold randomNumberBetween. change (Qfloor 0) with 0%Z. rewrite Z.add_0_r.
  set (x := (r * (two_pi - 0))%Q).
  assert (Hx : (0 <= x < 7)%Q) by (unfold x, two_pi; nra).
  pose proof (Qfloor_le x). pose proof (Qlt_floor x).
  assert (inject_Z (Qfloor x) < inject_Z 7)%Q by (unfold inject_Z in *; lra).
  assert (inject_Z 0 < inject_Z (Qfloor x + 1))%Q by (unfold inject_Z in *; lra).
  rewrite <- Zlt_Qlt in *. lia.
Qed.

Lemma gen_dir_result d0 rs d :
  gen_dir d0 rs = Some d -> reject_dir d.1 = false /\ (d = d0 \/ exists r, r ∈ rs /\ d = dir_of r).
Proof.
  revert d0. induction rs as [|r rs IH]; intros d0; simpl.
  - destruct (reject_dir d0.1) eqn:E; [done|]. intros [= <-]. auto.
  - destruct (reject_dir d0.1) eqn:E.
    + intros (Hd & [->|(r' & Hr' & ->)])%IH; split; [done| |done|]; right;
        [exists r; split; [left|done] | exists r'; split; [by right|done]].
    + intros [= <-]. auto.
Qed.

Definition serve_angles : list Z := [1; 2; 4; 5]%Z.

(** C7. The serve always satisfies [0.2 < |x| < 0.9] with a unit vector
    (up to the doubles' rounding, below 10^-15), and, because the angle
    is drawn with [Math.floor], it is one of only four directions: the
    cosine and sine of 1, 2, 4 or 5 radians. *)
Theorem serve_direction (rs : list Q) (x y : Q) :
  Forall (fun r => 0 <= r < 1)%Q rs ->
  generateRandomBallDirection rs = Some (x, y) ->
  (2 # 10 < Qabs x < 9 # 10)%Q /\ (Qabs (x * x + y * y - 1) < 1 # 1000000000000000)%Q /\
  exists k, k ∈ serve_angles /\ (x, y) = (js_cos k, js_sin k).
Proof.
  intros Hrs Hgen. apply gen_dir_result in Hgen as [Hrej [[= -> ->] | (r & Hr & Hd)]];
    [done|].
  rewrite Forall_forall in Hrs. pose proof (randomNumberBetween_range r (Hrs r Hr)) as Hk.
  unfold dir_of in Hd. injection Hd as -> ->. simpl in Hrej.
  set (k := randomNumberBetween 0 two_pi r) in *. clearbody k.
  assert (Hk7 : (k = 0 \/ k = 1 \/ k = 2 \/ k = 3 \/ k = 4 \/ k = 5 \/ k = 6)%Z) by lia.
  destruct Hk7 as [->|[->|[->|[->|[->|[->| ->]]]]]];
    try (vm_compute in Hrej; discriminate Hrej);
    (split; [|split]; [vm_compute; split; reflexivity | vm_compute; reflexivity |]);
    (eexists; split; [|reflexivity]); apply list_elem_of_In; simpl; tauto.
Qed.

Lemma serve_direction_witness :
  (2 # 10 < Qabs (js_cos 1) < 9 # 10)%Q /\
  (Qabs (js_cos 1 * js_cos 1 + js_sin 1 * js_sin 1 - 1) < 1 # 1000000000000000)%Q /\
  exists k, k ∈ serve_angles /\ (js_cos 1, js_sin 1) = (js_cos k, js_sin k).
Proof.
  apply (serve_direction [1 # 6]); [repeat constructor; vm_compute; discriminate |].
  vm_compute. reflexivity.
Defined.

Lemma gen_dir_accept d rs : reject_dir d.1 = false -> gen_dir d rs = Some d.
Proof. intros H. destruct rs; simpl; by rewrite H. Qed.

Lemma gen_dir_cons d r rs :
  gen_dir d (r :: rs) = if reject_dir d.1 then gen_dir (dir_of r) rs else Some d.
Proof. reflexivity. Qed.

(** C8. The rejection loop terminates at the first draw whose angle it
    accepts and serves that angle's direction: the draws before it are
    all rejected and discarded, the draws after it are never read. *)
Theorem serve_first_accepted (pre post : list Q) (r : Q) :
  Forall (fun r' => reject_dir (dir_of r').1 = true) pre ->
  reject_dir (dir_of r).1 = false ->
  generateRandomBallDirection (pre ++ r :: post) = Some (dir_of r).
Proof.
  unfold generateRandomBallDirection. intros Hpre Hr.
  assert (H0 : reject_dir (0, 0)%Q.1 = true) by reflexivity. revert H0. generalize (0, 0)%Q as d.
  induction Hpre as [|x pre Hx _ IH]; intros d Hd; cbn [app]; rewrite gen_dir_cons, Hd.
  - by apply gen_dir_accept.
  - by apply IH.
Qed.

Lemma serve_first_accepted_witness : generateRandomBallDirection [0; 1 # 6] = Some (dir_of (1 # 6)).
Proof.
  apply (serve_first_accepted [0] [] (1 # 6)); [repeat constructor; vm_compute; reflexivity|].
  vm_compute. reflexivity.
Defined.

Lemma with_ball_proj gd b :
  gd_gameId (with_ball gd b) = gd_gameId gd /\ frame (with_ball gd b) = frame gd /\
  ball (with_ball gd b) = b /\ scoreLeft (with_ball gd b) = scoreLeft gd /\
  scoreRight (with_ball gd b) = scoreRight gd /\ scoreLimit (with_ball gd b) = scoreLimit gd /\
  leftPaddleY (with_ball gd b) = leftPaddleY gd /\ rightPaddleY (with_ball gd b) = rightPaddleY gd.
Proof. by destruct gd. Qed.

Lemma with_scores_proj gd l r :
  gd_gameId (with_scores gd l r) = gd_gameId gd /\ scoreLeft (with_scores gd l r) = l /\
  scoreRight (with_scores gd l r) = r /\ scoreLimit (with_scores gd l r) = scoreLimit gd /\
  ball (with_scores gd l r) = ball gd.
Proof. by destruct gd. Qed.

Lemma gd_gameId_with_ball gd b : gd_gameId (with_ball gd b) = gd_gameId gd.
Proof. by destruct gd. Qed.
Lemma frame_with_ball gd b : frame (with_ball gd b) = frame gd.
Proof. by destruct gd. Qed.
Lemma ball_with_ball gd b : ball (with_ball gd b) = b.
Proof. by destruct gd. Qed.
Lemma scoreLeft_with_ball gd b : scoreLeft (with_ball gd b) = scoreLeft gd.
Proof. by destruct gd. Qed.
Lemma scoreRight_with_ball gd b : scoreRight (with_ball gd b) = scoreRight gd.
Proof. by destruct gd. Qed.
Lemma scoreLimit_with_ball gd b : scoreLimit (with_ball gd b) = scoreLimit gd.
Proof. by destruct gd. Qed.

#[export] Hint Rewrite gd_gameId_with_ball frame_with_ball ball_with_ball scoreLeft_with_ball
  scoreRight_with_ball scoreLimit_with_ball : gw_rw.
