(* ===== verification/World.v ===== *)
(** * Session Registry and Room Broadcaster: the state the gateway handlers share

    The fields of the [GameGateway] class of
    src/app/backend/src/game/game.gateway.ts ([waitingQueue],
    [invitations], [players]), the socket.io room adapter the handlers
    join, leave and read ([client.join], [client.leave],
    [server.sockets.adapter.rooms]), the log of emitted events
    ([server.to(...).emit(...)]), the pending [setTimeout] callbacks, and
    the database of Store.v, in one [World] record.

    The room adapter is specified by the class [RoomAdapter]: the
    contract the handlers rely on (joining is idempotent, leaving a room
    one never joined changes nothing, members are what was joined).
    [JsRooms] implements it as socket.io does, with a [Map] from room to
    an insertion-ordered [Set] of socket ids, and discharges the laws. *)

From stdpp Require Import base list strings.
From Stdlib Require Import ZArith Lia QArith.
From S2P Require Import Prelude Store Physics.

Open Scope Z_scope.

(** Room names: ['#game' + id], ['#user' + id], ['#channel' + id], the
    name of a private conversation, and the room socket.io creates for
    every socket under its own id.  Both gateways share one server, so
    one adapter: the personal rooms the game gateway emits to are joined
    by the chat gateway (ChatGateway.v). *)
Inductive Room :=
  | RGame (id : Z)
  | RUser (id : Z)
  | RChannel (id : Z)
  | RNamed (name : string)
  | RSocket (sid : string).

#[export] Instance Room_eq_dec : EqDecision Room.
Proof. solve_decision. Defined.

(** ** The room adapter interface *)

Class RoomAdapter (t : Type) := {
  ra_empty : t;
  ra_join : string -> Room -> t -> t;
  ra_leave : string -> Room -> t -> t;
  ra_members : t -> Room -> list string;
  ra_members_empty r : ra_members ra_empty r = [];
  ra_members_join sid r m : ra_members (ra_join sid r m) r =
    if decide (sid ∈ ra_members m r) then ra_members m r else ra_members m r ++ [sid];
  ra_members_join_other sid r r' m : r' <> r -> ra_members (ra_join sid r m) r' = ra_members m r';
  ra_members_leave sid r m : ra_members (ra_leave sid r m) r =
    filter (fun s => s <> sid) (ra_members m r);
  ra_members_leave_other sid r r' m : r' <> r -> ra_members (ra_leave sid r m) r' = ra_members m r'
}.

(** Consequences of the contract, for any adapter: the guarantees of
    the spec's Room Broadcaster. *)
Section RoomFacts.
Context `{RoomAdapter t}.

Lemma join_idempotent sid r m r' :
  ra_members (ra_join sid r (ra_join sid r m)) r' = ra_members (ra_join sid r m) r'.
Proof.
  destruct (decide (r' = r)) as [->|Hne]; [|by rewrite !ra_members_join_other].
  rewrite (ra_members_join sid r (ra_join sid r m)), decide_True; [done|].
  rewrite ra_members_join. case_decide; [done|]. apply elem_of_app. right. by left.
Qed.

Lemma leave_not_member sid r m r' :
  sid ∉ ra_members m r -> ra_members (ra_leave sid r m) r' = ra_members m r'.
Proof.
  intros Hn. destruct (decide (r' = r)) as [->|Hne]; [|by rewrite ra_members_leave_other].
  rewrite ra_members_leave. apply filter_all. intros s Hs. naive_solver.
Qed.

Lemma member_join sid r m : sid ∈ ra_members (ra_join sid r m) r.
Proof.
  rewrite ra_members_join. case_decide; [done|]. apply elem_of_app. right. by left.
Qed.

Lemma not_member_leave sid r m : sid ∉ ra_members (ra_leave sid r m) r.
Proof. rewrite ra_members_leave. intros Hs. apply list_elem_of_filter in Hs. naive_solver. Qed.
End RoomFacts.

(** ** socket.io's adapter: [Map<Room, Set<SocketId>>] *)

Module JsRooms.
Definition t := jsmap Room (list string).
Definition empty : t := [].

Definition members (m : t) (r : Room) : list string := default [] (jm_get m r).

(** [client.join(room)]: create the room or add the socket to its set. *)
Definition join (sid : string) (r : Room) (m : t) : t :=
  match jm_get m r with
  | None => jm_set m r [sid]
  | Some l => if decide (sid ∈ l) then m else jm_set m r (l ++ [sid])
  end.

(** [client.leave(room)]: remove the socket; a room left empty is
    deleted from the map. *)
Definition leave (sid : string) (r : Room) (m : t) : t :=
  match jm_get m r with
  | None => m
  | Some l =>
      let l' := filter (fun s => s <> sid) l in
      if decide (l' = []) then jm_delete m r else jm_set m r l'
  end.

Lemma members_join sid r m : members (join sid r m) r =
  if decide (sid ∈ members m r) then members m r else members m r ++ [sid].
Proof.
  unfold members, join. destruct (jm_get m r) as [l|] eqn:E; simpl.
  - case_decide; [by rewrite E|]. by rewrite jm_get_set_eq.
  - rewrite jm_get_set_eq. first [done | case_decide as Hin; [by apply not_elem_of_nil in Hin | done]].
Qed.

Lemma members_join_other sid r r' m : r' <> r -> members (join sid r m) r' = members m r'.
Proof.
  intros Hne. unfold members, join.
  destruct (jm_get m r) as [l|]; [case_decide|]; rewrite ?jm_get_set_ne; done.
Qed.

Lemma members_leave sid r m : members (leave sid r m) r =
  filter (fun s => s <> sid) (members m r).
Proof.
  unfold members, leave. destruct (jm_get m r) as [l|] eqn:E; simpl; [|by rewrite E].
  case_decide as Hl.
  - by rewrite jm_get_delete_eq, Hl.
  - by rewrite jm_get_set_eq.
Qed.

Lemma members_join_in sid r m : sid ∈ members (join sid r m) r.
Proof.
  rewrite members_join. case_decide; [done|]. apply elem_of_app. right. by apply list_elem_of_singleton.
Qed.

Lemma members_leave_other sid r r' m : r' <> r -> members (leave sid r m) r' = members m r'.
Proof.
  intros Hne. unfold members, leave. destruct (jm_get m r) as [l|]; [|done].
  case_decide; [by rewrite jm_get_delete_ne | by rewrite jm_get_set_ne].
Qed.

#[export] Instance adapter : RoomAdapter t := {|
  ra_empty := empty; ra_join := join; ra_leave := leave; ra_members := members;
  ra_members_empty r := eq_refl;
  ra_members_join := members_join;
  ra_members_join_other := members_join_other;
  ra_members_leave := members_leave;
  ra_members_leave_other := members_leave_other
|}.
End JsRooms.

(** ** The gateway state *)

(** [interface IUser] of game.gateway.ts: [username] and [status] come
    from service calls that may return [undefined], [socketId] from
    [getKeyByValue], which may too. *)
Record IUser := mkIUser {
  iu_id : Z;
  iu_authId : Z;
  iu_username : option string;
  iu_status : option Status;
  iu_socketId : option string
}.

#[export] Instance IUser_eq_dec : EqDecision IUser.
Proof. solve_decision. Defined.

(** [interface IInvite] *)
Record IInvite := mkIInvite { inviter : IUser; invited : IUser }.

#[export] Instance IInvite_eq_dec : EqDecision IInvite.
Proof. solve_decision. Defined.

(** [server.emit] (every connected socket) or [server.to(a).to(b)...]. *)
Inductive Target :=
  | ToAll
  | ToRooms (rs : list Room).

(** The events the game gateway emits, with their payloads. *)
Inductive Payload :=
  | PUpdate (toUpdate : Z)
  | PGameStatus (code : Z)
  | PGameStatusSelect (code : Z)
  | PMatchFound (gameId : Z)
  | PError
  | PInvitation (inviterId : Z) (inviterName : option string)
  | PInviteAccepted (user : IUser) (gameId : Z)
  | PInitGameRefused
  | PInitGame (g : Game) (nameLeft nameRight : string)
  | PCheckGame (hasLeft isFinished : bool) (mode : option string)
  | PMapSelected
  | PModeSelected (mode : option string)
  | PPaddleUpdate (gd : GameData)
  | PBallUpdate (gd : GameData)
  | PScoreUpdate (gd : GameData)
  | PGameStart (gd : GameData).

(** A pending [setTimeout] callback. *)
Inductive Timer :=
  | TUpdateScore (gameId scoreLP scoreRP limit : Z).

Record World := mkWorld {
  db : DB;
  sockets : list string;
  waitingQueue : list IUser;
  invitations : list IInvite;
  players : jsmap string Z;
  rooms : JsRooms.t;
  outbox : list (Target * Payload);
  timers : list Timer
}.

Definition set_db (d : DB) (w : World) : World :=
  let 'mkWorld _ s q i p r o t := w in mkWorld d s q i p r o t.
Definition set_sockets (s : list string) (w : World) : World :=
  let 'mkWorld d _ q i p r o t := w in mkWorld d s q i p r o t.
Definition set_queue (q : list IUser) (w : World) : World :=
  let 'mkWorld d s _ i p r o t := w in mkWorld d s q i p r o t.
Definition set_invitations (i : list IInvite) (w : World) : World :=
  let 'mkWorld d s q _ p r o t := w in mkWorld d s q i p r o t.
Definition set_players (p : jsmap string Z) (w : World) : World :=
  let 'mkWorld d s q i _ r o t := w in mkWorld d s q i p r o t.
Definition set_rooms (r : JsRooms.t) (w : World) : World :=
  let 'mkWorld d s q i p _ o t := w in mkWorld d s q i p r o t.
Definition set_outbox (o : list (Target * Payload)) (w : World) : World :=
  let 'mkWorld d s q i p r _ t := w in mkWorld d s q i p r o t.
Definition set_timers (t : list Timer) (w : World) : World :=
  let 'mkWorld d s q i p r o _ := w in mkWorld d s q i p r o t.

(** ** Gateway primitives *)

Definition GM := M World.

Definition db_call {A} (c : M DB A) : GM A := zoom db set_db c.

Definition emit (t : Target) (p : Payload) : GM unit :=
  modify (fun w => set_outbox (outbox w ++ [(t, p)]) w).

Definition to_socket (sid : option string) : Target :=
  match sid with Some s => ToRooms [RSocket s] | None => ToRooms [] end.

Definition client_join (sid : string) (r : Room) : GM unit :=
  modify (fun w => set_rooms (JsRooms.join sid r (rooms w)) w).

Definition client_leave (sid : string) (r : Room) : GM unit :=
  modify (fun w => set_rooms (JsRooms.leave sid r (rooms w)) w).

Definition set_timeout (t : Timer) : GM unit :=
  modify (fun w => set_timers (timers w ++ [t]) w).

(** [room.forEach((id) => { socketWinner = id; })]: the last member in
    insertion order, [undefined] for a missing or empty room. *)
Definition last_member (w : World) (r : Room) : option string :=
  last (JsRooms.members (rooms w) r).

(** The sockets an emission reaches: every connected socket, or the
    members of the rooms named (a socket is always in its own room). *)
Definition recipients (w : World) (t : Target) : list string :=
  match t with
  | ToAll => sockets w
  | ToRooms rs =>
      filter (fun s => s ∈ sockets w)
        (rs ≫= fun r => match r with
                        | RSocket s => [s]
                        | _ => JsRooms.members (rooms w) r
                        end)
  end.

(** JavaScript truthiness of a string field: [null] and [""] are false. *)
Definition truthy (o : option string) : bool :=
  match o with Some s => bool_decide (s <> ""%string) | None => false end.

Definition update28 : Payload := PUpdate 28.

(** ** Running gateway primitives *)

Lemma set_db_proj d w :
  db (set_db d w) = d /\ outbox (set_db d w) = outbox w /\ players (set_db d w) = players w /\
  rooms (set_db d w) = rooms w /\ waitingQueue (set_db d w) = waitingQueue w /\
  invitations (set_db d w) = invitations w /\ timers (set_db d w) = timers w /\
  sockets (set_db d w) = sockets w.
Proof. by destruct w. Qed.

Lemma db_call_run {A} (c : M DB A) w o d' :
  c (db w) = (o, d') -> db_call c w = (o, set_db d' w).
Proof. unfold db_call, zoom. by intros ->. Qed.

Lemma emit_run t p w :
  emit t p w = (Ok tt, set_outbox (outbox w ++ [(t, p)]) w).
Proof. done. Qed.

(** The handlers' effects after their last database call only append to
    the outbox and the timers: the database and what was already sent
    are kept. *)
Definition appends_only (d : DB) (o : list (Target * Payload)) (w : World) : Prop :=
  db w = d /\ o `prefix_of` outbox w.

Lemma appends_only_refl w : appends_only (db w) (outbox w) w.
Proof. split; [done|]. reflexivity. Qed.

Lemma emit_appends d o t p : preserves (appends_only d o) (emit t p).
Proof.
  intros w [Hd Ho]. destruct w; simpl in *. split; [done|].
  by apply prefix_app_r.
Qed.

Lemma set_timeout_appends d o t : preserves (appends_only d o) (set_timeout t).
Proof. intros w [Hd Ho]. by destruct w. Qed.

#[export] Hint Resolve emit_appends set_timeout_appends : gw.

Lemma set_db_same w : set_db (db w) w = w.
Proof. by destruct w. Qed.

Lemma db_call_gets {A} (f : DB -> A) w : db_call (gets f) w = (Ok (f (db w)), w).
Proof. unfold db_call, zoom, gets. by rewrite set_db_same. Qed.

Lemma db_call_setStatus w i st :
  exists o, db_call (UserService.setStatus i st) w =
              (Ok o, set_db (exec (user_update (key_id i) [UStatus st]) (db w)) w).
Proof. destruct (setStatus_run i st (db w)) as [o Ho]. exists o. by apply db_call_run. Qed.

(** Runs the leading reads of a handler: [get] and database lookups. *)
Ltac run_reads :=
  repeat first
    [ rewrite (bind_Ok get _ _ _ _ eq_refl)
    | rewrite (bind_Ok _ _ _ _ _ (db_call_gets _ _))
    | progress cbv beta ].

Lemma set_outbox_db o w : db (set_outbox o w) = db w /\ outbox (set_outbox o w) = o.
Proof. by destruct w. Qed.

Lemma db_set_db d w : db (set_db d w) = d.
Proof. by destruct w. Qed.
Lemma outbox_set_db d w : outbox (set_db d w) = outbox w.
Proof. by destruct w. Qed.
Lemma db_set_outbox o w : db (set_outbox o w) = db w.
Proof. by destruct w. Qed.
Lemma outbox_set_outbox o w : outbox (set_outbox o w) = o.
Proof. by destruct w. Qed.
Lemma db_set_timers t w : db (set_timers t w) = db w.
Proof. by destruct w. Qed.
Lemma outbox_set_timers t w : outbox (set_timers t w) = outbox w.
Proof. by destruct w. Qed.
Lemma timers_set_timers t w : timers (set_timers t w) = t.
Proof. by destruct w. Qed.
Lemma timers_set_outbox o w : timers (set_outbox o w) = timers w.
Proof. by destruct w. Qed.
Lemma timers_set_db d w : timers (set_db d w) = timers w.
Proof. by destruct w. Qed.

#[export] Hint Rewrite db_set_db outbox_set_db db_set_outbox outbox_set_outbox db_set_timers
  outbox_set_timers timers_set_timers timers_set_outbox timers_set_db : gw_rw.

(** ** Frame lemmas: what each primitive leaves alone

    A database call changes only the database, an emission only the
    outbox, a room move only the rooms: any property of the other fields
    is preserved.  The hints below discharge the side condition by
    rewriting the field projections. *)

Lemma db_call_frame {A} (P : World -> Prop) (c : M DB A) :
  (forall d w, P w -> P (set_db d w)) -> preserves P (db_call c).
Proof. intros HP w Hw. unfold db_call, zoom. destruct (c (db w)). by apply HP. Qed.

Lemma emit_frame (P : World -> Prop) t p :
  (forall o w, P w -> P (set_outbox o w)) -> preserves P (emit t p).
Proof. intros HP w Hw. by apply HP. Qed.

Lemma client_join_frame (P : World -> Prop) sid r :
  (forall m w, P w -> P (set_rooms m w)) -> preserves P (client_join sid r).
Proof. intros HP w Hw. by apply HP. Qed.

Lemma client_leave_frame (P : World -> Prop) sid r :
  (forall m w, P w -> P (set_rooms m w)) -> preserves P (client_leave sid r).
Proof. intros HP w Hw. by apply HP. Qed.

Ltac frame_side := intros ?? ?; autorewrite with gw_rw; done.

#[export] Hint Extern 3 (preserves _ (db_call _)) => apply db_call_frame; frame_side : gw.
#[export] Hint Extern 3 (preserves _ (emit _ _)) => apply emit_frame; frame_side : gw.
#[export] Hint Extern 3 (preserves _ (client_join _ _)) => apply client_join_frame; frame_side : gw.
#[export] Hint Extern 3 (preserves _ (client_leave _ _)) => apply client_leave_frame; frame_side : gw.

Lemma waitingQueue_set_queue q w : waitingQueue (set_queue q w) = q.
Proof. by destruct w. Qed.
Lemma invitations_set_invitations i w : invitations (set_invitations i w) = i.
Proof. by destruct w. Qed.
Lemma waitingQueue_set_db d w : waitingQueue (set_db d w) = waitingQueue w.
Proof. by destruct w. Qed.
Lemma waitingQueue_set_outbox o w : waitingQueue (set_outbox o w) = waitingQueue w.
Proof. by destruct w. Qed.
Lemma invitations_set_db d w : invitations (set_db d w) = invitations w.
Proof. by destruct w. Qed.
Lemma invitations_set_outbox o w : invitations (set_outbox o w) = invitations w.
Proof. by destruct w. Qed.
Lemma outbox_set_queue q w : outbox (set_queue q w) = outbox w.
Proof. by destruct w. Qed.
Lemma db_set_queue q w : db (set_queue q w) = db w.
Proof. by destruct w. Qed.
Lemma outbox_set_invitations i w : outbox (set_invitations i w) = outbox w.
Proof. by destruct w. Qed.
Lemma db_set_invitations i w : db (set_invitations i w) = db w.
Proof. by destruct w. Qed.
Lemma db_set_players p w : db (set_players p w) = db w.
Proof. by destruct w. Qed.
Lemma db_set_rooms m w : db (set_rooms m w) = db w.
Proof. by destruct w. Qed.
Lemma waitingQueue_set_players p w : waitingQueue (set_players p w) = waitingQueue w.
Proof. by destruct w. Qed.
Lemma invitations_set_players p w : invitations (set_players p w) = invitations w.
Proof. by destruct w. Qed.
Lemma set_queue_same w : set_queue (waitingQueue w) w = w.
Proof. by destruct w. Qed.
Lemma players_set_db d w : players (set_db d w) = players w.
Proof. by destruct w. Qed.
Lemma players_set_outbox o w : players (set_outbox o w) = players w.
Proof. by destruct w. Qed.
Lemma players_set_queue q w : players (set_queue q w) = players w.
Proof. by destruct w. Qed.
Lemma players_set_invitations i w : players (set_invitations i w) = players w.
Proof. by destruct w. Qed.
Lemma rooms_set_db d w : rooms (set_db d w) = rooms w.
Proof. by destruct w. Qed.
Lemma rooms_set_outbox o w : rooms (set_outbox o w) = rooms w.
Proof. by destruct w. Qed.
Lemma rooms_set_queue q w : rooms (set_queue q w) = rooms w.
Proof. by destruct w. Qed.
Lemma rooms_set_invitations i w : rooms (set_invitations i w) = rooms w.
Proof. by destruct w. Qed.
Lemma players_set_players p w : players (set_players p w) = p.
Proof. by destruct w. Qed.
Lemma rooms_set_rooms m w : rooms (set_rooms m w) = m.
Proof. by destruct w. Qed.
Lemma waitingQueue_set_timers t w : waitingQueue (set_timers t w) = waitingQueue w.
Proof. by destruct w. Qed.
Lemma invitations_set_timers t w : invitations (set_timers t w) = invitations w.
Proof. by destruct w. Qed.
Lemma waitingQueue_set_sockets l w : waitingQueue (set_sockets l w) = waitingQueue w.
Proof. by destruct w. Qed.
Lemma invitations_set_sockets l w : invitations (set_sockets l w) = invitations w.
Proof. by destruct w. Qed.
Lemma waitingQueue_set_rooms m w : waitingQueue (set_rooms m w) = waitingQueue w.
Proof. by destruct w. Qed.
Lemma invitations_set_rooms m w : invitations (set_rooms m w) = invitations w.
Proof. by destruct w. Qed.
Lemma invitations_set_queue q w : invitations (set_queue q w) = invitations w.
Proof. by destruct w. Qed.
Lemma waitingQueue_set_invitations i w : waitingQueue (set_invitations i w) = waitingQueue w.
Proof. by destruct w. Qed.

#[export] Hint Rewrite waitingQueue_set_queue invitations_set_invitations waitingQueue_set_db
  waitingQueue_set_outbox invitations_set_db invitations_set_outbox outbox_set_queue db_set_queue
  outbox_set_invitations db_set_invitations waitingQueue_set_rooms invitations_set_rooms
  invitations_set_queue waitingQueue_set_invitations db_set_players db_set_rooms
  waitingQueue_set_players invitations_set_players players_set_db players_set_outbox
  players_set_queue players_set_invitations rooms_set_db rooms_set_outbox rooms_set_queue
  rooms_set_invitations players_set_players rooms_set_rooms waitingQueue_set_timers
  invitations_set_timers waitingQueue_set_sockets invitations_set_sockets : gw_rw.

#[export] Hint Extern 4 (preserves _ (set_timeout _)) => unfold set_timeout : gw.

#[export] Hint Extern 4 (preserves _ (modify _)) =>
  apply preserves_modify; intros ??; autorewrite with gw_rw; done : gw.

(** Database reads change nothing. *)
Lemma db_call_gets_preserves {A} P (f : DB -> A) : preserves P (db_call (gets f)).
Proof. intros w Hw. by rewrite db_call_gets. Qed.

Lemma db_call_getUserByAuthId_preserves P o :
  preserves P (db_call (UserService.getUserByAuthId o)).
Proof. destruct o; [apply db_call_gets_preserves|]. intros w Hw. by destruct w. Qed.

#[export] Hint Resolve db_call_gets_preserves db_call_getUserByAuthId_preserves : gw.

(** A call wrapped in [try { } catch { }] always returns. *)
Lemma db_call_try_run (c : M DB unit) w :
  db_call (catch c (ret tt)) w = (Ok tt, set_db (exec (catch c (ret tt)) (db w)) w).
Proof. unfold db_call, zoom, exec, catch. by destruct (c (db w)) as [[[]|] d]. Qed.
