(* ===== verification/Session.v ===== *)
(** * Game Session: the per-game handlers of the gateway

    The [@SubscribeMessage] handlers of src/app/backend/src/game/game.gateway.ts
    that drive one match: [initGame], [checkGame], [leaveGame],
    [mapSelect], [gameMode], [updateUser], [gameFinished], [gameStart],
    [paddleMove] and [ballMove], as computations on the [World] of
    World.v, with the database calls of Store.v and the kinematics of
    Physics.v.  The [setTimeout] of [ballMove] is a pending [Timer]; its
    callback runs later, as its own step ([fire_timer]).  The handlers
    take the client's socket id and the message payload; a random draw
    ([Math.random()]) is a parameter. *)

From stdpp Require Import base list strings.
From Stdlib Require Import ZArith Lia QArith Qround Lqa.
From S2P Require Import Prelude Store Physics World.

Open Scope Z_scope.

Import UserService GameService.

Definition game_room (gameId : Z) : Target := ToRooms [RGame gameId].

Module Session.

(** [initGame]: attach the client to the game room and send the
    snapshot, or [{ payload: -1 }] when the game is finished or the
    sender is not one of its players. *)
Definition initGame (sid : string) (userAuthId gameId : Z) : GM unit :=
  let* g := db_call (getGameById gameId) in
  match g with
  | None => ret tt
  | Some g =>
      let* userLeft := db_call (getUserByAuthId (Some (leftPlayerId g))) in
      let* userRight := db_call (getUserByAuthId (Some (rightPlayerId g))) in
      if isFinished g || bool_decide (userAuthId <> rightPlayerId g /\ userAuthId <> leftPlayerId g)
      then emit (to_socket (Some sid)) PInitGameRefused
      else
        let* uL := deref userLeft in
        let* uR := deref userRight in
        client_join sid (RGame gameId);;
        db_call (setStatus (u_id uL) INGAME);;
        db_call (setStatus (u_id uR) INGAME);;
        emit ToAll update28;;
        emit (game_room gameId) (PInitGame g (username uL) (username uR))
  end.

(** [checkGame]: no [null] check, so an unknown id throws. *)
Definition checkGame (sid : string) (userAuthId gameId : Z) : GM unit :=
  let* g := db_call (getGameById gameId) in
  let* g := deref g in
  emit (game_room gameId) (PCheckGame (hasLeft g) (isFinished g) (gameMode g)).

(** [leaveGame]: leave the room, forfeit an undecided game, and tell
    the last socket still in the room that its opponent left. *)
Definition leaveGame (sid : string) (userAuthId gameId gameStatus : Z) : GM unit :=
  client_leave sid (RGame gameId);;
  let* g := db_call (getGameById gameId) in
  match g with
  | None => ret tt
  | Some g =>
      if isFinished g then
        db_call (setStatusWithauthId userAuthId ONLINE);;
        emit ToAll update28
      else
        db_call (handleLeave g userAuthId gameId);;
        when (bool_decide (gameStatus <> status_code FINISHED))
          (db_call (setStatusWithauthId userAuthId ONLINE);; emit ToAll update28);;
        let* w := get in
        let socketWinner := last_member w (RGame (g_id g)) in
        emit (to_socket socketWinner) (PGameStatus (status_code LEAVE));;
        emit (to_socket socketWinner) (PGameStatusSelect (status_code LEAVE))
  end.

(** The opponent's first socket, as [getKeyByValue(this.players, ...)]. *)
Definition opponent_socket (w : World) (g : Game) (userAuthId : Z) : option string :=
  if bool_decide (userAuthId = leftPlayerId g) then getKeyByValue (players w) (rightPlayerId g)
  else if bool_decide (userAuthId = rightPlayerId g) then getKeyByValue (players w) (leftPlayerId g)
  else None.

(** [mapSelect]: set the sender's map flag (a failed update keeps the
    row read before); when both flags are set, [mapSelected]. *)
Definition mapSelect (sid : string) (userAuthId gameId : Z) : GM unit :=
  let* g := db_call (getGameById gameId) in
  match g with
  | None => ret tt
  | Some g =>
      let* g :=
        if bool_decide (userAuthId = leftPlayerId g) then
          db_call (catch (game_update gameId [GLeftPlayerMap true]) (ret g))
        else if bool_decide (userAuthId = rightPlayerId g) then
          db_call (catch (game_update gameId [GRightPlayerMap true]) (ret g))
        else ret g in
      let* w := get in
      when (hasLeft g) (emit (to_socket (opponent_socket w g userAuthId))
                              (PGameStatus (status_code LEAVE)));;
      when (leftPlayerMap g && rightPlayerMap g) (emit (game_room gameId) PMapSelected)
  end.

(** The tie-break of [gameModeSelect]: the common choice, or
    [gameModes[Math.floor(Math.random() * 2)]] for the draw [r]. *)
Definition resolve_mode (leftMode rightMode : option string) (r : Q) : option string :=
  if decide (leftMode = rightMode) then leftMode
  else match Qfloor (r * 2) with
       | 0 => Some "normal"%string
       | 1 => Some "hard"%string
       | _ => None
       end.

Definition mode_speed (mode : option string) : Z :=
  if decide (mode = Some "normal"%string) then 40 else 50.

(** [gameMode]: record the sender's preference, resolve the mode, write
    it with its initial ball speed, and once both preferences are set
    announce [modeSelected]. *)
Definition gameModeSelect (sid : string) (userAuthId gameId : Z) (mode : option string) (r : Q)
    : GM unit :=
  let* g := db_call (getGameById gameId) in
  match g with
  | None => ret tt
  | Some g =>
      let* g :=
        if bool_decide (userAuthId = leftPlayerId g) then
          db_call (catch (game_update gameId [GLeftPlayerMode mode]) (ret g))
        else if bool_decide (userAuthId = rightPlayerId g) then
          db_call (catch (game_update gameId [GRightPlayerMode mode]) (ret g))
        else ret g in
      let* w := get in
      when (hasLeft g) (emit (to_socket (opponent_socket w g userAuthId))
                              (PGameStatus (status_code LEAVE)));;
      let md := resolve_mode (leftPlayerMode g) (rightPlayerMode g) r in
      let g := set_mode g md (Some (mode_speed md)) in
      db_call (updateGameDB gameId g);;
      when (truthy (leftPlayerMode g) && truthy (rightPlayerMode g))
        (emit (game_room gameId) (PModeSelected md))
  end.

(** [updateUser]: the client reports the end of its game; its win or
    loss is counted unless the game ended by a departure. *)
Definition updateUser (sid : string) (userAuthId gameId gameStatus : Z) : GM unit :=
  let* g := db_call (getGameById gameId) in
  match g with
  | None => ret tt
  | Some g =>
      when (negb (hasLeft g) && bool_decide (gameStatus <> status_code INIT))
        (if decide (winnerId g = Some userAuthId) then db_call (addWin userAuthId)
         else if decide (loserId g = Some userAuthId) then db_call (addLose userAuthId)
         else ret tt)
  end.

Definition gameFinished (sid : string) (gameId : Z) : GM unit :=
  db_call (GameService.gameFinished gameId).

(** [gameStart]: from [INIT], serve in a random direction and switch
    the snapshot to [PLAY].  [rs] are the draws the serve loop
    consumes; when they run out before a direction is accepted the
    draws do not describe a run of the loop and nothing is emitted. *)
Definition gameStart (sid : string) (gd : GameData) (rs : list Q) : GM unit :=
  if bool_decide (gameStatus gd = status_code INIT) then
    match generateRandomBallDirection rs with
    | None => ret tt
    | Some (x, y) =>
        let b := ball gd in
        let gd' := with_status (with_ball gd (mkBall (ballX b) (ballY b) x y (ballSpeed b)
                                                     (ballVelocity b)))
                               (status_code PLAY) in
        emit (game_room (gd_gameId gd)) (PGameStart gd');;
        emit (game_room (gd_gameId gd)) (PGameStatus (status_code PLAY))
    end
  else ret tt.

Definition paddleMoveH (sid : string) (gd : GameData) (player : Z) : GM unit :=
  emit (game_room (gd_gameId gd)) (PPaddleUpdate (handlePaddleMovement player gd)).

(** The score-limit branch of [ballMove]: end the match and tell each
    player, in their personal room, whether they won. *)
Definition finish_by_score (gd : GameData) : GM unit :=
  let* g' := db_call (endMatchByScore (gd_gameId gd) (scoreLeft gd) (scoreRight gd)
                                      (scoreLimit gd)) in
  let* g' := deref g' in
  let* winner := db_call (getUserByAuthId (winnerId g')) in
  let* winner := deref winner in
  let* loser := db_call (getUserByAuthId (loserId g')) in
  let* loser := deref loser in
  emit (ToRooms [RUser (u_id winner)]) (PGameStatus (status_code WIN));;
  emit (ToRooms [RUser (u_id loser)]) (PGameStatus (status_code LOSE)).

(** The scored-point branch: count the point, reset the ball to the
    game's initial speed ([null] counts as 0), schedule the score write
    100 ms later, and broadcast. *)
Definition score_and_reset (game : option Game) (gd : GameData) : GM unit :=
  let b := ball gd in
  let '(sl, sr) := score_point gd b in
  let* g := deref game in
  let gd' := with_scores (with_ball gd (reset_ball (frame gd) (default 0 (initialBallSpeed g)) b))
                         sl sr in
  when (negb (bool_decide (sr = scoreLimit gd /\ sl = scoreLimit gd)))
    (emit (game_room (gd_gameId gd)) (PGameStatus (status_code INIT)));;
  set_timeout (TUpdateScore (gd_gameId gd) sl sr (scoreLimit gd));;
  emit (game_room (gd_gameId gd)) (PBallUpdate gd');;
  emit (game_room (gd_gameId gd)) (PScoreUpdate gd').

(** [ballMove]: one physics step per client message. *)
Definition ballMove (sid : string) (gd0 : GameData) : GM unit :=
  let* game := db_call (getGameById (gd_gameId gd0)) in
  let f := frame gd0 in
  let gd := with_ball gd0 (collide f (leftPaddleY gd0) (rightPaddleY gd0) (ball gd0)) in
  when (bool_decide (scoreLeft gd = scoreLimit gd \/ scoreRight gd = scoreLimit gd))
    (finish_by_score gd);;
  if out_right f (ball gd) || out_left f (ball gd) then score_and_reset game gd
  else emit (game_room (gd_gameId gd)) (PBallUpdate (with_ball gd (advance (ball gd)))).

(** The [setTimeout] callback of [ballMove], run when the timer fires. *)
Definition fire_timer (t : Timer) : GM unit :=
  match t with
  | TUpdateScore gameId sl sr limit => db_call (updateScore gameId sl sr limit)
  end.
End Session.

(** ** Ending a match by score *)

Lemma db_call_getUserByAuthId w a :
  db_call (getUserByAuthId (Some a)) w = (Ok (user_by_authId (db w) a), w).
Proof. apply db_call_gets. Qed.

Lemma db_call_getGameById w i :
  db_call (getGameById i) w = (Ok (game_by_id (db w) i), w).
Proof. apply db_call_gets. Qed.

Section FinishByScore.
Context (w : World) (gd : GameData) (g : Game) (uL uR : User).
Hypothesis Hg : game_by_id (db w) (gd_gameId gd) = Some g.
Hypothesis HuL : user_by_authId (db w) (leftPlayerId g) = Some uL.
Hypothesis HuR : user_by_authId (db w) (rightPlayerId g) = Some uR.

Let g' := ended_by_score g (leftPlayerId g) (rightPlayerId g).
Let d' := db_write (db w) (gd_gameId gd) (fun _ => g').

Lemma finish_by_score_left :
  scoreLeft gd = scoreLimit gd ->
  Session.finish_by_score gd w =
    (Ok tt, set_outbox (outbox w ++ [(ToRooms [RUser (u_id uL)], PGameStatus (status_code WIN));
                                     (ToRooms [RUser (u_id uR)], PGameStatus (status_code LOSE))])
                       (set_db d' w)).
Proof.
  intros Hs. unfold Session.finish_by_score.
  rewrite (bind_Ok _ _ w _ _ (db_call_run _ w _ _ (endMatchByScore_left_spec _ _ g _ _ _ Hg Hs))).
  destruct (ended_by_score_fields g (leftPlayerId g) (rightPlayerId g)) as (Hw & Hl & _).
  cbn [deref]. rewrite bind_ret_l. cbv beta. rewrite Hw, Hl.
  rewrite (bind_Ok _ _ _ _ _ (db_call_getUserByAuthId _ _)).
  rewrite db_set_db, user_by_authId_write, HuL. cbn [deref]. rewrite bind_ret_l. cbv beta.
  rewrite (bind_Ok _ _ _ _ _ (db_call_getUserByAuthId _ _)).
  rewrite db_set_db, user_by_authId_write, HuR. cbn [deref]. rewrite bind_ret_l. cbv beta.
  unfold bind. rewrite !emit_run. autorewrite with gw_rw.
  destruct w; simpl. by rewrite <- app_assoc.
Qed.
End FinishByScore.

Lemma score_and_reset_appends d o game gd :
  preserves (appends_only d o) (Session.score_and_reset game gd).
Proof. unfold Session.score_and_reset. destruct (score_point gd (ball gd)). preserve. Qed.

Lemma ballMove_tail_appends d o game gd (b : bool) :
  preserves (appends_only d o)
    (if b then Session.score_and_reset game gd
     else emit (game_room (gd_gameId gd)) (PBallUpdate (with_ball gd (advance (ball gd))))).
Proof. destruct b; [apply score_and_reset_appends | apply emit_appends]. Qed.

(** C1. Reaching the score limit ends the match: when a [ballMove]
    message carries [scoreLeft = scoreLimit] for a game of the database,
    the row is written back finished with the left player as winner and
    the right player as loser, and the server sends [WIN] to the
    winner's personal room and [LOSE] to the loser's. *)
Theorem ballMove_score_limit (sid : string) (gd : GameData) (w : World) (g : Game) (uL uR : User) :
  game_by_id (db w) (gd_gameId gd) = Some g ->
  user_by_authId (db w) (leftPlayerId g) = Some uL ->
  user_by_authId (db w) (rightPlayerId g) = Some uR ->
  scoreLeft gd = scoreLimit gd ->
  let w' := exec (Session.ballMove sid gd) w in
  game_by_id (db w') (gd_gameId gd) = Some (ended_by_score g (leftPlayerId g) (rightPlayerId g)) /\
  (ToRooms [RUser (u_id uL)], PGameStatus (status_code WIN)) ∈ outbox w' /\
  (ToRooms [RUser (u_id uR)], PGameStatus (status_code LOSE)) ∈ outbox w'.
Proof.
  intros Hg HuL HuR Hs w'. subst w'. unfold Session.ballMove, exec.
  rewrite (bind_Ok _ _ _ _ _ (db_call_getGameById _ _)). cbv beta.
  set (gd1 := with_ball gd (collide (frame gd) (leftPaddleY gd) (rightPaddleY gd) (ball gd))).
  destruct (with_ball_proj gd (collide (frame gd) (leftPaddleY gd) (rightPaddleY gd) (ball gd)))
    as (Hid & _ & _ & Hsl & _ & Hlim & _). fold gd1 in Hid, Hsl, Hlim.
  rewrite bool_decide_eq_true_2 by (left; congruence). cbn [when].
  rewrite <- Hid in Hg. rewrite (bind_Ok _ _ _ _ _ (finish_by_score_left w gd1 g uL uR Hg HuL HuR
                                                     ltac:(congruence))).
  set (w1 := set_outbox _ _).
  match goal with |- context [(?c w1).2] =>
    assert (Hp : appends_only (db w1) (outbox w1) (c w1).2)
      by (apply ballMove_tail_appends, appends_only_refl); set (w2 := (c w1).2) in *
  end.
  destruct Hp as [Hd Ho]. rewrite Hd. subst w1. autorewrite with gw_rw in *. rewrite <- Hid.
  split; [|split].
  - apply (game_by_id_write_const _ _ g); [done|]. rewrite (proj2 (proj2 (proj2 (ended_by_score_fields _ _ _)))).
    by eapply game_by_id_id.
  - eapply elem_of_prefix; [|exact Ho]. autorewrite with gw_rw.
    apply elem_of_app. right. by left.
  - eapply elem_of_prefix; [|exact Ho]. autorewrite with gw_rw.
    apply elem_of_app. right. right. by left.
Qed.

Lemma ballMove_score_limit_witness :
  let uL := mkUser 1 10 "alice" INGAME 0 0 [] in
  let uR := mkUser 2 20 "bob" INGAME 0 0 [] in
  let g := mkGame 1 (Some "normal") 10 20 (Some "alice") (Some "bob") (Some "s1") (Some "s2")
                  4 3 None None false false true true (Some "normal") (Some "normal") (Some 40) in
  let w := mkWorld (mkDB [uL; uR] [g] 2) ["s1"; "s2"] [] [] [("s1", 10); ("s2", 20)] [] [] [] in
  let gd := mkGameData 1 (mkFrame 800 600 10 18 110 7 775) (mkBall 400 300 1 0 40 5)
                       245 245 5 3 5 "" 10 (status_code PLAY) in
  let w' := exec (Session.ballMove "s1" gd) w in
  game_by_id (db w') 1 = Some (ended_by_score g 10 20) /\
  (ToRooms [RUser 1], PGameStatus (status_code WIN)) ∈ outbox w' /\
  (ToRooms [RUser 2], PGameStatus (status_code LOSE)) ∈ outbox w'.
Proof.
  intros uL uR g w gd. apply (ballMove_score_limit "s1" gd w g uL uR); reflexivity.
Defined.

(** A point that does not end the game: when neither reported
    score is at the limit and the ball leaves on the right after the
    collision step, the left player's point is counted, the ball is
    served again from the centre at the game's initial speed, the score
    write is scheduled, and the room receives [INIT], the ball and the
    score, in that order; the database is not written.  [INIT] is sent
    even when the point brings the left score to the limit. *)
Theorem ballMove_point_right (sid : string) (gd : GameData) (w : World) (g : Game) :
  game_by_id (db w) (gd_gameId gd) = Some g ->
  scoreLeft gd <> scoreLimit gd -> scoreRight gd <> scoreLimit gd ->
  let b := collide (frame gd) (leftPaddleY gd) (rightPaddleY gd) (ball gd) in
  out_right (frame gd) b = true ->
  let gd' := with_scores (with_ball (with_ball gd b)
                                    (reset_ball (frame gd) (default 0 (initialBallSpeed g)) b))
                         (scoreLeft gd + 1) (scoreRight gd) in
  let room := game_room (gd_gameId gd) in
  let w' := exec (Session.ballMove sid gd) w in
  db w' = db w /\
  timers w' = timers w ++ [TUpdateScore (gd_gameId gd) (scoreLeft gd + 1) (scoreRight gd)
                                        (scoreLimit gd)] /\
  outbox w' = outbox w ++ [(room, PGameStatus (status_code INIT)); (room, PBallUpdate gd');
                           (room, PScoreUpdate gd')].
Proof.
  intros Hg Hl Hr b Hout gd' room w'. subst w' gd' room b.
  unfold Session.ballMove, exec. rewrite (bind_Ok _ _ _ _ _ (db_call_getGameById _ _)). cbv beta.
  autorewrite with gw_rw. rewrite bool_decide_eq_false_2 by tauto. cbn [when].
  rewrite bind_ret_l, Hout. simpl. rewrite Hg. unfold Session.score_and_reset.
  unfold score_point. autorewrite with gw_rw. rewrite Hout. cbn [deref]. rewrite bind_ret_l.
  rewrite bool_decide_eq_false_2 by tauto. simpl. autorewrite with gw_rw.
  split_and!; [done|done|]. by rewrite <- !app_assoc.
Qed.

Lemma ballMove_point_right_witness :
  let g := mkGame 1 (Some "normal") 10 20 (Some "alice") (Some "bob") (Some "s1") (Some "s2")
                  4 3 None None false false true true (Some "normal") (Some "normal") (Some 40) in
  let w := mkWorld (mkDB [] [g] 2) ["s1"; "s2"] [] [] [] [] [] [] in
  let f := mkFrame 800 600 10 18 110 7 775 in
  let gd := mkGameData 1 f (mkBall 795 300 1 0 40 5) 245 100 4 3 5 "" 10 (status_code PLAY) in
  let w' := exec (Session.ballMove "s1" gd) w in
  timers w' = [TUpdateScore 1 5 3 5] /\
  (game_room 1, PGameStatus (status_code INIT)) ∈ outbox w'.
Proof.
  intros g w f gd w'. subst w'.
  destruct (ballMove_point_right "s1" gd w g) as (_ & Ht & Ho);
    [reflexivity | discriminate | discriminate | vm_compute; reflexivity |].
  split; [exact Ht|]. rewrite Ho. by left.
Defined.

(** The tie-break of [gameMode]: when both preferences agree the
    common one is used, whatever the random draw; when they differ, a
    draw below one half selects ["normal"] and any other draw of
    [Math.random()] selects ["hard"], so each is chosen with probability
    one half. *)
Theorem resolve_mode_tie_break (l r : option string) (x : Q) :
  Session.resolve_mode l l x = l /\
  (l <> r -> (0 <= x < 1 # 2)%Q -> Session.resolve_mode l r x = Some "normal"%string) /\
  (l <> r -> (1 # 2 <= x < 1)%Q -> Session.resolve_mode l r x = Some "hard"%string).
Proof.
  unfold Session.resolve_mode. split; [by rewrite decide_True|].
  split; intros Hne Hx; rewrite decide_False by done.
  - rewrite (Qfloor_between _ 0); [done|]. unfold inject_Z. lra.
  - rewrite (Qfloor_between _ 1); [done|]. unfold inject_Z. lra.
Qed.

Lemma resolve_mode_tie_break_witness :
  Session.resolve_mode (Some "hard"%string) (Some "hard"%string) (1 # 3) = Some "hard"%string /\
  Session.resolve_mode (Some "normal"%string) (Some "hard"%string) (1 # 3) = Some "normal"%string /\
  Session.resolve_mode (Some "normal"%string) (Some "hard"%string) (2 # 3) = Some "hard"%string.
Proof.
  destruct (resolve_mode_tie_break (Some "normal"%string) (Some "hard"%string) (1 # 3))
    as [_ [H1 _]].
  destruct (resolve_mode_tie_break (Some "normal"%string) (Some "hard"%string) (2 # 3))
    as [_ [_ H2]].
  destruct (resolve_mode_tie_break (Some "hard"%string) (Some "hard"%string) (1 # 3)) as [H0 _].
  split_and!; [exact H0 | apply H1 | apply H2];
    first [discriminate | split; vm_compute; first [reflexivity | intros ?; discriminate]].
Defined.

Lemma updateUser_winner_run sid a i st w g u :
  game_by_id (db w) i = Some g -> hasLeft g = false -> st <> status_code INIT ->
  winnerId g = Some a -> user_by_authId (db w) a = Some u ->
  exec (Session.updateUser sid a i st) w = set_db (users_write (db w) a [UWins (wins u + 1)]) w.
Proof.
  intros Hg Hh Hst Hw Hu. unfold Session.updateUser, exec.
  rewrite (bind_Ok _ _ _ _ _ (db_call_getGameById _ _)). cbv beta. rewrite Hg, Hh.
  rewrite bool_decide_eq_true_2 by done. simpl. rewrite decide_True by done.
  by rewrite (db_call_run _ _ _ _ (addWin_spec _ _ _ Hu)).
Qed.

(** C17. [updateUser] is not idempotent: each report of the end of a
    game by its winner's client counts one more win, so a client that
    sends the message twice (a reload of the result page) is credited
    two wins for one game. *)
Theorem updateUser_counts_twice (sid : string) (a i st : Z) (w : World) (g : Game) (u : User) :
  game_by_id (db w) i = Some g -> hasLeft g = false -> st <> status_code INIT ->
  winnerId g = Some a -> user_by_authId (db w) a = Some u ->
  wins_of (db (exec (Session.updateUser sid a i st) (exec (Session.updateUser sid a i st) w))) a =
    Some (wins u + 2).
Proof.
  intros Hg Hh Hst Hw Hu.
  rewrite (updateUser_winner_run sid a i st w g u) by done.
  rewrite (updateUser_winner_run sid a i st _ g (apply_user_data u [UWins (wins u + 1)]));
    autorewrite with gw_rw; [| done | done | done | done |].
  - unfold wins_of. rewrite (user_by_authId_users_write_eq _ a _ (apply_user_data u [UWins (wins u + 1)])).
    + simpl. destruct u; simpl. f_equal. lia.
    + by apply user_by_authId_users_write_eq.
  - by apply user_by_authId_users_write_eq.
Qed.

Lemma updateUser_counts_twice_witness :
  let u := mkUser 1 10 "alice" INGAME 3 1 [] in
  let g := mkGame 7 (Some "normal") 10 20 (Some "alice") (Some "bob") (Some "s1") (Some "s2")
                  5 2 (Some 10) (Some 20) true false true true None None (Some 40) in
  let w := mkWorld (mkDB [u; mkUser 2 20 "bob" INGAME 0 0 []] [g] 8) ["s1"] [] [] [] [] [] [] in
  wins_of (db (exec (Session.updateUser "s1" 10 7 (status_code WIN))
                    (exec (Session.updateUser "s1" 10 7 (status_code WIN)) w))) 10 = Some 5.
Proof.
  intros u g w. apply (updateUser_counts_twice "s1" 10 7 (status_code WIN) w g u);
    first [reflexivity | discriminate].
Defined.
