(* ===== verification/Matchmaking.v ===== *)
(** * Matchmaking Queue: the [join-room] and [leaveQueue] handlers

    The [waitingQueue] of src/app/backend/src/game/game.gateway.ts and the
    two handlers that change it: [joinRoom] (the [join-room] message)
    appends the sender unless they are busy or already queued, and pairs
    the two oldest entries into a game as soon as two are waiting;
    [leaveQueue] removes the sender's entry.  The invariant of the queue
    (no identity twice, never two entries left unpaired) is proved
    preserved by both, and the pairing is shown to be FIFO. *)

From stdpp Require Import base list strings.
From Stdlib Require Import ZArith Lia.
From S2P Require Import Prelude Store World.

Open Scope Z_scope.

Import UserService GameService.

(** [server.to(a).to(b)]: the union of the sockets' own rooms. *)
Definition to_sockets (sids : list (option string)) : Target :=
  ToRooms (omap (fun o => RSocket <$> o) sids).

Module Matchmaking.

(** [const [user1, user2] = this.waitingQueue.splice(0, 2)], the game
    creation and the [match-found] event, reached once the queue holds
    at least two entries.  [createGame] answers [undefined] when Prisma
    fails; [game.id] then throws inside the [.then] callback. *)
Definition pair_up : GM unit :=
  let* w := get in
  match waitingQueue w with
  | user1 :: user2 :: rest =>
      modify (set_queue rest);;
      let* game := db_call (createGame (iu_username user1) (iu_username user2)
                                       (iu_socketId user1) (iu_socketId user2)
                                       (iu_authId user1) (iu_authId user2)) in
      let* game := deref game in
      emit (to_sockets [iu_socketId user1; iu_socketId user2]) (PMatchFound (g_id game))
  | _ => ret tt
  end.

(** [joinRoom]: build the [IUser] entry, reject a user whose status is
    [INGAME] or [INQUEUE] (the two [checkStatus] calls of the [||]), set
    the status [INQUEUE] by the payload's [userId], skip a user already
    queued, else append and try to pair. *)
Definition joinRoom (sid : string) (userId userAuthId : Z) : GM unit :=
  let* name := db_call (getUserNameByAuthId userAuthId) in
  let* st := db_call (checkStatus userAuthId) in
  let user := mkIUser userId userAuthId name st (Some sid) in
  let* s1 := db_call (checkStatus userAuthId) in
  let* busy :=
    if decide (s1 = Some INGAME) then ret true
    else let* s2 := db_call (checkStatus userAuthId) in ret (bool_decide (s2 = Some INQUEUE)) in
  if busy then emit (to_socket (Some sid)) PError
  else
    db_call (setStatus userId INQUEUE);;
    emit ToAll update28;;
    let* w := get in
    if some (fun u => bool_decide (iu_authId u = userAuthId)) (waitingQueue w) then ret tt
    else
      modify (fun w => set_queue (waitingQueue w ++ [user]) w);;
      pair_up.

(** [leaveQueue]: find the sender's entry by socket id; the index is
    computed before the status update and used by the [splice] after it. *)
Definition leaveQueue (sid : string) (userAuthId : Z) : GM unit :=
  let* w := get in
  match findIndex (fun u => bool_decide (iu_socketId u = Some sid)) (waitingQueue w) with
  | None => ret tt
  | Some i =>
      match waitingQueue w !! i with
      | Some u =>
          if bool_decide (iu_socketId u = Some sid) then
            db_call (setStatusWithauthId userAuthId ONLINE);;
            emit ToAll update28;;
            modify (fun w => set_queue (remove_at i (waitingQueue w)) w)
          else ret tt
      | None => ret tt
      end
  end.
End Matchmaking.

(** ** The queue invariant *)

(** No identity is queued twice, and at most one entry waits: a second
    arrival is paired at once. *)
Definition queue_ok (q : list IUser) : Prop :=
  NoDup (map iu_authId q) /\ (length q <= 1)%nat.

Lemma queue_ok_nil : queue_ok [].
Proof. split; [constructor | simpl; lia]. Qed.

Lemma queue_ok_remove_at q i : queue_ok q -> queue_ok (remove_at i q).
Proof.
  intros [Hnd Hl]. split.
  - eapply NoDup_map_sublist; [apply remove_at_sublist | done].
  - pose proof (length_remove_at_le q i). lia.
Qed.

Lemma queue_ok_append q u :
  queue_ok q -> some (fun v => bool_decide (iu_authId v = iu_authId u)) q = false ->
  NoDup (map iu_authId (q ++ [u])) /\ (length (q ++ [u]) <= 2)%nat.
Proof.
  intros [Hnd Hl] Hs. rewrite length_app. simpl. split; [|lia].
  apply NoDup_map_snoc; [done|]. intros y Hy. apply (bool_decide_eq_false (iu_authId y = iu_authId u)). by apply (some_false _ _ Hs).
Qed.

Lemma pair_up_ok w :
  NoDup (map iu_authId (waitingQueue w)) -> (length (waitingQueue w) <= 2)%nat ->
  queue_ok (waitingQueue (exec Matchmaking.pair_up w)).
Proof.
  intros Hnd Hlen. unfold Matchmaking.pair_up, exec. rewrite (bind_Ok get _ w w w eq_refl).
  destruct (waitingQueue w) as [|u1 [|u2 [|u3 rest]]] eqn:Eq; simpl in Hlen; try lia;
    [simpl; rewrite Eq; split; [done | simpl; lia] ..|].
  rewrite (bind_Ok _ _ w tt (set_queue [] w) eq_refl).
  match goal with |- queue_ok (waitingQueue (?c _).2) =>
    assert (Hc : preserves (fun w => queue_ok (waitingQueue w)) c) by preserve end.
  apply Hc. rewrite waitingQueue_set_queue. apply queue_ok_nil.
Qed.

Lemma set_queue_remove_at_ok i :
  preserves (fun w => queue_ok (waitingQueue w))
    (modify (fun w => set_queue (remove_at i (waitingQueue w)) w)).
Proof. apply preserves_modify. intros w. rewrite waitingQueue_set_queue. apply queue_ok_remove_at. Qed.

#[export] Hint Resolve set_queue_remove_at_ok : gw.

Lemma leaveQueue_queue_ok sid userAuthId w :
  queue_ok (waitingQueue w) ->
  queue_ok (waitingQueue (exec (Matchmaking.leaveQueue sid userAuthId) w)).
Proof.
  revert w. change (preserves (fun w => queue_ok (waitingQueue w))
                             (Matchmaking.leaveQueue sid userAuthId)).
  unfold Matchmaking.leaveQueue. apply preserves_bind_get. intros w Hw.
  destruct (findIndex _ _) as [i|]; [|done]. destruct (_ !! i); [|done].
  case_bool_decide; [|done]. apply (preserves_run (fun w => queue_ok (waitingQueue w))); [|done].
  preserve.
Qed.

(** [join-room] keeps the queue invariant. *)
Lemma joinRoom_queue_ok (sid : string) (userId userAuthId : Z) (w : World) :
  queue_ok (waitingQueue w) ->
  queue_ok (waitingQueue (exec (Matchmaking.joinRoom sid userId userAuthId) w)).
Proof.
  revert w. change (preserves (fun w => queue_ok (waitingQueue w))
                             (Matchmaking.joinRoom sid userId userAuthId)).
  unfold Matchmaking.joinRoom. preserve_cases.
  match goal with H : queue_ok (waitingQueue ?s) |- context [some ?p (waitingQueue ?s)] =>
    destruct (some p (waitingQueue s)) eqn:E; [done|] end.
  apply pair_up_ok; rewrite waitingQueue_set_queue; by apply queue_ok_append.
Qed.

(** The first arrival: on an empty queue, a free identity is queued
    alone, marked [INQUEUE] (by its payload's [userId]) and the presence
    broadcast is the only event. *)
Lemma joinRoom_enqueue sid uid a w ua :
  waitingQueue w = [] -> user_by_authId (db w) a = Some ua ->
  status ua <> INGAME -> status ua <> INQUEUE ->
  let w' := exec (Matchmaking.joinRoom sid uid a) w in
  waitingQueue w' = [mkIUser uid a (Some (username ua)) (Some (status ua)) (Some sid)] /\
  outbox w' = outbox w ++ [(ToAll, update28)] /\
  db w' = exec (user_update (key_id uid) [UStatus INQUEUE]) (db w) /\
  sockets w' = sockets w /\ rooms w' = rooms w.
Proof.
  intros Hq Hu Hs1 Hs2 w'. subst w'. unfold Matchmaking.joinRoom, exec.
  unfold checkStatus, getUserNameByAuthId. rewrite !(bind_Ok _ _ _ _ _ (db_call_gets _ _)).
  cbv beta. rewrite Hu. simpl. rewrite decide_False by congruence.
  assert (Hb : (let* s2 := db_call (gets (fun d => status <$> user_by_authId d a)) in
                ret (bool_decide (s2 = Some INQUEUE))) w = (Ok false, w)).
  { rewrite (bind_Ok _ _ _ _ _ (db_call_gets _ _)), Hu. simpl.
    rewrite bool_decide_eq_false_2; [done|congruence]. }
  rewrite (bind_Ok _ _ _ _ _ Hb). cbv beta iota.
  destruct (setStatus_run uid INQUEUE (db w)) as [o Hst].
  rewrite (bind_Ok _ _ _ _ _ (db_call_run _ _ _ _ Hst)).
  rewrite (bind_Ok _ _ _ _ _ (emit_run _ _ _)), (bind_Ok get _ _ _ _ eq_refl).
  autorewrite with gw_rw. rewrite Hq. simpl.
  rewrite (bind_Ok (modify _) _ _ tt _ eq_refl). unfold Matchmaking.pair_up.
  rewrite (bind_Ok get _ _ _ _ eq_refl). autorewrite with gw_rw. rewrite Hq. simpl.
  destruct w; simpl. split_and!; reflexivity.
Qed.

(** FIFO pairing (the spec's two-player scenario): when one entry
    [u1] waits and a second, free identity joins, the queue is emptied,
    a game is created with the longer-waiting [u1] as left player and
    the newcomer as right player, and after the presence broadcast the
    only event is one [match-found] carrying the new game's id to both
    sockets. *)
Theorem joinRoom_pairs_fifo (sid : string) (userId a : Z) (w : World) (u1 : IUser)
    (ua1 ua : User) :
  waitingQueue w = [u1] -> iu_authId u1 <> a ->
  user_by_authId (db w) (iu_authId u1) = Some ua1 -> user_by_authId (db w) a = Some ua ->
  status ua <> INGAME -> status ua <> INQUEUE ->
  let w' := exec (Matchmaking.joinRoom sid userId a) w in
  waitingQueue w' = [] /\
  last (games (db w')) =
    Some (new_game (db w) (iu_username u1) (Some (username ua)) (iu_socketId u1) (Some sid)
                   (iu_authId u1) a) /\
  outbox w' = outbox w ++ [(ToAll, update28);
                           (to_sockets [iu_socketId u1; Some sid], PMatchFound (next_game_id (db w)))].
Proof.
  intros Hq Hne Hu1 Hu Hs1 Hs2 w'. subst w'. unfold Matchmaking.joinRoom, exec.
  unfold checkStatus, getUserNameByAuthId. rewrite !(bind_Ok _ _ _ _ _ (db_call_gets _ _)).
  cbv beta. rewrite Hu. simpl. rewrite decide_False by congruence.
  assert (Hb : (let* s2 := db_call (gets (fun d => status <$> user_by_authId d a)) in
                ret (bool_decide (s2 = Some INQUEUE))) w = (Ok false, w)).
  { rewrite (bind_Ok _ _ _ _ _ (db_call_gets _ _)), Hu. simpl.
    rewrite bool_decide_eq_false_2; [done|congruence]. }
  rewrite (bind_Ok _ _ _ _ _ Hb). cbv beta iota.
  destruct (setStatus_run userId INQUEUE (db w)) as [o Hst].
  rewrite (bind_Ok _ _ _ _ _ (db_call_run _ _ _ _ Hst)).
  destruct (user_update_frame (key_id userId) [UStatus INQUEUE] (db w)) as (Hg & Hn & Hk).
  set (d1 := exec (user_update (key_id userId) [UStatus INQUEUE]) (db w)) in *.
  rewrite (bind_Ok _ _ _ _ _ (emit_run _ _ _)), (bind_Ok get _ _ _ _ eq_refl).
  autorewrite with gw_rw. rewrite Hq. simpl. rewrite bool_decide_eq_false_2 by done. simpl.
  rewrite (bind_Ok (modify _) _ _ tt _ eq_refl). unfold Matchmaking.pair_up.
  rewrite (bind_Ok get _ _ _ _ eq_refl). autorewrite with gw_rw. rewrite Hq. simpl.
  rewrite (bind_Ok (modify _) _ _ tt _ eq_refl).
  set (w2 := set_queue [] _).
  assert (Hd : db w2 = d1) by (subst w2; by autorewrite with gw_rw).
  destruct (proj2 (Hk _) (mk_is_Some _ _ Hu1)) as [v1 Hv1].
  destruct (proj2 (Hk _) (mk_is_Some _ _ Hu)) as [v Hv]. rewrite <- Hd in Hv1, Hv.
  rewrite (bind_Ok _ _ _ _ _ (db_call_run _ _ _ _ (createGame_run _ _ _ _ _ _ _ _ _ Hv1 Hv))).
  simpl. autorewrite with gw_rw. rewrite Hd. simpl. rewrite last_snoc. unfold new_game. rewrite Hn.
  subst w2. autorewrite with gw_rw. split_and!; [done|done|]. by rewrite <- app_assoc.
Qed.

(** No double queueing: a [join-room] from an identity that is
    already queued leaves the queue exactly as it was, whatever its
    status in the database. *)
Theorem joinRoom_no_double_queue (sid : string) (userId a : Z) (w : World) (u : IUser) :
  u ∈ waitingQueue w -> iu_authId u = a ->
  waitingQueue (exec (Matchmaking.joinRoom sid userId a) w) = waitingQueue w.
Proof.
  intros Hin Ha. remember (waitingQueue w) as q eqn:Hq. symmetry in Hq. revert w Hq.
  change (preserves (fun w => waitingQueue w = q) (Matchmaking.joinRoom sid userId a)).
  unfold Matchmaking.joinRoom. preserve_cases.
  match goal with H : waitingQueue ?s = q |- _ => rewrite H end.
  by rewrite (some_true _ q u Hin) by (by apply bool_decide_eq_true).
Qed.

Lemma joinRoom_pairs_fifo_witness :
  let ua1 := mkUser 1 10 "alice" INQUEUE 0 0 [] in
  let ua := mkUser 2 20 "bob" ONLINE 0 0 [] in
  let u1 := mkIUser 1 10 (Some "alice") (Some ONLINE) (Some "s1") in
  let w := mkWorld (mkDB [ua1; ua] [] 1) ["s1"; "s2"] [u1] [] [("s1", 10); ("s2", 20)]
                   [] [] [] in
  let w' := exec (Matchmaking.joinRoom "s2" 2 20) w in
  waitingQueue w' = [] /\
  last (games (db w')) =
    Some (new_game (db w) (Some "alice") (Some "bob") (Some "s1") (Some "s2") 10 20) /\
  outbox w' = [(ToAll, update28); (to_sockets [Some "s1"; Some "s2"], PMatchFound 1)].
Proof.
  intros ua1 ua u1 w. apply (joinRoom_pairs_fifo "s2" 2 20 w u1 ua1 ua);
    first [reflexivity | discriminate | lia].
Defined.

Lemma joinRoom_no_double_queue_witness :
  let u := mkIUser 1 10 (Some "alice") (Some INQUEUE) (Some "s1") in
  let w := mkWorld (mkDB [mkUser 1 10 "alice" INQUEUE 0 0 []] [] 1) ["s1"; "s3"] [u] []
                   [("s1", 10); ("s3", 10)] [] [] [] in
  waitingQueue (exec (Matchmaking.joinRoom "s3" 1 10) w) = [u].
Proof. intros u w. apply (joinRoom_no_double_queue "s3" 1 10 w u); [by left | reflexivity]. Defined.
