(* ===== verification/Invites.v ===== *)
(** * Invite Broker: the [inviteInit], [inviteAccepted] and [inviteDeclined] handlers

    The [invitations] list of src/app/backend/src/game/game.gateway.ts
    and the three handlers that change it.  [inviteInit] records an
    invitation after five checks (invited exists, is [ONLINE], is not
    already invited by the same inviter, is not the inviter, has not
    blocked the inviter) and notifies the invited socket; [inviteAccepted]
    turns a matching invitation into a game; [inviteDeclined] drops an
    invitation.  The invariant (at most one pending invitation per
    ordered pair of identities) is preserved by all three. *)

From stdpp Require Import base list strings.
From Stdlib Require Import ZArith Lia.
From S2P Require Import Prelude Store World.

Open Scope Z_scope.

Import UserService GameService.

Module Invites.

(** The condition of [invitations.some(...)]: same invited and same
    inviter, compared by [authId]. *)
Definition same_pair (inviter invited : IUser) (i : IInvite) : bool :=
  bool_decide (iu_authId (World.invited i) = iu_authId invited /\
               iu_authId (World.inviter i) = iu_authId inviter).

(** [inviteInit(client, payload)]: [payload] is the invited user's id.
    The inviter is the user of the sender's socket ([players.get]).  The
    block list is read with a Prisma call whose failure leaves it
    [undefined]; it is dereferenced only when the four checks before it
    in the [||] pass. *)
Definition inviteInit (sid : string) (payload : Z) : GM unit :=
  let* w := get in
  let* inviterTmp := db_call (getUserByAuthId (jm_get (players w) sid)) in
  let* invitedTmp := db_call (getUserById payload) in
  match invitedTmp, inviterTmp with
  | Some invitedTmp, Some inviterTmp =>
      let* st1 := db_call (checkStatus (authId inviterTmp)) in
      let inviter := mkIUser (u_id inviterTmp) (authId inviterTmp) (Some (username inviterTmp))
                             st1 (Some sid) in
      let* st2 := db_call (checkStatus (authId invitedTmp)) in
      let* w := get in
      let invited := mkIUser (u_id invitedTmp) (authId invitedTmp) (Some (username invitedTmp))
                             st2 (getKeyByValue (players w) (authId invitedTmp)) in
      let* invitedBlockList :=
        db_call (gets (fun d => usersBlocked <$> user_by_authId d (iu_authId invited))) in
      let* statusInvited := db_call (checkStatus (iu_authId invited)) in
      let* w := get in
      if negb (truthy (iu_username invited)) || bool_decide (statusInvited <> Some ONLINE) ||
         some (same_pair inviter invited) (invitations w) ||
         bool_decide (iu_authId inviter = iu_authId invited)
      then ret tt
      else
        let* blocked := deref invitedBlockList in
        if bool_decide (iu_id inviter ∈ blocked) then ret tt
        else
          modify (fun w => set_invitations (invitations w ++ [mkIInvite inviter invited]) w);;
          emit (to_socket (iu_socketId invited))
               (PInvitation (iu_id inviter) (iu_username inviter))
  | _, _ => ret tt
  end.

(** The [for ... of] loop with [break] of [inviteAccepted]: the first
    invitation of that invited and inviter, by user id. *)
Definition matching (invitedId inviterId : Z) (i : IInvite) : bool :=
  bool_decide (iu_id (World.invited i) = invitedId /\ iu_id (World.inviter i) = inviterId).

(** [inviteAccepted]: drop every invitation of this inviter, create the
    game (inviter left, invited right), set both statuses [INGAME] and
    send the game id to both sockets.  [game.id] of a failed creation
    ([undefined]) throws at the first [inviteAccepted] emission. *)
Definition inviteAccepted (sid : string) (invitedId inviterId : Z) : GM unit :=
  let* w := get in
  match find_first (matching invitedId inviterId) (invitations w) with
  | None => ret tt
  | Some good =>
      let '(gInviter, gInvited) := (World.inviter good, World.invited good) in
      modify (fun w => set_invitations
                         (filter (fun i => iu_id (World.inviter i) <> inviterId) (invitations w)) w);;
      let* game := db_call (createGame (iu_username gInviter) (iu_username gInvited)
                                       (iu_socketId gInviter) (iu_socketId gInvited)
                                       (iu_authId gInviter) (iu_authId gInvited)) in
      db_call (setStatus (iu_id gInviter) INGAME);;
      db_call (setStatus (iu_id gInvited) INGAME);;
      emit ToAll update28;;
      let* game := deref game in
      emit (to_socket (iu_socketId gInviter)) (PInviteAccepted gInviter (g_id game));;
      emit (to_socket (iu_socketId gInvited)) (PInviteAccepted gInvited (g_id game))
  end.

(** [inviteDeclined]: the loop takes the first invitation of the list
    and breaks at once; the payload is never read. *)
Definition inviteDeclined (sid : string) (invitedId inviterId : Z) : GM unit :=
  let* w := get in
  match invitations w with
  | [] => ret tt
  | good :: _ =>
      modify (fun w => set_invitations
                         (filter (fun i => iu_id (World.inviter i) <> iu_id (World.inviter good) \/
                                           iu_id (World.invited i) <> iu_id (World.invited good))
                                 (invitations w)) w)
  end.
End Invites.

(** ** The invitation invariant *)

Definition inv_key (i : IInvite) : Z * Z := (iu_authId (inviter i), iu_authId (invited i)).

(** At most one pending invitation per ordered pair (inviter, invited). *)
Definition invitations_ok (l : list IInvite) : Prop := NoDup (map inv_key l).

Lemma inviteInit_ok sid p w :
  invitations_ok (invitations w) ->
  invitations_ok (invitations (exec (Invites.inviteInit sid p) w)).
Proof.
  revert w. change (preserves (fun w => invitations_ok (invitations w)) (Invites.inviteInit sid p)).
  unfold Invites.inviteInit. preserve_cases. resume. preserve_cases. resume. preserve_cases.
  match goal with |- context [if ?b then _ else _] => destruct b eqn:E; [done|] end.
  apply orb_false_iff in E as [E _]. apply orb_false_iff in E as [_ E].
  match goal with a : option (list Z) |- _ => destruct a as [bl|]; [|done] end.
  cbn [deref]. rewrite bind_ret_l. case_bool_decide; [done|].
  rewrite bind_modify. resume; [preserve|]. autorewrite with gw_rw.
  apply NoDup_map_snoc; [done|]. intros y Hy Heq. pose proof (some_false _ _ E y Hy) as Hf.
  unfold Invites.same_pair, inv_key in *. simpl in *. injection Heq as Hk1 Hk2.
  apply bool_decide_eq_false in Hf. naive_solver.
Qed.

Lemma set_invitations_filter_ok (P : IInvite -> Prop) `{forall x, Decision (P x)} :
  preserves (fun w => invitations_ok (invitations w))
    (modify (fun w => set_invitations (filter P (invitations w)) w)).
Proof.
  apply preserves_modify. intros w Hw. rewrite invitations_set_invitations.
  by apply NoDup_map_filter.
Qed.

#[export] Hint Resolve set_invitations_filter_ok : gw.

Lemma inviteAccepted_ok sid x y w :
  invitations_ok (invitations w) ->
  invitations_ok (invitations (exec (Invites.inviteAccepted sid x y) w)).
Proof.
  revert w. change (preserves (fun w => invitations_ok (invitations w))
                             (Invites.inviteAccepted sid x y)).
  unfold Invites.inviteAccepted. preserve_cases.
  destruct (find_first _ _); [|done]. resume. preserve.
Qed.

Lemma inviteDeclined_ok sid x y w :
  invitations_ok (invitations w) ->
  invitations_ok (invitations (exec (Invites.inviteDeclined sid x y) w)).
Proof.
  revert w. change (preserves (fun w => invitations_ok (invitations w))
                             (Invites.inviteDeclined sid x y)).
  unfold Invites.inviteDeclined. preserve_cases.
  match goal with |- context [match invitations ?s with _ => _ end] =>
    destruct (invitations s) eqn:E; rewrite <- E in *; [done|] end.
  resume. preserve.
Qed.

(** C5. The spec's blocked-invite scenario: when the invited user has
    blocked the inviter, [inviteInit] changes nothing at all (no
    invitation is recorded and no event is sent). *)
Theorem inviteInit_blocked (sid : string) (p a : Z) (w : World) (ui uv ub : User) :
  jm_get (players w) sid = Some a -> user_by_authId (db w) a = Some ui ->
  user_by_id (db w) p = Some uv -> user_by_authId (db w) (authId uv) = Some ub ->
  u_id ui ∈ usersBlocked ub ->
  exec (Invites.inviteInit sid p) w = w.
Proof.
  intros Hp Hi Hv Hb Hbl. unfold Invites.inviteInit, exec, getUserByAuthId, getUserById, checkStatus.
  run_reads. rewrite Hp. run_reads. rewrite Hv, Hi. simpl. run_reads. rewrite Hb. simpl.
  match goal with |- context [if ?b then _ else _] => destruct b; [done|] end.
  cbn [deref]. rewrite bind_ret_l. by rewrite bool_decide_eq_true_2.
Qed.

(** The consequence, on the smallest case: with A's invitation to B
    pending before C's invitation to D, D declining C's invitation
    removes A's invitation to B and keeps C's. *)
Example inviteDeclined_removes_wrong_invitation :
  let A := mkIUser 1 101 (Some "a") (Some ONLINE) (Some "sa") in
  let B := mkIUser 2 102 (Some "b") (Some ONLINE) (Some "sb") in
  let C := mkIUser 3 103 (Some "c") (Some ONLINE) (Some "sc") in
  let D := mkIUser 4 104 (Some "d") (Some ONLINE) (Some "sd") in
  let w := mkWorld (mkDB [] [] 1) ["sa"; "sb"; "sc"; "sd"] []
                   [mkIInvite A B; mkIInvite C D] [] [] [] [] in
  invitations (exec (Invites.inviteDeclined "sd" 4 3) w) = [mkIInvite C D].
Proof. vm_compute. reflexivity. Qed.

(** Accepting an invitation: when the named invitation is pending
    and both users exist, every invitation sent by that inviter is
    dropped (the others are kept, in order), a game is created with the
    inviter as left player and the invited as right player, and both
    sockets receive [inviteAccepted] with the new game's id after the
    presence broadcast. *)
Theorem inviteAccepted_creates_game (sid : string) (x y : Z) (w : World) (good : IInvite)
    (u1 u2 : User) :
  find_first (Invites.matching x y) (invitations w) = Some good ->
  user_by_authId (db w) (iu_authId (inviter good)) = Some u1 ->
  user_by_authId (db w) (iu_authId (invited good)) = Some u2 ->
  let w' := exec (Invites.inviteAccepted sid x y) w in
  let gid := next_game_id (db w) in
  invitations w' = filter (fun i => iu_id (inviter i) <> y) (invitations w) /\
  last (games (db w')) =
    Some (new_game (db w) (iu_username (inviter good)) (iu_username (invited good))
                   (iu_socketId (inviter good)) (iu_socketId (invited good))
                   (iu_authId (inviter good)) (iu_authId (invited good))) /\
  outbox w' = outbox w ++
    [(ToAll, update28);
     (to_socket (iu_socketId (inviter good)), PInviteAccepted (inviter good) gid);
     (to_socket (iu_socketId (invited good)), PInviteAccepted (invited good) gid)].
Proof.
  intros Hf Hu1 Hu2 w' gid. subst w' gid. unfold Invites.inviteAccepted, exec.
  run_reads. rewrite Hf. simpl. rewrite bind_modify.
  set (w1 := set_invitations _ w).
  assert (Hd : db w1 = db w) by (subst w1; by autorewrite with gw_rw).
  rewrite <- Hd in Hu1, Hu2.
  rewrite (bind_Ok _ _ _ _ _ (db_call_run _ _ _ _ (createGame_run _ _ _ _ _ _ _ _ _ Hu1 Hu2))).
  set (w2 := set_db _ w1).
  destruct (db_call_setStatus w2 (iu_id (inviter good)) INGAME) as [o1 H1].
  rewrite (bind_Ok _ _ _ _ _ H1). set (w3 := set_db _ w2).
  destruct (db_call_setStatus w3 (iu_id (invited good)) INGAME) as [o2 H2].
  rewrite (bind_Ok _ _ _ _ _ H2), (bind_Ok _ _ _ _ _ (emit_run _ _ _)). cbn [deref].
  rewrite bind_ret_l, (bind_Ok _ _ _ _ _ (emit_run _ _ _)), emit_run. simpl.
  subst w3 w2 w1. autorewrite with gw_rw. simpl. rewrite last_snoc. split_and!; [done|done|].
  by rewrite <- !app_assoc.
Qed.

Lemma inviteInit_blocked_witness :
  let ui := mkUser 1 10 "alice" ONLINE 0 0 [] in
  let uv := mkUser 2 20 "bob" ONLINE 0 0 [1] in
  let w := mkWorld (mkDB [ui; uv] [] 1) ["s1"; "s2"] [] [] [("s1", 10); ("s2", 20)] [] [] [] in
  exec (Invites.inviteInit "s1" 2) w = w.
Proof.
  intros ui uv w. apply (inviteInit_blocked "s1" 2 10 w ui uv uv); first [reflexivity | by left].
Defined.

Lemma inviteAccepted_creates_game_witness :
  let u1 := mkUser 1 10 "alice" ONLINE 0 0 [] in
  let u2 := mkUser 2 20 "bob" ONLINE 0 0 [] in
  let A := mkIUser 1 10 (Some "alice") (Some ONLINE) (Some "s1") in
  let B := mkIUser 2 20 (Some "bob") (Some ONLINE) (Some "s2") in
  let w := mkWorld (mkDB [u1; u2] [] 1) ["s1"; "s2"] [] [mkIInvite A B] [("s1", 10); ("s2", 20)]
                   [] [] [] in
  let w' := exec (Invites.inviteAccepted "s2" 2 1) w in
  invitations w' = [] /\
  last (games (db w')) = Some (new_game (db w) (Some "alice") (Some "bob") (Some "s1") (Some "s2") 10 20) /\
  outbox w' = [(ToAll, update28); (to_socket (Some "s1"), PInviteAccepted A 1);
               (to_socket (Some "s2"), PInviteAccepted B 1)].
Proof.
  intros u1 u2 A B w. apply (inviteAccepted_creates_game "s2" 2 1 w (mkIInvite A B) u1 u2);
    reflexivity.
Defined.
