(* ===== verification/Connection.v ===== *)
(** * Connection Registry: [handleConnection] and [handleDisconnect]

    The [OnGatewayConnection]/[OnGatewayDisconnect] hooks of
    src/app/backend/src/game/game.gateway.ts.  A connection records the
    socket's user in [players] and sets the user [ONLINE] unless they are
    queued under another socket or in a game.  A disconnection cascades:
    it drops the user's invitations, their queue entry, marks them
    [OFFLINE] unless another socket of theirs is connected, forfeits
    their last game if it is undecided, tells the socket left in the game
    room, and forgets the socket.  The handshake's [authId] is [None] when
    absent; [0] is falsy in JavaScript too.  Each block of the handler is
    one definition, composed as the code sequences them. *)

From stdpp Require Import base list strings.
From Stdlib Require Import ZArith Lia.
From S2P Require Import Prelude Store Physics World.

Open Scope Z_scope.

Import UserService GameService.

Module Connection.

(** [if (!userAuthId) return;] *)
Definition authenticated (hs : option Z) : option Z :=
  match hs with Some a => if bool_decide (a = 0) then None else Some a | None => None end.

Definition forget_socket (sid : string) : GM unit :=
  modify (fun w => set_players (jm_delete (players w) sid) w).

(** [handleConnection] *)
Definition handleConnection (sid : string) (hs : option Z) : GM unit :=
  match authenticated hs with
  | None => ret tt
  | Some a =>
      modify (fun w => set_players (jm_set (players w) sid a) w);;
      let* w := get in
      let* proceed :=
        match findIndex (fun u => bool_decide (iu_authId u = a)) (waitingQueue w) with
        | Some i =>
            let* u := deref (waitingQueue w !! i) in
            ret (bool_decide (iu_socketId u = Some sid))
        | None =>
            let* st := db_call (checkStatus a) in
            ret (negb (bool_decide (st = Some INGAME)))
        end in
      when proceed (db_call (setStatusWithauthId a ONLINE);; emit ToAll update28)
  end.

(** Every invitation the user sent or received is dropped. *)
Definition drop_invitations (a : Z) : GM unit :=
  modify (fun w => set_invitations
                     (filter (fun i => iu_authId (inviter i) <> a /\ iu_authId (invited i) <> a)
                             (invitations w)) w).

(** The socket's queue entry, if any, is spliced out. *)
Definition dequeue_socket (sid : string) : GM unit :=
  let* w := get in
  match findIndex (fun u => bool_decide (iu_socketId u = Some sid)) (waitingQueue w) with
  | Some i =>
      let* u := deref (waitingQueue w !! i) in
      when (bool_decide (iu_socketId u = Some sid))
        (modify (fun w => set_queue (remove_at i (waitingQueue w)) w))
  | None => ret tt
  end.

(** [OFFLINE] unless [checkDuplicateUser] finds a second socket. *)
Definition mark_offline (a : Z) : GM unit :=
  let* w := get in
  when (negb (checkDuplicateUser (players w) a))
    (db_call (setStatusWithauthId a OFFLINE);; emit ToAll update28).

(** The forfeit block: the leaver loses, the other player wins; the
    counters are written first, then the row (in a [try]). *)
Definition forfeit (g : Game) (a : Z) : GM unit :=
  when (bool_decide (winnerId g = None /\ loserId g = None))
    (let '(wi, lo) := if bool_decide (a = leftPlayerId g) then (rightPlayerId g, leftPlayerId g)
                      else (leftPlayerId g, rightPlayerId g) in
     db_call (addWin wi);;
     db_call (addLose lo);;
     db_call (try_game_update (g_id g) [GWinnerId (Some wi); GLoserId (Some lo);
                                        GIsFinished true; GHasLeft true])).

(** The last socket of the game room is told, through its user's
    personal room, that the opponent left.  An empty room gives an
    [undefined] socket, no user, and a [TypeError] on [winner.id]. *)
Definition notify_winner (g : Game) : GM unit :=
  let* w := get in
  let socketWinner := last_member w (RGame (g_id g)) in
  let* winner := db_call (getUserByAuthId (socketWinner ≫= jm_get (players w))) in
  let* winner := deref winner in
  emit (ToRooms [RUser (u_id winner)]) (PGameStatus (status_code LEAVE));;
  emit (ToRooms [RUser (u_id winner)]) (PGameStatusSelect (status_code LEAVE)).

(** [handleDisconnect] *)
Definition handleDisconnect (sid : string) (hs : option Z) : GM unit :=
  match authenticated hs with
  | None => ret tt
  | Some a =>
      drop_invitations a;;
      let* game := db_call (findLastGame a) in
      dequeue_socket sid;;
      mark_offline a;;
      match game with
      | None => forget_socket sid
      | Some g =>
          if isFinished g ||
             bool_decide (Some sid <> leftPlayerSocket g /\ Some sid <> rightPlayerSocket g)
          then forget_socket sid;; client_leave sid (RGame (g_id g));; forget_socket sid
          else
            forfeit g a;;
            notify_winner g;;
            client_leave sid (RGame (g_id g));;
            forget_socket sid
      end
  end.
End Connection.

(** ** Runs of the blocks *)

#[local] Hint Extern 4 (preserves _ (Connection.forget_socket _)) =>
  unfold Connection.forget_socket : gw.

Lemma dequeue_socket_run sid w :
  exists q, Connection.dequeue_socket sid w = (Ok tt, set_queue q w).
Proof.
  unfold Connection.dequeue_socket. run_reads.
  destruct (findIndex _ _) as [i|] eqn:E; [|exists (waitingQueue w); by rewrite set_queue_same].
  destruct (findIndex_lookup _ _ _ E) as (u & Hu & _). rewrite Hu. cbn [deref].
  rewrite bind_ret_l. case_bool_decide; simpl; eexists; [done|]. by rewrite set_queue_same.
Qed.

Lemma mark_offline_run a w :
  exists w', Connection.mark_offline a w = (Ok tt, w') /\ records_eq (db w) (db w') /\
             players w' = players w /\ rooms w' = rooms w.
Proof.
  unfold Connection.mark_offline. run_reads.
  destruct (negb _); simpl; [|by eexists].
  unfold setStatusWithauthId at 1. rewrite (bind_Ok _ _ _ _ _ (db_call_try_run _ _)), emit_run.
  eexists. split; [done|]. autorewrite with gw_rw. split_and!; [|done|done].
  apply setStatusWithauthId_records.
Qed.

(** The forfeit block, when the leaver [a] is one of the two players and
    the game is undecided: a win for the other player [b], a loss for
    [a], then the row. *)
Lemma disconnect_forfeit_run g a b w :
  winnerId g = None -> loserId g = None -> a <> b ->
  (leftPlayerId g = a /\ rightPlayerId g = b \/ rightPlayerId g = a /\ leftPlayerId g = b) ->
  exists w', Connection.forfeit g a w = (Ok tt, w') /\
    db w' = exec (try_game_update (g_id g) [GWinnerId (Some b); GLoserId (Some a);
                                            GIsFinished true; GHasLeft true])
                 (exec (addLose a) (exec (addWin b) (db w))).
Proof.
  intros Hw Hl Hab Hp. unfold Connection.forfeit. rewrite bool_decide_eq_true_2 by done.
  cbn [when].
  replace (if bool_decide (a = leftPlayerId g) then (rightPlayerId g, leftPlayerId g)
           else (leftPlayerId g, rightPlayerId g)) with (b, a)
    by (destruct Hp as [[<- <-] | [<- <-]]; [by rewrite bool_decide_eq_true_2
                                            | by rewrite bool_decide_eq_false_2]).
  unfold addWin, addLose, try_game_update.
  rewrite !(bind_Ok _ _ _ _ _ (db_call_try_run _ _)), db_call_try_run.
  eexists. split; [done|]. by autorewrite with gw_rw.
Qed.

(** The database after a disconnection from an undecided game: up to
    the win/loss records, the forfeit applied to the database the
    disconnection found; the status write of [mark_offline] and the
    later steps change no record. *)
Lemma handleDisconnect_forfeit_db sid a b w g :
  a <> 0 -> last_game_of (db w) a = Some g -> isFinished g = false ->
  (leftPlayerSocket g = Some sid \/ rightPlayerSocket g = Some sid) ->
  winnerId g = None -> loserId g = None -> a <> b ->
  (leftPlayerId g = a /\ rightPlayerId g = b \/ rightPlayerId g = a /\ leftPlayerId g = b) ->
  exists d1, records_eq (db w) d1 /\
    db (exec (Connection.handleDisconnect sid (Some a)) w) =
      exec (try_game_update (g_id g) [GWinnerId (Some b); GLoserId (Some a);
                                      GIsFinished true; GHasLeft true])
           (exec (addLose a) (exec (addWin b) d1)).
Proof.
  intros Ha0 Hlast Hfin Hsock Hw Hl Hab Hp.
  unfold exec at 1. unfold Connection.handleDisconnect, Connection.authenticated.
  rewrite bool_decide_eq_false_2 by done. unfold Connection.drop_invitations, findLastGame.
  rewrite bind_modify, (bind_Ok _ _ _ _ _ (db_call_gets _ _)). cbv beta.
  autorewrite with gw_rw. rewrite Hlast.
  match goal with |- context [bind (Connection.dequeue_socket sid) ?k ?w1] =>
    destruct (dequeue_socket_run sid w1) as [q Hq]; rewrite (bind_Ok _ k w1 _ _ Hq) end.
  match goal with |- context [bind (Connection.mark_offline a) ?k ?w2] =>
    destruct (mark_offline_run a w2) as (w3 & Hm & Hr3 & _); rewrite (bind_Ok _ k w2 _ _ Hm) end.
  rewrite Hfin, bool_decide_eq_false_2 by (destruct Hsock; naive_solver). simpl.
  destruct (disconnect_forfeit_run g a b w3 Hw Hl Hab Hp) as (w4 & Hf & Hd4).
  rewrite (bind_Ok _ _ _ _ _ Hf). exists (db w3). split.
  - revert Hr3. by autorewrite with gw_rw.
  - rewrite <- Hd4. apply (preserves_run (fun x => db x = db w4) _ w4); [preserve | done].
Qed.

(** C3. Forfeit on disconnection (the spec's forfeit correctness):
    when a player's socket drops during their last game, which is
    undecided, the other player is recorded as winner and the leaver as
    loser, the row is finished and [hasLeft], the winner's wins and the
    leaver's losses go up by exactly one and the other two counters do
    not move, whatever happens after the writes (the notification may
    fail). *)
Theorem handleDisconnect_forfeit (sid : string) (a b : Z) (w : World) (g : Game) (ua ub : User) :
  a <> 0 -> last_game_of (db w) a = Some g -> game_by_id (db w) (g_id g) = Some g ->
  isFinished g = false -> (leftPlayerSocket g = Some sid \/ rightPlayerSocket g = Some sid) ->
  winnerId g = None -> loserId g = None ->
  (leftPlayerId g = a /\ rightPlayerId g = b \/ rightPlayerId g = a /\ leftPlayerId g = b) ->
  a <> b -> user_by_authId (db w) a = Some ua -> user_by_authId (db w) b = Some ub ->
  let d' := db (exec (Connection.handleDisconnect sid (Some a)) w) in
  (exists g', game_by_id d' (g_id g) = Some g' /\ winnerId g' = Some b /\ loserId g' = Some a /\
              isFinished g' = true /\ hasLeft g' = true) /\
  wins_of d' b = Some (wins ub + 1) /\ loses_of d' a = Some (loses ua + 1) /\
  wins_of d' a = Some (wins ua) /\ loses_of d' b = Some (loses ub).
Proof.
  intros Ha0 Hlast Hg Hfin Hsock Hw Hl Hp Hab Hua Hub d'.
  destruct (handleDisconnect_forfeit_db sid a b w g Ha0 Hlast Hfin Hsock Hw Hl Hab Hp)
    as (d1 & Hr & Hd). subst d'. rewrite Hd.
  assert (HrA : records_eq (exec (addLose a) (exec (addWin b) d1))
                           (exec (addLose a) (exec (addWin b) (db w)))) by (by rewrite <- Hr).
  destruct (win_then_lose (db w) a b ua ub Hab Hua Hub) as (W1 & L1 & W2 & L2 & G).
  assert (HgA : game_by_id (exec (addLose a) (exec (addWin b) d1)) (g_id g) = Some g)
    by (rewrite HrA; unfold game_by_id; by rewrite G).
  rewrite try_game_update_run, HgA. autorewrite with gw_rw. rewrite !HrA.
  split_and!; [|done..]. eexists. split.
  - apply (game_by_id_write_eq _ _ _ g); [|done]. intros h <-. apply apply_game_data_id.
  - by destruct g.
Qed.

Lemma forfeit_ok g a w :
  exists w', Connection.forfeit g a w = (Ok tt, w') /\ players w' = players w /\
             rooms w' = rooms w.
Proof.
  unfold Connection.forfeit. destruct (bool_decide _); [|by eexists]. cbn [when].
  destruct (if bool_decide (a = leftPlayerId g) then _ else _) as [wi lo].
  unfold addWin, addLose, try_game_update.
  rewrite !(bind_Ok _ _ _ _ _ (db_call_try_run _ _)), db_call_try_run.
  eexists. split; [done|]. by autorewrite with gw_rw.
Qed.

Lemma notify_winner_empty g w :
  JsRooms.members (rooms w) (RGame (g_id g)) = [] -> Connection.notify_winner g w = (Exn, w).
Proof.
  intros Hr. unfold Connection.notify_winner, last_member. run_reads. rewrite Hr. simpl.
  unfold getUserByAuthId, db_call, zoom, bind, ret, deref, throw. simpl. by rewrite set_db_same.
Qed.

(** A disconnection from an unfinished game whose room is empty
    (the opponent never opened the game page, and the leaving socket has
    already left its rooms when the hook runs) throws on [winner.id]
    before [players.delete]: the handler fails and the dead socket stays
    in [players]. *)
Theorem handleDisconnect_empty_room_keeps_socket (sid : string) (a : Z) (w : World) (g : Game) :
  a <> 0 -> last_game_of (db w) a = Some g -> isFinished g = false ->
  (leftPlayerSocket g = Some sid \/ rightPlayerSocket g = Some sid) ->
  JsRooms.members (rooms w) (RGame (g_id g)) = [] ->
  eval (Connection.handleDisconnect sid (Some a)) w = Exn /\
  jm_get (players (exec (Connection.handleDisconnect sid (Some a)) w)) sid = jm_get (players w) sid.
Proof.
  intros Ha0 Hlast Hfin Hsock Hroom.
  unfold Connection.handleDisconnect, Connection.authenticated, exec, eval.
  rewrite bool_decide_eq_false_2 by done. unfold Connection.drop_invitations, findLastGame.
  rewrite bind_modify, (bind_Ok _ _ _ _ _ (db_call_gets _ _)). cbv beta.
  autorewrite with gw_rw. rewrite Hlast.
  match goal with |- context [bind (Connection.dequeue_socket sid) ?k ?w1] =>
    destruct (dequeue_socket_run sid w1) as [q Hq]; rewrite (bind_Ok _ k w1 _ _ Hq) end.
  match goal with |- context [bind (Connection.mark_offline a) ?k ?w2] =>
    destruct (mark_offline_run a w2) as (w3 & Hm & _ & Hp3 & Hr3); rewrite (bind_Ok _ k w2 _ _ Hm) end.
  rewrite Hfin, bool_decide_eq_false_2 by (destruct Hsock; naive_solver). simpl.
  destruct (forfeit_ok g a w3) as (w4 & Hf & Hp4 & Hr4). rewrite (bind_Ok _ _ _ _ _ Hf).
  rewrite (bind_Exn _ _ _ _ (notify_winner_empty g w4 ltac:(rewrite Hr4, Hr3; by autorewrite with gw_rw))).
  simpl. rewrite Hp4, Hp3. by autorewrite with gw_rw.
Qed.

Lemma handleDisconnect_forfeit_witness :
  let ua := mkUser 1 10 "alice" INGAME 3 1 [] in
  let ub := mkUser 2 20 "bob" INGAME 0 2 [] in
  let g := mkGame 7 (Some "normal") 10 20 (Some "alice") (Some "bob") (Some "s1") (Some "s2")
                  2 1 None None false false true true None None (Some 40) in
  let w := mkWorld (mkDB [ua; ub] [g] 8) ["s2"] [] [] [("s1", 10); ("s2", 20)]
                   [(RGame 7, ["s2"])] [] [] in
  let d' := db (exec (Connection.handleDisconnect "s1" (Some 10)) w) in
  (exists g', game_by_id d' 7 = Some g' /\ winnerId g' = Some 20 /\ loserId g' = Some 10 /\
              isFinished g' = true /\ hasLeft g' = true) /\
  wins_of d' 20 = Some 1 /\ loses_of d' 10 = Some 2 /\
  wins_of d' 10 = Some 3 /\ loses_of d' 20 = Some 2.
Proof.
  intros ua ub g w. apply (handleDisconnect_forfeit "s1" 10 20 w g ua ub);
    first [reflexivity | lia | (left; reflexivity) | (left; split; reflexivity)].
Defined.

Lemma handleDisconnect_empty_room_keeps_socket_witness :
  let g := mkGame 7 None 10 20 (Some "alice") (Some "bob") (Some "s1") (Some "s2")
                  0 0 None None false false false false None None None in
  let w := mkWorld (mkDB [mkUser 1 10 "alice" INGAME 0 0 []; mkUser 2 20 "bob" INGAME 0 0 []]
                         [g] 8) [] [] [] [("s1", 10)] [] [] [] in
  eval (Connection.handleDisconnect "s1" (Some 10)) w = Exn /\
  jm_get (players (exec (Connection.handleDisconnect "s1" (Some 10)) w)) "s1" = Some 10.
Proof.
  intros g w. apply (handleDisconnect_empty_room_keeps_socket "s1" 10 w g);
    first [reflexivity | lia | (left; reflexivity)].
Defined.
