(* ===== verification/System.v ===== *)
(** * The gateway as a transition system

    Every message a client can send to the game gateway of
    src/app/backend/src/game/game.gateway.ts, the connection and
    disconnection of a socket, and the firing of a pending [setTimeout]
    callback, as the steps of one relation on [World].  socket.io's own
    part of a connection is modelled from its documented behaviour: a
    connecting socket joins the connected set before [handleConnection]
    runs; a disconnecting socket leaves every room and the connected set
    before [handleDisconnect] runs.  Handlers run one at a time, each to
    completion; a pending timer may fire between any two of them.  The
    registry invariant (the queue and invitation invariants of
    Matchmaking.v and Invites.v) holds in every reachable state. *)

From stdpp Require Import base list strings relations.
From Stdlib Require Import ZArith Lia QArith.
From S2P Require Import Prelude Store Physics World Session Matchmaking Invites Connection.

Open Scope Z_scope.

(** The message catalogue of the gateway. *)
Inductive Event :=
  | EConnect (sid : string) (authId : option Z)
  | EDisconnect (sid : string) (authId : option Z)
  | EJoinRoom (sid : string) (userId userAuthId : Z)
  | ELeaveQueue (sid : string) (userAuthId : Z)
  | EInviteInit (sid : string) (payload : Z)
  | EInviteAccepted (sid : string) (invitedId inviterId : Z)
  | EInviteDeclined (sid : string) (invitedId inviterId : Z)
  | EInitGame (sid : string) (userAuthId gameId : Z)
  | ECheckGame (sid : string) (userAuthId gameId : Z)
  | ELeaveGame (sid : string) (userAuthId gameId gameStatus : Z)
  | EMapSelect (sid : string) (userAuthId gameId : Z)
  | EGameMode (sid : string) (userAuthId gameId : Z) (mode : option string) (r : Q)
  | EUpdateUser (sid : string) (userAuthId gameId gameStatus : Z)
  | EGameFinished (sid : string) (gameId : Z)
  | EGameStart (sid : string) (gd : GameData) (rs : list Q)
  | EPaddleMove (sid : string) (gd : GameData) (player : Z)
  | EBallMove (sid : string) (gd : GameData).

(** socket.io: [socket.leave] of every room the socket is in. *)
Definition leave_all (sid : string) (m : JsRooms.t) : JsRooms.t :=
  foldl (fun m r => JsRooms.leave sid r m) m (map fst m).

Definition sio_connect (sid : string) : GM unit :=
  modify (fun w => set_sockets (sockets w ++ [sid]) w).

Definition sio_disconnect (sid : string) : GM unit :=
  modify (fun w => set_rooms (leave_all sid (rooms w))
                             (set_sockets (filter (fun s => s <> sid) (sockets w)) w)).

(** The [@SubscribeMessage] dispatch. *)
Definition handle (e : Event) : GM unit :=
  match e with
  | EConnect sid a => sio_connect sid;; Connection.handleConnection sid a
  | EDisconnect sid a => sio_disconnect sid;; Connection.handleDisconnect sid a
  | EJoinRoom sid i a => Matchmaking.joinRoom sid i a
  | ELeaveQueue sid a => Matchmaking.leaveQueue sid a
  | EInviteInit sid p => Invites.inviteInit sid p
  | EInviteAccepted sid x y => Invites.inviteAccepted sid x y
  | EInviteDeclined sid x y => Invites.inviteDeclined sid x y
  | EInitGame sid a g => Session.initGame sid a g
  | ECheckGame sid a g => Session.checkGame sid a g
  | ELeaveGame sid a g st => Session.leaveGame sid a g st
  | EMapSelect sid a g => Session.mapSelect sid a g
  | EGameMode sid a g md r => Session.gameModeSelect sid a g md r
  | EUpdateUser sid a g st => Session.updateUser sid a g st
  | EGameFinished sid g => Session.gameFinished sid g
  | EGameStart sid gd rs => Session.gameStart sid gd rs
  | EPaddleMove sid gd p => Session.paddleMoveH sid gd p
  | EBallMove sid gd => Session.ballMove sid gd
  end.

(** One step: a message handled to completion, or the oldest pending
    timer fired and removed (Node runs callbacks of equal delay in the
    order they were scheduled, and every timer of the gateway waits
    100 ms). *)
Inductive step : World -> World -> Prop :=
  | step_message e w : step w (exec (handle e) w)
  | step_timer t rest w :
      timers w = t :: rest ->
      step w (exec (Session.fire_timer t) (set_timers rest w)).

(** The gateway right after start-up, over a given database. *)
Definition boot (d : DB) : World := mkWorld d [] [] [] [] JsRooms.empty [] [].

Definition registry_ok (w : World) : Prop :=
  queue_ok (waitingQueue w) /\ invitations_ok (invitations w).

(** ** Every handler keeps the registry invariant *)

Ltac frame_handler :=
  repeat first
    [ preserve_step
    | match goal with |- preserves _ (if ?b then _ else _) => destruct b end
    | match goal with |- preserves _ (match ?x with _ => _ end) => destruct x end ].

Ltac unfold_handlers :=
  unfold sio_connect, sio_disconnect, Connection.handleConnection, Connection.handleDisconnect,
    Connection.forget_socket, Connection.drop_invitations, Matchmaking.joinRoom,
    Matchmaking.leaveQueue, Invites.inviteInit, Invites.inviteAccepted, Invites.inviteDeclined,
    Session.initGame, Session.checkGame, Session.leaveGame, Session.mapSelect,
    Session.gameModeSelect, Session.updateUser, Session.gameFinished, Session.gameStart,
    Session.paddleMoveH, Session.ballMove, Session.score_and_reset.

Lemma handle_queue_ok e : preserves (fun w => queue_ok (waitingQueue w)) (handle e).
Proof.
  destruct e; simpl; try (intros w; first [apply joinRoom_queue_ok | apply leaveQueue_queue_ok]);
    unfold_handlers; frame_handler.
Qed.

Lemma handle_invitations_ok e : preserves (fun w => invitations_ok (invitations w)) (handle e).
Proof.
  destruct e; simpl;
    try (intros w; first [apply inviteInit_ok | apply inviteAccepted_ok | apply inviteDeclined_ok]);
    unfold_handlers; frame_handler.
Qed.

Lemma fire_timer_queue_ok t : preserves (fun w => queue_ok (waitingQueue w)) (Session.fire_timer t).
Proof. destruct t. unfold Session.fire_timer. frame_handler. Qed.

Lemma fire_timer_invitations_ok t :
  preserves (fun w => invitations_ok (invitations w)) (Session.fire_timer t).
Proof. destruct t. unfold Session.fire_timer. frame_handler. Qed.

Lemma step_registry_ok w w' : step w w' -> registry_ok w -> registry_ok w'.
Proof.
  intros Hs [Hq Hi]. destruct Hs as [e w|t rest w _].
  - split; [by apply handle_queue_ok | by apply handle_invitations_ok].
  - split; [apply fire_timer_queue_ok | apply fire_timer_invitations_ok]; by autorewrite with gw_rw.
Qed.

Lemma rtc_registry_ok w w' : rtc step w w' -> registry_ok w -> registry_ok w'.
Proof. induction 1; eauto using step_registry_ok. Qed.

(** C14. The registry invariant in every reachable state: from start-up,
    whatever the interleaving of messages, connections, disconnections
    and timer callbacks, no identity is ever queued twice, at most one
    entry waits unpaired, and no ordered pair of identities has two
    pending invitations. *)
Theorem reachable_registry_ok (d : DB) (w : World) :
  rtc step (boot d) w -> registry_ok w.
Proof.
  intros Hr. apply (rtc_registry_ok _ _ Hr). split; [apply queue_ok_nil | constructor].
Qed.

Lemma reachable_registry_ok_witness :
  let d := mkDB [mkUser 1 10 "alice" OFFLINE 0 0 []] [] 1 in
  let w1 := exec (handle (EConnect "s1" (Some 10))) (boot d) in
  registry_ok (exec (handle (EJoinRoom "s1" 1 10)) w1).
Proof.
  intros d w1. apply (reachable_registry_ok d).
  eapply rtc_l; [apply step_message|]. apply rtc_once, step_message.
Defined.
