(* ===== verification/Chat.v ===== *)
(** * Chat persistence: ChannelService and ChatService

    The channel, membership and message tables and the service methods of
    src/app/backend/src/chat/channel.service.ts and
    src/app/backend/src/chat/chat.service.ts, as computations of the
    handler monad on [ChatDB], which holds the user table of Store.v
    beside the chat tables.  Dates are integers (milliseconds); the
    current time, [new Date()], is a parameter of each operation.
    Passwords are stored through a hashing function [hash], a Section
    variable: [bcrypt.compare(pw, h)] is modelled as [h = hash pw], the
    idealised (collision-free) bcrypt.  Prisma's unique keys (channel
    name; the pair (channelId, userId) of a membership) and foreign keys
    make a [create] throw, as a unique-constraint violation does; a
    channel is deleted with its memberships. *)

From stdpp Require Import base list strings.
From Stdlib Require Import ZArith Lia.
From S2P Require Import Prelude Store.

Open Scope Z_scope.

(** ** Rows *)

Inductive RoleType := OWNER | ADMIN | USER.
#[export] Instance RoleType_eq_dec : EqDecision RoleType.
Proof. solve_decision. Defined.

Inductive ChannelType := PUBLIC | PRIVATE | DM.
#[export] Instance ChannelType_eq_dec : EqDecision ChannelType.
Proof. solve_decision. Defined.

Record Channel := mkChannel {
  ch_id : Z;
  ch_name : string;
  ch_type : ChannelType;
  ch_password : option string;
  ownerId : option Z
}.

Record ChannelUser := mkChannelUser {
  cu_channelId : Z;
  cu_userId : Z;
  role : RoleType;
  cu_hasLeft : bool;
  banEnd : Z;
  muteEnd : Z;
  createdAt : Z
}.

Record Message := mkMessage {
  msg_id : Z;
  fromId : Z;
  toId : Z;
  fromUsername : string;
  dm : bool;
  content : string
}.

Record ChatDB := mkChatDB {
  core : DB;
  channels : list Channel;
  members : list ChannelUser;
  messages : list Message;
  next_channel_id : Z;
  next_message_id : Z
}.

Definition set_core (d : DB) (c : ChatDB) : ChatDB :=
  let 'mkChatDB _ ch mb ms nc nm := c in mkChatDB d ch mb ms nc nm.
Definition set_channels (ch : list Channel) (c : ChatDB) : ChatDB :=
  let 'mkChatDB d _ mb ms nc nm := c in mkChatDB d ch mb ms nc nm.
Definition set_members (mb : list ChannelUser) (c : ChatDB) : ChatDB :=
  let 'mkChatDB d ch _ ms nc nm := c in mkChatDB d ch mb ms nc nm.

(** A call of the user service on the shared user table. *)
Definition user_call {A} (c : M DB A) : M ChatDB A := zoom core set_core c.

(** JavaScript's [String(n)] of an integer: its decimal digits.  The fuel
    of 64 digits exceeds the 16 digits of any safe integer. *)
Fixpoint digits_of (fuel : nat) (n : Z) (acc : string) : string :=
  match fuel with
  | O => acc
  | S f =>
      let acc' := String (Ascii.ascii_of_nat (48 + Z.to_nat (n mod 10))) acc in
      if Z.ltb n 10 then acc' else digits_of f (n / 10) acc'
  end.

Definition js_string_of_Z (n : Z) : string :=
  if Z.ltb n 0 then String.append "-" (digits_of 64 (- n) "") else digits_of 64 n "".

(** ** Prisma primitives on the chat tables *)

Definition channel_by_name (c : ChatDB) (name : string) : option Channel :=
  find_first (fun ch => bool_decide (ch_name ch = name)) (channels c).
Definition channel_by_id (c : ChatDB) (i : Z) : option Channel :=
  find_first (fun ch => bool_decide (ch_id ch = i)) (channels c).
Definition is_member (cid uid : Z) (u : ChannelUser) : bool :=
  bool_decide (cu_channelId u = cid /\ cu_userId u = uid).
Definition member_of (c : ChatDB) (cid uid : Z) : option ChannelUser :=
  find_first (is_member cid uid) (members c).

(** [channelUser.create]: the pair must be new, the channel and the user
    must exist; [banEnd], [muteEnd] and [createdAt] default to now. *)
Definition member_create (now cid uid : Z) (r : RoleType) : M ChatDB ChannelUser :=
  fun c =>
    match member_of c cid uid, channel_by_id c cid, user_by_id (core c) uid with
    | None, Some _, Some _ =>
        let u := mkChannelUser cid uid r false now now now in
        (Ok u, set_members (members c ++ [u]) c)
    | _, _, _ => (Exn, c)
    end.

(** [channelUser.update] / [delete] on the key (channelId, userId). *)
Definition member_update (cid uid : Z) (f : ChannelUser -> ChannelUser) : M ChatDB ChannelUser :=
  fun c =>
    match member_of c cid uid with
    | None => (Exn, c)
    | Some u =>
        (Ok (f u), set_members (map (fun v => if is_member cid uid v then f v else v) (members c)) c)
    end.

Definition member_delete (cid uid : Z) : M ChatDB ChannelUser :=
  fun c =>
    match member_of c cid uid with
    | None => (Exn, c)
    | Some u => (Ok u, set_members (filter (fun v => is_member cid uid v = false) (members c)) c)
    end.

(** [channel.create] with its first members: a fresh id, a new name. *)
Definition channel_create (name : string) (t : ChannelType) (pw : option string) (owner : option Z)
    (now : Z) (first : list (Z * RoleType)) : M ChatDB Channel :=
  fun c =>
    let ch := mkChannel (next_channel_id c) name t pw owner in
    if bool_decide (is_Some (channel_by_name c name)) then (Exn, c)
    else if negb (bool_decide (NoDup (map fst first))) then (Exn, c)
    else if negb (forallb (fun p => bool_decide (is_Some (user_by_id (core c) p.1))) first)
    then (Exn, c)
    else
      (Ok ch, mkChatDB (core c) (channels c ++ [ch])
                       (members c ++ map (fun p => mkChannelUser (ch_id ch) p.1 p.2 false now now now)
                                         first)
                       (messages c) (next_channel_id c + 1) (next_message_id c)).

Definition channel_update (i : Z) (f : Channel -> Channel) : M ChatDB Channel :=
  fun c =>
    match channel_by_id c i with
    | None => (Exn, c)
    | Some ch =>
        (Ok (f ch), set_channels (map (fun h => if bool_decide (ch_id h = i) then f h else h)
                                      (channels c)) c)
    end.

Definition channel_delete (i : Z) : M ChatDB Channel :=
  fun c =>
    match channel_by_id c i with
    | None => (Exn, c)
    | Some ch =>
        (Ok ch, set_members (filter (fun u => bool_decide (cu_channelId u <> i)) (members c))
                            (set_channels (filter (fun h => bool_decide (ch_id h <> i)) (channels c)) c))
    end.

(** JavaScript truthiness of an optional string. *)
Definition js_truthy (o : option string) : bool :=
  match o with Some s => bool_decide (s <> ""%string) | None => false end.

(** The [{ status, response }] results of [join], [leave], [handleAdmin]. *)
Record IResult := mkIResult { res_status : Z; res_response : option string }.

(** ** Strings: [toLowerCase] and [<] on ASCII text

    JavaScript compares strings by UTF-16 code units, which on ASCII
    text is the order of the character codes. *)

Definition ascii_lower (a : Ascii.ascii) : Ascii.ascii :=
  let n := Ascii.nat_of_ascii a in
  if (65 <=? n)%nat && (n <=? 90)%nat then Ascii.ascii_of_nat (n + 32) else a.

Fixpoint to_lower (s : string) : string :=
  match s with EmptyString => EmptyString | String a s' => String (ascii_lower a) (to_lower s') end.

Fixpoint str_ltb (s t : string) : bool :=
  match s, t with
  | EmptyString, String _ _ => true
  | String a s', String b t' =>
      let m := Ascii.nat_of_ascii a in let n := Ascii.nat_of_ascii b in
      if (m <? n)%nat then true else if (n <? m)%nat then false else str_ltb s' t'
  | _, EmptyString => false
  end.

(** [arr.sort(cmp)] with [cmp(a, b) = key a > key b ? 1 : -1], as an
    insertion sort that keeps elements of equal key in their order. *)
Fixpoint insert_by {A} (key : A -> string) (x : A) (l : list A) : list A :=
  match l with
  | [] => [x]
  | y :: l' => if str_ltb (key x) (key y) then x :: l else y :: insert_by key x l'
  end.

Definition sort_by {A} (key : A -> string) (l : list A) : list A := foldr (insert_by key) [] l.

(** ** ChannelService (channel.service.ts) *)

Module ChannelService.

Definition getChannelByName (name : string) : M ChatDB (option Channel) :=
  gets (fun c => channel_by_name c name).
Definition getChannelById (i : Z) : M ChatDB (option Channel) := gets (fun c => channel_by_id c i).
Definition findUserInChannel (cid uid : Z) : M ChatDB (option ChannelUser) :=
  gets (fun c => member_of c cid uid).
Definition getChannelUsersByRole (cid : Z) (r : RoleType) : M ChatDB (list ChannelUser) :=
  gets (fun c => filter (fun u => cu_channelId u = cid /\ role u = r) (members c)).

Definition setPassword (cid : Z) (pw : option string) : M ChatDB Channel :=
  channel_update cid (fun ch => mkChannel (ch_id ch) (ch_name ch) (ch_type ch) pw (ownerId ch)).
Definition setHasLeft (cid uid : Z) (v : bool) : M ChatDB ChannelUser :=
  member_update cid uid (fun u => mkChannelUser (cu_channelId u) (cu_userId u) (role u) v
                                                (banEnd u) (muteEnd u) (createdAt u)).
Definition setRole (cid uid : Z) (r : RoleType) : M ChatDB ChannelUser :=
  member_update cid uid (fun u => mkChannelUser (cu_channelId u) (cu_userId u) r (cu_hasLeft u)
                                                (banEnd u) (muteEnd u) (createdAt u)).

(** [joinGeneral]: the channel ['general'] is created on the first call,
    with the caller as its only member; later callers are added once. *)
Definition joinGeneral (now userId : Z) : M ChatDB Channel :=
  let* channel := getChannelByName "general" in
  match channel with
  | Some channel =>
      let* user := findUserInChannel (ch_id channel) userId in
      match user with
      | None => member_create now (ch_id channel) userId USER;; ret channel
      | Some _ => ret channel
      end
  | None => channel_create "general" PUBLIC None None now [(userId, USER)]
  end.

(** [create(dto)]: the channel is inserted with the [dto] fields (the
    password still in clear), its creator as [OWNER], then the password
    is replaced by its hash.  [None] is the [null] of success. *)
Definition create (hash : string -> string) (now : Z) (name : string) (t : ChannelType)
    (password : option string) (owner : Z) : M ChatDB (option string) :=
  if negb (js_truthy (Some name)) then ret (Some "No name provided"%string) else
  let* taken := getChannelByName name in
  match taken with
  | Some _ => ret (Some "Channel name already taken"%string)
  | None =>
      let* newChannel := channel_create name t password (Some owner) now [(owner, OWNER)] in
      (if js_truthy password then
         setPassword (ch_id newChannel) (hash <$> password);; ret tt
       else ret tt);;
      ret None
  end.

(** The password check of [join]: [Some msg] refuses. *)
Definition password_refusal (hash : string -> string) (channel : Channel) (password : option string)
    : option string :=
  if js_truthy (ch_password channel) then
    if negb (js_truthy password) then Some "Password required"%string
    else if bool_decide (ch_password channel <> hash <$> password)
         then Some "Wrong password"%string else None
  else None.

(** [join(dto)] *)
Definition join (hash : string -> string) (now : Z) (channelName : string) (userId : Z)
    (password : option string) : M ChatDB IResult :=
  let* channel := getChannelByName channelName in
  match channel with
  | None => ret (mkIResult 1 (Some "No such channel"%string))
  | Some channel =>
      if bool_decide (ch_type channel = DM) then ret (mkIResult 1 (Some "Cannot join this channel"%string))
      else
        let* user := findUserInChannel (ch_id channel) userId in
        if (match user with Some u => negb (cu_hasLeft u) | None => false end)
        then ret (mkIResult 2 None)
        else
          match password_refusal hash channel password with
          | Some msg => ret (mkIResult 1 (Some msg))
          | None =>
              match user with
              | Some u =>
                  if bool_decide (now < banEnd u)
                  then ret (mkIResult 1 (Some "You are banned from this channel"%string))
                  else setHasLeft (ch_id channel) userId false;; ret (mkIResult 3 None)
              | None => member_create now (ch_id channel) userId USER;; ret (mkIResult 3 None)
              end
          end
  end.

(** The oldest of the candidates, by [createdAt] (the first on ties):
    the [forEach] of [checkOwnership]. *)
Definition oldest (first : ChannelUser) (subs : list ChannelUser) : ChannelUser :=
  foldl (fun best sub => if bool_decide (createdAt sub < createdAt best) then sub else best)
        first subs.

(** [checkOwnership]: when the leaver owns the channel, the oldest admin,
    else the oldest user, becomes owner; [1] when it happened, [0] when
    nobody could take over, [undefined] (here [0]) when the leaver is not
    the owner.  An unknown channel throws on [channel.ownerId]. *)
Definition checkOwnership (channelId userId : Z) : M ChatDB Z :=
  let* channel := getChannelById channelId in
  let* channel := deref channel in
  if bool_decide (ownerId channel = Some userId) then
    let* admins := getChannelUsersByRole channelId ADMIN in
    let* subs := if bool_decide (length admins = 0%nat) then getChannelUsersByRole channelId USER
                 else ret admins in
    match subs with
    | [] => ret 0
    | s :: _ =>
        let newOwner := oldest s subs in
        channel_update channelId (fun ch => mkChannel (ch_id ch) (ch_name ch) (ch_type ch)
                                                      (ch_password ch) (Some (cu_userId newOwner)));;
        setRole channelId (cu_userId newOwner) OWNER;;
        ret 1
    end
  else ret 0.

(** [updateChannel]: a channel whose members have all left is deleted. *)
Definition updateChannel (channelId : Z) : M ChatDB unit :=
  let* usersLeft := gets (fun c => filter (fun u => cu_channelId u = channelId) (members c)) in
  if forallb cu_hasLeft usersLeft then channel_delete channelId;; ret tt else ret tt.

(** [leave(channelId, userId)]: a member who is neither banned nor muted
    is deleted, any other is kept with [hasLeft]. *)
Definition leave (now channelId userId : Z) : M ChatDB IResult :=
  let* user := findUserInChannel channelId userId in
  match user with
  | None => ret (mkIResult 1 None)
  | Some user =>
      if cu_hasLeft user then ret (mkIResult 1 None) else
      let* res := checkOwnership channelId userId in
      (if bool_decide (banEnd user < now /\ muteEnd user < now)
       then member_delete channelId userId;; ret tt
       else setHasLeft channelId userId true;; ret tt);;
      updateChannel channelId;;
      if bool_decide (res <> 0) then ret (mkIResult 2 (Some "You are the new owner of this channel"%string))
      else ret (mkIResult 3 None)
  end.

Definition handlePassword (hash : string -> string) (userId channelId : Z) (password : option string)
    : M ChatDB string :=
  let* channel := getChannelById channelId in
  match channel with
  | None => ret "No such channel"%string
  | Some channel =>
      let* user := findUserInChannel channelId userId in
      match user with
      | None => ret "User not in channel"%string
      | Some user =>
          if bool_decide (role user = OWNER) then
            if js_truthy (ch_password channel) && negb (js_truthy password) then
              setPassword channelId None;; ret "Password unset"%string
            else if js_truthy password then
              setPassword channelId (hash <$> password);; ret "Password set"%string
            else ret "No password set"%string
          else ret "You are not allowed to configure password"%string
      end
  end.

Definition handleAdmin (owner channelId userId : Z) : M ChatDB IResult :=
  let* channel := getChannelById channelId in
  match channel with
  | None => ret (mkIResult 1 (Some "No such channel"%string))
  | Some channel =>
      if bool_decide (ownerId channel = Some owner) then
        let* user := findUserInChannel channelId userId in
        match user with
        | None => ret (mkIResult 1 (Some "User not in channel"%string))
        | Some user =>
            if bool_decide (role user = ADMIN) then
              setRole channelId userId USER;; ret (mkIResult 2 (Some "Administrator rights revoked"%string))
            else
              setRole channelId userId ADMIN;; ret (mkIResult 2 (Some "Administrator rights granted"%string))
        end
      else ret (mkIResult 1 (Some "You are not the owner of this channel"%string))
  end.

(** The role checks [kickUser], [banUser] and [muteUser] share: [Some
    msg] refuses with that message ([who] names the action). *)
Definition moderation_refusal (who : string) (user target : ChannelUser) : option string :=
  if bool_decide (role user = USER) then Some ("You do not have the rights to " +:+ who +:+ " a user")%string
  else if bool_decide (role user = ADMIN /\ role target = ADMIN)
  then Some ("You cannot " +:+ who +:+ " another admin")%string
  else if bool_decide (role target = OWNER) then Some ("You cannot " +:+ who +:+ " the channel owner")%string
  else None.

(** The frame [kickUser], [banUser] and [muteUser] share: both users must
    be members (else [null]), the role checks must pass, then [act] runs
    on the target's row. *)
Definition moderated (who : string) (channelId userId targetId : Z) (act : ChannelUser -> M ChatDB unit)
    : M ChatDB (option string) :=
  let* user := findUserInChannel channelId userId in
  let* target := findUserInChannel channelId targetId in
  match user, target with
  | Some user, Some target =>
      match moderation_refusal who user target with
      | Some msg => ret (Some msg)
      | None => act target;; ret None
      end
  | _, _ => ret None
  end.

(** A kicked member is deleted, unless banned or muted: then only marked
    as left, so the sanction is remembered. *)
Definition kickUser (now userId channelId toKickId : Z) : M ChatDB (option string) :=
  moderated "kick" channelId userId toKickId (fun toKick =>
    if bool_decide (banEnd toKick < now /\ muteEnd toKick < now)
    then member_delete channelId toKickId;; ret tt
    else setHasLeft channelId toKickId true;; ret tt).

(** A ban lasts two minutes and takes the member out of the channel. *)
Definition banUser (now userId channelId toBanId : Z) : M ChatDB (option string) :=
  moderated "ban" channelId userId toBanId (fun _ =>
    member_update channelId toBanId
      (fun u => mkChannelUser (cu_channelId u) (cu_userId u) (role u) true
                              (now + 2 * 60000) (muteEnd u) (createdAt u));; ret tt).

Definition muteUser (now userId channelId toMuteId : Z) : M ChatDB (option string) :=
  moderated "mute" channelId userId toMuteId (fun _ =>
    member_update channelId toMuteId
      (fun u => mkChannelUser (cu_channelId u) (cu_userId u) (role u) (cu_hasLeft u)
                              (banEnd u) (now + 2 * 60000) (createdAt u));; ret tt).

Definition getPublicChannels : M ChatDB (list (Z * string)) :=
  gets (fun c => map (fun ch => (ch_id ch, ch_name ch))
                     (filter (fun ch => ch_type ch = PUBLIC) (channels c))).

(** [getChannelsJoined]: the non-DM channels the user has not left;
    [undefined] ([None]) for an unknown user and for an empty result. *)
Definition getChannelsJoined (userId : Z) : M ChatDB (option (list Channel)) :=
  gets (fun c =>
    match user_by_id (core c) userId with
    | None => None
    | Some _ =>
        let joined := omap (fun u => if bool_decide (cu_userId u = userId) && negb (cu_hasLeft u)
                                     then channel_by_id c (cu_channelId u) else None) (members c) in
        let l := filter (fun ch => ch_type ch <> DM) joined in
        if bool_decide (length l = 0%nat) then None else Some l
    end).

(** A row of [getChannelUsers]: the member and the user columns selected. *)
Record ChannelUserView := mkChannelUserView {
  cv_userId : Z;
  cv_role : RoleType;
  cv_status : Status;
  cv_username : string;
  cv_usersBlocked : list Z
}.

Definition filterUsersBlocked (l : list ChannelUserView) (userId : Z) : list ChannelUserView :=
  sort_by (fun v => to_lower (cv_username v))
          (filter (fun v => userId ∉ cv_usersBlocked v) l).

Definition getChannelUsers (userId channelId : Z) : M ChatDB (list ChannelUserView) :=
  gets (fun c =>
    filterUsersBlocked
      (omap (fun m =>
               if bool_decide (cu_channelId m = channelId) && negb (cu_hasLeft m) then
                 match user_by_id (core c) (cu_userId m) with
                 | Some u => if bool_decide (status u <> OFFLINE)
                             then Some (mkChannelUserView (cu_userId m) (role m) (status u)
                                                          (username u) (usersBlocked u))
                             else None
                 | None => None
                 end
               else None) (members c)) userId).

(** The name of a private conversation: ['#dm' + userId1 + userId2]. *)
Definition dm_name (userId1 userId2 : Z) : string :=
  ("#dm" +:+ js_string_of_Z userId1 +:+ js_string_of_Z userId2)%string.

Definition convo_users (c : ChatDB) (ch : Channel) : list Z :=
  map cu_userId (filter (fun u => cu_channelId u = ch_id ch) (members c)).

Definition startPrivateConvo (now userId1 userId2 : Z) : M ChatDB Channel :=
  channel_create (dm_name userId1 userId2) DM None None now [(userId1, USER); (userId2, USER)].

(** [findFirst] of a DM channel [every] member of which is one of the two
    users. *)
Definition findPrivateConvo (userId1 userId2 : Z) : M ChatDB (option Channel) :=
  gets (fun c => find_first (fun ch => bool_decide (ch_type ch = DM) &&
                                      forallb (fun u => bool_decide (u = userId1 \/ u = userId2))
                                              (convo_users c ch)) (channels c)).

Definition findPrivateConvoById (i : Z) : M ChatDB (option Channel) :=
  gets (fun c => find_first (fun ch => bool_decide (ch_id ch = i /\ ch_type ch = DM)) (channels c)).

Definition getPrivateConvo (userId : Z) : M ChatDB (list Channel) :=
  gets (fun c => filter (fun ch => ch_type ch = DM /\ userId ∈ convo_users c ch) (channels c)).
End ChannelService.

(** ** ChatService (chat.service.ts) *)

Module ChatService.
Import UserService.

Definition sendMessage (fromId toId : Z) (fromUsername : string) (isDm : bool) (content : string)
    : M ChatDB Message :=
  fun c =>
    let m := mkMessage (next_message_id c) fromId toId fromUsername isDm content in
    (Ok m, mkChatDB (core c) (channels c) (members c) (messages c ++ [m]) (next_channel_id c)
                    (next_message_id c + 1)).

Definition getMessages (channelId : Z) : M ChatDB (list Message) :=
  gets (fun c => filter (fun m => toId m = channelId) (messages c)).

(** [updateUsername]: no [try]; an unknown user throws on [user.username]. *)
Definition updateUsername (userId : Z) : M ChatDB unit :=
  let* user := user_call (getUserById userId) in
  let* user := deref user in
  modify (fun c => mkChatDB (core c) (channels c) (members c)
                            (map (fun m => if bool_decide (fromId m = userId)
                                           then mkMessage (msg_id m) (fromId m) (toId m) (username user)
                                                          (dm m) (content m)
                                           else m) (messages c))
                            (next_channel_id c) (next_message_id c)).

(** [blockUser] toggles: a blocked user is unblocked, any other blocked.
    [toBlock] is a pending promise, never falsy, so only the blocker is
    checked.  The messages are the source's, swapped. *)
Definition blockUser (userId toBlockId : Z) : M ChatDB string :=
  let* user := user_call (getUserById userId) in
  match user with
  | None => ret "Cannot block user"%string
  | Some user =>
      let* blocked := user_call (isBlocked userId toBlockId) in
      if blocked then
        user_call (unblockUser userId (filter (fun x => x <> toBlockId) (usersBlocked user)));;
        ret "User blocked"%string
      else
        user_call (UserService.blockUser userId toBlockId);;
        ret "User unblocked"%string
  end.

(** [getOnlineUsers]: users not [OFFLINE], by username, without those
    who blocked the caller. *)
Definition getOnlineUsers (userId : Z) : M ChatDB (list User) :=
  gets (fun c => filter (fun u => userId ∉ usersBlocked u)
                        (sort_by username (filter (fun u => status u <> OFFLINE) (users (core c))))).
End ChatService.

(** ** Integrity of the chat tables

    The keys Prisma enforces: one membership per (channel, user), one
    channel per name, channel ids below the autoincrement counter (so
    unique), and every membership's channel present (the foreign key).
    The predicate reads the tables only through their key columns. *)

Definition mkey (u : ChannelUser) : Z * Z := (cu_channelId u, cu_userId u).

Definition tables_ok (ks : list (Z * Z)) (names : list string) (ids : list Z) (n : Z) : Prop :=
  NoDup ks /\ NoDup names /\ NoDup ids /\ Forall (fun i => i < n) ids /\ Forall (fun k => k.1 ∈ ids) ks.

Definition chat_ok (c : ChatDB) : Prop :=
  tables_ok (map mkey (members c)) (map ch_name (channels c)) (map ch_id (channels c)) (next_channel_id c).

Lemma is_member_false cid uid u : is_member cid uid u = false -> mkey u <> (cid, uid).
Proof. unfold is_member, mkey. case_bool_decide; naive_solver. Qed.

Lemma member_of_None_key c cid uid :
  member_of c cid uid = None -> (cid, uid) ∉ map mkey (members c).
Proof.
  intros Hn Hin. apply list_elem_of_fmap in Hin as (u & Hk & Hu).
  apply (is_member_false cid uid u); [|done]. by apply (find_first_None _ _ Hn).
Qed.

Lemma channel_by_id_Some c i : is_Some (channel_by_id c i) <-> i ∈ map ch_id (channels c).
Proof. apply find_first_key_Some. Qed.

Lemma channel_by_name_Some c n : is_Some (channel_by_name c n) <-> n ∈ map ch_name (channels c).
Proof. apply find_first_key_Some. Qed.

Lemma tables_ok_sub ks ks' names ids n :
  tables_ok ks names ids n -> sublist ks' ks -> tables_ok ks' names ids n.
Proof.
  intros (? & ? & ? & ? & Hfk) Hs. split_and!; [by eapply sublist_NoDup| done | done | done |].
  apply Forall_forall. intros k Hk. rewrite Forall_forall in Hfk. apply Hfk. by eapply elem_of_sublist.
Qed.

(** A fresh channel and its first members. *)
Lemma NoDup_map_pair {A} (n : Z) (l : list (Z * A)) :
  NoDup (map fst l) -> NoDup (map (fun p => (n, p.1)) l).
Proof.
  induction l as [|x l IH]; simpl; [constructor|]. rewrite !NoDup_cons.
  intros [Hx Hl]. split; [|auto]. intros (y & Hy & Hyl)%list_elem_of_fmap.
  apply Hx, list_elem_of_fmap. exists y. split; [congruence|done].
Qed.

Lemma tables_ok_snoc ks names ids n name (first : list (Z * RoleType)) (g : Z * RoleType -> Z * Z) :
  (forall p, g p = (n, p.1)) ->
  tables_ok ks names ids n -> name ∉ names -> NoDup (map fst first) ->
  tables_ok (ks ++ map g first) (names ++ [name]) (ids ++ [n]) (n + 1).
Proof.
  intros Hg (Hk & Hn & Hi & Hlt & Hfk) Hname Hfirst. rewrite (map_ext _ _ Hg). rewrite Forall_forall in Hlt. rewrite Forall_forall in Hfk.
  split_and!.
  - apply NoDup_app. split_and!; [done| |].
    + intros k Hk1 Hk2. apply list_elem_of_fmap in Hk2 as (p & -> & _).
      specialize (Hlt _ (Hfk _ Hk1)). simpl in Hlt. lia.
    + by apply NoDup_map_pair.
  - apply NoDup_app. split_and!; [done| |by apply NoDup_singleton].
    intros x Hx ->%list_elem_of_singleton. done.
  - apply NoDup_app. split_and!; [done| |by apply NoDup_singleton].
    intros x Hx ->%list_elem_of_singleton. specialize (Hlt _ Hx). lia.
  - apply Forall_app. split; [apply Forall_forall; intros i Hi'; specialize (Hlt _ Hi'); lia|].
    apply Forall_singleton. lia.
  - apply Forall_app. split; apply Forall_forall.
    + intros k Hk'. apply elem_of_app. left. by apply Hfk.
    + intros k (p & -> & _)%list_elem_of_fmap. apply elem_of_app. right. by apply list_elem_of_singleton.
Qed.

Lemma tables_ok_add_key ks names ids n k :
  tables_ok ks names ids n -> k ∉ ks -> k.1 ∈ ids -> tables_ok (ks ++ [k]) names ids n.
Proof.
  intros (Hk & ? & ? & ? & Hfk) Hnew Hid. split_and!; [| done | done | done |].
  - apply NoDup_app. split_and!; [done| |by apply NoDup_singleton].
    by intros x Hx ->%list_elem_of_singleton.
  - apply Forall_app. split; [done|]. by apply Forall_singleton.
Qed.

(** ** The Prisma primitives keep the tables consistent *)

Lemma member_create_ok now cid uid r : preserves chat_ok (member_create now cid uid r).
Proof.
  intros c Hc. unfold member_create.
  destruct (member_of c cid uid) eqn:Hm; [done|].
  destruct (channel_by_id c cid) eqn:Hch; [|done]. destruct (user_by_id (core c) uid); [|done].
  apply member_of_None_key in Hm.
  assert (Hi : cid ∈ map ch_id (channels c)) by (apply channel_by_id_Some; by eexists).
  destruct c as [d ch mb ms nc nm]. unfold chat_ok in *. simpl in *. rewrite map_app.
  by apply tables_ok_add_key.
Qed.

Lemma member_update_ok cid uid f :
  (forall u, mkey (f u) = mkey u) -> preserves chat_ok (member_update cid uid f).
Proof.
  intros Hf c Hc. unfold member_update. destruct (member_of c cid uid); [|done].
  destruct c as [d ch mb ms nc nm]. unfold chat_ok in *. simpl in *. by rewrite map_update_proj.
Qed.

Lemma member_delete_ok cid uid : preserves chat_ok (member_delete cid uid).
Proof.
  intros c Hc. unfold member_delete. destruct (member_of c cid uid); [|done].
  destruct c as [d ch mb ms nc nm]. unfold chat_ok in *. simpl in *.
  eapply tables_ok_sub; [done|]. apply sublist_map, sublist_filter.
Qed.

Lemma channel_create_ok name t pw owner now first :
  preserves chat_ok (channel_create name t pw owner now first).
Proof.
  intros c Hc. unfold channel_create.
  case_bool_decide as Hname; [done|]. case_bool_decide as Hnd; [|done]. simpl.
  destruct (forallb _ first); [|done]. simpl.
  assert (Hfresh : name ∉ map ch_name (channels c)) by (by rewrite <- channel_by_name_Some).
  destruct c as [d ch mb ms nc nm]. unfold chat_ok in *. simpl in *.
  rewrite !map_app, map_map. by apply tables_ok_snoc.
Qed.

Lemma channel_update_ok i f :
  (forall h, ch_id (f h) = ch_id h) -> (forall h, ch_name (f h) = ch_name h) ->
  preserves chat_ok (channel_update i f).
Proof.
  intros Hid Hname c Hc. unfold channel_update. destruct (channel_by_id c i); [|done].
  destruct c as [d ch mb ms nc nm]. unfold chat_ok in *. simpl in *.
  by rewrite !map_update_proj.
Qed.

Lemma channel_delete_ok i : preserves chat_ok (channel_delete i).
Proof.
  intros c Hc. unfold channel_delete. destruct (channel_by_id c i); [|done].
  destruct c as [d ch mb ms nc nm]. unfold chat_ok, tables_ok in *. simpl in *.
  destruct Hc as (Hk & Hn & Hi & Hlt & Hfk).
  assert (Hsub : forall g : Channel -> Z, sublist (map g (filter (fun h => bool_decide (ch_id h <> i)) ch)) (map g ch))
    by (intros g; apply sublist_map, sublist_filter).
  split_and!.
  - by apply NoDup_map_filter.
  - by apply NoDup_map_filter.
  - by apply NoDup_map_filter.
  - rewrite Forall_forall in Hlt |- *. intros x Hx. apply Hlt. eapply elem_of_sublist; [done|apply Hsub].
  - rewrite Forall_forall in Hfk |- *. intros k (u & -> & Hu)%list_elem_of_fmap.
    apply list_elem_of_filter in Hu as [Hne Hu]. apply bool_decide_spec in Hne.
    assert (Hin : (mkey u).1 ∈ map ch_id ch) by (apply Hfk; by apply list_elem_of_fmap_2).
    apply list_elem_of_fmap in Hin as (h & Hh & Hhc). simpl in Hh.
    apply list_elem_of_fmap. exists h. split; [done|]. apply list_elem_of_filter. split; [|done].
    apply bool_decide_spec. congruence.
Qed.

Lemma sendMessage_ok fromId toId name isDm text : preserves chat_ok (ChatService.sendMessage fromId toId name isDm text).
Proof. by intros [d ch mb ms nc nm] Hc. Qed.

Lemma user_call_ok {A} (c : M DB A) : preserves chat_ok (user_call c).
Proof.
  intros [d ch mb ms nc nm] Hc. unfold user_call, zoom. simpl. by destruct (c d).
Qed.

#[export] Hint Resolve member_create_ok member_delete_ok channel_create_ok channel_delete_ok
  sendMessage_ok user_call_ok : gw.
#[export] Hint Extern 2 (preserves chat_ok (member_update _ _ _)) =>
  apply member_update_ok; intros []; reflexivity : gw.
#[export] Hint Extern 2 (preserves chat_ok (channel_update _ _)) =>
  apply channel_update_ok; intros []; reflexivity : gw.

(** ** Every service operation keeps the tables consistent *)

Section ServiceIntegrity.
Import ChannelService.

Lemma setPassword_ok cid pw : preserves chat_ok (setPassword cid pw).
Proof. unfold setPassword. eauto with gw. Qed.
Lemma setHasLeft_ok cid uid v : preserves chat_ok (setHasLeft cid uid v).
Proof. unfold setHasLeft. eauto with gw. Qed.
Lemma setRole_ok cid uid r : preserves chat_ok (setRole cid uid r).
Proof. unfold setRole. eauto with gw. Qed.

#[local] Hint Resolve setPassword_ok setHasLeft_ok setRole_ok : gw.

Lemma joinGeneral_ok now uid : preserves chat_ok (joinGeneral now uid).
Proof. unfold joinGeneral, getChannelByName, findUserInChannel. preserve_cases. Qed.
Lemma create_ok hash now name t pw owner : preserves chat_ok (create hash now name t pw owner).
Proof. unfold create, getChannelByName. preserve_cases. Qed.
Lemma join_ok hash now name uid pw : preserves chat_ok (join hash now name uid pw).
Proof. unfold join, getChannelByName, findUserInChannel. preserve_cases. Qed.
Lemma checkOwnership_ok cid uid : preserves chat_ok (checkOwnership cid uid).
Proof. unfold checkOwnership, getChannelById, getChannelUsersByRole. preserve_cases. Qed.
Lemma updateChannel_ok cid : preserves chat_ok (updateChannel cid).
Proof. unfold updateChannel. preserve_cases. Qed.

#[local] Hint Resolve checkOwnership_ok updateChannel_ok : gw.

Lemma leave_ok now cid uid : preserves chat_ok (leave now cid uid).
Proof. unfold leave, findUserInChannel. preserve_cases. Qed.
Lemma handlePassword_ok hash uid cid pw : preserves chat_ok (handlePassword hash uid cid pw).
Proof. unfold handlePassword, getChannelById, findUserInChannel. preserve_cases. Qed.
Lemma handleAdmin_ok owner cid uid : preserves chat_ok (handleAdmin owner cid uid).
Proof. unfold handleAdmin, getChannelById, findUserInChannel. preserve_cases. Qed.
Lemma moderated_ok who cid a t act :
  (forall u, preserves chat_ok (act u)) -> preserves chat_ok (moderated who cid a t act).
Proof. intros Hact. unfold moderated, findUserInChannel. preserve_cases. Qed.
#[local] Hint Resolve moderated_ok : gw.
Lemma kickUser_ok now uid cid t : preserves chat_ok (kickUser now uid cid t).
Proof. unfold kickUser. apply moderated_ok. intros u. preserve_cases. Qed.
Lemma banUser_ok now uid cid t : preserves chat_ok (banUser now uid cid t).
Proof. unfold banUser. apply moderated_ok. intros u. preserve_cases. Qed.
Lemma muteUser_ok now uid cid t : preserves chat_ok (muteUser now uid cid t).
Proof. unfold muteUser. apply moderated_ok. intros u. preserve_cases. Qed.
Lemma startPrivateConvo_ok now u1 u2 : preserves chat_ok (startPrivateConvo now u1 u2).
Proof. unfold startPrivateConvo. eauto with gw. Qed.

Lemma updateUsername_ok uid : preserves chat_ok (ChatService.updateUsername uid).
Proof.
  unfold ChatService.updateUsername. preserve.
Qed.
Lemma blockUser_ok uid t : preserves chat_ok (ChatService.blockUser uid t).
Proof. unfold ChatService.blockUser. preserve_cases. Qed.
End ServiceIntegrity.

#[export] Hint Resolve setPassword_ok setHasLeft_ok setRole_ok joinGeneral_ok create_ok join_ok
  checkOwnership_ok updateChannel_ok leave_ok handlePassword_ok handleAdmin_ok kickUser_ok banUser_ok
  muteUser_ok startPrivateConvo_ok updateUsername_ok blockUser_ok : gw.

(** ** Lookups after the primitive writes *)

Lemma is_member_key cid uid u v : mkey u = mkey v -> is_member cid uid u = is_member cid uid v.
Proof. unfold is_member, mkey. intros [= -> ->]. done. Qed.

Lemma member_of_update c cid uid f u :
  (forall v, mkey (f v) = mkey v) -> member_of c cid uid = Some u ->
  member_of (exec (member_update cid uid f) c) cid uid = Some (f u).
Proof.
  intros Hf Hu. unfold exec, member_update. rewrite Hu.
  destruct c as [d ch mb ms nc nm]. unfold member_of in *. simpl in *.
  rewrite find_first_map; [|intros v; destruct (is_member cid uid v) eqn:E; [|done];
                            by rewrite (is_member_key cid uid (f v) v (Hf v))].
  rewrite Hu. simpl. by rewrite (proj2 (find_first_Some _ _ _ Hu)).
Qed.

Lemma member_create_Ok c now cid uid r u c' :
  member_create now cid uid r c = (Ok u, c') ->
  member_of c cid uid = None /\ member_of c' cid uid = Some u /\ cu_hasLeft u = false.
Proof.
  unfold member_create. destruct (member_of c cid uid) eqn:Hm; [by intros [=]|].
  destruct (channel_by_id c cid); [|by intros [=]]. destruct (user_by_id (core c) uid); [|by intros [=]].
  intros [= <- <-]. split_and!; [done| |done].
  destruct c as [d ch mb ms nc nm]. unfold member_of in *. simpl in *.
  rewrite find_first_app_r; [|done]. unfold is_member. simpl. by rewrite bool_decide_true.
Qed.

Section Admission.
Import ChannelService.

Lemma password_refusal_None hash ch pw :
  password_refusal hash ch pw = None ->
  js_truthy (ch_password ch) = true -> js_truthy pw = true /\ ch_password ch = hash <$> pw.
Proof.
  unfold password_refusal. intros H Ht. rewrite Ht in H.
  destruct (js_truthy pw); simpl in H; [|done]. case_bool_decide; [done|]. split; [done|]. tauto.
Qed.

Lemma member_of_setHasLeft c cid uid v u :
  member_of c cid uid = Some u ->
  member_of (exec (setHasLeft cid uid v) c) cid uid =
    Some (mkChannelUser (cu_channelId u) (cu_userId u) (role u) v (banEnd u) (muteEnd u) (createdAt u)).
Proof.
  intros Hu. exact (member_of_update c cid uid (fun u => mkChannelUser (cu_channelId u) (cu_userId u)
                      (role u) v (banEnd u) (muteEnd u) (createdAt u)) u (fun _ => eq_refl) Hu).
Qed.

(** C24. [join] admits a user (status 3) only into an existing channel
    that is not a private conversation, with the channel's password when
    it has one, and only when any membership row the user has is a left
    one whose ban is over; the user then has a row that is not left. *)
Theorem join_admits hash now name uid pw c :
  eval (ChannelService.join hash now name uid pw) c = Ok (mkIResult 3 None) ->
  exists ch, channel_by_name c name = Some ch /\ ch_type ch <> DM /\
    (js_truthy (ch_password ch) = true -> js_truthy pw = true /\ ch_password ch = hash <$> pw) /\
    (forall u, member_of c (ch_id ch) uid = Some u -> cu_hasLeft u = true /\ banEnd u <= now) /\
    exists u', member_of (exec (ChannelService.join hash now name uid pw) c) (ch_id ch) uid = Some u' /\
               cu_hasLeft u' = false.
Proof.
  unfold eval, exec, ChannelService.join, ChannelService.getChannelByName, ChannelService.findUserInChannel.
  cbv beta delta [bind gets ret]. simpl.
  destruct (channel_by_name c name) as [ch|] eqn:Hch; simpl; [|done].
  case_bool_decide as Hdm; simpl; [done|].
  destruct (password_refusal hash ch pw) as [m|] eqn:Hpw.
  { destruct (member_of c (ch_id ch) uid); simpl; [destruct (negb _)|]; done. }
  pose proof (password_refusal_None _ _ _ Hpw) as Hp.
  destruct (member_of c (ch_id ch) uid) as [u|] eqn:Hm; simpl.
  - destruct (cu_hasLeft u) eqn:Hl; simpl; [|done].
    case_bool_decide as Hban; simpl; [done|].
    pose proof (member_of_setHasLeft c (ch_id ch) uid false u Hm) as Hu. unfold exec in Hu.
    destruct (setHasLeft (ch_id ch) uid false c) as [[] c'] eqn:Hs; simpl; [|done]. intros _.
    exists ch. split_and!; [done|done|done| |].
    + intros u' Hu'. rewrite Hm in Hu'. injection Hu' as <-. split; [done|lia].
    + eexists. split; [exact Hu|done].
  - destruct (member_create now (ch_id ch) uid USER c) as [[u|] c'] eqn:Hs; simpl; [|done]. intros _.
    apply member_create_Ok in Hs as (_ & Hu & Hl).
    exists ch. split_and!; [done|done|done|by intros u' Hu'; rewrite Hm in Hu'|].
    by exists u.
Qed.
End Admission.

(** ** Moderation rights *)

(** The rights [moderation_refusal] grants: an owner acts on anyone but
    an owner, an admin on plain users. *)
Definition may_moderate (user target : ChannelUser) : Prop :=
  (role user = OWNER /\ role target <> OWNER) \/ (role user = ADMIN /\ role target = USER).

#[export] Instance may_moderate_dec u t : Decision (may_moderate u t).
Proof. unfold may_moderate. apply _. Defined.

Definition moderation_allowed (c : ChatDB) (cid a t : Z) : bool :=
  match member_of c cid a, member_of c cid t with
  | Some ua, Some ut => bool_decide (may_moderate ua ut)
  | _, _ => false
  end.

Section Moderation.
Import ChannelService.

Lemma moderation_refusal_None who u t : moderation_refusal who u t = None <-> may_moderate u t.
Proof.
  unfold moderation_refusal, may_moderate.
  destruct (role u), (role t); repeat case_bool_decide; naive_solver.
Qed.

Lemma moderated_refused who cid a t act c :
  moderation_allowed c cid a t = false -> exec (moderated who cid a t act) c = c.
Proof.
  unfold moderation_allowed, moderated, findUserInChannel, exec. cbv beta delta [bind gets ret]. simpl.
  destruct (member_of c cid a) as [ua|], (member_of c cid t) as [ut|]; simpl; try done.
  case_bool_decide as Hm; [done|]. intros _.
  destruct (moderation_refusal who ua ut) eqn:Hr; [done|]. by apply moderation_refusal_None in Hr.
Qed.

Lemma moderated_allowed who cid a t act c :
  moderation_allowed c cid a t = true ->
  exists ut, member_of c cid t = Some ut /\ moderated who cid a t act c = (act ut;; ret None) c.
Proof.
  unfold moderation_allowed, moderated, findUserInChannel. cbv beta delta [bind gets ret]. simpl.
  destruct (member_of c cid a) as [ua|], (member_of c cid t) as [ut|]; simpl; try done.
  case_bool_decide as Hm; [|done]. intros _. exists ut. split; [done|].
  apply moderation_refusal_None with (who := who) in Hm. by rewrite Hm.
Qed.

(** C25. Kicking, banning and muting change nothing unless both users
    are members of the channel and the actor's role outranks the
    target's (an owner acts on non-owners, an admin on plain users). *)
Theorem moderation_requires_rights now a cid t c :
  moderation_allowed c cid a t = false ->
  exec (kickUser now a cid t) c = c /\ exec (banUser now a cid t) c = c /\ exec (muteUser now a cid t) c = c.
Proof. intros H. split_and!; apply moderated_refused, H. Qed.

(** A permitted ban marks the target's row as left and sets its
    ban to end two minutes from now, keeping its role and mute. *)
Theorem banUser_bans now a cid t c :
  moderation_allowed c cid a t = true ->
  exists ut, member_of c cid t = Some ut /\
    member_of (exec (banUser now a cid t) c) cid t =
      Some (mkChannelUser cid t (role ut) true (now + 120000) (muteEnd ut) (createdAt ut)).
Proof.
  intros H. destruct (moderated_allowed "ban" cid a t (fun _ => member_update cid t
      (fun u => mkChannelUser (cu_channelId u) (cu_userId u) (role u) true
                              (now + 2 * 60000) (muteEnd u) (createdAt u));; ret tt) c H) as (ut & Hut & Hrun).
  exists ut. split; [done|]. unfold banUser, exec. rewrite Hrun.
  pose proof (member_of_update c cid t (fun u => mkChannelUser (cu_channelId u) (cu_userId u) (role u) true
                              (now + 2 * 60000) (muteEnd u) (createdAt u)) ut (fun _ => eq_refl) Hut) as Hu.
  unfold exec in Hu. unfold bind at 1 2. destruct (member_update _ _ _ c) as [[] c'] eqn:Hs; simpl in *.
  - apply find_first_Some in Hut as [_ Hk]. unfold is_member in Hk. apply bool_decide_eq_true in Hk as [<- <-].
    rewrite Hu. done.
  - unfold member_update in Hs. by rewrite Hut in Hs.
Qed.
End Moderation.

(** ** Scenarios on a small database

    Users 1, 2, 3, 12 and 23; channel 5 ["club"] owned by user 1, who is
    muted until time 1000, with user 2 as admin and user 3 as plain
    member; channel 6 ["staff"] is [PRIVATE] with no password. *)

Definition demo_user (i : Z) : User := mkUser i (100 + i) ("u" +:+ js_string_of_Z i) ONLINE 0 0 [].

Definition demo_chat : ChatDB :=
  mkChatDB (mkDB (map demo_user [1; 2; 3; 12; 23]) [] 1)
    [mkChannel 5 "club" PUBLIC None (Some 1); mkChannel 6 "staff" PRIVATE None (Some 2)]
    [mkChannelUser 5 1 OWNER false 0 1000 1; mkChannelUser 5 2 ADMIN false 0 0 2;
     mkChannelUser 5 3 USER false 0 0 3; mkChannelUser 6 2 OWNER false 0 0 4]
    [] 7 1.

Section Scenarios.
Import ChannelService.

(** An owner who leaves while muted keeps a left row with the role
    [OWNER] (the ownership passes to the admin), and with that row can
    still kick a member of the channel they left. *)
Example left_owner_still_kicks :
  let c := exec (leave 500 5 1) demo_chat in
  (role <$> member_of c 5 1 = Some OWNER /\ cu_hasLeft <$> member_of c 5 1 = Some true) /\
  (ownerId <$> channel_by_id c 5 = Some (Some 2)) /\
  member_of (exec (kickUser 600 1 5 3) c) 5 3 = None /\ is_Some (member_of c 5 3).
Proof. vm_compute. split_and!; try reflexivity. by eexists. Qed.

(** The name of a private conversation concatenates the two ids,
    so the conversations of users 1 and 23 and of users 12 and 3 get the
    same name: once the first exists, the second cannot be created. *)
Example dm_names_collide :
  dm_name 1 23 = dm_name 12 3 /\
  eval (startPrivateConvo 0 1 23) demo_chat <> Exn /\
  eval (startPrivateConvo 0 1 23;; startPrivateConvo 0 12 3) demo_chat = Exn.
Proof. vm_compute. split_and!; [reflexivity|discriminate|reflexivity]. Qed.

(** [join] does not look at the channel type beyond [DM]: a user
    who is not a member joins the [PRIVATE] channel ["staff"] by its
    name. *)
Example private_channel_joinable_by_name :
  eval (join (fun s => s) 0 "staff" 3 None) demo_chat = Ok (mkIResult 3 None) /\
  is_Some (member_of (exec (join (fun s => s) 0 "staff" 3 None) demo_chat) 6 3).
Proof. vm_compute. split; [reflexivity|by eexists]. Qed.
End Scenarios.

Section Witnesses.
Import ChannelService.

Lemma join_admits_witness :
  exists ch, channel_by_name demo_chat "staff" = Some ch /\ ch_type ch <> DM /\
    (js_truthy (ch_password ch) = true -> js_truthy None = true /\ ch_password ch = (fun s => s) <$> None) /\
    (forall u, member_of demo_chat (ch_id ch) 3 = Some u -> cu_hasLeft u = true /\ banEnd u <= 0) /\
    exists u', member_of (exec (join (fun s => s) 0 "staff" 3 None) demo_chat) (ch_id ch) 3 = Some u' /\
               cu_hasLeft u' = false.
Proof. apply (join_admits (fun s => s) 0 "staff" 3 None demo_chat). vm_compute. reflexivity. Defined.

Lemma moderation_requires_rights_witness :
  exec (kickUser 0 3 5 2) demo_chat = demo_chat /\ exec (banUser 0 3 5 2) demo_chat = demo_chat /\
  exec (muteUser 0 3 5 2) demo_chat = demo_chat.
Proof. apply (moderation_requires_rights 0 3 5 2 demo_chat). vm_compute. reflexivity. Defined.

Lemma banUser_bans_witness :
  exists ut, member_of demo_chat 5 3 = Some ut /\
    member_of (exec (banUser 0 2 5 3) demo_chat) 5 3 =
      Some (mkChannelUser 5 3 (role ut) true (0 + 120000) (muteEnd ut) (createdAt ut)).
Proof. apply (banUser_bans 0 2 5 3 demo_chat). vm_compute. reflexivity. Defined.
End Witnesses.

(** ** Blocking toggles *)

(** One [blockUser] call on a present user: it succeeds and toggles [t]
    in the user's block list. *)
Lemma blockUser_server uid t c u :
  user_by_id (core c) uid = Some u -> NoDup (map u_id (users (core c))) ->
  exists msg c' u',
    ChatService.blockUser uid t c = (Ok msg, c') /\ user_by_id (core c') uid = Some u' /\
    usersBlocked u' = (if bool_decide (t ∈ usersBlocked u) then filter (fun x => x <> t) (usersBlocked u)
                       else usersBlocked u ++ [t]) /\
    NoDup (map u_id (users (core c'))).
Proof.
  intros Hu Hnd. destruct c as [d ch mb ms nc nm]. simpl in *.
  unfold ChatService.blockUser, user_call, zoom, UserService.getUserById,
    UserService.isBlocked, UserService.blockUser, UserService.unblockUser.
  cbv beta delta [bind gets ret]. simpl. rewrite Hu. simpl.
  rewrite (isBlocked_unique d uid t u Hnd Hu).
  case_bool_decide; simpl.
  - destruct (user_update_id_lookup d uid [UBlockedSet (filter (fun x => x <> t) (usersBlocked u))] u Hnd Hu)
      as [H1 H2].
    unfold exec in H1, H2. rewrite (user_update_run d (key_id uid) _ u Hu) in H1, H2 |- *. simpl in *.
    eexists _, _, _. split; [reflexivity|]. simpl. split; [exact H1|]. split; [|done]. destruct u; simpl in *; done.
  - destruct (user_update_id_lookup d uid [UBlockedPush t] u Hnd Hu) as [H1 H2].
    unfold exec in H1, H2. rewrite (user_update_run d (key_id uid) _ u Hu) in H1, H2 |- *. simpl in *.
    eexists _, _, _. split; [reflexivity|]. simpl. split; [exact H1|]. split; [|done]. destruct u; simpl in *; done.
Qed.

(** C28. [blockUser] toggles: on a user who has not blocked [t] it
    blocks [t] and answers ["User unblocked"] (the two messages are
    swapped in the source), and a second call restores the database. *)
Theorem blockUser_toggle_roundtrip uid t c u :
  user_by_id (core c) uid = Some u -> t ∉ usersBlocked u -> NoDup (map u_id (users (core c))) ->
  eval (ChatService.blockUser uid t) c = Ok "User unblocked"%string /\
  exec (ChatService.blockUser uid t;; ChatService.blockUser uid t) c = c.
Proof.
  intros Hu Ht Hnd. destruct c as [d ch mb ms nc nm]. simpl in *.
  assert (Hku : u_id u = uid) by (apply find_first_Some in Hu as [_ Hk]; by apply bool_decide_eq_true in Hk).
  unfold eval, exec, ChatService.blockUser, user_call, zoom, UserService.getUserById,
    UserService.isBlocked, UserService.blockUser, UserService.unblockUser.
  cbv beta delta [bind gets ret]. simpl. rewrite Hu. simpl.
  rewrite (isBlocked_unique d uid t u Hnd Hu), bool_decide_false by done. simpl.
  rewrite (user_update_run d _ _ u Hu). simpl. split; [done|].
  set (g1 := fun v => if key_id uid v then apply_user_data v [UBlockedPush t] else v).
  set (d1 := mkDB (map g1 (users d)) (games d) (next_game_id d)).
  set (u1 := apply_user_data u [UBlockedPush t]).
  assert (Hid : forall v f, u_id (set_user_field v f) = u_id v) by (intros [] []; done).
  assert (Hu1 : user_by_id d1 uid = Some u1).
  { unfold user_by_id, d1, g1 in *. simpl. rewrite find_first_map, Hu; [simpl; unfold key_id; by rewrite bool_decide_true|].
    intros v. unfold key_id. destruct (bool_decide (u_id v = uid)) eqn:E; simpl; by rewrite ?Hid, ?E. }
  assert (Hnd1 : NoDup (map u_id (users d1))) by (simpl; unfold g1; rewrite map_update_proj; [done|intros; apply Hid]).
  change (user_by_id {| users := _; games := games d; next_game_id := next_game_id d |} uid)
    with (user_by_id d1 uid). rewrite Hu1. simpl.
  change {| users := _; games := games d; next_game_id := next_game_id d |} with d1.
  change (map _ (users d)) with (users d1).
  rewrite (isBlocked_unique d1 uid t u1 Hnd1 Hu1), bool_decide_true
    by (destruct u; simpl; apply elem_of_app; right; by apply list_elem_of_singleton).
  simpl. rewrite (user_update_run d1 _ _ u1 Hu1). simpl. f_equal. destruct d as [us gs n]. f_equal. simpl in *.
  rewrite map_map. apply map_id_on. intros v Hv. unfold key_id.
  destruct (bool_decide (u_id v = uid)) eqn:Hk; simpl.
  - apply bool_decide_eq_true in Hk. rewrite (user_by_id_unique (mkDB us gs n) uid u v) by done.
    unfold g1, u1, key_id. simpl. rewrite (bool_decide_true (u_id u = uid)) by done.
    rewrite Hid, bool_decide_true by done.
    destruct u as [i a nm' st w l b]. simpl in *. rewrite filter_app, filter_cons_False, filter_nil, app_nil_r by tauto.
    rewrite filter_all; [done|]. intros x Hx ->. done.
  - unfold g1, key_id. rewrite Hk. by rewrite Hk.
Qed.

Lemma blockUser_toggle_roundtrip_witness :
  eval (ChatService.blockUser 1 2) demo_chat = Ok "User unblocked"%string /\
  exec (ChatService.blockUser 1 2;; ChatService.blockUser 1 2) demo_chat = demo_chat.
Proof.
  apply (blockUser_toggle_roundtrip 1 2 demo_chat (demo_user 1)); [reflexivity| |apply (bool_decide_unpack _); vm_compute; reflexivity].
  vm_compute. apply not_elem_of_nil.
Defined.
