(* ===== verification/ChatGateway.v ===== *)
(** * Chat gateway: the [@SubscribeMessage] handlers of chat.gateway.ts

    src/app/backend/src/chat/chat.gateway.ts on the state [ChatWorld]:
    the chat database of Chat.v, the user each socket authenticated as
    ([client.data.user]), the shared room adapter of World.v and the log
    of emitted chat events.  Every handler body is in a [try] whose
    [catch] only logs: an exception ends the handler, keeping what it
    did before.  A handler's acknowledgement (its [return] value) is the
    result of the computation. *)

From stdpp Require Import base list strings relations.
From Stdlib Require Import ZArith Lia.
From S2P Require Import Prelude Store World System Chat.

Open Scope Z_scope.

Import UserService ChannelService.

(** The events the chat gateway emits. *)
Inductive ChatPayload :=
  | CUpdate (toUpdate : Z) (channelId : option Z)
  | CAlert (msg : string)
  | CNewMessage (m : Message)
  | CAnnouncement (announcement : string) (channelId : Z).

Record ChatWorld := mkChatWorld {
  cdb : ChatDB;
  client_user : jsmap string User;
  crooms : JsRooms.t;
  coutbox : list (Target * ChatPayload);
  cdisconnected : list string
}.

Definition set_cdb (d : ChatDB) (w : ChatWorld) : ChatWorld :=
  let 'mkChatWorld _ u r o k := w in mkChatWorld d u r o k.

Definition CM := M ChatWorld.

Definition cdb_call {A} (c : M ChatDB A) : CM A := zoom cdb set_cdb c.
Definition core_call {A} (c : M DB A) : CM A := cdb_call (user_call c).

Definition cemit (t : Target) (p : ChatPayload) : CM unit :=
  modify (fun w => mkChatWorld (cdb w) (client_user w) (crooms w) (coutbox w ++ [(t, p)])
                               (cdisconnected w)).

(** [client.emit]: to the sender only. *)
Definition alert (sid : string) (msg : string) : CM unit := cemit (ToRooms [RSocket sid]) (CAlert msg).

Definition cjoin (sid : string) (r : Room) : CM unit :=
  modify (fun w => mkChatWorld (cdb w) (client_user w) (JsRooms.join sid r (crooms w)) (coutbox w)
                               (cdisconnected w)).
Definition cleave (sid : string) (r : Room) : CM unit :=
  modify (fun w => mkChatWorld (cdb w) (client_user w) (JsRooms.leave sid r (crooms w)) (coutbox w)
                               (cdisconnected w)).

(** The bit flags of [this.update]. *)
Definition upd_channels : Z := 1.
Definition upd_publicChannels : Z := 2.
Definition upd_dm : Z := 4.
Definition upd_channelUsers : Z := 8.
Definition upd_onlineUsers : Z := 16.

Module ChatGateway.

(** [handleConnection]: an unknown user is disconnected; any other joins
    their personal room, [general], the rooms of the channels they have
    joined and of their private conversations.  [getChannelsJoined]
    answers [undefined] when the user is in no non-DM channel; its
    [forEach] then throws. *)
Definition handleConnection (now : Z) (sid : string) (authId : option Z) : CM unit :=
  catch (
    let* user := core_call (getUserByAuthId authId) in
    match user with
    | None =>
        modify (fun w => mkChatWorld (cdb w) (client_user w) (crooms w) (coutbox w)
                                     (cdisconnected w ++ [sid]))
    | Some user =>
        modify (fun w => mkChatWorld (cdb w) (jm_set (client_user w) sid user) (crooms w)
                                     (coutbox w) (cdisconnected w));;
        cjoin sid (RUser (u_id user));;
        cdb_call (joinGeneral now (u_id user));;
        let* chans := cdb_call (getChannelsJoined (u_id user)) in
        let* chans := deref chans in
        for_each (fun ch => cjoin sid (RChannel (ch_id ch))) chans;;
        let* convo := cdb_call (getPrivateConvo (u_id user)) in
        for_each (fun conv => cjoin sid (RNamed (ch_name conv))) convo;;
        cemit ToAll (CUpdate (Z.lor (Z.lor upd_onlineUsers upd_channelUsers) upd_dm) None)
    end) (ret tt).

Definition disconnecting (sid : string) : CM unit :=
  catch (
    let* w := get in
    match jm_get (client_user w) sid with
    | Some u => when (bool_decide (u_id u <> 0))
                  (cemit ToAll (CUpdate (Z.lor upd_onlineUsers upd_channelUsers) None))
    | None => ret tt
    end) (ret tt).

(** [sendMessage(dto)].  A private message goes to the conversation's
    room unless either side blocked the other; a channel message needs a
    membership row of the sender that is not muted. *)
Definition sendMessage (now : Z) (sid : string) (fromId toId : Z) (fromUsername : string)
    (isDm : bool) (content : string) : CM unit :=
  catch (
    if isDm then
      let* pc := cdb_call (findPrivateConvoById toId) in
      let* pc := deref pc in
      let* w := get in
      let us := convo_users (cdb w) pc in
      for_each (fun u => cemit (ToRooms [RUser u]) (CUpdate upd_dm None)) us;;
      let* u0 := deref (us !! 0%nat) in
      let* other := if bool_decide (u0 = fromId) then deref (us !! 1%nat) else ret u0 in
      let* b1 := core_call (isBlocked fromId other) in
      if b1 then alert sid "You cannot send messages to that user: you blocked the user" else
      let* b2 := core_call (isBlocked other fromId) in
      if b2 then alert sid "You cannot send messages to that user: you are blocked" else
      let* m := cdb_call (ChatService.sendMessage fromId toId fromUsername isDm content) in
      cemit (ToRooms [RNamed (ch_name pc)]) (CNewMessage m)
    else
      let* user := cdb_call (findUserInChannel toId fromId) in
      match user with
      | None => alert sid "You cannot send messages in that channel"
      | Some user =>
          cjoin sid (RChannel toId);;
          if bool_decide (now < muteEnd user)
          then alert sid "You cannot send messages in that channel: you are muted"
          else
            let* m := cdb_call (ChatService.sendMessage fromId toId fromUsername isDm content) in
            cemit (ToRooms [RChannel toId]) (CNewMessage m)
      end) (ret tt).

Definition getChannelMessage (channelId : Z) : CM (option (list Message)) :=
  catch (let* r := cdb_call (ChatService.getMessages channelId) in ret (Some r)) (ret None).

Definition createChannel (hash : string -> string) (now : Z) (sid : string) (name : string)
    (t : ChannelType) (password : option string) (owner : Z) : CM (option Channel) :=
  catch (
    let* response := cdb_call (create hash now name t password owner) in
    match response with
    | Some r => alert sid r;; ret None
    | None =>
        let* newChannel := cdb_call (getChannelByName name) in
        let* newChannel := deref newChannel in
        cjoin sid (RChannel (ch_id newChannel));;
        cemit ToAll (CUpdate (Z.lor upd_channels upd_publicChannels) None);;
        ret (Some newChannel)
    end) (ret None).

Definition joinChannel (hash : string -> string) (now : Z) (sid : string) (channelName : string)
    (userId : Z) (password : option string) : CM (option Channel) :=
  catch (
    let* response := cdb_call (join hash now channelName userId password) in
    if bool_decide (res_status response = 1) then
      alert sid (default "" (res_response response));; ret None
    else
      let* channel := cdb_call (getChannelByName channelName) in
      if bool_decide (res_status response = 2) then ret channel else
      let* channel := deref channel in
      let flags := Z.lor (Z.lor upd_channelUsers upd_channels) upd_publicChannels in
      let* user := core_call (getUserById userId) in
      let* user := deref user in
      cemit (ToRooms [RUser (u_id user)]) (CUpdate flags (Some (ch_id channel)));;
      cemit (ToRooms [RChannel (ch_id channel)]) (CUpdate flags (Some (ch_id channel)));;
      cjoin sid (RChannel (ch_id channel));;
      cemit (ToRooms [RChannel (ch_id channel)])
            (CAnnouncement (username user +:+ " joined this channel") (ch_id channel));;
      ret (Some channel)) (ret None).

Definition leaveChannel (now : Z) (sid : string) (channelId userId : Z) : CM unit :=
  catch (
    let* result := cdb_call (leave now channelId userId) in
    if bool_decide (res_status result = 1) then ret tt else
    cleave sid (RChannel channelId);;
    let* user := core_call (getUserById userId) in
    cemit ToAll (CUpdate (Z.lor (Z.lor upd_channelUsers upd_publicChannels) upd_channels)
                         (Some channelId));;
    let* user := deref user in
    cemit (ToRooms [RChannel channelId])
          (CAnnouncement (username user +:+ " left this channel") channelId);;
    when (bool_decide (res_status result = 2))
      (let* channel := cdb_call (getChannelById channelId) in
       let* channel := deref channel in
       (* [ownerId] null names the room "#usernull", which no socket joins. *)
       cemit (ToRooms (match ownerId channel with Some i => [RUser i] | None => [] end))
             (CAnnouncement (default "" (res_response result)) channelId))) (ret tt).

Definition startPrivateConvo (now : Z) (sid : string) (fromId toId : Z) : CM (option Channel) :=
  catch (
    let* convo := cdb_call (findPrivateConvo fromId toId) in
    let* convo := match convo with
                   | Some c => ret c
                   | None => cdb_call (ChannelService.startPrivateConvo now fromId toId)
                   end in
    cemit (ToRooms [RUser fromId]) (CUpdate upd_dm None);;
    ret (Some convo)) (ret None).

Definition getOnlineUsers (userId : Z) : CM (option (list User)) :=
  catch (let* r := cdb_call (ChatService.getOnlineUsers userId) in ret (Some r)) (ret None).
Definition getChannelUsers (userId channelId : Z) : CM (option (list ChannelUserView)) :=
  catch (let* r := cdb_call (ChannelService.getChannelUsers userId channelId) in ret (Some r)) (ret None).
Definition getChannelsJoined (userId : Z) : CM (option (list Channel)) :=
  catch (cdb_call (ChannelService.getChannelsJoined userId)) (ret None).
Definition getPublicChannels : CM (option (list (Z * string))) :=
  catch (let* r := cdb_call ChannelService.getPublicChannels in ret (Some r)) (ret None).

(** [getPrivateConvo]: join the rooms of the conversations not joined. *)
Definition getPrivateConvo (sid : string) (userId : Z) : CM (option (list Channel)) :=
  catch (
    let* convo := cdb_call (ChannelService.getPrivateConvo userId) in
    for_each (fun conv =>
                let* w := get in
                when (negb (bool_decide (sid ∈ JsRooms.members (crooms w) (RNamed (ch_name conv)))))
                  (cjoin sid (RNamed (ch_name conv)))) convo;;
    ret (Some convo)) (ret None).

Definition handlePassword (hash : string -> string) (sid : string) (userId channelId : Z)
    (password : option string) : CM unit :=
  catch (
    let* response := cdb_call (ChannelService.handlePassword hash userId channelId password) in
    alert sid response) (ret tt).

Definition handleAdmin (sid : string) (owner channelId userId : Z) : CM unit :=
  catch (
    if bool_decide (owner = userId) then ret tt else
    let* result := cdb_call (ChannelService.handleAdmin owner channelId userId) in
    if bool_decide (res_status result = 1) then alert sid (default "" (res_response result)) else
    cemit (ToRooms [RChannel channelId]) (CUpdate upd_channelUsers (Some channelId));;
    cemit (ToRooms [RUser userId]) (CAnnouncement (default "" (res_response result)) channelId))
    (ret tt).

(** [kickUser] and [banUser]: a refusal is sent to the sender, and the
    handler goes on: the target and the channel are told either way. *)
Definition kickUser (now : Z) (sid : string) (userId channelId toKickId : Z) : CM unit :=
  catch (
    if bool_decide (userId = toKickId) then ret tt else
    let* response := cdb_call (ChannelService.kickUser now userId channelId toKickId) in
    (match response with Some r => alert sid r | None => ret tt end);;
    let* channel := cdb_call (getChannelById channelId) in
    let* kicked := core_call (getUserById toKickId) in
    cemit (ToRooms [RUser toKickId]) (CUpdate upd_channels None);;
    let* channel := deref channel in
    cemit (ToRooms [RUser toKickId]) (CAlert ("You got kicked out of channel " +:+ ch_name channel));;
    cemit (ToRooms [RChannel channelId]) (CUpdate upd_channelUsers (Some channelId));;
    let* kicked := deref kicked in
    cemit (ToRooms [RChannel channelId])
          (CAnnouncement (username kicked +:+ " got kicked out of this channel") channelId))
    (ret tt).

Definition banUser (now : Z) (sid : string) (userId channelId toBanId : Z) : CM unit :=
  catch (
    if bool_decide (userId = toBanId) then ret tt else
    let* response := cdb_call (ChannelService.banUser now userId channelId toBanId) in
    (match response with Some r => alert sid r | None => ret tt end);;
    let* channel := cdb_call (getChannelById channelId) in
    let* kicked := core_call (getUserById toBanId) in
    cemit (ToRooms [RUser toBanId]) (CUpdate upd_channels None);;
    let* channel := deref channel in
    cemit (ToRooms [RUser toBanId]) (CAlert ("You are banned from channel " +:+ ch_name channel));;
    cemit (ToRooms [RChannel channelId]) (CUpdate upd_channelUsers (Some channelId));;
    let* kicked := deref kicked in
    cemit (ToRooms [RChannel channelId])
          (CAnnouncement (username kicked +:+ " is banned from this channel") channelId))
    (ret tt).

Definition muteUser (now : Z) (sid : string) (userId channelId toMuteId : Z) : CM unit :=
  catch (
    if bool_decide (userId = toMuteId) then ret tt else
    let* response := cdb_call (ChannelService.muteUser now userId channelId toMuteId) in
    match response with Some r => alert sid r | None => ret tt end) (ret tt).

Definition blockUser (sid : string) (userId toBlockId : Z) : CM unit :=
  catch (
    cdb_call (ChatService.blockUser userId toBlockId);;
    cemit (ToRooms [RUser toBlockId]) (CUpdate (Z.lor upd_onlineUsers upd_channelUsers) None))
    (ret tt).
End ChatGateway.

(** ** The chat server as a transition system

    One step runs one handler to its end.  A disconnection runs the
    [disconnecting] handler while the socket is still in its rooms, then
    socket.io takes it out of every room ([handleDisconnect] only logs). *)

Inductive ChatEvent :=
  | CConnect (now : Z) (sid : string) (authId : option Z)
  | CDisconnect (sid : string)
  | CSendMessage (now : Z) (sid : string) (fromId toId : Z) (fromUsername : string) (isDm : bool)
                 (content : string)
  | CGetMessages (channelId : Z)
  | CCreateChannel (now : Z) (sid : string) (name : string) (t : ChannelType) (pw : option string) (owner : Z)
  | CJoinChannel (now : Z) (sid : string) (name : string) (userId : Z) (pw : option string)
  | CLeaveChannel (now : Z) (sid : string) (channelId userId : Z)
  | CStartPrivateConvo (now : Z) (sid : string) (fromId toId : Z)
  | CGetOnlineUsers (userId : Z)
  | CGetChannelUsers (userId channelId : Z)
  | CGetChannelsJoined (userId : Z)
  | CGetPublicChannels
  | CGetPrivateConvo (sid : string) (userId : Z)
  | CHandlePassword (sid : string) (userId channelId : Z) (pw : option string)
  | CHandleAdmin (sid : string) (owner channelId userId : Z)
  | CKickUser (now : Z) (sid : string) (userId channelId toKickId : Z)
  | CBanUser (now : Z) (sid : string) (userId channelId toBanId : Z)
  | CMuteUser (now : Z) (sid : string) (userId channelId toMuteId : Z)
  | CBlockUser (sid : string) (userId toBlockId : Z).

Definition csio_disconnect (sid : string) : CM unit :=
  modify (fun w => mkChatWorld (cdb w) (client_user w) (leave_all sid (crooms w)) (coutbox w)
                               (cdisconnected w)).

Definition chat_handle (hash : string -> string) (e : ChatEvent) : CM unit :=
  match e with
  | CConnect now sid a => ChatGateway.handleConnection now sid a
  | CDisconnect sid => ChatGateway.disconnecting sid;; csio_disconnect sid
  | CSendMessage now sid f t n d x => ChatGateway.sendMessage now sid f t n d x
  | CGetMessages c => ChatGateway.getChannelMessage c;; ret tt
  | CCreateChannel now sid n t pw o => ChatGateway.createChannel hash now sid n t pw o;; ret tt
  | CJoinChannel now sid n u pw => ChatGateway.joinChannel hash now sid n u pw;; ret tt
  | CLeaveChannel now sid c u => ChatGateway.leaveChannel now sid c u
  | CStartPrivateConvo now sid f t => ChatGateway.startPrivateConvo now sid f t;; ret tt
  | CGetOnlineUsers u => ChatGateway.getOnlineUsers u;; ret tt
  | CGetChannelUsers u c => ChatGateway.getChannelUsers u c;; ret tt
  | CGetChannelsJoined u => ChatGateway.getChannelsJoined u;; ret tt
  | CGetPublicChannels => ChatGateway.getPublicChannels;; ret tt
  | CGetPrivateConvo sid u => ChatGateway.getPrivateConvo sid u;; ret tt
  | CHandlePassword sid u c pw => ChatGateway.handlePassword hash sid u c pw
  | CHandleAdmin sid o c u => ChatGateway.handleAdmin sid o c u
  | CKickUser now sid u c t => ChatGateway.kickUser now sid u c t
  | CBanUser now sid u c t => ChatGateway.banUser now sid u c t
  | CMuteUser now sid u c t => ChatGateway.muteUser now sid u c t
  | CBlockUser sid u t => ChatGateway.blockUser sid u t
  end.

Inductive cstep (hash : string -> string) : ChatWorld -> ChatWorld -> Prop :=
  | cstep_event e w : cstep hash w (exec (chat_handle hash e) w).

(** The server at start: the user table, no channel yet. *)
Definition chat_boot (d : DB) : ChatWorld := mkChatWorld (mkChatDB d [] [] [] 1 1) [] JsRooms.empty [] [].

(** ** The gateway keeps the chat tables consistent *)

Definition cw_ok (w : ChatWorld) : Prop := chat_ok (cdb w).

Lemma cdb_call_ok {A} (c : M ChatDB A) : preserves chat_ok c -> preserves cw_ok (cdb_call c).
Proof. apply preserves_zoom; [done|]. by intros t [] ? ?. Qed.

Lemma core_call_ok {A} (c : M DB A) : preserves cw_ok (core_call c).
Proof. apply cdb_call_ok, user_call_ok. Qed.

#[export] Hint Resolve core_call_ok : gw.
#[export] Hint Extern 3 (preserves _ (cdb_call _)) => apply cdb_call_ok : gw.
#[export] Hint Extern 3 (preserves _ (cemit _ _)) => apply preserves_modify; by intros [] : gw.
#[export] Hint Extern 3 (preserves _ (cjoin _ _)) => apply preserves_modify; by intros [] : gw.
#[export] Hint Extern 3 (preserves _ (cleave _ _)) => apply preserves_modify; by intros [] : gw.
#[export] Hint Extern 3 (preserves _ (alert _ _)) => apply preserves_modify; by intros [] : gw.

Section GatewayIntegrity.
Import ChatGateway.

Lemma handleConnection_ok now sid a : preserves cw_ok (handleConnection now sid a).
Proof. unfold handleConnection. preserve_deep. Qed.
Lemma disconnecting_ok sid : preserves cw_ok (disconnecting sid).
Proof. unfold disconnecting. preserve_deep. Qed.
Lemma sendMessage_ok' now sid f t n d x : preserves cw_ok (sendMessage now sid f t n d x).
Proof. unfold sendMessage. preserve_deep. Qed.
Lemma getChannelMessage_ok cid : preserves cw_ok (getChannelMessage cid).
Proof. unfold getChannelMessage. preserve_deep. Qed.
Lemma createChannel_ok hash now sid n t pw o : preserves cw_ok (createChannel hash now sid n t pw o).
Proof. unfold createChannel. preserve_deep. Qed.
Lemma joinChannel_ok hash now sid n u pw : preserves cw_ok (joinChannel hash now sid n u pw).
Proof. unfold joinChannel. preserve_deep. Qed.
Lemma leaveChannel_ok now sid c u : preserves cw_ok (leaveChannel now sid c u).
Proof. unfold leaveChannel. preserve_deep. Qed.
Lemma startPrivateConvo_ok' now sid f t : preserves cw_ok (startPrivateConvo now sid f t).
Proof. unfold startPrivateConvo. preserve_deep. Qed.
Lemma getOnlineUsers_ok u : preserves cw_ok (getOnlineUsers u).
Proof. unfold getOnlineUsers. preserve_deep. Qed.
Lemma getChannelUsers_ok u c : preserves cw_ok (getChannelUsers u c).
Proof. unfold getChannelUsers. preserve_deep. Qed.
Lemma getChannelsJoined_ok u : preserves cw_ok (getChannelsJoined u).
Proof. unfold getChannelsJoined. preserve_deep. Qed.
Lemma getPublicChannels_ok : preserves cw_ok getPublicChannels.
Proof. unfold getPublicChannels. preserve_deep. Qed.
Lemma getPrivateConvo_ok sid u : preserves cw_ok (getPrivateConvo sid u).
Proof.
  unfold getPrivateConvo. preserve_deep. apply preserves_for_each. intros conv. preserve_deep.
Qed.
Lemma handlePassword_ok' hash sid u c pw : preserves cw_ok (handlePassword hash sid u c pw).
Proof. unfold handlePassword. preserve_deep. Qed.
Lemma handleAdmin_ok' sid o c u : preserves cw_ok (handleAdmin sid o c u).
Proof. unfold handleAdmin. preserve_deep. Qed.
Lemma kickUser_ok' now sid u c t : preserves cw_ok (kickUser now sid u c t).
Proof. unfold kickUser. preserve_deep. Qed.
Lemma banUser_ok' now sid u c t : preserves cw_ok (banUser now sid u c t).
Proof. unfold banUser. preserve_deep. Qed.
Lemma muteUser_ok' now sid u c t : preserves cw_ok (muteUser now sid u c t).
Proof. unfold muteUser. preserve_deep. Qed.
Lemma blockUser_ok' sid u t : preserves cw_ok (blockUser sid u t).
Proof. unfold blockUser. preserve_deep. Qed.
End GatewayIntegrity.

#[export] Hint Resolve handleConnection_ok disconnecting_ok sendMessage_ok' getChannelMessage_ok
  createChannel_ok joinChannel_ok leaveChannel_ok startPrivateConvo_ok' getOnlineUsers_ok
  getChannelUsers_ok getChannelsJoined_ok getPublicChannels_ok getPrivateConvo_ok handlePassword_ok'
  handleAdmin_ok' kickUser_ok' banUser_ok' muteUser_ok' blockUser_ok' : gw.

Lemma csio_disconnect_ok sid : preserves cw_ok (csio_disconnect sid).
Proof. apply preserves_modify. by intros []. Qed.

#[export] Hint Resolve csio_disconnect_ok : gw.

Lemma chat_handle_ok hash e : preserves cw_ok (chat_handle hash e).
Proof.
  destruct e; unfold chat_handle;
    lazymatch goal with |- preserves _ (bind _ _) => apply preserves_bind; [|intros ?] | _ => idtac end;
    eauto with gw.
Qed.

Lemma rtc_cw_ok hash w w' : rtc (cstep hash) w w' -> cw_ok w -> cw_ok w'.
Proof. induction 1 as [|x y z Hs _ IH]; [done|]. intros Hx. apply IH. destruct Hs. by apply chat_handle_ok. Qed.

(** In every state the chat server reaches from its start, the chat
    tables keep their keys: one membership per (channel, user), unique
    channel names and ids, and no membership of a missing channel. *)
Theorem reachable_chat_ok hash d w : rtc (cstep hash) (chat_boot d) w -> chat_ok (cdb w).
Proof. intros Hr. apply (rtc_cw_ok hash _ _ Hr). repeat split; constructor. Qed.

(** ** Posting to a channel *)

Section Posting.
Import ChatGateway.

(** A channel message is stored and sent to the channel's room
    whenever the sender has a membership row that is not muted: the
    gateway does not look at [hasLeft] or [banEnd], so a member who was
    banned, or who left, still posts to the channel (and rejoins its
    room). *)
Theorem sendMessage_posts_for_any_row now sid from cid name text w u :
  member_of (cdb w) cid from = Some u -> muteEnd u <= now ->
  let w' := exec (sendMessage now sid from cid name false text) w in
  let m := mkMessage (next_message_id (cdb w)) from cid name false text in
  messages (cdb w') = messages (cdb w) ++ [m] /\
  coutbox w' = coutbox w ++ [(ToRooms [RChannel cid], CNewMessage m)] /\
  sid ∈ JsRooms.members (crooms w') (RChannel cid).
Proof.
  intros Hu Hmute. unfold sendMessage, exec, cdb_call, zoom, ChannelService.findUserInChannel.
  cbv beta delta [bind gets ret catch]. simpl. rewrite Hu. simpl.
  rewrite bool_decide_false by lia. destruct w as [c cu r o k]. simpl.
  split_and!; [done|done|]. apply JsRooms.members_join_in.
Qed.
End Posting.

Lemma sendMessage_posts_for_any_row_witness :
  let w := mkChatWorld (exec (ChannelService.banUser 0 1 5 2) demo_chat) [] JsRooms.empty [] [] in
  member_of (cdb w) 5 2 = Some (mkChannelUser 5 2 ADMIN true 120000 0 2) /\
  let w' := exec (ChatGateway.sendMessage 10 "s2" 2 5 "u2" false "hi") w in
  let m := mkMessage (next_message_id (cdb w)) 2 5 "u2" false "hi" in
  messages (cdb w') = messages (cdb w) ++ [m] /\
  coutbox w' = coutbox w ++ [(ToRooms [RChannel 5], CNewMessage m)] /\
  "s2" ∈ JsRooms.members (crooms w') (RChannel 5).
Proof.
  intros w. assert (Hrow : member_of (cdb w) 5 2 = Some (mkChannelUser 5 2 ADMIN true 120000 0 2))
    by (vm_compute; reflexivity).
  split; [exact Hrow|].
  apply (sendMessage_posts_for_any_row 10 "s2" 2 5 "u2" "hi" w _ Hrow). simpl. lia.
Defined.

(** [kickUser] tells the channel and the target that the target was
    kicked even when the service refused: a plain member's attempt to
    kick the admin leaves the tables as they were, yet after the refusal
    sent to the sender the target is told it was kicked and the channel
    gets the announcement. *)
Example kick_refused_still_announced :
  let w := mkChatWorld demo_chat [] JsRooms.empty [] [] in
  let w' := exec (ChatGateway.kickUser 0 "s3" 3 5 2) w in
  cdb w' = cdb w /\
  coutbox w' =
    [(ToRooms [RSocket "s3"], CAlert "You do not have the rights to kick a user");
     (ToRooms [RUser 2], CUpdate upd_channels None);
     (ToRooms [RUser 2], CAlert "You got kicked out of channel club");
     (ToRooms [RChannel 5], CUpdate upd_channelUsers (Some 5));
     (ToRooms [RChannel 5], CAnnouncement "u2 got kicked out of this channel" 5)].
Proof. split; vm_compute; reflexivity. Qed.
