(* ===== verification/Profile.v ===== *)
(** * Profiles and friends: the rest of UserService

    The methods of src/app/backend/src/user/user.service.ts that the game
    and chat code do not call ([userAlreadyExists], [changeName],
    [uploadAvatar], [getUserProfileInformation], [getGeneralInformation],
    [addFriend]) which the endpoints of
    src/app/backend/src/user/user.controller.ts (UserController.v) expose.

    The state [AppDB] is the chat database of Chat.v (users, games,
    messages) with the user columns only this code reads ([UserCols]:
    email, avatar, the 2FA columns), the next user id, and the
    self-relation [friends] of the Prisma schema kept as its join table:
    the pair [(a, b)] says that [a] added [b], so [b] is in [a.friends]
    and [a] in [b.friendsRelation].  Prisma returns a relation in the
    order of that table. *)

From stdpp Require Import base list strings sorting.
From Stdlib Require Import ZArith QArith Lia.
From S2P Require Import Prelude Store Chat.

Open Scope Z_scope.

(** The columns of a user row the game and chat code never read; the
    schema's defaults are [isTwoFactorEnabled = false] and [NULL]
    elsewhere. *)
Record UserCols := mkUserCols {
  x_id : Z;
  email : option string;
  avatar : option string;
  twoFactorSecret : option string;
  isTwoFactorEnabled : option bool;
  isKnown : option bool
}.

Record AppDB := mkAppDB {
  pchat : ChatDB;
  cols : list UserCols;
  friends : list (Z * Z);
  next_user_id : Z
}.

Definition pcore (p : AppDB) : DB := core (pchat p).

Definition set_pchat (c : ChatDB) (p : AppDB) : AppDB :=
  mkAppDB c (cols p) (friends p) (next_user_id p).

Definition set_pcore (d : DB) (p : AppDB) : AppDB := set_pchat (set_core d (pchat p)) p.

Definition cols_of (p : AppDB) (i : Z) : option UserCols :=
  find_first (fun x => bool_decide (x_id x = i)) (cols p).

(** [user.update({ where: { id }, data })] on these columns: an unknown id
    throws. *)
Definition cols_update (i : Z) (f : UserCols -> UserCols) : M AppDB unit :=
  fun p =>
    match user_by_id (pcore p) i with
    | None => (Exn, p)
    | Some _ => (Ok tt, mkAppDB (pchat p) (map (fun x => if bool_decide (x_id x = i) then f x else x) (cols p))
                                (friends p) (next_user_id p))
    end.

Definition PM := M AppDB.

Definition pcall {A} (c : M DB A) : PM A := zoom pcore set_pcore c.

(** ** Prisma primitives on the user columns of this file *)

Definition user_by_username (d : DB) (n : string) : option User :=
  find_first (fun u => bool_decide (username u = n)) (users d).

(** [user.update({ where: { id }, data: { username } })]: an unknown id
    throws (P2025), and so does a name another user has (the column is
    [@unique], P2002). *)
Definition user_rename (i : Z) (n : string) : M DB unit :=
  fun d =>
    match user_by_id d i, user_by_username d n with
    | Some _, None => (Ok tt, mkDB (map (fun u => if key_id i u then
                                                   mkUser (u_id u) (authId u) n (status u) (wins u)
                                                          (loses u) (usersBlocked u)
                                                 else u) (users d)) (games d) (next_game_id d))
    | Some u, Some v =>
        if bool_decide (u_id v = i) then (Ok tt, d) else (Exn, d)
    | None, _ => (Exn, d)
    end.

Definition rename_left (a : Z) (n : string) (g : Game) : Game :=
  let 'mkGame i md lp rp ln rn ls rs sl sr w l fin hl lm rm lmo rmo ibs := g in
  if bool_decide (lp = a) then mkGame i md lp rp (Some n) rn ls rs sl sr w l fin hl lm rm lmo rmo ibs
  else g.

Definition rename_right (a : Z) (n : string) (g : Game) : Game :=
  let 'mkGame i md lp rp ln rn ls rs sl sr w l fin hl lm rm lmo rmo ibs := g in
  if bool_decide (rp = a) then mkGame i md lp rp ln (Some n) ls rs sl sr w l fin hl lm rm lmo rmo ibs
  else g.

(** [game.updateMany] on the player name columns. *)
Definition games_rename (f : Game -> Game) : M DB unit :=
  modify (fun d => mkDB (users d) (map f (games d)) (next_game_id d)).

(** [message.updateMany({ where: { fromId }, data: { fromUsername } })] *)
Definition messages_rename (i : Z) (n : string) : M ChatDB unit :=
  modify (fun c => mkChatDB (core c) (channels c) (members c)
                            (map (fun m => if bool_decide (fromId m = i)
                                           then mkMessage (msg_id m) (fromId m) (toId m) n (dm m) (content m)
                                           else m) (messages c))
                            (next_channel_id c) (next_message_id c)).

(** The users of the relation: [a.friends] and [a.friendsRelation]. *)
Definition friends_of (p : AppDB) (a : Z) : list User :=
  omap (fun e => if bool_decide (e.1 = a) then user_by_id (pcore p) e.2 else None) (friends p).
Definition friends_relation (p : AppDB) (a : Z) : list User :=
  omap (fun e => if bool_decide (e.2 = a) then user_by_id (pcore p) e.1 else None) (friends p).

(** The ranking key of [getGeneralInformation]: wins over loses, or the
    wins of a user who never lost. *)
Definition ratio (u : User) : Q :=
  if bool_decide (loses u = 0) then inject_Z (wins u) else inject_Z (wins u) / inject_Z (loses u).

(** [users.sort((a, b) => ratioB - ratioA)]: the comparator is consistent,
    so the stable sort of the engine gives the result of this stable
    insertion sort, best ratio first, ties in table order. *)
Fixpoint insert_ranked (x : User) (l : list User) : list User :=
  match l with
  | [] => [x]
  | y :: l' => if Qle_bool (ratio y) (ratio x) then x :: l else y :: insert_ranked x l'
  end.

Definition rank (l : list User) : list User := foldr insert_ranked [] l.

(** The order [rank] produces: a user before any user of smaller ratio. *)
Definition ranked (a b : User) : Prop := (ratio b <= ratio a)%Q.

(** The result of [getUserProfileInformation]. *)
Record Profile := mkProfile {
  pr_user : User;
  pr_games : list Game;
  pr_wins : Z;
  pr_losses : Z;
  pr_score : Z;
  pr_mutualFriends : list User;
  pr_onewayFriends : list User
}.

Record GeneralInformation := mkGeneralInformation {
  gi_ranking : list User;
  gi_games : list Game;
  gi_usersStatus : list User;
  gi_friends : list User
}.

Module ProfileService.
Import UserService.

Definition userAlreadyExists (n : string) : PM bool :=
  gets (fun p => bool_decide (is_Some (user_by_username (pcore p) n))).

(** [changeName]: the four writes run in one [try]; a failure of the
    first (unknown id, name taken) leaves everything as it was, and the
    others cannot fail. *)
Definition changeName (i : Z) (n : string) : PM unit :=
  let* user := pcall (getUserById i) in
  catch (
    pcall (user_rename i n);;
    let* user := deref user in
    pcall (games_rename (rename_left (authId user) n));;
    pcall (games_rename (rename_right (authId user) n));;
    zoom pchat set_pchat (messages_rename (u_id user) n)) (ret tt).

Definition uploadAvatar (i : Z) (url : string) : PM unit :=
  catch (cols_update i (fun x => mkUserCols (x_id x) (email x) (Some url) (twoFactorSecret x)
                                           (isTwoFactorEnabled x) (isKnown x))) (ret tt).

(** [getUserProfileInformation]: the user's games newest first, the sum
    of the user's own score over them, and the friends split into those
    who added the user back and the others. *)
Definition mutual (iAdded addedMe : list User) : list User :=
  filter (fun f => bool_decide (u_id f ∈ map u_id addedMe)) iAdded.
Definition oneway (iAdded mutualFriends : list User) : list User :=
  filter (fun f => bool_decide (u_id f ∉ map u_id mutualFriends)) iAdded.

Definition games_of (d : DB) (a : Z) : list Game :=
  reverse (filter (fun g => leftPlayerId g = a \/ rightPlayerId g = a) (games d)).

Definition total_score (a : Z) (gs : list Game) : Z :=
  foldl (fun acc g => acc + (if bool_decide (leftPlayerId g = a) then scoreLeftPlayer g
                             else scoreRightPlayer g)) 0 gs.

Definition getUserProfileInformation (i : Z) : PM Profile :=
  let* user := pcall (getUserById i) in
  let* user := deref user in
  let* p := get in
  let gs := games_of (pcore p) (authId user) in
  let m := mutual (friends_of p i) (friends_relation p i) in
  ret (mkProfile user gs (wins user) (loses user) (total_score (authId user) gs) m
                 (oneway (friends_of p i) m)).

Definition getGeneralInformation (userId : Z) : PM GeneralInformation :=
  let* p := get in
  let* user := deref (user_by_id (pcore p) userId) in
  let fr := friends_of p userId in
  let excluded := map u_id fr ++ [userId] in
  ret (mkGeneralInformation (rank (users (pcore p))) (reverse (games (pcore p)))
                            (filter (fun u => u_id u ∉ excluded) (users (pcore p))) fr).

(** [addFriend]: [Some [friendId]] (the selected relation) when the
    friend is already there, [None] (undefined) after adding it; the
    [connect] throws when either user is missing. *)
Definition addFriend (userId friendId : Z) : PM (option (list Z)) :=
  catch (fun p =>
    match user_by_id (pcore p) userId with
    | None => (Exn, p)
    | Some _ =>
        if bool_decide ((userId, friendId) ∈ friends p) then (Ok (Some [friendId]), p)
        else match user_by_id (pcore p) friendId with
             | None => (Exn, p)
             | Some _ => (Ok None, mkAppDB (pchat p) (cols p) (friends p ++ [(userId, friendId)]) (next_user_id p))
             end
    end) (fun p => (Exn, p)).
End ProfileService.

(** ** Properties of the profile services *)

Section ProfileProps.
Import ProfileService.

Lemma oneway_mutual iAdded addedMe :
  oneway iAdded (mutual iAdded addedMe) =
  filter (fun f => ~ Is_true (bool_decide (u_id f ∈ map u_id addedMe))) iAdded.
Proof.
  unfold oneway, mutual. apply filter_ext_in. intros f Hf.
  rewrite !bool_decide_spec. split.
  - intros Hn Hin. apply Hn. apply list_elem_of_fmap. exists f. split; [done|].
    apply list_elem_of_filter. split; [by apply bool_decide_spec|done].
  - intros Hn (g & Hg & Hgm)%list_elem_of_fmap. apply list_elem_of_filter in Hgm as [Hgm _].
    apply bool_decide_spec in Hgm. apply Hn. by rewrite Hg.
Qed.

Lemma set_pcore_id p : set_pcore (pcore p) p = p.
Proof. by destruct p as [[] ? ? ?]. Qed.

Lemma pcore_set_pcore d p : pcore (set_pcore d p) = d.
Proof. by destruct p as [[] ? ? ?]. Qed.

(** An update of the columns of a present user: the core is kept and
    the user's row is the updated one. *)
Lemma cols_update_run i f p v x :
  (forall y, x_id (f y) = x_id y) -> user_by_id (pcore p) i = Some v -> cols_of p i = Some x ->
  exists p', cols_update i f p = (Ok tt, p') /\ pcore p' = pcore p /\ cols_of p' i = Some (f x).
Proof.
  intros Hid Hv Hx. unfold cols_update. rewrite Hv. eexists. split_and!; [done|done|].
  unfold cols_of in *. simpl. rewrite find_first_map, Hx; simpl.
  - apply find_first_Some in Hx as [_ Hk%bool_decide_eq_true]. by rewrite bool_decide_true.
  - intros y. cbv beta. destruct (bool_decide (x_id y = i)) eqn:E; [by rewrite Hid, E|done].
Qed.

(** The profile splits the friends the user added into those who
    added the user back and the others: together they are the user's
    friends, in some order, the first all in [friendsRelation], the
    second none. *)
Theorem profile_friends_partition i p pr :
  eval (getUserProfileInformation i) p = Ok pr ->
  pr_mutualFriends pr ++ pr_onewayFriends pr ≡ₚ friends_of p i /\
  Forall (fun f => u_id f ∈ map u_id (friends_relation p i)) (pr_mutualFriends pr) /\
  Forall (fun f => u_id f ∉ map u_id (friends_relation p i)) (pr_onewayFriends pr).
Proof.
  unfold eval, getUserProfileInformation, pcall, zoom, UserService.getUserById.
  cbv beta delta [bind gets ret get deref]. simpl.
  destruct (user_by_id (pcore p) i) as [u|]; simpl; [|done]. intros [= <-]. simpl.
  rewrite set_pcore_id, oneway_mutual. split_and!.
  - apply filter_app_complement.
  - apply Forall_forall. intros f [Hf _]%list_elem_of_filter. by apply bool_decide_spec in Hf.
  - apply Forall_forall. intros f [Hf _]%list_elem_of_filter Hin. apply Hf. by apply bool_decide_spec.
Qed.


Lemma insert_ranked_perm x l : insert_ranked x l ≡ₚ x :: l.
Proof.
  induction l as [|y l IH]; simpl; [done|].
  destruct (Qle_bool (ratio y) (ratio x)); [done|]. rewrite IH. apply Permutation_swap.
Qed.

Lemma insert_ranked_hd y x l : ranked y x -> HdRel ranked y l -> HdRel ranked y (insert_ranked x l).
Proof.
  intros Hyx Hl. destruct l as [|z l]; simpl; [by constructor|].
  destruct (Qle_bool (ratio z) (ratio x)); constructor; [done|]. by inversion Hl.
Qed.

Lemma insert_ranked_sorted x l : Sorted ranked l -> Sorted ranked (insert_ranked x l).
Proof.
  induction 1 as [|y l Hs IH Hhd]; simpl; [by repeat constructor|].
  destruct (Qle_bool (ratio y) (ratio x)) eqn:E.
  - constructor; [by constructor|]. constructor. unfold ranked. by apply Qle_bool_iff.
  - constructor; [done|]. apply insert_ranked_hd; [|done]. unfold ranked.
    apply Qlt_le_weak, Qnot_le_lt. intros Hle. apply Qle_bool_iff in Hle. congruence.
Qed.

Lemma rank_sorted_perm l : Sorted ranked (rank l) /\ rank l ≡ₚ l.
Proof.
  induction l as [|x l [IHs IHp]]; simpl; [split; [constructor|done]|].
  split; [by apply insert_ranked_sorted|]. by rewrite insert_ranked_perm, IHp.
Qed.

(** The ranking of the home page is the user table sorted by
    win/loss ratio, best first, and the recent games are all games,
    newest first. *)
Theorem getGeneralInformation_ranking userId p gi :
  eval (ProfileService.getGeneralInformation userId) p = Ok gi ->
  Sorted ranked (gi_ranking gi) /\ gi_ranking gi ≡ₚ users (pcore p) /\
  gi_games gi = reverse (games (pcore p)).
Proof.
  unfold eval, ProfileService.getGeneralInformation. cbv beta delta [bind get ret deref]. simpl.
  destruct (user_by_id (pcore p) userId); simpl; [|done]. intros [= <-]. simpl.
  destruct (rank_sorted_perm (users (pcore p))). done.
Qed.

Lemma rename_left_ids a n g : leftPlayerId (rename_left a n g) = leftPlayerId g /\
  rightPlayerId (rename_left a n g) = rightPlayerId g /\ rightPlayerName (rename_left a n g) = rightPlayerName g.
Proof. destruct g; simpl; by case_bool_decide. Qed.

Lemma rename_right_ids a n g : leftPlayerId (rename_right a n g) = leftPlayerId g /\
  rightPlayerId (rename_right a n g) = rightPlayerId g /\ leftPlayerName (rename_right a n g) = leftPlayerName g.
Proof. destruct g; simpl; by case_bool_decide. Qed.

Lemma rename_left_name a n g : leftPlayerId g = a -> leftPlayerName (rename_left a n g) = Some n.
Proof. destruct g; simpl. intros ->. by rewrite bool_decide_true. Qed.

Lemma rename_right_name a n g : rightPlayerId g = a -> rightPlayerName (rename_right a n g) = Some n.
Proof. destruct g; simpl. intros ->. by rewrite bool_decide_true. Qed.

(** Renaming a user to a free name changes the username and, in
    the same request, the player names of all the user's games and the
    sender name of all the user's messages. *)
Theorem changeName_renames i n p u :
  user_by_id (pcore p) i = Some u -> user_by_username (pcore p) n = None ->
  let p' := exec (changeName i n) p in
  username <$> user_by_id (pcore p') i = Some n /\
  Forall (fun g => leftPlayerId g = authId u -> leftPlayerName g = Some n) (games (pcore p')) /\
  Forall (fun g => rightPlayerId g = authId u -> rightPlayerName g = Some n) (games (pcore p')) /\
  Forall (fun m => fromId m = i -> fromUsername m = n) (messages (pchat p')).
Proof.
  intros Hu Hn. destruct p as [[[us gs ng] ch mb ms nc nm] cl fr nu]. unfold pcore in *. simpl in *.
  unfold exec, changeName, pcall, zoom, UserService.getUserById, user_rename, games_rename, messages_rename.
  cbv beta delta [bind gets ret catch deref modify pcore set_pcore set_pchat set_core]. simpl. rewrite Hu, Hn. simpl.
  assert (Hi : u_id u = i) by (apply find_first_Some in Hu as [_ Hk]; by apply bool_decide_eq_true in Hk).
  split_and!.
  - unfold user_by_id. simpl. rewrite find_first_map.
    + unfold user_by_id in Hu. simpl in Hu. rewrite Hu. simpl. unfold key_id. by rewrite bool_decide_true.
    + intros v. unfold key_id. destruct (bool_decide (u_id v = i)) eqn:E; simpl; by rewrite ?E.
  - apply Forall_forall. intros g (g1 & -> & (g0 & -> & _)%list_elem_of_fmap)%list_elem_of_fmap.
    destruct (rename_right_ids (authId u) n (rename_left (authId u) n g0)) as (Hl & _ & Hln).
    destruct (rename_left_ids (authId u) n g0) as (Hl' & _). rewrite Hl, Hl', Hln. apply rename_left_name.
  - apply Forall_forall. intros g (g1 & -> & (g0 & -> & _)%list_elem_of_fmap)%list_elem_of_fmap.
    destruct (rename_right_ids (authId u) n (rename_left (authId u) n g0)) as (_ & Hr & _).
    rewrite Hr. intros Hr0.
    by apply rename_right_name.
  - apply Forall_forall. intros m (m0 & -> & _)%list_elem_of_fmap. rewrite Hi.
    case_bool_decide; simpl; [done|]. intros; contradiction.
Qed.

(** A rename of an unknown user, or to a name another user has,
    fails on its first write and changes nothing. *)
Theorem changeName_refused_unchanged i n p :
  (user_by_id (pcore p) i = None \/ exists v, user_by_username (pcore p) n = Some v /\ u_id v <> i) ->
  exec (changeName i n) p = p.
Proof.
  intros Hno. unfold exec, changeName, pcall, zoom, UserService.getUserById, user_rename.
  cbv beta delta [bind gets ret catch]. simpl. rewrite !set_pcore_id.
  destruct Hno as [-> | (v & Hv & Hne)]; [simpl; apply set_pcore_id|]. rewrite Hv.
  destruct (user_by_id (pcore p) i); simpl; [|apply set_pcore_id]. rewrite bool_decide_false by done. apply set_pcore_id.
Qed.

(** Adding the same friend twice has the effect of adding it once. *)
Theorem addFriend_idempotent a b p :
  exec (ProfileService.addFriend a b;; ProfileService.addFriend a b) p = exec (ProfileService.addFriend a b) p.
Proof.
  unfold exec, ProfileService.addFriend. cbv beta delta [bind catch]. simpl.
  destruct (user_by_id (pcore p) a) eqn:Ha; simpl; [|done].
  case_bool_decide as Hin; simpl; [by rewrite Ha, bool_decide_true|].
  destruct (user_by_id (pcore p) b); simpl; [|done].
  unfold pcore in *. simpl. rewrite Ha. rewrite bool_decide_true; [done|].
  apply elem_of_app. right. by apply list_elem_of_singleton.
Qed.
End ProfileProps.

(** ** A small application database

    The chat database of Chat.v with one columns row per user; user 1
    added users 2 and 3, and user 2 added user 1 back; user 1 has won
    one game against user 2. *)

Definition demo_cols (i : Z) : UserCols := mkUserCols i (Some ("u" +:+ js_string_of_Z i +:+ "@42.fr")) None None (Some false) (Some true).

Definition demo_app : AppDB :=
  let c := demo_chat in
  let d := core c in
  let g := mkGame 1 (Some "normal") 101 102 (Some "u1") (Some "u2") None None 5 3 (Some 101) (Some 102)
                  true false true true None None None in
  let users' := map (fun u => if bool_decide (u_id u = 1) then mkUser 1 101 "u1" ONLINE 1 0 [] else
                              if bool_decide (u_id u = 2) then mkUser 2 102 "u2" ONLINE 0 1 [] else u) (users d) in
  mkAppDB (set_core (mkDB users' [g] 2) c) (map demo_cols [1; 2; 3; 12; 23]) [(1, 2); (2, 1); (1, 3)] 24.

Section ProfileWitnesses.
Import ProfileService.

Lemma profile_friends_partition_witness :
  exists pr, eval (getUserProfileInformation 1) demo_app = Ok pr /\
    pr_mutualFriends pr ++ pr_onewayFriends pr ≡ₚ friends_of demo_app 1 /\
    Forall (fun f => u_id f ∈ map u_id (friends_relation demo_app 1)) (pr_mutualFriends pr) /\
    Forall (fun f => u_id f ∉ map u_id (friends_relation demo_app 1)) (pr_onewayFriends pr).
Proof.
  eexists. split; [vm_compute; reflexivity|]. apply (profile_friends_partition 1 demo_app). vm_compute. reflexivity.
Defined.

Lemma getGeneralInformation_ranking_witness :
  exists gi, eval (ProfileService.getGeneralInformation 3) demo_app = Ok gi /\
    Sorted ranked (gi_ranking gi) /\ gi_ranking gi ≡ₚ users (pcore demo_app) /\
    gi_games gi = reverse (games (pcore demo_app)).
Proof.
  eexists. split; [vm_compute; reflexivity|].
  apply (getGeneralInformation_ranking 3 demo_app). vm_compute. reflexivity.
Defined.

Lemma changeName_renames_witness :
  let p' := exec (changeName 1 "neo") demo_app in
  username <$> user_by_id (pcore p') 1 = Some "neo"%string /\
  Forall (fun g => leftPlayerId g = 101 -> leftPlayerName g = Some "neo"%string) (games (pcore p')) /\
  Forall (fun g => rightPlayerId g = 101 -> rightPlayerName g = Some "neo"%string) (games (pcore p')) /\
  Forall (fun m => fromId m = 1 -> fromUsername m = "neo"%string) (messages (pchat p')).
Proof.
  apply (changeName_renames 1 "neo" demo_app (mkUser 1 101 "u1" ONLINE 1 0 [])); vm_compute; reflexivity.
Defined.

Lemma changeName_refused_unchanged_witness : exec (changeName 1 "u2") demo_app = demo_app.
Proof.
  apply (changeName_refused_unchanged 1 "u2" demo_app). right.
  exists (mkUser 2 102 "u2" ONLINE 0 1 []). split; [vm_compute; reflexivity | simpl; lia].
Defined.
End ProfileWitnesses.
