(* ===== verification/Auth.v ===== *)
(** * Authentication: tokens, passport strategies and AuthController

    src/app/backend/src/auth/: the JWTs of [AuthService.createToken], the
    strategies [JwtStrategy], [Jwt2faStrategy] and [FtStrategy]
    (strategy/*.ts), the 2FA secret of [generateTwoFactorAuthenticationSecret]
    and the routes of auth.controller.ts.

    The server state [Server] is the database of Profile.v and the
    tokens the server has signed.  Signatures are idealised: a request's
    token is valid when the server signed it ([issued]) and it has not
    expired (two hours after signing), which is what passport-jwt
    checks.  [JwtGuard] and [Jwt2faGuard] are imported from
    [../auth/guard], a directory the repository does not have; they are
    modelled as [AuthGuard('jwt')] and [AuthGuard('jwt-2fa')], the guards
    of the two strategies.  The 42 API's profile, the random secret of
    otplib and the UUID are inputs; [authenticator.verify] is the Section
    variable [totp_verify].  A guard that rejects, and a validate that
    answers [null], give 401. *)

From stdpp Require Import base list strings.
From Stdlib Require Import ZArith QArith Qround Lia Lqa.
From S2P Require Import Prelude Store Chat Profile.

Open Scope Z_scope.

(** The payload of [createToken] and its expiry [expiresIn: '2h']. *)
Record Token := mkToken {
  tk_sub : Z;
  tk_email : option string;
  tk_2faEnabled : option bool;
  tk_2faAuth : bool;
  tk_exp : Z
}.

#[export] Instance Token_eq_dec : EqDecision Token.
Proof. solve_decision. Defined.

Record Server := mkServer { app : AppDB; issued : list Token }.

Definition set_app (p : AppDB) (s : Server) : Server := mkServer p (issued s).

Definition SM := M Server.
Definition acall {A} (c : PM A) : SM A := zoom app set_app c.

(** A request: its bearer token (the [tokenJwt] cookie) and the time. *)
Record Request := mkRequest { req_token : option Token; req_now : Z }.

Inductive Http (A : Type) := HUnauthorized | HError | HDone (v : A).
Arguments HUnauthorized {A}.
Arguments HError {A}.
Arguments HDone {A} v.

(** The user a strategy attaches to [req.user]: the row and its columns. *)
Definition AuthUser : Type := User * UserCols.

Definition auth_user (p : AppDB) (i : Z) : option AuthUser :=
  match user_by_id (pcore p) i, cols_of p i with
  | Some u, Some x => Some (u, x)
  | _, _ => None
  end.

Definition two_hours : Z := 2 * 3600000.

(** [createToken]: sign the payload. *)
Definition createToken (now userId : Z) (em : option string) (en : option bool) (au : bool) : SM Token :=
  let t := mkToken userId em en au (now + two_hours) in
  modify (fun s => mkServer (app s) (issued s ++ [t]));; ret t.

Definition token_valid (s : Server) (now : Z) (t : Token) : bool :=
  bool_decide (t ∈ issued s) && bool_decide (now < tk_exp t).

(** [JwtStrategy.validate]: the user is admitted when 2FA is off, or on
    and the token says the code was checked; a [NULL]
    [isTwoFactorEnabled] is refused. *)
Definition jwt_validate (p : AppDB) (t : Token) : option AuthUser :=
  match auth_user p (tk_sub t) with
  | Some (u, x) =>
      match isTwoFactorEnabled x with
      | Some true => if tk_2faAuth t then Some (u, x) else None
      | Some false => Some (u, x)
      | None => None
      end
  | None => None
  end.

(** [Jwt2faStrategy.validate]: any user the token names. *)
Definition jwt2fa_validate (p : AppDB) (t : Token) : option AuthUser := auth_user p (tk_sub t).

Definition authenticate_with (v : AppDB -> Token -> option AuthUser) (s : Server) (req : Request)
    : option AuthUser :=
  match req_token req with
  | Some t => if token_valid s (req_now req) t then v (app s) t else None
  | None => None
  end.

(** A handler under Nest: an exception is a 500, the state as the
    handler left it. *)
Definition respond {A} (c : SM (Http A)) : SM (Http A) :=
  fun s => match c s with (Ok v, s') => (Ok v, s') | (Exn, s') => (Ok HError, s') end.

Definition guard_with {A} (v : AppDB -> Token -> option AuthUser) (req : Request)
    (k : AuthUser -> SM (Http A)) : SM (Http A) :=
  fun s => match authenticate_with v s req with
           | None => (Ok HUnauthorized, s)
           | Some au => respond (k au) s
           end.

Definition JwtGuard {A} := @guard_with A jwt_validate.
Definition Jwt2faGuard {A} := @guard_with A jwt2fa_validate.

(** The profile [FtStrategy] reads from [https://api.intra.42.fr/v2/me]. *)
Record FtProfile := mkFtProfile { fp_id : Z; fp_login : string; fp_email : string; fp_small : string }.

(** [prisma.user.create]: a fresh id; [authId] and [username] are unique.
    The game counters start at 0, the 2FA flag at false. *)
Definition user_create (a : Z) (name : string) (em : string) (av : option string) (st : Status)
    (known : option bool) : PM AuthUser :=
  fun p =>
    if bool_decide (is_Some (user_by_authId (pcore p) a) \/ is_Some (user_by_username (pcore p) name))
    then (Exn, p)
    else
      let i := next_user_id p in
      let u := mkUser i a name st 0 0 [] in
      let x := mkUserCols i (Some em) av None (Some false) known in
      let d := pcore p in
      (Ok (u, x), mkAppDB (set_core (mkDB (users d ++ [u]) (games d) (next_game_id d)) (pchat p))
                          (cols p ++ [x]) (friends p) (i + 1)).

(** [FtStrategy.validate]: a known user gets [isKnown] and is answered
    as read before that write; a new one is created.  Its [catch] answers
    [undefined], which makes [AuthGuard('42')] refuse. *)
Definition ft_validate (pr : FtProfile) : PM (option AuthUser) :=
  catch (
    let* p := get in
    match user_by_authId (pcore p) (fp_id pr) with
    | Some u =>
        let* x := deref (cols_of p (u_id u)) in
        cols_update (u_id u) (fun x => mkUserCols (x_id x) (email x) (avatar x) (twoFactorSecret x)
                                                 (isTwoFactorEnabled x) (Some true));;
        ret (Some (u, x))
    | None =>
        let* au := user_create (fp_id pr) (fp_login pr) (fp_email pr) (Some (fp_small pr)) ONLINE (Some false) in
        ret (Some au)
    end) (ret None).

Definition set_user_status (i : Z) (st : Status) : PM User :=
  pcall (user_update (key_id i) [UStatus st]).

(** [Math.floor(Math.random() * (max - min) + min)] *)
Definition generateAuthId (r : Q) : Z := Qfloor (r * inject_Z (999999 - 100000) + inject_Z 100000).

(** [res.cookie('tokenJwt', v)]: [2fa/authenticate] passes the promise
    [loginWith2fa(..).access_token], whose string is ["[object Promise]"]. *)
Inductive Cookie := CookieToken (t : Token) | CookiePromise.

(** The frontend pages the callback redirects to. *)
Inductive Page := PHome | P2faReg | P2faVer.

(** The QR code of [keyuri(email, APP_NAME_FOR_2FA, secret)]. *)
Record QrCode := mkQrCode { qr_email : option string; qr_secret : string }.

Module AuthService.

(** [loginWith2fa]: a token that says the code was checked. *)
Definition loginWith2fa (now : Z) (au : AuthUser) : SM Token :=
  let '(u, x) := au in createToken now (u_id u) (email x) (isTwoFactorEnabled x) true.

(** [generateTwoFactorAuthenticationSecret]: store the new secret. *)
Definition generateTwoFactorAuthenticationSecret (userId : Z) (em : option string) (secret : string)
    : SM QrCode :=
  acall (cols_update userId (fun y => mkUserCols (x_id y) (email y) (avatar y) (Some secret)
                                                 (isTwoFactorEnabled y) (isKnown y)));;
  ret (mkQrCode em secret).

Definition isTwoFactorAuthenticationCodeValid (totp_verify : string -> option string -> bool)
    (code : string) (au : AuthUser) : bool :=
  totp_verify code (twoFactorSecret au.2).
End AuthService.

Module AuthController.
Import AuthService.
Section AuthController.
Variable totp_verify : string -> option string -> bool.

(** [GET /auth/42/callback]; [!req.user.twoFactorSecret] is JavaScript's
    negation, true for a missing and for an empty secret. *)
Definition fortyTwoCallBack (now : Z) (pr : FtProfile) : SM (Http (Cookie * Page)) :=
  respond (
    let* au := acall (ft_validate pr) in
    match au with
    | None => ret HUnauthorized
    | Some (u, x) =>
        let* t := createToken now (u_id u) (email x) (isTwoFactorEnabled x) false in
        if negb (default false (isTwoFactorEnabled x)) then
          acall (set_user_status (u_id u) ONLINE);; ret (HDone (CookieToken t, PHome))
        else if negb (js_truthy (twoFactorSecret x)) then ret (HDone (CookieToken t, P2faReg))
        else ret (HDone (CookieToken t, P2faVer))
    end).

(** [POST /auth/2fa/generate]: store a new secret, answer its QR code. *)
Definition register (req : Request) (secret : string) : SM (Http QrCode) :=
  JwtGuard req (fun '(u, x) =>
    let* qr := generateTwoFactorAuthenticationSecret (u_id u) (email x) secret in ret (HDone qr)).

Definition turnOffTwoFactorAuthentication (req : Request) : SM (Http unit) :=
  JwtGuard req (fun '(u, _) =>
    acall (cols_update (u_id u) (fun y => mkUserCols (x_id y) (email y) (avatar y) None (Some false) (isKnown y)));;
    ret (HDone tt)).

(** [POST /auth/2fa/authenticate]: a wrong code is a 401; a right one
    signs a token that says so, turns 2FA on and sets the user ONLINE. *)
Definition authenticate (req : Request) (code : string) : SM (Http (Cookie * Token)) :=
  Jwt2faGuard req (fun '(u, x) =>
    if negb (isTwoFactorAuthenticationCodeValid totp_verify code (u, x)) then ret HUnauthorized else
    let* t := loginWith2fa (req_now req) (u, x) in
    acall (cols_update (u_id u) (fun y => mkUserCols (x_id y) (email y) (avatar y) (twoFactorSecret y)
                                                     (Some true) (isKnown y)));;
    acall (set_user_status (u_id u) ONLINE);;
    ret (HDone (CookiePromise, t))).

(** [POST /auth/42/logout]: no guard; the user is the body's [data.id]. *)
Definition logOut (bodyId : Z) : SM (Http unit) :=
  catch (acall (set_user_status bodyId OFFLINE);; ret tt) (ret tt);; ret (HDone tt).

(** [GET /auth/42/guest/:name]: no guard. *)
Definition guestUser (now : Z) (name : string) (r : Q) (uuid : string) : SM (Http (Cookie * Page)) :=
  respond (
    let* au := acall (user_create (generateAuthId r) name (uuid +:+ "@gmail.com") None ONLINE None) in
    let '(u, x) := au in
    let* t := createToken now (u_id u) (email x) (isTwoFactorEnabled x) false in
    ret (HDone (CookieToken t, PHome))).
End AuthController.
End AuthController.

(** ** What the guards admit *)

Lemma auth_user_Some p i u x : auth_user p i = Some (u, x) -> user_by_id (pcore p) i = Some u /\ u_id u = i.
Proof.
  unfold auth_user. destruct (user_by_id (pcore p) i) eqn:Hu, (cols_of p i); try done.
  intros [= <- _]. split; [done|]. apply find_first_Some in Hu as [_ Hk]. by apply bool_decide_eq_true in Hk.
Qed.

(** C29. [JwtGuard] lets a user with 2FA on through only with a token
    the server signed, not expired, for that user, and saying that the
    2FA code was checked. *)
Theorem jwt_guard_requires_2fa s req u x :
  authenticate_with jwt_validate s req = Some (u, x) -> isTwoFactorEnabled x = Some true ->
  exists t, req_token req = Some t /\ t ∈ issued s /\ req_now req < tk_exp t /\
            tk_2faAuth t = true /\ tk_sub t = u_id u.
Proof.
  unfold authenticate_with, token_valid, jwt_validate. destruct (req_token req) as [t|]; [|done].
  destruct (bool_decide (t ∈ issued s)) eqn:Hi, (bool_decide (req_now req < tk_exp t)) eqn:Hn; simpl; try done.
  destruct (auth_user (app s) (tk_sub t)) as [[u' x']|] eqn:Ha; [|done].
  apply auth_user_Some in Ha as [_ Hid].
  destruct (isTwoFactorEnabled x') as [[]|] eqn:He; try done.
  - destruct (tk_2faAuth t) eqn:Hauth; [|done]. intros [= <- <-] _. exists t.
    apply bool_decide_eq_true in Hi, Hn. done.
  - intros [= <- <-]. congruence.
Qed.

(** The guest [authId] lies in [100000, 999999) for any random number in
    [0, 1). *)
Lemma generateAuthId_bounds r : (0 <= r < 1)%Q -> 100000 <= generateAuthId r < 999999.
Proof.
  intros [H0 H1]. unfold generateAuthId. set (x := (r * inject_Z (999999 - 100000) + inject_Z 100000)%Q).
  assert (Hlo : (inject_Z 100000 <= x)%Q) by (unfold x; change (inject_Z (999999 - 100000)) with (899999#1); change (inject_Z 100000) with (100000#1); nra).
  assert (Hhi : (x < inject_Z 999999)%Q) by (unfold x; change (inject_Z (999999 - 100000)) with (899999#1); change (inject_Z 100000) with (100000#1); change (inject_Z 999999) with (999999#1); nra).
  split.
  - rewrite <- (Qfloor_Z 100000). by apply Qfloor_resp_le.
  - pose proof (Qfloor_le x) as Hf. rewrite Zlt_Qlt. eapply Qle_lt_trans; [exact Hf|exact Hhi].
Qed.

Lemma jwt_rejects_unverified s t now u x :
  tk_2faAuth t = false -> auth_user (app s) (tk_sub t) = Some (u, x) -> isTwoFactorEnabled x = Some true ->
  authenticate_with jwt_validate s (mkRequest (Some t) now) = None.
Proof.
  intros Ht Ha He. unfold authenticate_with, jwt_validate. simpl.
  destruct (token_valid s now t); [|done]. by rewrite Ha, He, Ht.
Qed.

(** The token the 42 login issues says the 2FA code was not
    checked, so it never passes [JwtGuard] while the user's 2FA is on. *)
Theorem callback_token_unverified now pr s t pg :
  eval (AuthController.fortyTwoCallBack now pr) s = Ok (HDone (CookieToken t, pg)) ->
  tk_2faAuth t = false /\
  (forall s2 now2 u x, auth_user (app s2) (tk_sub t) = Some (u, x) -> isTwoFactorEnabled x = Some true ->
     authenticate_with jwt_validate s2 (mkRequest (Some t) now2) = None).
Proof.
  intros Hrun. enough (Ht : tk_2faAuth t = false) by (split; [done|]; intros; by eapply jwt_rejects_unverified).
  revert Hrun. unfold eval, AuthController.fortyTwoCallBack, respond, createToken.
  cbv beta delta [bind ret modify]. simpl.
  destruct (acall (ft_validate pr) s) as [[[[u x]|]|] s1]; simpl; try done.
  destruct (negb (default false (isTwoFactorEnabled x))).
  - destruct (acall (set_user_status _ ONLINE) _) as [[]?]; simpl; [|done]. by intros [= <-].
  - destruct (negb _); simpl; by intros [= <-].
Qed.

(** ** A server with a 2FA user

    User 1 of Profile.v with 2FA on and the secret ["S"]; the server has
    signed the token of its 42 login and the token of a checked code. *)

(** An authenticator that accepts the secret itself as the code. *)
Definition demo_totp (code : string) (secret : option string) : bool := bool_decide (secret = Some code).

Definition demo_token : Token := mkToken 1 (Some "u1@42.fr") (Some true) false two_hours.
Definition demo_token_2fa : Token := mkToken 1 (Some "u1@42.fr") (Some true) true two_hours.

Definition demo_server : Server :=
  mkServer (mkAppDB (pchat demo_app)
                    (map (fun x => if bool_decide (x_id x = 1)
                                   then mkUserCols 1 (email x) None (Some "S") (Some true) (Some true) else x)
                         (cols demo_app))
                    (friends demo_app) (next_user_id demo_app))
           [demo_token; demo_token_2fa].

Lemma jwt_guard_requires_2fa_witness :
  exists t, req_token (mkRequest (Some demo_token_2fa) 0) = Some t /\ t ∈ issued demo_server /\
    req_now (mkRequest (Some demo_token_2fa) 0) < tk_exp t /\ tk_2faAuth t = true /\ tk_sub t = 1.
Proof.
  apply (jwt_guard_requires_2fa demo_server (mkRequest (Some demo_token_2fa) 0)
           (mkUser 1 101 "u1" ONLINE 1 0 []) (mkUserCols 1 (Some "u1@42.fr") None (Some "S") (Some true) (Some true)));
    vm_compute; reflexivity.
Defined.

Lemma callback_token_unverified_witness :
  tk_2faAuth demo_token = false /\
  (forall s2 now2 u x, auth_user (app s2) (tk_sub demo_token) = Some (u, x) -> isTwoFactorEnabled x = Some true ->
     authenticate_with jwt_validate s2 (mkRequest (Some demo_token) now2) = None).
Proof.
  apply (callback_token_unverified 0 (mkFtProfile 101 "u1" "u1@42.fr" "small.png") demo_server demo_token P2faVer).
  vm_compute. reflexivity.
Defined.

