(* ===== verification/UserController.v ===== *)
(** * The HTTP endpoints of src/app/backend/src/user/user.controller.ts

    Each route of [UserController] under the guard it declares
    ([JwtGuard] of Auth.v for all but [add-friend]), calling the
    services of Store.v and Profile.v on the database of the server. *)

From stdpp Require Import base list strings.
From Stdlib Require Import ZArith QArith Lia.
From S2P Require Import Prelude Store Chat Profile Auth.

Open Scope Z_scope.

Module UserController.
Import ProfileService.

Definition done {A} (c : PM A) : SM (Http A) := let* v := acall c in ret (HDone v).

(** [GET /users/me]: [req.user] as the strategy attached it. *)
Definition getMe (req : Request) : SM (Http AuthUser) := JwtGuard req (fun au => ret (HDone au)).

Definition getUserById (req : Request) (id : Z) : SM (Http (option User)) :=
  JwtGuard req (fun _ => done (pcall (UserService.getUserById id))).

Definition getUserByAuthId (req : Request) (a : Z) : SM (Http (option User)) :=
  JwtGuard req (fun _ => done (pcall (UserService.getUserByAuthId (Some a)))).

Definition checkUsernameExists (req : Request) (n : string) : SM (Http bool) :=
  JwtGuard req (fun _ => done (userAlreadyExists n)).

(** [PUT /users/:id]: renames the user of the path, whoever asks. *)
Definition updateUsername (req : Request) (id : Z) (n : string) : SM (Http unit) :=
  JwtGuard req (fun _ => done (changeName id n)).

(** [POST /users/upload-avatar]: the stored file's URL becomes the
    caller's avatar. *)
Definition uploadFile (req : Request) (url : string) : SM (Http string) :=
  JwtGuard req (fun '(u, _) => acall (uploadAvatar (u_id u) url);; ret (HDone url)).

(** [GET /users/:id/profile] catches and answers [undefined]. *)
Definition getUserProfileAndMatches (req : Request) (id : Z) : SM (Http (option Profile)) :=
  JwtGuard req (fun _ =>
    done (catch (let* pr := getUserProfileInformation id in ret (Some pr)) (ret None))).

Definition getGeneralInformation (req : Request) : SM (Http GeneralInformation) :=
  JwtGuard req (fun '(u, _) => done (ProfileService.getGeneralInformation (u_id u))).

(** [POST /users/:userId/add-friend] has no guard. *)
Definition addFriend (userId friendId : Z) : SM (Http (option (list Z))) :=
  respond (done (ProfileService.addFriend userId friendId)).
End UserController.

(** ** The HTTP server as a set of routes *)

Inductive HttpEvent :=
  | HCallback (now : Z) (pr : FtProfile)
  | HRegister (req : Request) (secret : string)
  | HTurnOff (req : Request)
  | HAuthenticate (req : Request) (code : string)
  | HLogOut (bodyId : Z)
  | HGuest (now : Z) (name : string) (r : Q) (uuid : string)
  | HGetMe (req : Request)
  | HGetUserById (req : Request) (id : Z)
  | HGetUserByAuthId (req : Request) (a : Z)
  | HCheckUsername (req : Request) (n : string)
  | HUpdateUsername (req : Request) (id : Z) (n : string)
  | HUploadFile (req : Request) (url : string)
  | HGetProfile (req : Request) (id : Z)
  | HGetGeneral (req : Request)
  | HAddFriend (userId friendId : Z).

Definition http_handle (totp : string -> option string -> bool) (e : HttpEvent) : SM unit :=
  match e with
  | HCallback now pr => AuthController.fortyTwoCallBack now pr;; ret tt
  | HRegister req sec => AuthController.register req sec;; ret tt
  | HTurnOff req => AuthController.turnOffTwoFactorAuthentication req;; ret tt
  | HAuthenticate req code => AuthController.authenticate totp req code;; ret tt
  | HLogOut i => AuthController.logOut i;; ret tt
  | HGuest now n r uuid => AuthController.guestUser now n r uuid;; ret tt
  | HGetMe req => UserController.getMe req;; ret tt
  | HGetUserById req i => UserController.getUserById req i;; ret tt
  | HGetUserByAuthId req a => UserController.getUserByAuthId req a;; ret tt
  | HCheckUsername req n => UserController.checkUsernameExists req n;; ret tt
  | HUpdateUsername req i n => UserController.updateUsername req i n;; ret tt
  | HUploadFile req url => UserController.uploadFile req url;; ret tt
  | HGetProfile req i => UserController.getUserProfileAndMatches req i;; ret tt
  | HGetGeneral req => UserController.getGeneralInformation req;; ret tt
  | HAddFriend a b => UserController.addFriend a b;; ret tt
  end.

(** ** 2FA is never on without a secret

    A user's columns are consistent when no stored secret is empty and
    2FA is on only with a stored secret; [cols_ok] reads the rows as the
    code does, through [cols_of]. *)
Definition secret_set (x : UserCols) : Prop :=
  twoFactorSecret x <> Some ""%string /\ (isTwoFactorEnabled x = Some true -> is_Some (twoFactorSecret x)).

(** [authenticator.generateSecret()] answers a non-empty base32 string:
    the secret a [2fa/generate] request stores is never empty. *)
Definition secret_generated (e : HttpEvent) : Prop :=
  match e with HRegister _ sec => sec <> ""%string | _ => True end.

#[export] Instance secret_set_dec x : Decision (secret_set x).
Proof. unfold secret_set. apply _. Defined.

Definition cols_ok (p : AppDB) : Prop := forall i x, cols_of p i = Some x -> secret_set x.
Definition server_ok (s : Server) : Prop := cols_ok (app s).

(** ** Which routes sign which tokens *)

(** The tokens a run adds all say the 2FA code was not checked. *)
Definition adds_unverified (s0 s : Server) : Prop :=
  forall t, t ∈ issued s -> t ∈ issued s0 \/ tk_2faAuth t = false.

Lemma acall_issued {A} (c : PM A) s : issued (snd (acall c s)) = issued s.
Proof. unfold acall, zoom. by destruct (c (app s)). Qed.

Lemma acall_run {A} (c : PM A) s o s' : acall c s = (o, s') -> issued s' = issued s.
Proof. intros E. pose proof (acall_issued c s) as H. rewrite E in H. exact H. Qed.

Lemma acall_unverified {A} s0 (c : PM A) : preserves (adds_unverified s0) (acall c).
Proof. intros s Hs t. rewrite acall_issued. apply Hs. Qed.

Lemma createToken_unverified s0 now i em en : preserves (adds_unverified s0) (createToken now i em en false).
Proof.
  intros s Hs t. unfold createToken. simpl. intros [Ht | ->%list_elem_of_singleton]%elem_of_app; [by apply Hs|by right].
Qed.

Lemma respond_preserves {A} P (c : SM (Http A)) : preserves P c -> preserves P (respond c).
Proof. intros Hc s Hs. unfold respond. pose proof (Hc s Hs). destruct (c s) as [[] ?]; done. Qed.

Lemma guard_with_preserves {A} P v req (k : AuthUser -> SM (Http A)) :
  (forall au, preserves P (k au)) -> preserves P (guard_with v req k).
Proof. intros Hk s Hs. unfold guard_with. destruct (authenticate_with v s req); [|done]. by apply respond_preserves. Qed.

Lemma token_push_unverified s0 (f : Server -> Token) :
  (forall s, tk_2faAuth (f s) = false) ->
  preserves (adds_unverified s0) (modify (fun s => mkServer (app s) (issued s ++ [f s]))).
Proof.
  intros Hf s Hs t. simpl. intros [Ht | ->%list_elem_of_singleton]%elem_of_app; [by apply Hs|by right].
Qed.

#[local] Hint Extern 3 (preserves (adds_unverified _) (modify _)) =>
  apply token_push_unverified; intros; reflexivity : gw.
#[local] Hint Resolve acall_unverified createToken_unverified respond_preserves guard_with_preserves : gw.

Lemma authenticate_issued totp req code s :
  issued (exec (AuthController.authenticate totp req code) s) = issued s \/
  exists u x, authenticate_with jwt2fa_validate s req = Some (u, x) /\ totp code (twoFactorSecret x) = true /\
    issued (exec (AuthController.authenticate totp req code) s) =
      issued s ++ [mkToken (u_id u) (email x) (isTwoFactorEnabled x) true (req_now req + two_hours)].
Proof.
  unfold exec, AuthController.authenticate, Jwt2faGuard, guard_with, respond.
  destruct (authenticate_with jwt2fa_validate s req) as [[u x]|] eqn:Ha; [|by left].
  unfold AuthService.isTwoFactorAuthenticationCodeValid. simpl.
  destruct (totp code (twoFactorSecret x)) eqn:Hv; simpl; [|by left].
  right. exists u, x. split_and!; [done|done|].
  unfold AuthService.loginWith2fa, createToken. cbv beta delta [bind ret modify]. simpl.
  destruct (acall _ _) as [o1 s1] eqn:E1. apply acall_run in E1. simpl in E1.
  destruct o1; simpl.
  - destruct (acall _ s1) as [o2 s2] eqn:E2. apply acall_run in E2. destruct o2; simpl; congruence.
  - done.
Qed.

Ltac http_preserve :=
  repeat first [ progress preserve_deep | apply respond_preserves
               | apply guard_with_preserves; intros [??] ].

Lemma http_adds_unverified totp e s0 :
  (forall req code, e <> HAuthenticate req code) -> preserves (adds_unverified s0) (http_handle totp e).
Proof.
  intros Hne. destruct e; [| | |by destruct (Hne req code)| | | | | | | | | | |];
    unfold http_handle, AuthController.fortyTwoCallBack, AuthController.register,
      AuthController.turnOffTwoFactorAuthentication, AuthController.logOut, AuthController.guestUser,
      UserController.getMe, UserController.getUserById, UserController.getUserByAuthId,
      UserController.checkUsernameExists, UserController.updateUsername, UserController.uploadFile,
      UserController.getUserProfileAndMatches, UserController.getGeneralInformation,
      UserController.addFriend, UserController.done, JwtGuard,
      AuthService.generateTwoFactorAuthenticationSecret;
    http_preserve.
Qed.

(** C18. Over every HTTP route of the server, a token saying that the
    2FA code was checked is only signed by [2fa/authenticate], for the
    user its [Jwt2faGuard] admitted, and only after the code verified
    against that user's stored secret. *)
Theorem new_2fa_token_verified totp e s t :
  t ∈ issued (exec (http_handle totp e) s) -> t ∉ issued s -> tk_2faAuth t = true ->
  exists req code u x, e = HAuthenticate req code /\ authenticate_with jwt2fa_validate s req = Some (u, x) /\
    totp code (twoFactorSecret x) = true /\ tk_sub t = u_id u.
Proof.
  intros Hin Hnew H2fa.
  destruct e as [now pr|req sec|req|req code|i|now n r uuid|req|req i|req a|req n|req i n|req url|req i|req|a b];
    try (match goal with Hin : t ∈ issued (exec (http_handle totp ?e) s) |- _ =>
           destruct (http_adds_unverified totp e s ltac:(intros ?? He; discriminate He) s
                       (fun t Ht => or_introl Ht) t Hin); [contradiction|congruence] end).
  unfold http_handle in Hin. rewrite exec_bind_ret in Hin.
  destruct (authenticate_issued totp req code s) as [He | (u & x & Ha & Hv & He)]; rewrite He in Hin.
  - contradiction.
  - apply elem_of_app in Hin as [Hin | ->%list_elem_of_singleton]; [contradiction|].
    by exists req, code, u, x.
Qed.

Lemma new_2fa_token_verified_witness :
  exists req code u x,
    HAuthenticate (mkRequest (Some demo_token) 1) "S" = HAuthenticate req code /\
    authenticate_with jwt2fa_validate demo_server req = Some (u, x) /\
    demo_totp code (twoFactorSecret x) = true /\
    tk_sub (mkToken 1 (Some "u1@42.fr") (Some true) true (1 + two_hours)) = u_id u.
Proof.
  apply (new_2fa_token_verified demo_totp (HAuthenticate (mkRequest (Some demo_token) 1) "S")
           demo_server (mkToken 1 (Some "u1@42.fr") (Some true) true (1 + two_hours))).
  - apply (bool_decide_unpack _). vm_compute. reflexivity.
  - apply (bool_decide_unpack _). vm_compute. reflexivity.
  - reflexivity.
Defined.


(** ** Routes that do not check who asks *)

Definition demo_token_3 : Token := mkToken 3 (Some "u3@42.fr") (Some false) false two_hours.

(** [PUT /users/:id] renames the user of the path, not the caller:
    user 3, with a valid token of its own, renames user 1. *)
Example updateUsername_renames_other_user :
  let s := mkServer (app demo_server) [demo_token_3] in
  let s' := exec (UserController.updateUsername (mkRequest (Some demo_token_3) 0) 1 "mallory") s in
  eval (UserController.updateUsername (mkRequest (Some demo_token_3) 0) 1 "mallory") s = Ok (HDone tt) /\
  username <$> user_by_id (pcore (app s')) 1 = Some "mallory"%string.
Proof. split; vm_compute; reflexivity. Qed.

(** [POST /auth/42/logout] and [POST /users/:userId/add-friend]
    take no token: a request without credentials sets user 1 OFFLINE and
    makes user 3 add user 2 as a friend. *)
Example unguarded_routes_act_for_anyone :
  let s' := exec (AuthController.logOut 1;; UserController.addFriend 3 2) demo_server in
  status <$> user_by_id (pcore (app s')) 1 = Some OFFLINE /\ (3, 2) ∈ friends (app s').
Proof. split; [vm_compute; reflexivity|]. apply (bool_decide_unpack _). vm_compute. reflexivity. Qed.

(** ** The secret invariant over every route *)

Lemma cols_ok_Forall p : Forall secret_set (cols p) -> cols_ok p.
Proof. rewrite Forall_forall. intros Hp i x Hx. apply find_first_Some in Hx as [Hx _]. auto. Qed.

Lemma cols_update_ok_at i f p :
  (forall y, x_id (f y) = x_id y) -> (forall y, cols_of p i = Some y -> secret_set (f y)) ->
  cols_ok p -> cols_ok (snd (cols_update i f p)).
Proof.
  intros Hid Hf Hp j y. unfold cols_update. destruct (user_by_id (pcore p) i); [|apply Hp].
  unfold cols_of. simpl. rewrite find_first_map.
  - destruct (find_first _ (cols p)) as [y0|] eqn:E; simpl; [|done]. intros [= <-].
    pose proof E as [_ Hj%bool_decide_eq_true]%find_first_Some.
    case_bool_decide; [subst; by apply Hf|by apply (Hp j)].
  - intros y0. destruct (bool_decide (x_id y0 = i)); [by rewrite Hid|done].
Qed.

Lemma cols_update_ok i f : (forall y, x_id (f y) = x_id y) -> (forall y, secret_set y -> secret_set (f y)) ->
  preserves cols_ok (cols_update i f).
Proof. intros Hid Hf p Hp. apply cols_update_ok_at; [done| |done]. intros y Hy. by apply Hf, (Hp i). Qed.

Lemma pcall_cols_ok {A} (c : M DB A) : preserves cols_ok (pcall c).
Proof. apply (preserves_zoom _ (fun _ => True)); [done|by intros ? [] ??|by intros ??]. Qed.

Lemma zoom_pchat_cols_ok {A} (c : M ChatDB A) : preserves cols_ok (zoom pchat set_pchat c).
Proof. apply (preserves_zoom _ (fun _ => True)); [done|by intros ? [] ??|by intros ??]. Qed.

Lemma user_create_cols_ok p a n em av st k :
  cols_ok p -> cols_ok (snd (user_create a n em av st k p)) /\
  forall u x, fst (user_create a n em av st k p) = Ok (u, x) -> secret_set x.
Proof.
  intros Hp. unfold user_create. case_bool_decide; [split; [done|discriminate]|].
  split; [|intros ?? [= _ <-]; split; [done|discriminate]].
  intros j y. unfold cols_of. simpl. destruct (find_first (fun x => bool_decide (x_id x = j)) (cols p)) eqn:E.
  - erewrite find_first_app_l by exact E. intros [= <-]. by apply (Hp j).
  - rewrite find_first_app_r by exact E. case_bool_decide; intros [= <-]; split; [done|discriminate].
Qed.

Lemma ft_validate_ok pr p : cols_ok p ->
  cols_ok (snd (ft_validate pr p)) /\
  forall u x, fst (ft_validate pr p) = Ok (Some (u, x)) -> secret_set x.
Proof.
  intros Hp. unfold ft_validate. cbv beta iota delta [catch bind get deref ret throw].
  destruct (user_by_authId (pcore p) (fp_id pr)) as [u|].
  - destruct (cols_of p (u_id u)) as [x|] eqn:Ex; simpl; [|split; [done|discriminate]].
    match goal with |- context [cols_update ?i ?f p] =>
      pose proof (cols_update_ok_at i f p ltac:(done) (fun y Hy => Hp _ _ Hy : secret_set (f y)) Hp) as Hok;
      destruct (cols_update i f p) as [[] p1] end; simpl in *; [|split; [done|discriminate]].
    split; [done|]. intros ?? [= <- <-]. by apply (Hp (u_id u)).
  - match goal with |- context [user_create ?a ?n ?em ?av ?st ?k p] =>
      destruct (user_create_cols_ok p a n em av st k Hp) as [Hok Hx];
      destruct (user_create a n em av st k p) as [[[u x]|] p1] end; simpl in *; [|split; [done|discriminate]].
    split; [done|]. intros ?? [= <- <-]. by apply (Hx u x).
Qed.

Lemma user_create_ok a n em av st k : preserves cols_ok (user_create a n em av st k).
Proof. intros p Hp. apply user_create_cols_ok, Hp. Qed.

Lemma ft_validate_preserves pr : preserves cols_ok (ft_validate pr).
Proof. intros p Hp. apply ft_validate_ok, Hp. Qed.

Lemma addFriend_cols_ok a b : preserves cols_ok (ProfileService.addFriend a b).
Proof.
  intros p Hp. unfold ProfileService.addFriend, catch. simpl.
  destruct (user_by_id (pcore p) a); [|done]. case_bool_decide; [done|].
  by destruct (user_by_id (pcore p) b).
Qed.

Lemma acall_ok {A} (c : PM A) : preserves cols_ok c -> preserves server_ok (acall c).
Proof. intros Hc. apply (preserves_zoom _ cols_ok); [done| |done]. by intros ???. Qed.

Lemma createToken_ok now i em en au : preserves server_ok (createToken now i em en au).
Proof. unfold createToken. apply preserves_bind; [apply preserves_modify; by intros []|intros; apply preserves_ret]. Qed.

#[local] Hint Resolve pcall_cols_ok zoom_pchat_cols_ok user_create_ok ft_validate_preserves addFriend_cols_ok
  createToken_ok respond_preserves guard_with_preserves : gw.
#[local] Hint Extern 2 (preserves server_ok (acall _)) => apply acall_ok : gw.
#[local] Hint Extern 2 (preserves cols_ok (cols_update _ _)) =>
  apply cols_update_ok; [intros; reflexivity|
    intros ? [Hn Hy]; split; simpl in *; [congruence|first [by eauto|intros ?; congruence]]] : gw.

Lemma authenticate_with_2fa s req u x :
  authenticate_with jwt2fa_validate s req = Some (u, x) -> cols_of (app s) (u_id u) = Some x.
Proof.
  unfold authenticate_with. destruct (req_token req) as [t|]; [|done]. destruct (token_valid s _ t); [|done].
  unfold jwt2fa_validate. intros Ha. pose proof (auth_user_Some _ _ _ _ Ha) as [_ ->].
  revert Ha. unfold auth_user. destruct (user_by_id _ _), (cols_of _ _); congruence.
Qed.

Lemma acall_cols_update_at s i f y :
  (forall y, x_id (f y) = x_id y) -> cols_of (app s) i = Some y -> secret_set (f y) ->
  server_ok s -> server_ok (snd (acall (cols_update i f) s)).
Proof.
  intros Hid Hy Hf Hs. unfold acall, zoom.
  pose proof (cols_update_ok_at i f (app s) Hid (fun y0 Hy0 => ltac:(rewrite Hy in Hy0; by injection Hy0 as <-)) Hs) as H.
  destruct (cols_update i f (app s)) as [o p]. exact H.
Qed.

(** Each route keeps the invariant; [2fa/authenticate], the only one
    that turns 2FA on, does so after the code verified against the
    stored secret. *)
Section SecretInvariant.
Variable totp_verify : string -> option string -> bool.
Hypothesis totp_no_secret : forall c, totp_verify c None = false.

Lemma authenticate_ok req code : preserves server_ok (AuthController.authenticate totp_verify req code).
Proof.
  intros s Hs. unfold AuthController.authenticate, Jwt2faGuard, guard_with.
  destruct (authenticate_with jwt2fa_validate s req) as [[u x]|] eqn:Ha; [|done].
  unfold respond, AuthService.isTwoFactorAuthenticationCodeValid. simpl.
  destruct (totp_verify code (twoFactorSecret x)) eqn:Hv; simpl; [|done].
  unfold AuthService.loginWith2fa, createToken. cbv beta delta [bind ret modify]. simpl.
  assert (Hsec : is_Some (twoFactorSecret x)) by (destruct (twoFactorSecret x); [done|by rewrite totp_no_secret in Hv]).
  pose proof (authenticate_with_2fa _ _ _ _ Ha) as Hx. pose proof (Hs _ _ Hx) as [Hne _].
  match goal with |- context [acall (cols_update ?i ?f) ?s1] =>
    pose proof (acall_cols_update_at s1 i f x ltac:(done) Hx (conj Hne (fun _ => Hsec)) Hs) as H1;
    destruct (acall (cols_update i f) s1) as [[] s2] end; simpl in *; [|done].
  match goal with |- context [acall ?c s2] =>
    pose proof (acall_ok c (pcall_cols_ok _) s2 H1); destruct (acall c s2) as [[] ?] end; done.
Qed.

Lemma http_handle_ok e : secret_generated e -> preserves server_ok (http_handle totp_verify e).
Proof.
  intros Hg. destruct e; cbn [secret_generated] in Hg; [| | |apply preserves_bind; [apply authenticate_ok|intros; apply preserves_ret]| | | | | | | | | | |];
    unfold http_handle, AuthController.fortyTwoCallBack, AuthController.register,
      AuthController.turnOffTwoFactorAuthentication, AuthController.logOut, AuthController.guestUser,
      UserController.getMe, UserController.getUserById, UserController.getUserByAuthId,
      UserController.checkUsernameExists, UserController.updateUsername, UserController.uploadFile,
      UserController.getUserProfileAndMatches, UserController.getGeneralInformation,
      UserController.addFriend, UserController.done, JwtGuard,
      AuthService.generateTwoFactorAuthenticationSecret, set_user_status,
      ProfileService.changeName, ProfileService.uploadAvatar, ProfileService.userAlreadyExists,
      ProfileService.getUserProfileInformation, ProfileService.getGeneralInformation;
    repeat (http_preserve; try apply acall_ok).
Qed.
End SecretInvariant.

(** C32. Over every sequence of HTTP requests, from a database where no
    stored secret is empty and 2FA is on only for users with a stored
    secret, the 42 callback never redirects to [/2fa/reg]: its
    [!req.user.twoFactorSecret] branch is dead, given an authenticator
    that accepts no code without a secret and a secret generator that
    answers non-empty secrets. *)
Theorem callback_never_registers totp (Htotp : forall c, totp c None = false) es s now pr c :
  Forall secret_set (cols (app s)) -> Forall secret_generated es ->
  eval (AuthController.fortyTwoCallBack now pr) (exec (for_each (http_handle totp) es) s) <> Ok (HDone (c, P2faReg)).
Proof.
  intros H0 Hes. pose proof (preserves_run _ _ s (preserves_for_each_Forall _ _ _ es (http_handle_ok totp Htotp) Hes)
                               (cols_ok_Forall _ H0)) as Hs.
  change (snd (for_each (http_handle totp) es s)) with (exec (for_each (http_handle totp) es) s) in Hs.
  revert Hs. generalize (exec (for_each (http_handle totp) es) s) as s'. intros s' Hs.
  unfold eval, AuthController.fortyTwoCallBack, respond, acall, zoom, createToken.
  cbv beta delta [bind ret modify]. simpl.
  destruct (ft_validate_ok pr (app s') Hs) as [_ Hx].
  destruct (ft_validate pr (app s')) as [[[[u x]|]|] p1]; simpl; try done.
  destruct (Hx u x eq_refl) as [Hne Hon].
  destruct (isTwoFactorEnabled x) as [[]|] eqn:He; simpl.
  - destruct (Hon eq_refl) as [sec Hsec]. rewrite Hsec in Hne |- *. unfold js_truthy.
    rewrite bool_decide_true by (intros ->; by apply Hne). done.
  - destruct (set_user_status _ _ _) as [[]?]; simpl; done.
  - destruct (set_user_status _ _ _) as [[]?]; simpl; done.
Qed.

Lemma callback_never_registers_witness :
  eval (AuthController.fortyTwoCallBack 5 (mkFtProfile 101 "u1" "u1@42.fr" "small.png"))
       (exec (for_each (http_handle demo_totp)
                [HTurnOff (mkRequest (Some demo_token_2fa) 1); HRegister (mkRequest (Some demo_token_2fa) 2) "T";
                 HAuthenticate (mkRequest (Some demo_token) 3) "T"]) demo_server)
  <> Ok (HDone (CookieToken (mkToken 1 (Some "u1@42.fr") (Some true) false (5 + two_hours)), P2faReg)).
Proof.
  apply (callback_never_registers demo_totp (fun c => eq_refl)).
  - apply (bool_decide_unpack _). vm_compute. reflexivity.
  - repeat constructor. discriminate.
Defined.
