(* ===== verification/Browser.v ===== *)
(** * The browser side of login: cookie, AuthContext, router and 2FA pages

    src/app/frontend/src/: the [tokenJwt] cookie (js-cookie), the user
    [AuthContextProvider] fetches once per page load
    (contexts/AuthContext.tsx), the routes of [App] (App.tsx) with
    [ProtectedRoute] (components/Routes/ProtectedRoute.tsx) and
    [LoginPage]'s redirect of a logged-in user, the 42 login button
    (components/Login/LoginBtn.tsx), the 2FA pages [Verify2FA],
    [Register2FA] and [TurnOff2FA] (components/User/2FA/) and the
    header's [handleLogout] (components/Header/Header.tsx).

    A browser is its cookie, the user of the [AuthContext], the path of
    [window.location] and the [authId] its socket connected with.  Each
    user action is a function [Browser -> SM Browser] on the server of
    Auth.v: the requests it sends are the routes of auth.controller.ts
    and user.controller.ts, and a full page load
    ([window.location.href = ..], [replace], [reload], a redirect of the
    server) runs [AuthContext] again.  A path is the list of its
    segments. *)

From stdpp Require Import base list strings.
From Stdlib Require Import ZArith QArith Lia.
From S2P Require Import Prelude Store Chat Profile Auth UserController.

Open Scope Z_scope.

(** ** The routes of App.tsx *)

Definition Path := list string.

(** The element each route renders. *)
Inductive Screen :=
  | SLogin | SVerify2FA | SHome | SMatchmaking | SPong (id : string) | SChat | SUserPage
  | SUserProfile (id : option string) | SProfileNotFound | SUserSettings | SNotFound.

#[export] Instance Screen_eq_dec : EqDecision Screen.
Proof. solve_decision. Defined.

(** [<Routes>]: the static segments win over [:id], ['*'] takes the rest. *)
Definition route (p : Path) : Screen :=
  match p with
  | [] => SHome
  | [a] =>
      if bool_decide (a = "login") then SLogin
      else if bool_decide (a = "game") then SMatchmaking
      else if bool_decide (a = "chat") then SChat
      else if bool_decide (a = "user") then SUserPage else SNotFound
  | [a; b] =>
      if bool_decide (a = "2fa" /\ b = "ver") then SVerify2FA
      else if bool_decide (a = "game") then SPong b
      else if bool_decide (a = "user" /\ b = "profile") then SUserProfile None
      else if bool_decide (a = "user" /\ b = "settings") then SUserSettings else SNotFound
  | [a; b; c] =>
      if bool_decide (a = "user" /\ b = "profile") then
        (if bool_decide (c = "not-found") then SProfileNotFound else SUserProfile (Some c))
      else SNotFound
  | _ => SNotFound
  end.

(** The routes outside [<ProtectedRoute>]. *)
Definition is_public (sc : Screen) : bool :=
  match sc with SLogin | SVerify2FA | SNotFound => true | _ => false end.

(** The pages the callback redirects to. *)
Definition page_path (pg : Page) : Path :=
  match pg with PHome => [] | P2faReg => ["2fa"; "reg"] | P2faVer => ["2fa"; "ver"] end.

(** ** The browser *)

Record Browser := mkBrowser {
  cookie : option Cookie;
  user : option AuthUser;
  path : Path;
  socket_auth : option Z
}.

(** [Authorization: 'Bearer ' + Cookies.get('tokenJwt')]: the string
    ["[object Promise]"] is no JWT, and passport rejects it as it rejects a
    missing token. *)
Definition bearer (c : option Cookie) : option Token :=
  match c with Some (CookieToken t) => Some t | _ => None end.

Definition request_of (c : option Cookie) (now : Z) : Request := mkRequest (bearer c) now.

(** [AuthContextProvider]'s effect: with a cookie, [GET /users/me]; the
    user is the answer's data, and stays [null] on an error. *)
Definition AuthContext (now : Z) (c : option Cookie) : SM (option AuthUser) :=
  match c with
  | None => ret None
  | Some _ =>
      let* r := UserController.getMe (request_of c now) in
      ret (match r with HDone au => Some au | _ => None end)
  end.

(** [<ProtectedRoute user redirectPath='/login'>]: without a user,
    [<Navigate to='/login' replace />]; with one, the outlet, and the
    socket connects with [socket.auth = { authId: user.authId }]. *)
Definition ProtectedRoute (u : option AuthUser) (p : Path) : Path * option Z :=
  match u with
  | None => (["login"], None)
  | Some (usr, _) => (p, Some (authId usr))
  end.

(** [App]: what it renders at a path: [LoginPage] sends a logged-in user to
    ['/'], the protected routes go through [ProtectedRoute]; the public
    pages have no socket. *)
Definition App (u : option AuthUser) (p : Path) : Path * option Z :=
  match route p with
  | SLogin => match u with Some _ => ProtectedRoute u [] | None => (p, None) end
  | SVerify2FA | SNotFound => (p, None)
  | _ => ProtectedRoute u p
  end.

(** A full page load at [p] with the cookie [c]: [AuthContext] runs,
    [App] waits for it ([loading]) and renders. *)
Definition load (now : Z) (c : option Cookie) (p : Path) : SM Browser :=
  let* u := AuthContext now c in
  let '(p', sa) := App u p in
  ret (mkBrowser c u p' sa).

(** A [<Link>], [<NavLink>] or [navigate()]: the same page, the same
    context. *)
Definition navigate (p : Path) (b : Browser) : Browser :=
  let '(p', sa) := App (user b) p in mkBrowser (cookie b) (user b) p' sa.

(** The answer of the callback or the guest route: its [Set-Cookie] and
    its redirect, a page load; a refusal leaves the app. *)
Definition follow (now : Z) (r : Http (Cookie * Page)) (b : Browser) : SM Browser :=
  match r with
  | HDone (c, pg) => load now (Some c) (page_path pg)
  | _ => ret b
  end.

Module LoginBtn.
(** [handleClick]: [/auth/42], then 42's redirect to the callback with
    the profile [pr]. *)
Definition handleClick (now : Z) (pr : FtProfile) (b : Browser) : SM Browser :=
  let* r := AuthController.fortyTwoCallBack now pr in follow now r b.

(** [TmpLoginBtn]'s [handleSubmit]: [/auth/42/guest/:name]. *)
Definition handleSubmit (now : Z) (name : string) (r : Q) (uuid : string) (b : Browser) : SM Browser :=
  let* res := AuthController.guestUser now name r uuid in follow now res b.
End LoginBtn.

Section Pages.
Variable totp_verify : string -> option string -> bool.

(** [Verify2FA]'s effect on a code of six characters: with a cookie,
    [POST /auth/2fa/authenticate]; on success the answer's token replaces
    the cookie and the page reloads at [/user/settings], else goes to
    ['/']; on an error the code is cleared. *)
Definition Verify2FA (now : Z) (code : string) (b : Browser) : SM Browser :=
  if negb (bool_decide (String.length code = 6%nat)) then ret b else
  match cookie b with
  | None => ret b
  | Some _ =>
      let* r := AuthController.authenticate totp_verify (request_of (cookie b) now) code in
      match r with
      | HDone (_, t) =>
          load (now + 400) (Some (CookieToken t))
               (if bool_decide (path b = ["user"; "settings"]) then path b else [])
      | _ => ret b
      end
  end.

(** [Register2FA]'s effect: with a cookie, [POST /auth/2fa/generate]; the
    answer is the QR code shown. *)
Definition Register2FA (now : Z) (secret : string) (b : Browser) : SM (option QrCode) :=
  match cookie b with
  | None => ret None
  | Some _ =>
      let* r := AuthController.register (request_of (cookie b) now) secret in
      ret (match r with HDone q => Some q | _ => None end)
  end.

(** [TurnOff2FA]'s effect once [Yes] is clicked: with a cookie,
    [POST /auth/2fa/turnoff], and a reload when it succeeds. *)
Definition TurnOff2FA (now : Z) (b : Browser) : SM Browser :=
  match cookie b with
  | None => ret b
  | Some _ =>
      let* r := AuthController.turnOffTwoFactorAuthentication (request_of (cookie b) now) in
      match r with HDone _ => load now (cookie b) (path b) | _ => ret b end
  end.
End Pages.

Module Header.
(** [handleLogout]: [POST /auth/42/logout] with [{ data: { id: user?.id } }];
    on ['OK'] the cookie is removed and the page loads at ['/'].  The
    header is part of [Layout], shown with a user only. *)
Definition handleLogout (now : Z) (b : Browser) : SM Browser :=
  match user b with
  | None => ret b
  | Some (u, _) =>
      let* r := AuthController.logOut (u_id u) in
      match r with HDone _ => load now None [] | _ => ret b end
  end.
End Header.

Module UserSettings.
(** What the 2FA card of the settings page shows. *)
Inductive TwoFAContent := CRegister2FA | CTurnOff2FA.

(** [handle2FA] on the card's checkbox [checked]: its save button is
    [disabled={data.is2faEnabled === user!.isTwoFactorEnabled}]; it shows
    [<Register2FA />] when the box is checked, else [<TurnOff2FA />]. *)
Definition handle2FA (checked : bool) (x : UserCols) : option TwoFAContent :=
  if bool_decide (Some checked = isTwoFactorEnabled x) then None
  else Some (if checked then CRegister2FA else CTurnOff2FA).
End UserSettings.

#[export] Instance TwoFAContent_eq_dec : EqDecision UserSettings.TwoFAContent.
Proof. solve_decision. Defined.

(** ** The user's actions *)

Inductive BrowserEvent :=
  | BLogin (now : Z) (pr : FtProfile)
  | BGuest (now : Z) (name : string) (r : Q) (uuid : string)
  | BVisit (now : Z) (p : Path)
  | BNavigate (p : Path)
  | BVerify (now : Z) (code : string)
  | BRegister (now : Z) (secret : string)
  | BTurnOff (now : Z)
  | BLogout (now : Z).

(** The login button is on [LoginPage]; [Verify2FA] is the page of
    [/2fa/ver] and part of [/user/settings], where the 2FA card shows
    [Register2FA] or [TurnOff2FA] by [handle2FA]. *)
Definition browse (totp : string -> option string -> bool) (e : BrowserEvent) (b : Browser) : SM Browser :=
  match e with
  | BLogin now pr => if bool_decide (route (path b) = SLogin) then LoginBtn.handleClick now pr b else ret b
  | BGuest now n r uuid => LoginBtn.handleSubmit now n r uuid b
  | BVisit now p => load now (cookie b) p
  | BNavigate p => ret (navigate p b)
  | BVerify now code =>
      if bool_decide (route (path b) = SVerify2FA \/ route (path b) = SUserSettings)
      then Verify2FA totp now code b else ret b
  | BRegister now sec =>
      match user b with
      | Some (_, x) =>
          if bool_decide (route (path b) = SUserSettings /\
                          UserSettings.handle2FA true x = Some UserSettings.CRegister2FA)
          then Register2FA now sec b;; ret b else ret b
      | None => ret b
      end
  | BTurnOff now =>
      match user b with
      | Some (_, x) =>
          if bool_decide (route (path b) = SUserSettings /\
                          UserSettings.handle2FA false x = Some UserSettings.CTurnOff2FA)
          then TurnOff2FA now b else ret b
      | None => ret b
      end
  | BLogout now => Header.handleLogout now b
  end.

Fixpoint browse_all (totp : string -> option string -> bool) (es : list BrowserEvent) (b : Browser)
    : SM Browser :=
  match es with
  | [] => ret b
  | e :: es' => let* b' := browse totp e b in browse_all totp es' b'
  end.

(** A fresh tab at [/login]. *)
Definition fresh : Browser := mkBrowser None None ["login"] None.

(** ** How a page load runs *)

(** The user [AuthContext] ends with: the one [JwtStrategy] admits for the
    cookie's token. *)
Definition context_user (s : Server) (now : Z) (c : option Cookie) : option AuthUser :=
  match c with None => None | Some _ => authenticate_with jwt_validate s (request_of c now) end.

(** Which browsers show no user: a public page, no socket, and a cookie
    the server does not take. *)
Definition is_nav (e : BrowserEvent) : bool :=
  match e with BVisit _ _ | BNavigate _ => true | _ => false end.

Definition logged_out (s : Server) (b : Browser) : Prop :=
  user b = None /\ is_public (route (path b)) = true /\ socket_auth b = None /\
  forall now, context_user s now (cookie b) = None.

Lemma getMe_run req s :
  UserController.getMe req s =
    (Ok (match authenticate_with jwt_validate s req with Some au => HDone au | None => HUnauthorized end), s).
Proof. unfold UserController.getMe, JwtGuard, guard_with, respond. by destruct (authenticate_with jwt_validate s req). Qed.

Lemma AuthContext_run now c s : AuthContext now c s = (Ok (context_user s now c), s).
Proof.
  destruct c as [c|]; [|done]. unfold AuthContext. rewrite (bind_Ok _ _ _ _ _ (getMe_run _ s)).
  simpl. by destruct (authenticate_with jwt_validate s _).
Qed.

Lemma load_run now c p s :
  load now c p s = (Ok (mkBrowser c (context_user s now c) (App (context_user s now c) p).1
                                   (App (context_user s now c) p).2), s).
Proof. unfold load. rewrite (bind_Ok _ _ _ _ _ (AuthContext_run now c s)). by destruct (App _ p). Qed.

Lemma App_None p : is_public (route (App None p).1) = true /\ (App None p).2 = None.
Proof. unfold App. destruct (route p) eqn:E; simpl; rewrite ?E; done. Qed.

Lemma nav_logged_out totp e b s : is_nav e = true -> logged_out s b ->
  exists b', browse totp e b s = (Ok b', s) /\ logged_out s b'.
Proof.
  intros He (Hu & Hp & Hsa & Hc). destruct e as [| |now p|p| | | |]; try done; simpl.
  - rewrite load_run, Hc. eexists. split; [done|]. destruct (App_None p). by split_and!.
  - unfold navigate. rewrite Hu. destruct (App_None p). destruct (App None p) as [p' sa].
    eexists. split; [done|]. by split_and!.
Qed.

Lemma navs_logged_out totp es b s : Forall (fun e => is_nav e = true) es -> logged_out s b ->
  exists b', browse_all totp es b s = (Ok b', s) /\ logged_out s b'.
Proof.
  intros Hes. revert b. induction Hes as [|e es He Hes IH]; intros b Hb; [by exists b|].
  destruct (nav_logged_out totp e b s He Hb) as (b1 & Hrun & Hb1). simpl.
  rewrite (bind_Ok _ _ _ _ _ Hrun). by apply IH.
Qed.

(** What a browser may show: without a user, a public page and no
    socket; with one, never [/login], and the socket connected with the
    user's [authId] exactly on the protected pages. *)
Definition shown_ok (b : Browser) : Prop :=
  match user b with
  | None => is_public (route (path b)) = true /\ socket_auth b = None
  | Some (u, _) =>
      route (path b) <> SLogin /\
      socket_auth b = if is_public (route (path b)) then None else Some (authId u)
  end.

Lemma App_shown_ok c u p : shown_ok (mkBrowser c u (App u p).1 (App u p).2).
Proof.
  destruct u as [[u x]|]; [|apply App_None]. unfold shown_ok, App. simpl.
  destruct (route p) eqn:E; simpl; rewrite ?E; done.
Qed.

(** Every browser a computation answers satisfies [P]. *)
Definition yields (P : Browser -> Prop) (c : SM Browser) : Prop :=
  forall s b' s', c s = (Ok b', s') -> P b'.

Lemma yields_ret P b : P b -> yields P (ret b).
Proof. by intros Hb s b' s' [= <- _]. Qed.

Lemma yields_bind {A} P (c : SM A) (k : A -> SM Browser) : (forall a, yields P (k a)) -> yields P (bind c k).
Proof. intros Hk s b' s'. unfold bind. destruct (c s) as [[a|] s1]; [apply Hk|done]. Qed.

Lemma yields_load P now c p : (forall u, P (mkBrowser c u (App u p).1 (App u p).2)) -> yields P (load now c p).
Proof. intros Hu s b' s'. rewrite load_run. intros [= <- _]. apply Hu. Qed.

Lemma browse_shown_ok totp e b : shown_ok b -> yields shown_ok (browse totp e b).
Proof.
  intros Hb. assert (Hl : forall now c p, yields shown_ok (load now c p))
    by (intros; apply yields_load; intros; apply App_shown_ok).
  destruct e; simpl; unfold LoginBtn.handleClick, LoginBtn.handleSubmit, follow, Verify2FA, TurnOff2FA,
    Header.handleLogout, navigate;
    repeat first [ apply yields_ret; done | apply Hl | apply yields_bind; intros ?
                 | match goal with |- yields _ (if ?c then _ else _) => destruct c end
                 | match goal with |- yields _ (match ?c with _ => _ end) => destruct c end
                 | match goal with |- context [let '(_, _) := ?r in _] => destruct r eqn:? end ].
  apply yields_ret. match goal with H : App ?u ?p = (?p', ?sa) |- _ =>
    pose proof (App_shown_ok (cookie b) u p) as Hr; rewrite H in Hr; exact Hr end.
Qed.

(** The 42 login of a known user with 2FA on answers a cookie whose
    token the server does not take as a login. *)
Lemma callback_2fa_run now pr s u x :
  user_by_authId (pcore (app s)) (fp_id pr) = Some u -> cols_of (app s) (u_id u) = Some x ->
  isTwoFactorEnabled x = Some true ->
  exists t pg s1, AuthController.fortyTwoCallBack now pr s = (Ok (HDone (CookieToken t, pg)), s1) /\
    forall now2, context_user s1 now2 (Some (CookieToken t)) = None.
Proof.
  intros Hu Hx He.
  assert (Hv : is_Some (user_by_id (pcore (app s)) (u_id u))).
  { apply find_first_key_Some, list_elem_of_fmap. exists u. split; [done|]. by apply find_first_Some in Hu as [? _]. }
  destruct Hv as [v Hv].
  destruct (cols_update_run (u_id u) (fun x => mkUserCols (x_id x) (email x) (avatar x) (twoFactorSecret x)
                                                 (isTwoFactorEnabled x) (Some true)) (app s) v x
              ltac:(done) Hv Hx) as (p' & Hrun & Hcore & Hx').
  unfold AuthController.fortyTwoCallBack, respond, acall, zoom, ft_validate, createToken.
  cbv beta iota delta [catch bind get deref ret modify throw]. rewrite Hu, Hx, Hrun. simpl. rewrite He. simpl.
  assert (Ha : auth_user p' (u_id u) = Some (v, mkUserCols (x_id x) (email x) (avatar x) (twoFactorSecret x)
                                                 (isTwoFactorEnabled x) (Some true)))
    by (unfold auth_user; by rewrite Hcore, Hv, Hx').
  assert (Hrej : forall t, tk_sub t = u_id u -> tk_2faAuth t = false -> forall s1, app s1 = p' ->
            forall now2, context_user s1 now2 (Some (CookieToken t)) = None).
  { intros t Hs Ht s1 Hs1 now2. eapply (jwt_rejects_unverified _ _ _ _ _ Ht); [rewrite Hs, Hs1; exact Ha|exact He]. }
  destruct (js_truthy (twoFactorSecret x)); simpl;
    (eexists _, _, _; split; [reflexivity|]); by apply Hrej.
Qed.

Lemma auth_user_cols p i u x : auth_user p i = Some (u, x) -> cols_of p i = Some x.
Proof. unfold auth_user. destruct (user_by_id _ _), (cols_of p i); congruence. Qed.

(** [2fa/authenticate] with a valid token and the right code: the answer,
    the new token, and the user's row and columns after it. *)
Lemma authenticate_run totp req code s t u x :
  req_token req = Some t -> token_valid s (req_now req) t = true ->
  auth_user (app s) (tk_sub t) = Some (u, x) -> totp code (twoFactorSecret x) = true ->
  let t' := mkToken (u_id u) (email x) (isTwoFactorEnabled x) true (req_now req + two_hours) in
  exists s', AuthController.authenticate totp req code s = (Ok (HDone (CookiePromise, t')), s') /\
    issued s' = issued s ++ [t'] /\
    auth_user (app s') (u_id u) =
      Some (apply_user_data u [UStatus ONLINE],
            mkUserCols (x_id x) (email x) (avatar x) (twoFactorSecret x) (Some true) (isKnown x)).
Proof.
  intros Hreq Hval Ha Hc t'.
  pose proof (auth_user_cols _ _ _ _ Ha) as Hx. apply auth_user_Some in Ha as [Hu Hid]. rewrite <- Hid in Hu, Hx.
  destruct (cols_update_run (u_id u) (fun y => mkUserCols (x_id y) (email y) (avatar y) (twoFactorSecret y)
                                                 (Some true) (isKnown y)) (app s) u x ltac:(done) Hu Hx)
    as (p' & Hrun & Hcore & Hx').
  assert (Hg : authenticate_with jwt2fa_validate s req = Some (u, x)).
  { unfold authenticate_with. rewrite Hreq, Hval. unfold jwt2fa_validate, auth_user. by rewrite <- Hid, Hu, Hx. }
  unfold AuthController.authenticate, Jwt2faGuard, guard_with. rewrite Hg.
  unfold respond, AuthService.isTwoFactorAuthenticationCodeValid. simpl. rewrite Hc. simpl.
  unfold AuthService.loginWith2fa, createToken, set_user_status, acall, pcall, zoom.
  cbv beta iota delta [bind ret modify]. simpl. rewrite Hrun. simpl.
  rewrite Hcore, (user_update_run _ _ _ u Hu). simpl. eexists. split_and!; [reflexivity|reflexivity|].
  unfold auth_user.
  replace (user_by_id _ (u_id u)) with (user_by_id (exec (user_update (key_id (u_id u)) [UStatus ONLINE]) (pcore (app s))) (u_id u)).
  - rewrite (user_update_id_Some _ _ _ u Hu). unfold cols_of in *. simpl. by rewrite Hx'.
  - unfold exec. rewrite (user_update_run _ _ _ u Hu). simpl. by rewrite pcore_set_pcore.
Qed.

(** C30. The 42 login of a user with 2FA on shows no protected page
    before the code: after the callback and any visits and in-app
    navigations, [AuthContext] has no user, every page shown is public
    ([/login], [/2fa/ver] or the not-found page) and no socket is
    connected. *)
Theorem second_factor_required totp now pr b s u x es b2 s2 :
  route (path b) = SLogin -> user_by_authId (pcore (app s)) (fp_id pr) = Some u ->
  cols_of (app s) (u_id u) = Some x -> isTwoFactorEnabled x = Some true ->
  Forall (fun e => is_nav e = true) es ->
  browse_all totp (BLogin now pr :: es) b s = (Ok b2, s2) ->
  user b2 = None /\ is_public (route (path b2)) = true /\ socket_auth b2 = None.
Proof.
  intros Hr Hu Hx He Hes. destruct (callback_2fa_run now pr s u x Hu Hx He) as (t & pg & s1 & Hcb & Hc).
  assert (Hl : logged_out s1 (mkBrowser (Some (CookieToken t)) None (App None (page_path pg)).1
                                        (App None (page_path pg)).2)).
  { destruct (App_None (page_path pg)). by split_and!. }
  destruct (navs_logged_out totp es _ s1 Hes Hl) as (b' & Hrun & Hb').
  simpl. rewrite bool_decide_true by done. unfold LoginBtn.handleClick.
  rewrite bind_assoc, (bind_Ok _ _ _ _ _ Hcb). simpl follow.
  rewrite (bind_Ok _ _ _ _ _ (load_run _ _ _ _)), Hc, Hrun. intros [= <- _]. by destruct Hb' as (? & ? & ? & _).
Qed.

(** ** A server and a browser for the 2FA pages

    User 1 of Profile.v with 2FA on and the six-digit secret
    ["424242"], which [demo_totp] accepts as its own code. *)

Definition demo_srv : Server :=
  mkServer (mkAppDB (pchat demo_app)
                    (map (fun x => if bool_decide (x_id x = 1)
                                   then mkUserCols 1 (email x) None (Some "424242") (Some true) (Some true) else x)
                         (cols demo_app))
                    (friends demo_app) (next_user_id demo_app)) [].

Definition demo_profile : FtProfile := mkFtProfile 101 "u1" "u1@42.fr" "small.png".

Lemma second_factor_required_witness :
  let es := [BVisit 20 []; BNavigate ["chat"]; BVisit 30 ["user"; "settings"]] in
  let b2 := match eval (browse_all demo_totp (BLogin 10 demo_profile :: es) fresh) demo_srv with
            | Ok b => b | Exn => fresh end in
  user b2 = None /\ is_public (route (path b2)) = true /\ socket_auth b2 = None.
Proof.
  intros es b2.
  apply (second_factor_required demo_totp 10 demo_profile fresh demo_srv
           (mkUser 1 101 "u1" ONLINE 1 0 []) (mkUserCols 1 (Some "u1@42.fr") None (Some "424242") (Some true) (Some true))
           es b2 (exec (browse_all demo_totp (BLogin 10 demo_profile :: es) fresh) demo_srv));
    try (vm_compute; reflexivity).
  apply (bool_decide_unpack _). vm_compute. reflexivity.
Defined.

(** C31. Entering the right code on [/2fa/verify] logs the user in: with a
    cookie whose token is valid, and a six-character code the
    authenticator accepts for the user's secret, the cookie becomes the
    token that says the code was checked, the page loads at ['/'] with the
    user ONLINE and 2FA on in [AuthContext], and the socket connects with
    the user's [authId]. *)
Theorem verify_code_logs_in totp now code b s t u x :
  cookie b = Some (CookieToken t) -> route (path b) = SVerify2FA -> String.length code = 6%nat ->
  token_valid s now t = true -> auth_user (app s) (tk_sub t) = Some (u, x) ->
  totp code (twoFactorSecret x) = true ->
  exists s',
    browse totp (BVerify now code) b s =
      (Ok (mkBrowser (Some (CookieToken (mkToken (u_id u) (email x) (isTwoFactorEnabled x) true (now + two_hours))))
                     (Some (apply_user_data u [UStatus ONLINE],
                            mkUserCols (x_id x) (email x) (avatar x) (twoFactorSecret x) (Some true) (isKnown x)))
                     [] (Some (authId u))), s').
Proof.
  intros Hc Hr Hl Hv Ha Hcode.
  assert (Hreq : req_token (request_of (cookie b) now) = Some t) by (by rewrite Hc).
  destruct (authenticate_run totp (request_of (cookie b) now) code s t u x Hreq Hv Ha Hcode)
    as (s' & Hrun & Hiss & Ha').
  exists s'. simpl. rewrite bool_decide_true by (left; done). unfold Verify2FA.
  rewrite Hl, bool_decide_true by done. rewrite Hc in Hrun |- *. cbn [negb]. rewrite (bind_Ok _ _ _ _ _ Hrun).
  rewrite bool_decide_false by (intros Hp; rewrite Hp in Hr; discriminate Hr).
  rewrite load_run. unfold context_user, request_of, bearer, authenticate_with, token_valid. simpl.
  rewrite Hiss, !bool_decide_true by (unfold two_hours; lia || (apply elem_of_app; right; by left)).
  unfold jwt_validate. simpl. rewrite Ha'. simpl. by rewrite (proj1 (set_user_field_keys u _)).
Qed.

(** [POST /auth/42/logout] answers [OK] and keeps the signed tokens, the
    columns and every user's row, with its id. *)
Lemma logOut_run i s :
  exists s', AuthController.logOut i s = (Ok (HDone tt), s') /\ issued s' = issued s /\
    cols (app s') = cols (app s) /\
    forall j v, user_by_id (pcore (app s)) j = Some v ->
      exists v', user_by_id (pcore (app s')) j = Some v' /\ u_id v' = u_id v.
Proof.
  unfold AuthController.logOut, set_user_status, acall, pcall, zoom.
  cbv beta iota delta [catch bind ret].
  pose proof (user_by_id_user_update (key_id i) [UStatus OFFLINE] (pcore (app s))) as Hk.
  unfold exec in Hk. destruct (user_update (key_id i) [UStatus OFFLINE] (pcore (app s))) as [[] d]; simpl;
    (eexists; split; [reflexivity|]); simpl; split_and!; try done;
    intros j v Hv; rewrite pcore_set_pcore; destruct (Hk j v Hv) as (v' & ? & ? & _); by exists v'.
Qed.

(** Logging out does not revoke the session: the browser drops its
    cookie and ends on [/login] without a user, but the server still
    takes the old token, for the same user and columns, until it
    expires. *)
Theorem logout_keeps_token totp now b s b' s' t u x now2 :
  cookie b = Some (CookieToken t) -> user b = Some (u, x) ->
  authenticate_with jwt_validate s (mkRequest (Some t) now2) = Some (u, x) ->
  browse totp (BLogout now) b s = (Ok b', s') ->
  cookie b' = None /\ user b' = None /\ route (path b') = SLogin /\
  exists u', authenticate_with jwt_validate s' (mkRequest (Some t) now2) = Some (u', x) /\ u_id u' = u_id u.
Proof.
  intros Hc Hu Ha. destruct (logOut_run (u_id u) s) as (s1 & Hrun & Hiss & Hcols & Hids).
  simpl. unfold Header.handleLogout. rewrite Hu, (bind_Ok _ _ _ _ _ Hrun), load_run. intros [= <- <-].
  split_and!; [done|done|done|].
  revert Ha. unfold authenticate_with, token_valid, jwt_validate. simpl. rewrite Hiss.
  destruct (bool_decide (t ∈ issued s) && bool_decide (now2 < tk_exp t)); [|done].
  unfold auth_user, cols_of. rewrite Hcols.
  destruct (user_by_id (pcore (app s)) (tk_sub t)) as [v|] eqn:Hv; [|done].
  destruct (Hids _ _ Hv) as (v' & -> & Hid).
  destruct (find_first _ (cols (app s))) as [y|]; [|done].
  destruct (isTwoFactorEnabled y) as [[]|], (tk_2faAuth t); try done; intros [= -> ->]; by exists v'.
Qed.

(** The browser of user 1 on [/2fa/ver] after its 42 login. *)
Definition demo_login_token : Token := mkToken 1 (Some "u1@42.fr") (Some true) false (10 + two_hours).
Definition demo_on_verify : Browser := mkBrowser (Some (CookieToken demo_login_token)) None ["2fa"; "ver"] None.
Definition demo_user1 : User := mkUser 1 101 "u1" ONLINE 1 0 [].
Definition demo_cols1 : UserCols := mkUserCols 1 (Some "u1@42.fr") None (Some "424242") (Some true) (Some true).

Lemma verify_code_logs_in_witness :
  exists s',
    browse demo_totp (BVerify 20 "424242") demo_on_verify
           (exec (browse demo_totp (BLogin 10 demo_profile) fresh) demo_srv) =
      (Ok (mkBrowser (Some (CookieToken (mkToken (u_id demo_user1) (email demo_cols1)
                                                 (isTwoFactorEnabled demo_cols1) true (20 + two_hours))))
                     (Some (apply_user_data demo_user1 [UStatus ONLINE],
                            mkUserCols (x_id demo_cols1) (email demo_cols1) (avatar demo_cols1)
                                       (twoFactorSecret demo_cols1) (Some true) (isKnown demo_cols1)))
                     [] (Some (authId demo_user1))), s').
Proof.
  apply (verify_code_logs_in demo_totp 20 "424242" demo_on_verify _ demo_login_token demo_user1 demo_cols1);
    vm_compute; reflexivity.
Defined.

Lemma logout_keeps_token_witness :
  let s1 := exec (browse_all demo_totp [BLogin 10 demo_profile; BVerify 20 "424242"] fresh) demo_srv in
  let b1 := match eval (browse_all demo_totp [BLogin 10 demo_profile; BVerify 20 "424242"] fresh) demo_srv with
            | Ok b => b | Exn => fresh end in
  let t := mkToken 1 (Some "u1@42.fr") (Some true) true (20 + two_hours) in
  cookie (match eval (browse demo_totp (BLogout 30) b1) s1 with Ok b => b | Exn => fresh end) = None /\
  user (match eval (browse demo_totp (BLogout 30) b1) s1 with Ok b => b | Exn => fresh end) = None /\
  route (path (match eval (browse demo_totp (BLogout 30) b1) s1 with Ok b => b | Exn => fresh end)) = SLogin /\
  exists u', authenticate_with jwt_validate (exec (browse demo_totp (BLogout 30) b1) s1) (mkRequest (Some t) 40)
               = Some (u', demo_cols1) /\ u_id u' = u_id (apply_user_data demo_user1 [UStatus ONLINE]).
Proof.
  intros s1 b1 t.
  apply (logout_keeps_token demo_totp 30 b1 s1 _ _ t (apply_user_data demo_user1 [UStatus ONLINE]) demo_cols1 40);
    vm_compute; reflexivity.
Defined.

(** Over any sequence of the user's actions, from a browser that
    shows what it may, a protected page is never shown without a user,
    [/login] never with one, and the socket is connected exactly on the
    protected pages, with the user's [authId]. *)
Theorem browse_all_shown_ok totp es b s b' s' :
  shown_ok b -> browse_all totp es b s = (Ok b', s') -> shown_ok b'.
Proof.
  revert b s. induction es as [|e es IH]; intros b s Hb; simpl; [by intros [= <- _]|].
  unfold bind. destruct (browse totp e b s) as [[b1|] s1] eqn:E; [|done].
  apply IH. exact (browse_shown_ok totp e b Hb s b1 s1 E).
Qed.

Lemma browse_all_shown_ok_witness :
  let es := [BLogin 10 demo_profile; BNavigate []; BVerify 20 "424242"; BNavigate ["chat"];
             BNavigate ["login"]; BVisit 25 ["user"; "settings"]; BTurnOff 26; BLogout 30; BVisit 40 ["game"]] in
  shown_ok (match eval (browse_all demo_totp es fresh) demo_srv with Ok b => b | Exn => fresh end).
Proof.
  intros es. apply (browse_all_shown_ok demo_totp es fresh demo_srv _ (exec (browse_all demo_totp es fresh) demo_srv)).
  - vm_compute. split; [reflexivity|reflexivity].
  - vm_compute. reflexivity.
Defined.
