(* ===== verification/TwoFACard.v ===== *)
(** * The 2FA card of the settings page

    The two-factor card of src/app/frontend/src/components/User/
    UserSettings.tsx with its own state: the checkbox [data.is2faEnabled]
    (initially the user's [isTwoFactorEnabled]), [show2fa] with the
    content [handle2FA] chose, the save button's [disabled] condition and
    [removeElement("2fa")], the close button of the shown content, which
    hides it and flips the checkbox.  Browser.v's [UserSettings.handle2FA]
    is the card's choice seen from the browser; [handle2FA_refines] says
    the card makes the same choice. *)

From stdpp Require Import base list strings.
From Stdlib Require Import ZArith.
From S2P Require Import Prelude Store Profile Auth Browser.

Module TwoFACard.
Import UserSettings.

(** [data.is2faEnabled], [show2fa.active] and [show2fa.content]. *)
Record Card := mkCard { is2faEnabled : bool; active : bool; content : option TwoFAContent }.

(** [useState({ ..., is2faEnabled: user!.isTwoFactorEnabled })]; the
    column is [false] by default. *)
Definition card0 (x : UserCols) : Card := mkCard (default false (isTwoFactorEnabled x)) false None.

(** [handleChange] on the checkbox: [[name]: checked]. *)
Definition onCheck (checked : bool) (c : Card) : Card := mkCard checked (active c) (content c).

(** The save button: [disabled={data.is2faEnabled === user!.isTwoFactorEnabled}]. *)
Definition save_2fa_enabled (x : UserCols) (c : Card) : bool :=
  negb (bool_decide (Some (is2faEnabled c) = isTwoFactorEnabled x)).

(** [handle2FA]: show [<Register2FA />] for a checked box, else
    [<TurnOff2FA />]. *)
Definition handle2FA (c : Card) : Card :=
  mkCard (is2faEnabled c) true (Some (if is2faEnabled c then CRegister2FA else CTurnOff2FA)).

(** [removeElement("2fa")]: hide the content and flip the checkbox. *)
Definition removeElement_2fa (c : Card) : Card := mkCard (negb (is2faEnabled c)) false None.

(** [{show2fa.active && ... {show2fa.content}}] *)
Definition shown (c : Card) : option TwoFAContent := if active c then content c else None.

(** The user's clicks on the card: the box, [save] when it is enabled,
    and the close button while content is shown. *)
Inductive CardEvent := TCheck (checked : bool) | TSave | TClose.

Definition card_step (x : UserCols) (c : Card) (e : CardEvent) : Card :=
  match e with
  | TCheck b => onCheck b c
  | TSave => if save_2fa_enabled x c then handle2FA c else c
  | TClose => if active c then removeElement_2fa c else c
  end.
End TwoFACard.

Import TwoFACard.

(** ** Properties *)

(** The card's save shows what Browser.v's abstraction of the card
    says: with the save button enabled, [handle2FA] shows [Register2FA]
    or [TurnOff2FA] exactly as [UserSettings.handle2FA] chooses from the
    checkbox and the user's column. *)
Lemma handle2FA_refines x c :
  save_2fa_enabled x c = true -> shown (handle2FA c) = UserSettings.handle2FA (is2faEnabled c) x.
Proof.
  unfold save_2fa_enabled, UserSettings.handle2FA. intros H.
  rewrite bool_decide_false by (intros E; by rewrite bool_decide_true in H). reflexivity.
Qed.

(** Ticking the box, saving and closing the shown content puts the box
    back on the user's setting, with save disabled; but a box ticked
    back while the content is shown is flipped again by the close
    button, which leaves it opposite to the setting, save enabled. *)
Lemma close_flips_box x b :
  isTwoFactorEnabled x = Some b ->
  let c1 := foldl (card_step x) (card0 x) [TCheck (negb b); TSave] in
  shown c1 = UserSettings.handle2FA (negb b) x /\
  (let c2 := card_step x c1 TClose in is2faEnabled c2 = b /\ save_2fa_enabled x c2 = false /\ shown c2 = None) /\
  (let c3 := foldl (card_step x) c1 [TCheck b; TClose] in
   is2faEnabled c3 = negb b /\ save_2fa_enabled x c3 = true /\ shown c3 = None).
Proof.
  intros Hx. cbn [foldl]. unfold card_step, card0, save_2fa_enabled, UserSettings.handle2FA. rewrite Hx.
  by destruct b.
Qed.
