(* ===== verification/Client.v ===== *)
(** * The game client: the [Pong] page of the frontend

    The component of src/app/frontend/src/components/Game/Pong.tsx that
    plays one match against the game gateway: the module state [allVar]
    (the snapshot sent with [gameStart], [paddleMove] and [ballMove]), the
    keyboard listeners [paddleMove] and [paddleStop] with the two
    variables [prev] and [curr] their closure shares, the selection
    handlers, the listeners of the server's events, the canvas set-up
    effect with its [countdown], and the body of [render] that decides
    what each frame sends.  Drawing on the canvas is not modelled: it
    reads the state and writes nothing.

    The client is a record [Client]; every handler is a function from it
    to the next one and the list of messages it emits ([ClientMsg], the
    [socket.emit] calls in order).  The server's events are the payloads
    of World.v, so that Loop.v can connect the two sides. *)

From stdpp Require Import base list strings sets.
From Stdlib Require Import ZArith Lia QArith.
From S2P Require Import Prelude Store Physics World Session.

Open Scope Z_scope.

(** ** The client's state *)

(** The fields of [allVar] beyond the snapshot the server reads. *)
Record AllVar := mkAllVar {
  gd : GameData;
  av_rightPlayerId : Z;
  av_nameLeftPlayer : string;
  av_nameRightPlayer : string;
  av_winnerId : option Z;
  av_loserId : option Z;
  av_isFinished : bool;
  av_hasLeft : bool;
  av_gameMode : option string;
  av_ballSize : Q
}.

(** [let prev = ""; let curr = "";]: the closure of the key listeners. *)
Record Keys := mkKeys { prev : string; curr : string }.

(** The React state of the page and the scheduling state of the canvas
    effect: [listening] once the effect has registered its listeners,
    [count] the pending [countdown] interval, [running] while an
    animation frame is requested, and [ready] the value of
    [readyMap && readyMode] the [render] closure captured. *)
Record Ui := mkUi {
  isMount : bool;
  displayGame : bool;
  readyMap : bool;
  readyMode : bool;
  selectedMap : string;
  modeChoice : string;
  listening : bool;
  count : option Z;
  running : bool;
  ready : bool
}.

Record Client := mkClient { allVar : AllVar; keys : Keys; ui : Ui }.

(** The messages the page emits, with the payloads of its [socket.emit]
    calls ([game.id] is the route parameter, [user.authId] the signed-in
    user's). *)
Inductive ClientMsg :=
  | MInitGame (userAuthId gameId : Z)
  | MCheckGame (userAuthId gameId : Z)
  | MLeaveGame (userAuthId gameId gameStatus : Z)
  | MMapSelect (userAuthId gameId : Z)
  | MGameMode (userAuthId gameId : Z) (mode : option string)
  | MUpdateUser (userAuthId gameId gameStatus : Z)
  | MGameFinished (gameId : Z)
  | MGameStart (gd : GameData) (authId : Z)
  | MPaddleMove (gd : GameData) (authId : Z)
  | MBallMove (gd : GameData) (authId : Z).

(** ** Field updates *)

Definition set_gd (g : GameData) (a : AllVar) : AllVar :=
  let 'mkAllVar _ r nl nr wi lo fin hl md sz := a in mkAllVar g r nl nr wi lo fin hl md sz.
Definition set_keys (k : Keys) (c : Client) : Client := mkClient (allVar c) k (ui c).
Definition set_ui (u : Ui) (c : Client) : Client := mkClient (allVar c) (keys c) u.
Definition set_allVar (a : AllVar) (c : Client) : Client := mkClient a (keys c) (ui c).
Definition map_gd (f : GameData -> GameData) (c : Client) : Client :=
  set_allVar (set_gd (f (gd (allVar c))) (allVar c)) c.

Definition with_key (g : GameData) (k : string) : GameData :=
  let 'mkGameData i f b l r sl sr lim _ lp st := g in mkGameData i f b l r sl sr lim k lp st.
Definition with_frame (g : GameData) (f : Frame) : GameData :=
  let 'mkGameData i _ b l r sl sr lim k lp st := g in mkGameData i f b l r sl sr lim k lp st.
Definition with_limit (g : GameData) (lim : Z) : GameData :=
  let 'mkGameData i f b l r sl sr _ k lp st := g in mkGameData i f b l r sl sr lim k lp st.
Definition with_ids (g : GameData) (i lp : Z) : GameData :=
  let 'mkGameData _ f b l r sl sr lim k _ st := g in mkGameData i f b l r sl sr lim k lp st.

Definition set_ready_map (b : bool) (u : Ui) : Ui :=
  let 'mkUi m d _ rmo sm mc li co ru rd := u in mkUi m d b rmo sm mc li co ru rd.
Definition set_ready_mode (b : bool) (u : Ui) : Ui :=
  let 'mkUi m d rma _ sm mc li co ru rd := u in mkUi m d rma b sm mc li co ru rd.
Definition set_display (m d : bool) (u : Ui) : Ui :=
  let 'mkUi _ _ rma rmo sm mc li co ru rd := u in mkUi m d rma rmo sm mc li co ru rd.
Definition set_selected_map (s : string) (u : Ui) : Ui :=
  let 'mkUi m d rma rmo _ mc li co ru rd := u in mkUi m d rma rmo s mc li co ru rd.
Definition set_mode_choice (s : string) (u : Ui) : Ui :=
  let 'mkUi m d rma rmo sm _ li co ru rd := u in mkUi m d rma rmo sm s li co ru rd.
Definition set_loop (li : bool) (co : option Z) (ru rd : bool) (u : Ui) : Ui :=
  let 'mkUi m d rma rmo sm mc _ _ _ _ := u in mkUi m d rma rmo sm mc li co ru rd.
Definition set_running (ru : bool) (u : Ui) : Ui :=
  set_loop (listening u) (count u) ru (ready u) u.

(** ** The page's handlers *)

Module Pong.

(** The keys [paddleMove] reacts to. *)
Definition move_key (k : string) : bool :=
  bool_decide (k = "W" \/ k = "w" \/ k = "S" \/ k = "s" \/ k = "z" \/ k = "Z" \/
               k = "ArrowUp" \/ k = "ArrowDown")%string.

(** A [KeyboardEvent]: its [key] and its [code]. *)
Record KeyEvent := mkKeyEvent { ev_key : string; ev_code : string }.

(** [paddleStop]'s test: its first disjunct reads [event.code], not
    [event.key]. *)
Definition stop_key (e : KeyEvent) : bool :=
  bool_decide (ev_code e = "W" \/ ev_key e = "w" \/ ev_key e = "S" \/ ev_key e = "s" \/
               ev_key e = "z" \/ ev_key e = "Z" \/ ev_key e = "ArrowUp" \/
               ev_key e = "ArrowDown")%string.

(** [paddleMove] (keydown): [if (curr !== event.key) prev = curr;
    allVar.key = event.key; curr = allVar.key;] on the keys above.
    The closure's variables and [allVar.key] are returned together. *)
Definition paddleMove (e : KeyEvent) (ks : Keys) (k : string) : Keys * string :=
  if move_key (ev_key e) then
    let prev' := if bool_decide (curr ks <> ev_key e) then curr ks else prev ks in
    (mkKeys prev' (ev_key e), ev_key e)
  else (ks, k).

(** [paddleStop] (keyup): [if (event.key !== prev) curr = prev;
    allVar.key = curr; prev = "";]. *)
Definition paddleStop (e : KeyEvent) (ks : Keys) (k : string) : Keys * string :=
  if stop_key e then
    let curr' := if bool_decide (ev_key e <> prev ks) then prev ks else curr ks in
    (mkKeys "" curr', curr')
  else (ks, k).

(** A keyboard event reaches the listeners only once the canvas effect
    has registered them. *)
Definition on_key (down : bool) (e : KeyEvent) (c : Client) : Client :=
  if listening (ui c) then
    let '(ks, k) := (if down then paddleMove else paddleStop) e (keys c) (key (gd (allVar c))) in
    map_gd (fun g => with_key g k) (set_keys ks c)
  else c.

(** [handleMapSelect] and [handleGameMode]: record the choice and tell
    the server. *)
Definition handleMapSelect (authId gameId : Z) (m : string) (c : Client) : Client * list ClientMsg :=
  (set_ui (set_selected_map m (ui c)) c, [MMapSelect authId gameId]).

Definition handleGameMode (authId gameId : Z) (m : string) (c : Client) : Client * list ClientMsg :=
  (set_ui (set_mode_choice m (ui c)) c, [MGameMode authId gameId (Some m)]).

(** The first effect, on mount: ask for the game. *)
Definition mount (authId gameId : Z) (c : Client) : Client * list ClientMsg :=
  (c, [MInitGame authId gameId]).

(** Its cleanup, on unmount: leave the game with the current status. *)
Definition unmount (authId gameId : Z) (c : Client) : list ClientMsg :=
  [MLeaveGame authId gameId (gameStatus (gd (allVar c)))].

(** The ['initGame'] listener.  Its [{ payload: -1 }] answer also
    overwrites the copied fields with [undefined]; they are never read
    again, since the page then only shows [GamePageNotFound] and nothing
    sets [isMount]; the model keeps them. *)
Definition on_initGame (g : Game) (nl nr : string) (c : Client) : Client :=
  let a := allVar c in
  let g0 := gd a in
  let g1 := with_status (with_scores (with_ids g0 (g_id g) (leftPlayerId g))
                                     (scoreLeftPlayer g) (scoreRightPlayer g))
                        (status_code INIT) in
  let a' := mkAllVar g1 (rightPlayerId g) nl nr (winnerId g) (loserId g) (isFinished g)
                     (av_hasLeft a) (av_gameMode a) (av_ballSize a) in
  set_ui (set_display true true (ui c)) (set_allVar a' c).

Definition set_flags (fin hl : bool) (md : option string) (a : AllVar) : AllVar :=
  let 'mkAllVar g r nl nr wi lo _ _ _ sz := a in mkAllVar g r nl nr wi lo fin hl md sz.

Definition set_gameMode (md : option string) (a : AllVar) : AllVar :=
  set_flags (av_isFinished a) (av_hasLeft a) md a.

(** ['ballUpdate']: position, direction and speed; the velocity is not
    copied. *)
Definition copy_ball (src : GameData) (g : GameData) : GameData :=
  let b := ball g in let s := ball src in
  with_ball g (mkBall (ballX s) (ballY s) (dirX s) (dirY s) (ballSpeed s) (ballVelocity b)).

(** ['scoreUpdate']: both scores and the speed. *)
Definition copy_score (src : GameData) (g : GameData) : GameData :=
  let b := ball g in
  with_ball (with_scores g (scoreLeft src) (scoreRight src))
            (mkBall (ballX b) (ballY b) (dirX b) (dirY b) (ballSpeed (ball src)) (ballVelocity b)).

(** ['gameStart']: the served direction. *)
Definition copy_dir (src : GameData) (g : GameData) : GameData :=
  let b := ball g in
  with_ball g (mkBall (ballX b) (ballY b) (dirX (ball src)) (dirY (ball src)) (ballSpeed b)
                      (ballVelocity b)).

(** The listeners of the canvas effect, active once it has run. *)
Definition on_play_event (p : Payload) (c : Client) : Client :=
  match p with
  | PCheckGame hl fin md => set_allVar (set_flags fin hl md (allVar c)) c
  | PPaddleUpdate src => map_gd (fun g => with_paddles g (leftPaddleY src) (rightPaddleY src)) c
  | PBallUpdate src => map_gd (copy_ball src) c
  | PScoreUpdate src => map_gd (copy_score src) c
  | PGameStart src => map_gd (copy_dir src) c
  | PGameStatus code => map_gd (fun g => with_status g code) c
  | _ => c
  end.

(** Every listener of the page: ['initGame'] and the three of the
    selection effect always, the others once the canvas effect runs. *)
Definition on_server (p : Payload) (c : Client) : Client :=
  match p with
  | PInitGame g nl nr => on_initGame g nl nr c
  | PInitGameRefused => set_ui (set_display (isMount (ui c)) false (ui c)) c
  | PMapSelected => set_ui (set_ready_map true (ui c)) c
  | PModeSelected md => set_allVar (set_gameMode md (allVar c)) (set_ui (set_ready_mode true (ui c)) c)
  | PGameStatusSelect code => map_gd (fun g => with_status g code) c
  | _ => if listening (ui c) then on_play_event p c else c
  end.
(** The page shows the canvas (and so [canvasRef.current] is set) in
    the last branch of its JSX: a game to display, a map and a mode
    chosen and the mode confirmed, or a finished game. *)
Definition canvas_shown (c : Client) : bool :=
  let u := ui c in
  let fin := av_isFinished (allVar c) in
  displayGame u && (bool_decide (selectedMap u <> "") || fin)
    && (bool_decide (modeChoice u <> "") || fin) && (readyMode u || fin).

(** The canvas effect: ask for [checkGame], size the paddles and the
    ball by the mode [allVar.gameMode] holds (['hard'] or any other),
    on the 800 x 600 canvas of the JSX, centre them, set the score
    limit to 5 and the scores to 0, register the listeners, and start
    [countdown(3, render)]; [render] captures [readyMap && readyMode]. *)
Definition setup (authId gameId : Z) (c : Client) : Client * list ClientMsg :=
  if negb (isMount (ui c)) || negb (canvas_shown c) then (c, [])
  else
    let a := allVar c in
    let g := gd a in
    let hard := bool_decide (av_gameMode a = Some "hard"%string) in
    let pw := (if hard then 9 else 18)%Q in
    let ph := (if hard then 55 else 110)%Q in
    let size := (if hard then 10 else 20)%Q in
    let speed : Z := if hard then 50 else 40 in
    let f := mkFrame 800 600 (size / 2) pw ph 7 (800 - pw - 7)%Q in
    let b := ball g in
    let g' := with_scores
                (with_limit
                   (with_paddles
                      (with_ball (with_frame g f)
                                 (mkBall (800 / 2)%Q (600 / 2)%Q (dirX b) (dirY b) speed
                                         (ballVelocity b)))
                      (600 / 2 - ph / 2)%Q (600 / 2 - ph / 2)%Q) 5) 0 0 in
    let a' := let 'mkAllVar _ r nl nr wi lo fin hl md _ := a in mkAllVar g' r nl nr wi lo fin hl md size in
    let u := ui c in
    (set_ui (set_loop true (Some 3) false (readyMap u && readyMode u) u) (set_allVar a' c),
     [MCheckGame authId gameId]).

(** The status codes at which [render] stops and reports the result. *)
Definition terminal_status (st : Z) : bool :=
  bool_decide (st = status_code WIN \/ st = status_code LOSE \/ st = status_code LEAVE).

(** [handleGameEnd]: the end screen drawn on the canvas for the game's
    last status ([gamePageLose], [gamePageWin], [gamePageLeaverCanvas]). *)
Inductive EndScreen := ELose | EWin | ELeaver.

Definition handleGameEnd (status : Z) : option EndScreen :=
  if bool_decide (status = status_code LOSE) then Some ELose
  else if bool_decide (status = status_code WIN) then Some EWin
  else if bool_decide (status = status_code LEAVE) then Some ELeaver
  else None.

(** The body of [render] on a frame due by the 60 fps throttle: request
    the next frame, then, if the captured readiness holds, send the
    held key, and [gameStart] in [INIT], the result and [gameFinished]
    (cancelling the frame just requested) in [WIN], [LOSE] or [LEAVE],
    or [ballMove] in [PLAY]. *)
Definition render (authId gameId : Z) (c : Client) : Client * list ClientMsg :=
  if negb (running (ui c)) then (c, [])
  else
    let g := gd (allVar c) in
    if ready (ui c) then
      let moves := if move_key (key g) then [MPaddleMove g authId] else [] in
      let st := gameStatus g in
      if bool_decide (st = status_code INIT) then (c, moves ++ [MGameStart g authId])
      else if terminal_status st then
        (set_ui (set_running false (ui c)) c,
         moves ++ [MUpdateUser authId gameId st; MGameFinished (gd_gameId g)])
      else if bool_decide (st = status_code PLAY) then (c, moves ++ [MBallMove g authId])
      else (c, moves)
    else (c, []).

(** One tick of the [countdown] interval: [count--], and at 0 clear the
    interval and call [render] at once. *)
Definition countdown_tick (authId gameId : Z) (c : Client) : Client * list ClientMsg :=
  match count (ui c) with
  | None => (c, [])
  | Some n =>
      let u := ui c in
      if bool_decide (n - 1 = 0) then
        render authId gameId (set_ui (set_loop (listening u) None true (ready u) u) c)
      else (set_ui (set_loop (listening u) (Some (n - 1)) (running u) (ready u) u) c, [])
  end.
End Pong.

(** ** The keyboard as the player holds it

    The abstract view of the two key listeners: the movement keys held
    down, the most recent first; the key the paddle should follow is the
    most recent one still held.  A keydown of a held key (the browser's
    auto-repeat) brings it to the front. *)
(** A frame that ends the game draws an end screen: [handleGameEnd]
    draws one exactly for the statuses [render] treats as final. *)
Lemma handleGameEnd_terminal st : is_Some (Pong.handleGameEnd st) <-> Pong.terminal_status st = true.
Proof.
  unfold Pong.handleGameEnd, Pong.terminal_status.
  rewrite bool_decide_eq_true. repeat case_bool_decide; naive_solver.
Qed.

Module KeySpec.
Definition press (k : string) (held : list string) : list string := k :: filter (fun x => x <> k) held.
Definition release (k : string) (held : list string) : list string := filter (fun x => x <> k) held.
Definition effective (held : list string) : string := default "" (head held).
End KeySpec.

Inductive KeyAction := KDown (e : Pong.KeyEvent) | KUp (e : Pong.KeyEvent).

Definition key_event (a : KeyAction) : Pong.KeyEvent := match a with KDown e | KUp e => e end.

(** One event through the page's listeners, on [prev], [curr] and
    [allVar.key]. *)
Definition key_step (a : KeyAction) (s : Keys * string) : Keys * string :=
  match a with
  | KDown e => Pong.paddleMove e s.1 s.2
  | KUp e => Pong.paddleStop e s.1 s.2
  end.

(** One event on the held keys: only movement keys are tracked. *)
Definition held_step (a : KeyAction) (held : list string) : list string :=
  let k := Pong.ev_key (key_event a) in
  if Pong.move_key k then
    match a with KDown _ => KeySpec.press k held | KUp _ => KeySpec.release k held end
  else held.

Definition run_keys (tr : list KeyAction) (s : Keys * string) : Keys * string :=
  foldl (fun s a => key_step a s) s tr.
Definition run_held (tr : list KeyAction) (held : list string) : list string :=
  foldl (fun h a => held_step a h) held tr.

(** The traces the refinement covers: browser events (no [code] is
    ["W"]: the codes are ["KeyW"], ["ArrowUp"], ...), no ["W"] key, a
    key released only while held, and at most two movement keys held. *)
Definition step_ok (a : KeyAction) (held : list string) : bool :=
  let e := key_event a in
  bool_decide (Pong.ev_code e <> "W" /\ Pong.ev_key e <> "W")%string &&
  (negb (Pong.move_key (Pong.ev_key e)) ||
   match a with
   | KDown _ => bool_decide (length (KeySpec.press (Pong.ev_key e) held) <= 2)%nat
   | KUp _ => bool_decide (Pong.ev_key e ∈ held)
   end).

Fixpoint trace_ok (tr : list KeyAction) (held : list string) : bool :=
  match tr with
  | [] => true
  | a :: tr' => step_ok a held && trace_ok tr' (held_step a held)
  end.

(** ** The key listeners refine the held-keys view *)

(** The simulation relation: [curr] is the most recent held key,
    [prev] the one before it, and [allVar.key] is [curr]. *)
Definition keys_rel (held : list string) (s : Keys * string) : Prop :=
  curr s.1 = KeySpec.effective held /\ prev s.1 = KeySpec.effective (tail held) /\
  s.2 = curr s.1 /\ NoDup held /\ (length held <= 2)%nat /\ (""%string ∉ held).

Lemma move_key_nonempty k : Pong.move_key k = true -> k <> ""%string.
Proof. unfold Pong.move_key. rewrite bool_decide_eq_true. intros H ->. naive_solver. Qed.

Lemma stop_key_move e :
  Pong.ev_code e <> "W"%string -> Pong.ev_key e <> "W"%string ->
  Pong.stop_key e = Pong.move_key (Pong.ev_key e).
Proof.
  intros Hc Hk. unfold Pong.stop_key, Pong.move_key. apply bool_decide_ext. naive_solver.
Qed.

Lemma keys_rel_down e held s :
  Pong.move_key (Pong.ev_key e) = true ->
  (length (KeySpec.press (Pong.ev_key e) held) <= 2)%nat ->
  keys_rel held s -> keys_rel (KeySpec.press (Pong.ev_key e) held) (Pong.paddleMove e s.1 s.2).
Proof.
  intros Hm Hl (Hc & Hp & Hk & Hnd & Hlen & Hne).
  pose proof (move_key_nonempty _ Hm) as Hne_k.
  unfold Pong.paddleMove. rewrite Hm. destruct s as [[p c] k]; simpl in *.
  set (x := Pong.ev_key e) in *; clearbody x. unfold keys_rel, KeySpec.press in *. simpl.
  destruct held as [|a [|b [|? ?]]]; simpl in *; subst; try lia;
    rewrite ?filter_cons in *; rewrite ?filter_nil in *; repeat (case_decide; simpl in * ); subst;
    repeat split; try done; try lia; try (by repeat constructor; set_solver).
  apply NoDup_cons in Hnd as [? _]. set_solver.
Qed.



Lemma keys_rel_up e held s :
  Pong.stop_key e = true -> Pong.ev_key e ∈ held ->
  keys_rel held s -> keys_rel (KeySpec.release (Pong.ev_key e) held) (Pong.paddleStop e s.1 s.2).
Proof.
  intros Hm Hin (Hc & Hp & Hk & Hnd & Hlen & Hne).
  unfold Pong.paddleStop. rewrite Hm. destruct s as [[p c] k]; simpl in *.
  set (x := Pong.ev_key e) in *; clearbody x. unfold keys_rel, KeySpec.release in *. simpl.
  destruct held as [|a [|b [|? ?]]]; simpl in *; subst; try lia;
    rewrite ?filter_cons in *; rewrite ?filter_nil in *; repeat (case_decide; simpl in * ); subst;
    unfold KeySpec.effective in *; simpl in *; subst;
    repeat split; try done; try lia; try (by repeat constructor; set_solver).
  apply NoDup_cons in Hnd as [? _]. set_solver.
Qed.

Lemma keys_rel_step a held s :
  step_ok a held = true -> keys_rel held s -> keys_rel (held_step a held) (key_step a s).
Proof.
  unfold step_ok, held_step. rewrite andb_true_iff, orb_true_iff, negb_true_iff, bool_decide_eq_true.
  intros [[Hc Hk] Hok] Hr. destruct a as [e|e]; simpl in *.
  - destruct (Pong.move_key (Pong.ev_key e)) eqn:Hm.
    + destruct Hok as [?|Hl]; [done|]. apply bool_decide_eq_true in Hl. by apply keys_rel_down.
    + destruct s. unfold Pong.paddleMove. by rewrite Hm.
  - pose proof (stop_key_move e Hc Hk) as Hs.
    destruct (Pong.move_key (Pong.ev_key e)) eqn:Hm.
    + destruct Hok as [?|Hl]; [done|]. apply bool_decide_eq_true in Hl. apply keys_rel_up; congruence.
    + destruct s. unfold Pong.paddleStop. by rewrite Hs.
Qed.

Lemma keys_rel_run tr held s :
  trace_ok tr held = true -> keys_rel held s -> keys_rel (run_held tr held) (run_keys tr s).
Proof.
  revert held s. induction tr as [|a tr IH]; intros held s; simpl; [done|].
  rewrite andb_true_iff. intros [Ha Htr] Hr. apply IH; [done|]. by apply keys_rel_step.
Qed.

(** C10. The key listeners implement the held-keys view: on every
    browser event trace with at most two movement keys held (and without
    the ["W"] key, see below), the key [allVar.key] that each frame sends
    with [paddleMove] is the most recently pressed movement key still
    held, and [""] when none is. *)
Theorem paddle_key_refines tr :
  trace_ok tr [] = true ->
  (run_keys tr (mkKeys "" "", ""%string)).2 = KeySpec.effective (run_held tr []).
Proof.
  intros Hok.
  assert (Hr : keys_rel [] (mkKeys "" "", ""%string)).
  { repeat split; try done; try (first [apply NoDup_nil | set_solver | simpl; lia]). all: done. }
  destruct (keys_rel_run _ _ _ Hok Hr) as (Hc & _ & Hk & _). by rewrite Hk, Hc.
Qed.

Lemma paddle_key_refines_witness :
  let tr := [KDown (Pong.mkKeyEvent "ArrowUp" "ArrowUp"); KDown (Pong.mkKeyEvent "s" "KeyS");
             KUp (Pong.mkKeyEvent "s" "KeyS")] in
  trace_ok tr [] = true /\ (run_keys tr (mkKeys "" "", ""%string)).2 = "ArrowUp"%string.
Proof.
  intros tr. split; [vm_compute; reflexivity|].
  rewrite (paddle_key_refines tr) by (vm_compute; reflexivity). vm_compute. reflexivity.
Defined.

(** The uppercase ["W"] (Shift+W, or W under Caps Lock) sticks:
    [paddleMove] accepts it, but [paddleStop] tests [event.code === "W"],
    which no browser produces (the code is ["KeyW"]), so after the key is
    released [allVar.key] is still ["W"] although no key is held, and
    every following frame moves the player's paddle up by 10. *)
Example shift_w_release_ignored :
  let tr := [KDown (Pong.mkKeyEvent "W" "KeyW"); KUp (Pong.mkKeyEvent "W" "KeyW")] in
  let k := (run_keys tr (mkKeys "" "", ""%string)).2 in
  let g := mkGameData 1 (mkFrame 800 600 10 18 110 7 775) (mkBall 400 300 0 0 40 5)
                      245 245 0 0 5 k 10 (status_code PLAY) in
  k = "W"%string /\ KeySpec.effective (run_held tr []) = ""%string /\
  leftPaddleY (Physics.handlePaddleMovement 10 g) = (245 - 10)%Q.
Proof. vm_compute. split_and!; reflexivity. Qed.

(** With three movement keys held the view is lost: releasing the two
    most recent ones stops the paddle although the first is still held. *)
Lemma three_keys_lose_the_first :
  let tr := [KDown (Pong.mkKeyEvent "ArrowUp" "ArrowUp"); KDown (Pong.mkKeyEvent "s" "KeyS");
             KDown (Pong.mkKeyEvent "ArrowDown" "ArrowDown");
             KUp (Pong.mkKeyEvent "ArrowDown" "ArrowDown"); KUp (Pong.mkKeyEvent "s" "KeyS")] in
  (run_keys tr (mkKeys "" "", ""%string)).2 = ""%string /\
  KeySpec.effective (run_held tr []) = "ArrowUp"%string.
Proof. vm_compute. split; reflexivity. Qed.

(** ** The canvas set-up follows the mode table *)

(** The canvas effect sizes the game by the resolved mode as the
    spec's table says ([normal]: paddle 18 x 110, ball diameter 20,
    speed 40; [hard]: paddle 9 x 55, ball diameter 10, speed 50), with
    the initial speed the server restores after each point
    ([Session.mode_speed]), both paddles on the canvas, the score limit
    5 and both scores 0. *)
Theorem setup_follows_mode_table (authId gameId : Z) (c : Client) (md : string) :
  isMount (ui c) = true -> Pong.canvas_shown c = true ->
  av_gameMode (allVar c) = Some md -> md = "normal"%string \/ md = "hard"%string ->
  let g := gd (allVar (Pong.setup authId gameId c).1) in
  (md = "normal"%string -> paddleW (frame g) = 18%Q /\ paddleH (frame g) = 110%Q /\
                          (2 * ballRadius (frame g) == 20)%Q /\ ballSpeed (ball g) = 40) /\
  (md = "hard"%string -> paddleW (frame g) = 9%Q /\ paddleH (frame g) = 55%Q /\
                        (2 * ballRadius (frame g) == 10)%Q /\ ballSpeed (ball g) = 50) /\
  ballSpeed (ball g) = Session.mode_speed (Some md) /\ paddles_in_bounds g /\
  scoreLimit g = 5 /\ scoreLeft g = 0 /\ scoreRight g = 0.
Proof.
  intros Hm Hc Hmd Hmode g. subst g. unfold Pong.setup. rewrite Hm, Hc, Hmd. simpl.
  destruct c as [[[] ? ? ? ? ? ? ? ? ?] ? ?]; simpl.
  destruct Hmode as [-> | ->]; vm_compute;
    (split_and!; try done; try (intros; split_and!; done); try discriminate).
Qed.

Definition demo_client (md : option string) : Client :=
  mkClient (mkAllVar (mkGameData 1 (mkFrame 0 0 0 0 0 0 0) (mkBall 0 0 0 0 0 0) 0 0 0 0 0 "" 10
                                 (status_code INIT))
                     20 "alice" "bob" None None false false md 0)
           (mkKeys "" "")
           (mkUi true true true true "CLASSIC" "hard" false None false false).

Lemma setup_follows_mode_table_witness :
  let g := gd (allVar (Pong.setup 10 1 (demo_client (Some "hard"%string))).1) in
  paddleH (frame g) = 55%Q /\ ballSpeed (ball g) = 50.
Proof.
  destruct (setup_follows_mode_table 10 1 (demo_client (Some "hard"%string)) "hard")
    as (_ & Hhard & _); [reflexivity | reflexivity | reflexivity | by right |].
  destruct (Hhard eq_refl) as (_ & Hh & _ & Hs). split; [exact Hh | exact Hs].
Defined.

(** ** The keyboard listeners the effect leaves behind

    [document.addEventListener] and [removeEventListener]: a listener is
    a type and a function (here the effect run that created it); removal
    drops the first registration with the same type and function. *)
Inductive Listener := LPaddleMove (run : nat) | LPaddleStop (run : nat).

#[export] Instance Listener_eq_dec : EqDecision Listener.
Proof. solve_decision. Defined.

Fixpoint removeEventListener (ty : string) (l : Listener) (ls : list (string * Listener))
    : list (string * Listener) :=
  match ls with
  | [] => []
  | x :: ls' => if decide (x = (ty, l)) then ls' else x :: removeEventListener ty l ls'
  end.

(** The canvas effect registers [paddleMove] on keydown and [paddleStop]
    on keyup; its cleanup removes [paddleMove] and [paddleStop] both
    from keydown. *)
Definition effect_listen (run : nat) (ls : list (string * Listener)) : list (string * Listener) :=
  ls ++ [("keydown", LPaddleMove run); ("keyup", LPaddleStop run)]%string.

Definition effect_cleanup (run : nat) (ls : list (string * Listener)) : list (string * Listener) :=
  removeEventListener "keydown" (LPaddleStop run) (removeEventListener "keydown" (LPaddleMove run) ls).

Lemma removeEventListener_other ty l x ls :
  x <> (ty, l) -> x ∈ ls -> x ∈ removeEventListener ty l ls.
Proof.
  intros Hne. induction ls as [|y ls IH]; simpl; [set_solver|].
  case_decide; subst; set_solver.
Qed.

(** The cleanup never removes the keyup listener: each run of the effect
    leaves one more [paddleStop] registered on the document. *)
Lemma effect_cleanup_keeps_keyup run ls :
  ("keyup"%string, LPaddleStop run) ∈ effect_cleanup run (effect_listen run ls).
Proof.
  unfold effect_cleanup, effect_listen.
  apply removeEventListener_other; [intros [=]|].
  apply removeEventListener_other; [intros [=]|]. set_solver.
Qed.
