(* ===== verification/Loop.v ===== *)
(** * One match end to end: two [Pong] pages and the game gateway

    The composition of Client.v with the gateway of System.v: the two
    players' pages ([cA], [cB], on sockets [sA], [sB]) and the server's
    [World].  A step is an action of one page (an effect, a click, a key,
    a countdown tick or a frame of src/app/frontend/src/components/Game/
    Pong.tsx) whose messages the server handles one by one with
    [System.handle]; after each handler the events it emitted are
    delivered to every page whose socket they reach ([recipients]), in
    the order emitted; or a pending timer fires.  This is one of the
    interleavings socket.io allows: a message is handled and its answers
    delivered before the next message is read. *)

From stdpp Require Import base list strings sets relations.
From Stdlib Require Import ZArith Lia QArith.
From S2P Require Import Prelude Store Physics World Session Matchmaking Invites Connection System Client.

Open Scope Z_scope.

(** The server's random draws for one message: [Math.random()] of the
    mode tie-break and the draws of the serve loop. *)
Record Draws := mkDraws { d_mode : Q; d_serve : list Q }.

(** A page's message as the gateway receives it on socket [sid]. *)
Definition to_event (sid : string) (dr : Draws) (m : ClientMsg) : Event :=
  match m with
  | MInitGame a g => EInitGame sid a g
  | MCheckGame a g => ECheckGame sid a g
  | MLeaveGame a g st => ELeaveGame sid a g st
  | MMapSelect a g => EMapSelect sid a g
  | MGameMode a g md => EGameMode sid a g md (d_mode dr)
  | MUpdateUser a g st => EUpdateUser sid a g st
  | MGameFinished g => EGameFinished sid g
  | MGameStart gd a => EGameStart sid gd (d_serve dr)
  | MPaddleMove gd a => EPaddleMove sid gd a
  | MBallMove gd a => EBallMove sid gd
  end.

(** The page on socket [sid] receives, in order, the events of [out]
    that reach it. *)
Definition deliver (sid : string) (w : World) (out : list (Target * Payload)) (c : Client) : Client :=
  foldl (fun c tp => if bool_decide (sid ∈ recipients w tp.1) then Pong.on_server tp.2 c else c) c out.

Record Duel := mkDuel { srv : World; cA : Client; cB : Client }.

Inductive Side := SideA | SideB.

(** A page's actions. *)
Inductive UiAction :=
  | UMount
  | USetup
  | UMapSelect (m : string)
  | UGameMode (m : string)
  | UTick
  | UFrame
  | UKey (down : bool) (e : Pong.KeyEvent).

Definition act (a : UiAction) (authId gameId : Z) (c : Client) : Client * list ClientMsg :=
  match a with
  | UMount => Pong.mount authId gameId c
  | USetup => Pong.setup authId gameId c
  | UMapSelect m => Pong.handleMapSelect authId gameId m c
  | UGameMode m => Pong.handleGameMode authId gameId m c
  | UTick => Pong.countdown_tick authId gameId c
  | UFrame => Pong.render authId gameId c
  | UKey down e => (Pong.on_key down e c, [])
  end.

Section Match.
Context (sA sB : string) (aA aB gameId : Z).

Definition sid_of (s : Side) : string := match s with SideA => sA | SideB => sB end.
Definition auth_of (s : Side) : Z := match s with SideA => aA | SideB => aB end.
Definition page (s : Side) (d : Duel) : Client := match s with SideA => cA d | SideB => cB d end.
Definition put (s : Side) (c : Client) (d : Duel) : Duel :=
  match s with SideA => mkDuel (srv d) c (cB d) | SideB => mkDuel (srv d) (cA d) c end.

(** The gateway handles one message from [from], then its events are
    delivered to both pages. *)
Definition serve (from : string) (dr : Draws) (d : Duel) (m : ClientMsg) : Duel :=
  let w' := exec (handle (to_event from dr m)) (srv d) in
  let out := drop (length (outbox (srv d))) (outbox w') in
  mkDuel w' (deliver sA w' out (cA d)) (deliver sB w' out (cB d)).

Definition serve_all (from : string) (dr : Draws) (ms : list ClientMsg) (d : Duel) : Duel :=
  foldl (serve from dr) d ms.

Definition page_step (s : Side) (a : UiAction) (dr : Draws) (d : Duel) : Duel :=
  let '(c', ms) := act a (auth_of s) gameId (page s d) in
  serve_all (sid_of s) dr ms (put s c' d).

Inductive dstep : Duel -> Duel -> Prop :=
  | dstep_page s a dr d : dstep d (page_step s a dr d)
  | dstep_timer t rest d :
      timers (srv d) = t :: rest ->
      dstep d (mkDuel (exec (Session.fire_timer t) (set_timers rest (srv d))) (cA d) (cB d)).
End Match.

(** ** The server side of a match is a run of the gateway *)

Section Projection.
Context (sA sB : string) (aA aB gameId : Z).

Lemma serve_all_steps from dr ms d :
  rtc step (srv d) (srv (serve_all sA sB from dr ms d)).
Proof.
  revert d. induction ms as [|m ms IH]; intros d; simpl; [done|].
  eapply rtc_l; [apply (step_message (to_event from dr m)) | exact (IH (serve sA sB from dr d m))].
Qed.

Lemma srv_put s c d : srv (put s c d) = srv d.
Proof. by destruct s. Qed.

Lemma dstep_srv d d' : dstep sA sB aA aB gameId d d' -> rtc step (srv d) (srv d').
Proof.
  destruct 1 as [s a dr d|t rest d Ht].
  - unfold page_step. destruct (act a _ _ _) as [c' ms].
    rewrite <- (srv_put s c' d). apply serve_all_steps.
  - apply rtc_once. by apply step_timer.
Qed.

Lemma rtc_dstep_srv d d' : rtc (dstep sA sB aA aB gameId) d d' -> rtc step (srv d) (srv d').
Proof. induction 1; [done|]. etrans; [by apply dstep_srv|done]. Qed.
End Projection.

(** The pages only talk to the gateway through its messages: in
    every state a match reaches from a freshly started server, whatever
    the two players click, type and render and whenever timers fire,
    the server's state is a reachable state of the gateway, so the
    registry invariant holds (no identity queued twice, at most one
    unpaired entry, no duplicated invitation). *)
Theorem match_keeps_registry_ok (sA sB : string) (aA aB gameId : Z) (db0 : DB) (c1 c2 : Client)
    (d : Duel) :
  rtc (dstep sA sB aA aB gameId) (mkDuel (boot db0) c1 c2) d -> registry_ok (srv d).
Proof.
  intros Hr. apply (rtc_registry_ok (boot db0)); [exact (rtc_dstep_srv _ _ _ _ _ _ _ Hr)|].
  split; [apply queue_ok_nil | constructor].
Qed.

Lemma registry_reach_witness :
  let c := demo_client (Some "normal"%string) in
  registry_ok (srv (page_step "s1" "s2" 10 20 1 SideA UMount (mkDraws 0 [])
                              (mkDuel (boot (mkDB [] [] 1)) c c))).
Proof.
  intros c. apply (match_keeps_registry_ok "s1" "s2" 10 20 1 (mkDB [] [] 1) c c).
  apply rtc_once. apply dstep_page.
Defined.

(** ** Delivering the server's answers *)

Lemma recipients_set_outbox o w t : recipients (set_outbox o w) t = recipients w t.
Proof. by destruct w. Qed.

(** A socket connected and in the game room receives what is sent to it. *)
Lemma in_game_room w i sid :
  sid ∈ sockets w -> sid ∈ JsRooms.members (rooms w) (RGame i) -> sid ∈ recipients w (game_room i).
Proof.
  intros Hs Hm. unfold recipients, game_room. apply list_elem_of_filter. split; [done|].
  simpl. rewrite app_nil_r. done.
Qed.

Definition in_room (w : World) (i : Z) (sid : string) : Prop :=
  sid ∈ sockets w /\ sid ∈ JsRooms.members (rooms w) (RGame i).

Lemma deliver_nil sid w c : deliver sid w [] c = c.
Proof. done. Qed.

Lemma deliver_cons_in sid w t p out c :
  sid ∈ recipients w t -> deliver sid w ((t, p) :: out) c = deliver sid w out (Pong.on_server p c).
Proof. intros H. unfold deliver. simpl. by rewrite bool_decide_eq_true_2. Qed.

(** The served snapshot of [gameStart]. *)
Definition served (g : GameData) (x y : Q) : GameData :=
  let b := ball g in
  with_status (with_ball g (mkBall (ballX b) (ballY b) x y (ballSpeed b) (ballVelocity b)))
              (status_code PLAY).

Lemma gameStart_run sid g rs x y w :
  gameStatus g = status_code INIT -> generateRandomBallDirection rs = Some (x, y) ->
  exec (Session.gameStart sid g rs) w =
    set_outbox (outbox w ++ [(game_room (gd_gameId g), PGameStart (served g x y));
                             (game_room (gd_gameId g), PGameStatus (status_code PLAY))]) w.
Proof.
  intros Hst Hgen. unfold Session.gameStart, exec. rewrite bool_decide_eq_true_2 by done.
  rewrite Hgen. unfold bind. rewrite !emit_run. destruct w, g; simpl in *. by rewrite <- app_assoc.
Qed.

(** What a page copies of a ball: position, direction, speed. *)
Definition view (b : Ball) : Q * Q * Q * Q * Z := (ballX b, ballY b, dirX b, dirY b, ballSpeed b).

Definition ball_view (c : Client) : Q * Q * Q * Q * Z := view (ball (gd (allVar c))).

Definition status_of (c : Client) : Z := gameStatus (gd (allVar c)).

(** C13. The game starts (the spec's AwaitingReady -> Playing): when a
    page whose frame loop runs with both readiness flags captured is in
    [INIT] and holds no movement key, and both pages listen and are in
    the game room, its next frame sends [gameStart]; for every run of
    the serve loop that returns a direction [(x, y)], both pages are
    then in [PLAY] and move the ball in that same direction. *)
Theorem frame_starts_game (sA sB : string) (aA aB gameId : Z) (d : Duel) (dr : Draws) (x y : Q) :
  let g := gd (allVar (cA d)) in
  running (ui (cA d)) = true -> ready (ui (cA d)) = true -> Pong.move_key (key g) = false ->
  gameStatus g = status_code INIT ->
  listening (ui (cA d)) = true -> listening (ui (cB d)) = true ->
  in_room (srv d) (gd_gameId g) sA -> in_room (srv d) (gd_gameId g) sB ->
  generateRandomBallDirection (d_serve dr) = Some (x, y) ->
  let d' := page_step sA sB aA aB gameId SideA UFrame dr d in
  dstep sA sB aA aB gameId d d' /\
  status_of (cA d') = status_code PLAY /\ status_of (cB d') = status_code PLAY /\
  ball_view (cA d') = (ballX (ball g), ballY (ball g), x, y, ballSpeed (ball g)) /\
  (dirX (ball (gd (allVar (cB d')))), dirY (ball (gd (allVar (cB d'))))) = (x, y).
Proof.
  intros g Hr Hrd Hk Hst HlA HlB [HsA HmA] [HsB HmB] Hgen d'. split; [apply dstep_page|].
  subst d'. unfold page_step, act, Pong.render. cbn [page put auth_of sid_of]. rewrite Hr, Hrd. fold g. rewrite Hk, Hst.
  rewrite bool_decide_eq_true_2 by done. simpl.
  unfold serve. simpl. rewrite (gameStart_run _ _ _ _ _ _ Hst Hgen), outbox_set_outbox, drop_app_length.
  rewrite !deliver_cons_in, deliver_nil;
    try (rewrite recipients_set_outbox; apply in_game_room; autorewrite with gw_rw; done).
  destruct d as [w [a ks u] [aB' ksB uB]]; simpl in *. unfold Pong.on_server. simpl.
  rewrite HlA, HlB. subst g. destruct a as [[] ? ? ? ? ? ? ? ? ?], aB' as [[] ? ? ? ? ? ? ? ? ?].
  simpl in *. subst. rewrite ?HlA, ?HlB. simpl. rewrite ?HlA, ?HlB. split_and!; reflexivity.
Qed.

(** ** A frame of play *)

(** The spec's step of [Playing], per client tick: the wall and paddle
    collisions, then one frame of movement. *)
Definition tick (f : Frame) (lY rY : Q) (b : Ball) : Ball := advance (collide f lY rY b).

Lemma ballMove_run_play sid g w :
  scoreLeft g <> scoreLimit g -> scoreRight g <> scoreLimit g ->
  let b := collide (frame g) (leftPaddleY g) (rightPaddleY g) (ball g) in
  out_right (frame g) b = false -> out_left (frame g) b = false ->
  exec (Session.ballMove sid g) w =
    set_outbox (outbox w ++ [(game_room (gd_gameId g), PBallUpdate (with_ball (with_ball g b) (advance b)))]) w.
Proof.
  intros Hl Hr b Ho1 Ho2. unfold Session.ballMove, exec.
  rewrite (bind_Ok _ _ _ _ _ (db_call_getGameById _ _)). cbv beta.
  autorewrite with gw_rw. rewrite bool_decide_eq_false_2 by tauto. cbn [when].
  rewrite bind_ret_l. fold b. rewrite Ho1, Ho2. cbn [orb]. rewrite emit_run.
  autorewrite with gw_rw. done.
Qed.

(** A frame of play refines the spec's tick on both replicas: when
    a page in [PLAY] (frame loop running, readiness captured, no
    movement key held) sends [ballMove] with neither score at the limit
    and the ball still on the court after the collision step, the
    gateway computes one [tick] of the ball and both pages, listening
    in the game room, then hold that same ball; the database and the
    timers are untouched. *)
Theorem frame_plays_tick (sA sB : string) (aA aB gameId : Z) (d : Duel) (dr : Draws) :
  let g := gd (allVar (cA d)) in
  let f := frame g in
  running (ui (cA d)) = true -> ready (ui (cA d)) = true -> Pong.move_key (key g) = false ->
  gameStatus g = status_code PLAY ->
  scoreLeft g <> scoreLimit g -> scoreRight g <> scoreLimit g ->
  out_right f (collide f (leftPaddleY g) (rightPaddleY g) (ball g)) = false ->
  out_left f (collide f (leftPaddleY g) (rightPaddleY g) (ball g)) = false ->
  listening (ui (cA d)) = true -> listening (ui (cB d)) = true ->
  in_room (srv d) (gd_gameId g) sA -> in_room (srv d) (gd_gameId g) sB ->
  let d' := page_step sA sB aA aB gameId SideA UFrame dr d in
  let b' := tick f (leftPaddleY g) (rightPaddleY g) (ball g) in
  ball_view (cA d') = view b' /\ ball_view (cB d') = view b' /\
  db (srv d') = db (srv d) /\ timers (srv d') = timers (srv d).
Proof.
  intros g f Hr Hrd Hk Hst Hsl Hsr Ho1 Ho2 HlA HlB [HsA HmA] [HsB HmB] d' b'.
  subst d'. unfold page_step, act, Pong.render. cbn [page put auth_of sid_of]. rewrite Hr, Hrd.
  fold g. rewrite Hk, Hst. simpl. unfold serve. simpl.
  rewrite (ballMove_run_play _ _ _ Hsl Hsr Ho1 Ho2), outbox_set_outbox, drop_app_length.
  rewrite !deliver_cons_in, deliver_nil;
    try (rewrite recipients_set_outbox; apply in_game_room; autorewrite with gw_rw; done).
  autorewrite with gw_rw. split_and!; [| |done|done].
  all: destruct d as [w [a ks u] [aB' ksB uB]]; simpl in *; unfold Pong.on_server; simpl;
    rewrite ?HlA, ?HlB; subst g f b'; destruct a as [[] ? ? ? ? ? ? ? ? ?], aB' as [[] ? ? ? ? ? ? ? ? ?];
    simpl in *; subst; rewrite ?HlA, ?HlB; reflexivity.
Qed.

(** ** A concrete match *)

Definition demo_page (st : Z) : Client :=
  mkClient (mkAllVar (mkGameData 1 (mkFrame 800 600 10 18 110 7 775) (mkBall 400 300 1 0 40 5)
                                 245 245 0 0 5 "" 10 st)
                     20 "alice" "bob" None None false false (Some "normal"%string) 20)
           (mkKeys "" "")
           (mkUi true true true true "CLASSIC" "normal" true None true true).

Definition demo_world : World :=
  mkWorld (mkDB [] [] 1) ["s1"; "s2"] [] [] [("s1", 10); ("s2", 20)]
          [(RGame 1, ["s1"; "s2"])] [] [].

Ltac decide_prop := apply (bool_decide_unpack _); vm_compute; reflexivity.

Lemma frame_starts_game_witness :
  let d' := page_step "s1" "s2" 10 20 1 SideA UFrame (mkDraws 0 [1 # 6])
                      (mkDuel demo_world (demo_page (status_code INIT)) (demo_page (status_code INIT))) in
  status_of (cA d') = status_code PLAY /\ status_of (cB d') = status_code PLAY.
Proof.
  pose proof (frame_starts_game "s1" "s2" 10 20 1
                (mkDuel demo_world (demo_page (status_code INIT)) (demo_page (status_code INIT)))
                (mkDraws 0 [1 # 6]) (js_cos 1) (js_sin 1) eq_refl eq_refl eq_refl eq_refl eq_refl
                eq_refl ltac:(split; decide_prop) ltac:(split; decide_prop) ltac:(vm_compute; reflexivity))
    as (_ & HA & HB & _).
  split; [exact HA | exact HB].
Defined.

Lemma frame_plays_tick_witness :
  let d' := page_step "s1" "s2" 10 20 1 SideA UFrame (mkDraws 0 [])
                      (mkDuel demo_world (demo_page (status_code PLAY)) (demo_page (status_code PLAY))) in
  ball_view (cB d') = view (mkBall (400 + 1 * ((1 # 8) * 40)) (300 + 0 * ((1 # 8) * 40)) 1 0 40 5).
Proof.
  pose proof (frame_plays_tick "s1" "s2" 10 20 1
                (mkDuel demo_world (demo_page (status_code PLAY)) (demo_page (status_code PLAY)))
                (mkDraws 0 []) eq_refl eq_refl eq_refl eq_refl ltac:(discriminate) ltac:(discriminate)
                eq_refl eq_refl eq_refl eq_refl ltac:(split; decide_prop) ltac:(split; decide_prop))
    as (_ & HB & _).
  exact HB.
Defined.

(** ** The end of a match *)

Lemma ballMove_run_limit sid g w gm uL uR :
  game_by_id (db w) (gd_gameId g) = Some gm ->
  user_by_authId (db w) (leftPlayerId gm) = Some uL ->
  user_by_authId (db w) (rightPlayerId gm) = Some uR ->
  scoreLeft g = scoreLimit g ->
  let b := collide (frame g) (leftPaddleY g) (rightPaddleY g) (ball g) in
  out_right (frame g) b = false -> out_left (frame g) b = false ->
  exec (Session.ballMove sid g) w =
    set_outbox (outbox w ++ [(ToRooms [RUser (u_id uL)], PGameStatus (status_code WIN));
                             (ToRooms [RUser (u_id uR)], PGameStatus (status_code LOSE));
                             (game_room (gd_gameId g), PBallUpdate (with_ball (with_ball g b) (advance b)))])
      (set_db (db_write (db w) (gd_gameId g)
                        (fun _ => ended_by_score gm (leftPlayerId gm) (rightPlayerId gm))) w).
Proof.
  intros Hg HuL HuR Hs b Ho1 Ho2. unfold Session.ballMove, exec.
  rewrite (bind_Ok _ _ _ _ _ (db_call_getGameById _ _)). cbv beta.
  set (gd1 := with_ball g b).
  assert (Hid : gd_gameId gd1 = gd_gameId g) by apply gd_gameId_with_ball.
  rewrite bool_decide_eq_true_2 by (left; subst gd1; by autorewrite with gw_rw). cbn [when].
  rewrite <- Hid in Hg.
  rewrite (bind_Ok _ _ _ _ _ (finish_by_score_left w gd1 gm uL uR Hg HuL HuR
                                 ltac:(subst gd1; by autorewrite with gw_rw))).
  subst gd1. autorewrite with gw_rw. fold b. rewrite Ho1, Ho2. cbn [orb]. rewrite emit_run.
  autorewrite with gw_rw. destruct w; simpl. by rewrite <- app_assoc.
Qed.

Lemma updateUser_loser_run sid a i st w g u :
  game_by_id (db w) i = Some g -> hasLeft g = false -> st <> status_code INIT ->
  winnerId g <> Some a -> loserId g = Some a -> user_by_authId (db w) a = Some u ->
  exec (Session.updateUser sid a i st) w = set_db (users_write (db w) a [ULoses (loses u + 1)]) w.
Proof.
  intros Hg Hh Hst Hw Hl Hu. unfold Session.updateUser, exec.
  rewrite (bind_Ok _ _ _ _ _ (db_call_getGameById _ _)). cbv beta. rewrite Hg, Hh.
  rewrite bool_decide_eq_true_2 by done. simpl. rewrite decide_False by done. rewrite decide_True by done.
  by rewrite (db_call_run _ _ _ _ (addLose_spec _ _ _ Hu)).
Qed.

Lemma gameFinished_handler_run sid i w :
  exec (Session.gameFinished sid i) w = set_db (exec (GameService.gameFinished i) (db w)) w.
Proof. unfold Session.gameFinished, db_call, zoom, exec. by destruct (GameService.gameFinished i (db w)). Qed.

(** The two messages a page sends at the end of its game emit nothing. *)
Lemma updateUser_silent sid a i st o : preserves (fun w => outbox w = o) (Session.updateUser sid a i st).
Proof. unfold Session.updateUser. preserve_deep. Qed.

Lemma gameFinished_silent sid i o : preserves (fun w => outbox w = o) (Session.gameFinished sid i).
Proof. unfold Session.gameFinished. preserve. Qed.

Section Serving.
Context (sA sB : string) (aA aB gameId : Z).

Lemma serve_silent from dr d m :
  outbox (exec (handle (to_event from dr m)) (srv d)) = outbox (srv d) ->
  serve sA sB from dr d m = mkDuel (exec (handle (to_event from dr m)) (srv d)) (cA d) (cB d).
Proof. intros H. unfold serve. by rewrite H, drop_all. Qed.

(** What a page needs to play: its frame loop running with readiness
    captured, its listeners registered, no movement key held. *)
Definition page_ready (c : Client) : Prop :=
  running (ui c) = true /\ ready (ui c) = true /\ listening (ui c) = true /\
  Pong.move_key (key (gd (allVar c))) = false.

(** A page in [WIN], [LOSE] or [LEAVE] reports once: its frame sends
    [updateUser] and [gameFinished], which the gateway handles without
    emitting, and stops its loop. *)
Lemma frame_reports s dr d :
  let c := page s d in
  page_ready c -> Pong.terminal_status (status_of c) = true ->
  page_step sA sB aA aB gameId s UFrame dr d =
    put s (set_ui (set_running false (ui c)) c)
      (mkDuel (exec (Session.gameFinished (sid_of sA sB s) (gd_gameId (gd (allVar c))))
                 (exec (Session.updateUser (sid_of sA sB s) (auth_of aA aB s) gameId (status_of c))
                       (srv d)))
              (cA d) (cB d)).
Proof.
  intros c (Hr & Hrd & _ & Hk) Ht. unfold page_step, act, Pong.render. fold c.
  rewrite Hr, Hrd, Hk. unfold status_of in Ht. rewrite bool_decide_eq_false_2.
  2:{ intros He. rewrite He in Ht. discriminate. }
  rewrite Ht. simpl. unfold serve_all. simpl.
  rewrite !serve_silent; simpl;
    try first [exact (gameFinished_silent _ _ _ _ eq_refl)
              | exact (updateUser_silent _ _ _ _ _ _ eq_refl)].
  destruct s; reflexivity.
Qed.
End Serving.

Lemma recipients_set_db d w t : recipients (set_db d w) t = recipients w t.
Proof. by destruct w. Qed.

Section Finish.
Context (sA sB : string) (aA aB gameId : Z).

(** The frame of the left player's page that carries the score limit:
    the gateway ends the game, its [WIN] reaches that page and its
    [LOSE] the other one, in their personal rooms. *)
Lemma frame_at_limit dr d gm uL uR :
  let gA := gd (allVar (cA d)) in
  let i := gd_gameId gA in
  let b := collide (frame gA) (leftPaddleY gA) (rightPaddleY gA) (ball gA) in
  page_ready (cA d) -> page_ready (cB d) ->
  gameStatus gA = status_code PLAY -> scoreLeft gA = scoreLimit gA ->
  out_right (frame gA) b = false -> out_left (frame gA) b = false ->
  game_by_id (db (srv d)) i = Some gm ->
  user_by_authId (db (srv d)) (leftPlayerId gm) = Some uL ->
  user_by_authId (db (srv d)) (rightPlayerId gm) = Some uR ->
  sA ∈ recipients (srv d) (ToRooms [RUser (u_id uL)]) ->
  sA ∉ recipients (srv d) (ToRooms [RUser (u_id uR)]) ->
  sB ∉ recipients (srv d) (ToRooms [RUser (u_id uL)]) ->
  sB ∈ recipients (srv d) (ToRooms [RUser (u_id uR)]) ->
  let d1 := page_step sA sB aA aB gameId SideA UFrame dr d in
  db (srv d1) = db_write (db (srv d)) i (fun _ => ended_by_score gm (leftPlayerId gm) (rightPlayerId gm)) /\
  status_of (cA d1) = status_code WIN /\ status_of (cB d1) = status_code LOSE /\
  page_ready (cA d1) /\ page_ready (cB d1) /\ gd_gameId (gd (allVar (cA d1))) = i /\
  gd_gameId (gd (allVar (cB d1))) = gd_gameId (gd (allVar (cB d))).
Proof.
  intros gA i b HA HB Hst Hs Ho1 Ho2 Hg HuL HuR H1 H2 H3 H4 d1.
  destruct HA as (Hr & Hrd & HlA & Hk).
  subst d1. unfold page_step, act, Pong.render. cbn [page put auth_of sid_of]. rewrite Hr, Hrd.
  rewrite Hk. fold gA. rewrite Hst. simpl. unfold serve. simpl.
  rewrite (ballMove_run_limit _ _ _ _ _ _ Hg HuL HuR Hs Ho1 Ho2), outbox_set_outbox, drop_app_length.
  unfold deliver. cbn [foldl fst snd]. rewrite !recipients_set_outbox, !recipients_set_db.
  rewrite (bool_decide_eq_true_2 _ H1), (bool_decide_eq_false_2 _ H2), (bool_decide_eq_false_2 _ H3),
    (bool_decide_eq_true_2 _ H4).
  autorewrite with gw_rw. split; [done|].
  destruct HB as (HrB & HrdB & HlB & HkB). unfold page_ready, status_of in *.
  destruct d as [w [a ks u] [a' ks' u']]; simpl in *. subst gA i b.
  destruct a as [[] ? ? ? ? ? ? ? ? ?], a' as [[] ? ? ? ? ? ? ? ? ?]; simpl in *.
  unfold Pong.on_server, Pong.on_play_event. simpl. rewrite HlA, HlB.
  destruct (bool_decide (sA ∈ _)), (bool_decide (sB ∈ _)); simpl; rewrite ?HlA, ?HlB; simpl;
    split_and!; done.
Qed.
End Finish.

Lemma gameFinished_handler_some sid i w g :
  game_by_id (db w) i = Some g ->
  exec (Session.gameFinished sid i) w =
    set_db (db_write (db w) i (fun g => apply_game_data g [GIsFinished true])) w.
Proof. intros Hg. rewrite gameFinished_handler_run. unfold exec. by rewrite gameFinished_run, Hg. Qed.

Lemma finished_id : forall g, g_id (apply_game_data g [GIsFinished true]) = g_id g.
Proof. by intros []. Qed.

(** The two reports after a game ended by score: the winner's page
    counts one win, the loser's page one loss, and each [gameFinished]
    only marks the row finished again. *)
Lemma reports_count w1 D i gm aA aB uL uR sA sB stA stB gA gB :
  game_by_id D i = Some gm -> leftPlayerId gm = aA -> rightPlayerId gm = aB -> aA <> aB ->
  hasLeft gm = false -> user_by_authId D aA = Some uL -> user_by_authId D aB = Some uR ->
  stA <> status_code INIT -> stB <> status_code INIT -> gA = i -> gB = i ->
  db w1 = db_write D i (fun _ => ended_by_score gm aA aB) ->
  let w2 := exec (Session.gameFinished sA gA) (exec (Session.updateUser sA aA i stA) w1) in
  let w3 := exec (Session.gameFinished sB gB) (exec (Session.updateUser sB aB i stB) w2) in
  wins_of (db w3) aA = Some (wins uL + 1) /\ loses_of (db w3) aB = Some (loses uR + 1).
Proof.
  intros Hg HL HR Hab Hh HuL HuR HstA HstB -> -> Hw1 w2 w3. subst w2 w3.
  set (g' := ended_by_score gm aA aB).
  destruct (ended_by_score_fields gm aA aB) as (Hwin & Hlose & _ & Hgid). fold g' in Hwin, Hlose, Hgid.
  assert (Hid : g_id g' = i) by (rewrite Hgid; by eapply game_by_id_id).
  assert (Hg1 : game_by_id (db w1) i = Some g') by (rewrite Hw1; by apply (game_by_id_write_const _ _ gm)).
  assert (Hh' : hasLeft g' = false) by (subst g'; by destruct gm).
  assert (HuL1 : user_by_authId (db w1) aA = Some uL) by (rewrite Hw1, user_by_authId_write; exact HuL).
  assert (HuR1 : user_by_authId (db w1) aB = Some uR) by (rewrite Hw1, user_by_authId_write; exact HuR).
  rewrite (updateUser_winner_run sA aA i stA w1 g' uL Hg1 Hh' HstA Hwin HuL1).
  set (D2 := users_write (db w1) aA [UWins (wins uL + 1)]).
  assert (Hg2 : game_by_id D2 i = Some g') by (subst D2; by rewrite game_by_id_users_write).
  rewrite (gameFinished_handler_some sA i (set_db D2 w1) g'); [|by rewrite db_set_db].
  rewrite db_set_db.
  set (g'' := apply_game_data g' [GIsFinished true]).
  set (D3 := db_write D2 i (fun g => apply_game_data g [GIsFinished true])).
  assert (Hg3 : game_by_id D3 i = Some g'')
    by (apply (game_by_id_write_eq D2 i (fun g => apply_game_data g [GIsFinished true]) g');
        [intros h <-; apply finished_id | done]).
  assert (HuR3 : user_by_authId D3 aB = Some uR)
    by (subst D3 D2; rewrite user_by_authId_write, user_by_authId_users_write_ne by congruence; exact HuR1).
  assert (HW3 : db (set_db D3 (set_db D2 w1)) = D3) by apply db_set_db.
  rewrite (updateUser_loser_run sB aB i stB (set_db D3 (set_db D2 w1)) g'' uR);
    rewrite ?HW3; try done; try (subst g''; destruct g'; simpl in *; congruence).
  set (D4 := users_write D3 aB [ULoses (loses uR + 1)]).
  assert (Hg4 : game_by_id D4 i = Some g'') by (subst D4; by rewrite game_by_id_users_write).
  rewrite (gameFinished_handler_some sB i (set_db D4 (set_db D3 (set_db D2 w1))) g'');
    rewrite db_set_db; [|done].
  rewrite db_set_db. unfold wins_of, loses_of. rewrite !user_by_authId_write.
  subst D4. rewrite (user_by_authId_users_write_ne _ aB _ aA) by congruence.
  rewrite (user_by_authId_users_write_eq _ aB _ uR) by done.
  subst D3 D2. rewrite user_by_authId_write.
  rewrite (user_by_authId_users_write_eq _ aA _ uL) by done.
  by destruct uL, uR.
Qed.

(** C12. A match won by score is counted once: when the left player's
    page, in [PLAY] with its score at the limit, sends its frame, then
    sends its next frame, and the right player's page sends its next
    frame (both pages running, listening, in their personal rooms only,
    no movement key held), the gateway ends the game, each page gets its
    result and reports it once, and the database counts exactly one win
    for the left player and one loss for the right player; both frame
    loops are then stopped, so no later frame reports again. *)
Theorem match_end_counted_once (sA sB : string) (aA aB : Z) (d : Duel) (dr : Draws) (gm : Game)
    (uL uR : User) :
  let gA := gd (allVar (cA d)) in
  let i := gd_gameId gA in
  let b := collide (frame gA) (leftPaddleY gA) (rightPaddleY gA) (ball gA) in
  page_ready (cA d) -> page_ready (cB d) ->
  gameStatus gA = status_code PLAY -> scoreLeft gA = scoreLimit gA ->
  out_right (frame gA) b = false -> out_left (frame gA) b = false ->
  game_by_id (db (srv d)) i = Some gm -> leftPlayerId gm = aA -> rightPlayerId gm = aB ->
  aA <> aB -> hasLeft gm = false ->
  user_by_authId (db (srv d)) aA = Some uL -> user_by_authId (db (srv d)) aB = Some uR ->
  sA ∈ recipients (srv d) (ToRooms [RUser (u_id uL)]) ->
  sA ∉ recipients (srv d) (ToRooms [RUser (u_id uR)]) ->
  sB ∉ recipients (srv d) (ToRooms [RUser (u_id uL)]) ->
  sB ∈ recipients (srv d) (ToRooms [RUser (u_id uR)]) ->
  gd_gameId (gd (allVar (cB d))) = i ->
  let step s := page_step sA sB aA aB i s UFrame dr in
  let d3 := step SideB (step SideA (step SideA d)) in
  wins_of (db (srv d3)) aA = Some (wins uL + 1) /\ loses_of (db (srv d3)) aB = Some (loses uR + 1) /\
  running (ui (cA d3)) = false /\ running (ui (cB d3)) = false.
Proof.
  intros gA i b HA HB Hst Hs Ho1 Ho2 Hg HL HR Hab Hh HuL HuR H1 H2 H3 H4 HiB step d3.
  destruct (frame_at_limit sA sB aA aB i dr d gm uL uR HA HB Hst Hs Ho1 Ho2 Hg
              ltac:(rewrite HL; exact HuL) ltac:(rewrite HR; exact HuR) H1 H2 H3 H4)
    as (Hdb & HsA & HsB & HA1 & HB1 & Hid & HiB1).
  rewrite HL, HR in Hdb.
  subst d3 step. cbv beta.
  set (d1 := page_step sA sB aA aB i SideA UFrame dr d) in *.
  assert (HtA : Pong.terminal_status (status_of (page SideA d1)) = true) by (simpl; by rewrite HsA).
  rewrite (frame_reports sA sB aA aB i SideA dr d1 HA1 HtA). cbn [put page sid_of auth_of cA cB srv].
  set (d2 := mkDuel _ _ (cB d1)).
  assert (HB2 : page_ready (page SideB d2)) by exact HB1.
  assert (HtB : Pong.terminal_status (status_of (page SideB d2)) = true) by (simpl; by rewrite HsB).
  rewrite (frame_reports sA sB aA aB i SideB dr d2 HB2 HtB). cbn [put page sid_of auth_of cA cB srv].
  subst d2. cbn [cA cB srv].
  rewrite HiB in HiB1.
  split_and!.
  - eapply reports_count; eauto; by rewrite ?HsA, ?HsB.
  - eapply reports_count; eauto; by rewrite ?HsA, ?HsB.
  - destruct (cA d1) as [? ? []]; done.
  - destruct (cB d1) as [? ? []]; done.
Qed.

Definition demo_final_page : Client :=
  mkClient (mkAllVar (mkGameData 1 (mkFrame 800 600 10 18 110 7 775) (mkBall 400 300 1 0 40 5)
                                 245 245 5 3 5 "" 10 (status_code PLAY))
                     20 "alice" "bob" None None false false (Some "normal"%string) 20)
           (mkKeys "" "")
           (mkUi true true true true "CLASSIC" "normal" true None true true).

Definition demo_final_world : World :=
  let g := mkGame 1 (Some "normal") 10 20 (Some "alice") (Some "bob") (Some "s1") (Some "s2")
                  4 3 None None false false true true (Some "normal") (Some "normal") (Some 40) in
  mkWorld (mkDB [mkUser 1 10 "alice" INGAME 3 1 []; mkUser 2 20 "bob" INGAME 0 2 []] [g] 2)
          ["s1"; "s2"] [] [] [("s1", 10); ("s2", 20)]
          [(RGame 1, ["s1"; "s2"]); (RUser 1, ["s1"]); (RUser 2, ["s2"])] [] [].

Lemma match_end_counted_once_witness :
  let d := mkDuel demo_final_world demo_final_page demo_final_page in
  let step s := page_step "s1" "s2" 10 20 1 s UFrame (mkDraws 0 []) in
  let d3 := step SideB (step SideA (step SideA d)) in
  wins_of (db (srv d3)) 10 = Some 4 /\ loses_of (db (srv d3)) 20 = Some 3.
Proof.
  pose proof (match_end_counted_once "s1" "s2" 10 20
                (mkDuel demo_final_world demo_final_page demo_final_page) (mkDraws 0 [])
                (mkGame 1 (Some "normal") 10 20 (Some "alice") (Some "bob") (Some "s1") (Some "s2")
                        4 3 None None false false true true (Some "normal") (Some "normal") (Some 40))
                (mkUser 1 10 "alice" INGAME 3 1 []) (mkUser 2 20 "bob" INGAME 0 2 [])
                ltac:(split_and!; reflexivity) ltac:(split_and!; reflexivity) eq_refl eq_refl
                eq_refl eq_refl eq_refl eq_refl eq_refl ltac:(discriminate) eq_refl eq_refl eq_refl
                ltac:(decide_prop) ltac:(decide_prop) ltac:(decide_prop) ltac:(decide_prop) eq_refl)
    as (Hw & Hl & _).
  split; [exact Hw | exact Hl].
Defined.
