(* ===== verification/Forms.v ===== *)
(** * Client-side name validation: [isAlphanumeric] and the username form

    src/app/frontend/src/functions/isAlphanumeric.tsx, the only check a
    username or a channel name gets (the server does none), and the
    username card of src/app/frontend/src/components/User/UserSettings.tsx:
    [handleChange] on the name input, the availability check it sends to
    [GET /users/check-username/:name], the answer's update of
    [usernameExists], the [disabled] condition of the save button, and
    [handleUsername]'s [PUT /users/:id], and the card's error message;
    and the channel form of
    src/app/frontend/src/components/Chat/Conversations/AddConversation.tsx
    ([checkChanName], [reset], the submit guard, [addChannel]).
    Strings are byte strings: the
    code units [charCodeAt] reads are the bytes of the [string]. *)

From stdpp Require Import base list strings sets.
From Stdlib Require Import ZArith Lia Ascii.
From S2P Require Import Prelude Store Chat Profile Auth UserController.

(** ** [isAlphanumeric] *)

(** [!(c >= 48 && c <= 57) && !(c >= 65 && c <= 90) && !(c >= 97 && c <= 122) && c != 45] *)
Definition bad_code (c : nat) : bool :=
  (negb ((48 <=? c) && (c <=? 57)) && negb ((65 <=? c) && (c <=? 90)) &&
   negb ((97 <=? c) && (c <=? 122)) && negb (c =? 45))%nat.

(** [for (i = 0; i < len; i++) { c = s.charCodeAt(i); if (bad) return false; }
    return true;] with [fuel = len - i]. *)
Fixpoint scan (s : string) (i fuel : nat) : bool :=
  match fuel with
  | O => true
  | S f =>
      match String.get i s with
      | Some c => if bad_code (nat_of_ascii c) then false else scan s (S i) f
      | None => true
      end
  end.

Definition isAlphanumeric (s : string) : bool :=
  let len := String.length s in
  if ((12 <? len) || (len <? 1))%nat then false else scan s 0 len.

(** The spec of a name, from the form's own message: letters, digits
    and hyphens, at most 12 of them, at least one. *)
Definition name_chars : list ascii :=
  String.list_ascii_of_string "0123456789ABCDEFGHIJKLMNOPQRSTUVWXYZabcdefghijklmnopqrstuvwxyz-".

Definition valid_name (s : string) : Prop :=
  (1 <= String.length s <= 12)%nat /\ Forall (fun c => c ∈ name_chars) (String.list_ascii_of_string s).

(** ** The username card of [UserSettings] *)

(** [data.name], [usernameSpecialChar], [usernameExists], and the
    availability checks in flight, oldest first. *)
Record NameForm := mkNameForm {
  nf_name : string;
  nf_specialChar : bool;
  nf_exists : bool;
  nf_pending : list string
}.

Definition form0 : NameForm := mkNameForm "" true false [].

(** [handleChange] on the name input: store the value; an invalid name
    only clears [usernameSpecialChar] and returns; a valid one sets it
    and asks the server (the [tokenJwt] cookie is present). *)
Definition handleChange (v : string) (f : NameForm) : NameForm :=
  if ((0 <? String.length v)%nat && negb (isAlphanumeric v)) then
    mkNameForm v false (nf_exists f) (nf_pending f)
  else mkNameForm v true (nf_exists f) (nf_pending f ++ [v]).

(** The answer to the [k]-th check in flight: [setUsernameExists] of
    its [usernameExists]; a 401 or 500 rejects the [await] and leaves the
    state as it was. *)
Definition answer (k : nat) (r : Http bool) (f : NameForm) : NameForm :=
  let p := take k (nf_pending f) ++ drop (S k) (nf_pending f) in
  match r with
  | HDone b => mkNameForm (nf_name f) (nf_specialChar f) b p
  | _ => mkNameForm (nf_name f) (nf_specialChar f) (nf_exists f) p
  end.

(** [disabled={data.name.length < 1 || usernameExists || !usernameSpecialChar}] *)
Definition save_enabled (f : NameForm) : bool :=
  negb ((String.length (nf_name f) <? 1)%nat || nf_exists f || negb (nf_specialChar f)).

(** The card's message: the character rules while [usernameSpecialChar]
    is false, else "already taken" while [usernameExists]; the input
    shakes and turns red in both cases. *)
Inductive NameError := ECharRules | ETaken.

Definition name_error (f : NameForm) : option NameError :=
  if negb (nf_specialChar f) then Some ECharRules else if nf_exists f then Some ETaken else None.

Inductive FormEvent := FType (v : string) | FAnswer (k : nat).

(** The events of the card against a server [s] that does not change
    meanwhile, the checks sent with the request [req]. *)
Definition form_step (s : Server) (req : Request) (f : NameForm) (e : FormEvent) : NameForm :=
  match e with
  | FType v => handleChange v f
  | FAnswer k =>
      match nth_error (nf_pending f) k with
      | Some n =>
          match eval (UserController.checkUsernameExists req n) s with
          | Ok r => answer k r f
          | Exn => answer k HError f
          end
      | None => f
      end
  end.

Definition run_form (s : Server) (req : Request) (tr : list FormEvent) : NameForm :=
  foldl (form_step s req) form0 tr.

(** [handleUsername]: the [PUT]; its [alert] says success on any 2xx
    answer and failure on a 401 or 500. *)
Definition handleUsername (req : Request) (userId : Z) (f : NameForm) : SM bool :=
  let* r := UserController.updateUsername req userId (nf_name f) in
  ret (match r with HDone _ => true | _ => false end).

(** [GET /users/check-username/:name] under a token the guard admits
    answers whether the name is taken, and changes nothing. *)
Definition taken (s : Server) (n : string) : bool :=
  bool_decide (is_Some (user_by_username (pcore (app s)) n)).

(** ** The [AddConversation] form *)

(** [name] and [chanNameSpecialChar]. *)
Record ChanForm := mkChanForm { cf_name : string; cf_specialChar : bool }.

Definition chan0 : ChanForm := mkChanForm "" true.

(** [checkChanName] on the name input. *)
Definition checkChanName (v : string) (f : ChanForm) : ChanForm :=
  mkChanForm v (negb ((0 <? String.length v)%nat && negb (isAlphanumeric v))).

(** [reset] (from [handleClose]): the name is cleared, the flag kept. *)
Definition reset (f : ChanForm) : ChanForm := mkChanForm "" (cf_specialChar f).

(** [disabled={name.length < 1 || !chanNameSpecialChar}] *)
Definition submit_enabled (f : ChanForm) : bool :=
  negb ((String.length (cf_name f) <? 1)%nat || negb (cf_specialChar f)).

Inductive ChanEvent := CType (v : string) | CReset.

Definition chan_step (f : ChanForm) (e : ChanEvent) : ChanForm :=
  match e with CType v => checkChanName v f | CReset => reset f end.

Definition run_chan (tr : list ChanEvent) : ChanForm := foldl chan_step chan0 tr.

(** The payloads [addChannel] emits ([createChannel] or [joinChannel]);
    another task emits nothing. *)
Inductive ChanRequest :=
  | RCreate (name type : string) (password : option string) (ownerId : Z)
  | RJoin (channelName : string) (userId : Z) (password : option string).

Definition addChannel (task name type : string) (password : option string) (uid : Z)
    : option ChanRequest :=
  if bool_decide (task = "createChannel")%string then Some (RCreate name type password uid)
  else if bool_decide (task = "joinChannel")%string then Some (RJoin name uid password)
  else None.

Definition req_name (r : ChanRequest) : string :=
  match r with RCreate n _ _ _ => n | RJoin n _ _ => n end.

(** ** [isAlphanumeric] is the name spec *)

Lemma bad_code_spec c : bad_code (nat_of_ascii c) = negb (bool_decide (c ∈ name_chars)).
Proof. destruct c as [[] [] [] [] [] [] [] []]; vm_compute; reflexivity. Qed.

Lemma scan_String c s i f : scan (String c s) (S i) f = scan s i f.
Proof. revert i. induction f as [|f IH]; intros i; [done|]. simpl. by rewrite IH. Qed.

Lemma scan_all s :
  scan s 0 (String.length s) =
    forallb (fun c => bool_decide (c ∈ name_chars)) (String.list_ascii_of_string s).
Proof.
  induction s as [|c s IH]; [done|]. simpl. rewrite bad_code_spec, scan_String, IH.
  by destruct (bool_decide (c ∈ name_chars)).
Qed.

Lemma length_list_ascii s : length (String.list_ascii_of_string s) = String.length s.
Proof. induction s; simpl; auto. Qed.

(** [isAlphanumeric]'s loop over character codes decides the spec
    of a name: it accepts a string exactly when it has 1 to 12
    characters, each a letter, a digit or a hyphen. *)
Theorem isAlphanumeric_spec (s : string) : isAlphanumeric s = true <-> valid_name s.
Proof.
  unfold isAlphanumeric, valid_name. rewrite scan_all.
  destruct (Nat.ltb_spec 12 (String.length s)), (Nat.ltb_spec (String.length s) 1); simpl;
    rewrite ?forallb_forall, ?Forall_forall; split; try lia; try done;
    try (intros [? _]; lia).
  - intros Hall. split; [lia|]. intros c Hc. apply (bool_decide_eq_true_1 (c ∈ name_chars)), Hall.
    by apply list_elem_of_In.
  - intros [_ Hall] c Hc. apply (bool_decide_eq_true_2 (c ∈ name_chars)), Hall.
    by apply list_elem_of_In.
Qed.

(** The form's message says "less than 12 characters", but a name of
    exactly 12 is accepted. *)
Lemma twelve_characters_accepted : isAlphanumeric "abcdefghijkl" = true.
Proof. reflexivity. Qed.

(** ** The save button under checks answered in order *)

Lemma check_answer s req au n :
  authenticate_with jwt_validate s req = Some au ->
  eval (UserController.checkUsernameExists req n) s = Ok (HDone (taken s n)).
Proof.
  intros Ha. unfold UserController.checkUsernameExists, JwtGuard, guard_with, eval.
  rewrite Ha. unfold respond, UserController.done, ProfileService.userAlreadyExists, acall, zoom. simpl.
  reflexivity.
Qed.

(** What the card knows after a run: a valid name is awaiting the answer
    for itself, or all answers are in and the last one was for it. *)
Definition form_inv (s : Server) (f : NameForm) : Prop :=
  nf_specialChar f = true -> String.length (nf_name f) <> 0%nat ->
  isAlphanumeric (nf_name f) = true /\
  (last (nf_pending f) = Some (nf_name f) \/ (nf_pending f = [] /\ nf_exists f = taken s (nf_name f))).

Definition in_order (tr : list FormEvent) : Prop :=
  Forall (fun e => match e with FAnswer k => k = 0%nat | FType _ => True end) tr.

Lemma form_inv_type s v f : form_inv s (handleChange v f).
Proof.
  unfold handleChange, form_inv. intros Hsp Hlen.
  destruct ((0 <? String.length v)%nat && negb (isAlphanumeric v)) eqn:E; simpl in *; [done|].
  split.
  - apply andb_false_iff in E as [E|E]; [apply Nat.ltb_ge in E; lia|]. by apply negb_false_iff.
  - left. by rewrite last_snoc.
Qed.

Lemma form_inv_answer s req au f :
  authenticate_with jwt_validate s req = Some au -> form_inv s f ->
  form_inv s (form_step s req f (FAnswer 0)).
Proof.
  intros Ha Hi. simpl. destruct (nf_pending f) as [|p rest] eqn:Hp; simpl; [done|].
  rewrite (check_answer s req au p Ha). unfold answer, form_inv in *. simpl. rewrite Hp. simpl.
  rewrite drop_0. intros Hsp Hlen. destruct (Hi Hsp Hlen) as [Halnum [Hl | [Hnil _]]]; [|congruence].
  rewrite Hp in Hl. split; [done|]. destruct rest as [|q rest']; [right | left].
  - simpl in Hl. injection Hl as ->. done.
  - by rewrite last_cons_cons in Hl.
Qed.

Lemma form_inv_run s req au tr f :
  authenticate_with jwt_validate s req = Some au -> in_order tr -> form_inv s f ->
  form_inv s (foldl (form_step s req) f tr).
Proof.
  intros Ha. revert f. induction tr as [|e tr IH]; intros f Ho Hi; simpl; [done|].
  inversion Ho as [|? ? He Ho']; subst. apply IH; [done|].
  destruct e as [v|k]; [apply form_inv_type | subst k; by apply (form_inv_answer _ _ au)].
Qed.

(** With the availability checks answered in the order they were
    sent, once every answer is in, the save button of the username card
    is enabled only for a valid name the server did not know when it
    answered the last check. *)
Theorem save_enabled_in_order (s : Server) (req : Request) (au : AuthUser) (tr : list FormEvent) :
  authenticate_with jwt_validate s req = Some au -> in_order tr ->
  let f := run_form s req tr in
  nf_pending f = [] -> save_enabled f = true ->
  isAlphanumeric (nf_name f) = true /\ taken s (nf_name f) = false.
Proof.
  intros Ha Ho f Hp Hs. unfold save_enabled in Hs.
  apply negb_true_iff, orb_false_iff in Hs as [Hs Hsp]. apply orb_false_iff in Hs as [Hlen Hex].
  apply negb_false_iff in Hsp. apply Nat.ltb_ge in Hlen.
  assert (Hi : form_inv s f) by (apply (form_inv_run s req au); [done|done|by intros ?]).
  destruct (Hi Hsp ltac:(lia)) as [Halnum [Hl | [_ Hx]]]; [by rewrite Hp in Hl|].
  split; [done|]. by rewrite <- Hx.
Qed.

Definition demo_request : Request := mkRequest (Some demo_token_2fa) 0.

Lemma save_enabled_in_order_witness :
  let f := run_form demo_server demo_request [FType "ab"; FAnswer 0] in
  isAlphanumeric (nf_name f) = true /\ taken demo_server (nf_name f) = false.
Proof.
  apply (save_enabled_in_order demo_server demo_request
           (mkUser 1 101 "u1" ONLINE 1 0 [], mkUserCols 1 (Some "u1@42.fr") None (Some "S") (Some true) (Some true)));
    [vm_compute; reflexivity | repeat constructor | vm_compute; reflexivity | vm_compute; reflexivity].
Defined.

(** Out of order, the card enables saving a taken name: typing
    ["ab"] then ["u2"], the answer for ["u2"] (taken) arriving before the
    one for ["ab"] (free) leaves [usernameExists] false for ["u2"]; the
    [PUT] that follows is refused by [changeName] without an error, so
    nothing is renamed and the page announces "Username updated
    successfully!". *)
Example stale_check_enables_taken_name :
  let f := run_form demo_server demo_request [FType "ab"; FType "u2"; FAnswer 1; FAnswer 0] in
  nf_name f = "u2"%string /\ nf_pending f = [] /\ save_enabled f = true /\
  taken demo_server "u2" = true /\
  eval (handleUsername demo_request 1 f) demo_server = Ok true /\
  app (exec (handleUsername demo_request 1 f) demo_server) = app demo_server.
Proof. vm_compute. split_and!; reflexivity. Qed.

(** ** Channel names and private conversations *)

(** A message under the name input always comes with a disabled save
    button. *)
Lemma name_error_disables_save f : is_Some (name_error f) -> save_enabled f = false.
Proof.
  unfold name_error, save_enabled. destruct (nf_specialChar f), (nf_exists f); simpl; rewrite ?orb_true_r; by intros [].
Qed.

Lemma addChannel_name task n tp pw uid r :
  addChannel task n tp pw uid = Some r -> req_name r = n.
Proof. unfold addChannel. repeat case_bool_decide; intros Hr; try done; by injection Hr as <-. Qed.

(** The form's flag vouches for its non-empty name. *)
Definition chan_inv (f : ChanForm) : Prop :=
  cf_specialChar f = true -> String.length (cf_name f) <> 0%nat -> isAlphanumeric (cf_name f) = true.

Lemma chan_inv_step f e : chan_inv f -> chan_inv (chan_step f e).
Proof.
  unfold chan_inv. destruct e as [v|]; simpl; [|done].
  intros _ Hsp Hlen. apply negb_true_iff, andb_false_iff in Hsp as [Hsp|Hsp];
    [apply Nat.ltb_ge in Hsp; lia | by apply negb_false_iff].
Qed.

Lemma chan_inv_run tr : chan_inv (run_chan tr).
Proof.
  unfold run_chan. assert (H0 : chan_inv chan0) by (intros _ H; done).
  revert H0. generalize chan0. induction tr as [|e tr IH]; intros f Hf; simpl; [done|].
  by apply IH, chan_inv_step.
Qed.

Lemma submit_enabled_valid f : chan_inv f -> submit_enabled f = true -> isAlphanumeric (cf_name f) = true.
Proof.
  unfold submit_enabled. rewrite negb_true_iff, orb_false_iff, negb_false_iff, Nat.ltb_ge.
  intros Hi [Hl Hsp]. apply Hi; [done | lia].
Qed.

(** A channel name the chat page submits is never the name of a
    private conversation, which starts with ['#']: after any sequence of
    edits and resets of the [AddConversation] form, when its submit
    button is enabled the request [addChannel] emits carries a name no
    conversation between two users can have. *)
Theorem page_channel_name_not_dm (tr : list ChanEvent) (task tp : string) (pw : option string)
    (uid : Z) (r : ChanRequest) (a b : Z) :
  submit_enabled (run_chan tr) = true ->
  addChannel task (cf_name (run_chan tr)) tp pw uid = Some r ->
  req_name r <> ChannelService.dm_name a b.
Proof.
  intros Hs Hr. rewrite (addChannel_name _ _ _ _ _ _ Hr).
  pose proof (submit_enabled_valid _ (chan_inv_run tr) Hs) as Hl.
  intros Heq. apply isAlphanumeric_spec in Hl as [_ Hall]. rewrite Heq in Hall.
  unfold ChannelService.dm_name in Hall. simpl in Hall. apply Forall_cons in Hall as [Hh _].
  revert Hh. vm_compute. set_solver.
Qed.

Lemma page_channel_name_not_dm_witness :
  submit_enabled (run_chan [CType "#dm12"; CReset; CType "club"]) = true /\
  addChannel "createChannel" "club" "PUBLIC" None 3 = Some (RCreate "club" "PUBLIC" None 3) /\
  "club"%string <> ChannelService.dm_name 1 2.
Proof.
  split_and!; [reflexivity | reflexivity |].
  apply (page_channel_name_not_dm [CType "#dm12"; CReset; CType "club"] "createChannel" "PUBLIC"
           None 3 (RCreate "club" "PUBLIC" None 3) 1 2); reflexivity.
Defined.

(** The server checks nothing: a client that emits [createChannel]
    itself can name a channel ["#dm12"], and the conversation of users 1
    and 2 can then never be started. *)
Example raw_channel_blocks_conversation :
  eval (ChannelService.startPrivateConvo 0 1 2) demo_chat <> Exn /\
  eval (ChannelService.create (fun s => s) 0 "#dm12" PUBLIC None 3;;
        ChannelService.startPrivateConvo 0 1 2) demo_chat = Exn.
Proof. vm_compute. split; [discriminate | reflexivity]. Qed.
