(* ===== verification/ChatPage.v ===== *)
(** * The chat page: refreshes on [update] and the user menu

    Two parts of the chat frontend that meet the server's rules:
    - the ['update'] listener of src/app/frontend/src/components/Chat/
      ChatPage.tsx: the flag word [toUpdate] (the [Update] bits of
      contexts/ChatContext.tsx) selects which lists the page asks the
      chat gateway for again; the game gateway's [{ toUpdate: 28 }]
      reaches the same listener, since both gateways share the socket;
    - the menu of src/app/frontend/src/components/Chat/UserSidebar/
      UserMenu.tsx: which of [Admin], [Kick], [Ban], [Mute] and
      [Invite] it offers for a target, from the rows the page received
      ([getChannelUsers]: id and role) and the statuses [getStatus] maps;
    - the actions of src/app/frontend/src/components/Chat/ChatActions/
      ChatActions.tsx (module [ChatActions]): the password setting,
      leaving, and [handleBlock] with the page's copy of the block list,
      whose clicks the chat gateway serves one by one ([block_clicks]). *)

From stdpp Require Import base list strings sets.
From Stdlib Require Import ZArith Lia.
From S2P Require Import Prelude Store World Chat ChatGateway.

Open Scope Z_scope.

(** ** The [update] listener *)

(** [Update] of ChatContext.tsx. *)
Definition Update_channels : Z := 1.
Definition Update_publicChannels : Z := 2.
Definition Update_dm : Z := 4.
Definition Update_channelUsers : Z := 8.
Definition Update_onlineUsers : Z := 16.

(** The requests the listener emits, with their callbacks' targets. *)
Inductive ChatRequest :=
  | QChannelsJoined
  | QPublicChannels
  | QPrivateConvo
  | QChannelUsers (channelId : Z)
  | QOnlineUsers.

#[export] Instance ChatRequest_eq_dec : EqDecision ChatRequest.
Proof. solve_decision. Defined.

(** JavaScript truthiness of [response.channelId]: [undefined] and [0]
    are false. *)
Definition id_truthy (o : option Z) : bool := match o with Some i => negb (i =? 0) | None => false end.

(** [update(response)]: one [if] per bit, in the order of the code; the
    channel users are fetched again only for the open conversation. *)
Definition update (toUpdate : Z) (channelId : option Z) (selectedId : Z) : list ChatRequest :=
  (if negb (Z.land toUpdate Update_channels =? 0) then [QChannelsJoined] else []) ++
  (if negb (Z.land toUpdate Update_publicChannels =? 0) then [QPublicChannels] else []) ++
  (if negb (Z.land toUpdate Update_dm =? 0) then [QPrivateConvo] else []) ++
  (if negb (Z.land toUpdate Update_channelUsers =? 0) then
     (if negb (id_truthy channelId) || bool_decide (channelId = Some selectedId)
      then [QChannelUsers selectedId] else [])
   else []) ++
  (if negb (Z.land toUpdate Update_onlineUsers =? 0) then [QOnlineUsers] else []).

(** ** The user menu *)

(** [IChannelUser] as the page builds it from a [getChannelUsers] row. *)
Record IChannelUser := mkIChannelUser { icu_id : Z; icu_role : RoleType }.

Definition of_row (u : ChannelUser) : IChannelUser := mkIChannelUser (cu_userId u) (role u).

(** [Kick], [Ban] and [Mute] share their condition:
    [sessionUser?.role !== 'USER' && sessionUser?.role !== target.role &&
     target.role !== 'OWNER' && sessionUser?.id !== target.id]; with no
    session row, [sessionUser?.role] and [sessionUser?.id] are
    [undefined], different from everything. *)
Definition moderation_offered (session : option IChannelUser) (target : IChannelUser) : bool :=
  match session with
  | Some s =>
      bool_decide (icu_role s <> USER /\ icu_role s <> icu_role target /\
                   icu_role target <> OWNER /\ icu_id s <> icu_id target)
  | None => bool_decide (icu_role target <> OWNER)
  end.

(** [Admin]: [sessionUser?.role === 'OWNER' && sessionUser?.id !== target.id]. *)
Definition admin_offered (session : option IChannelUser) (target : IChannelUser) : bool :=
  match session with
  | Some s => bool_decide (icu_role s = OWNER /\ icu_id s <> icu_id target)
  | None => false
  end.

(** [getStatus] of ChatPage.tsx. *)
Definition getStatus (s : Status) : string :=
  match s with
  | ONLINE => "available" | OFFLINE => "invisible" | INQUEUE => "eager" | INGAME => "dnd"
  end.

(** [Invite]: offered unless the target is blocked or not
    ['available']. *)
Definition invite_enabled (blocked : list Z) (targetId : Z) (st : Status) : bool :=
  negb (bool_decide (targetId ∈ blocked) || negb (bool_decide (getStatus st = "available"%string))).

(** ** The conversation's actions

    [ChatActions] (Chat/ChatActions/ChatActions.tsx): the owner's
    password setting, leaving a channel, and blocking the other user of
    a private conversation, with the page's copy of
    [user.usersBlocked] that [setUser] stores. *)

Inductive ActionMsg :=
  | AHandlePassword (userId channelId : Z) (password : option string)
  | ALeaveChannel (channelId userId : Z)
  | ABlockUser (userId toBlockId : Z).

Module ChatActions.

(** [if (!newBlockList.includes(id)) push(id) else
    splice(indexOf(id), 1)]: the copy's toggle. *)
Definition toggle_blocked (t : Z) (bl : list Z) : list Z :=
  if bool_decide (t ∈ bl) then
    match findIndex (fun x => x =? t) bl with Some i => remove_at i bl | None => bl end
  else bl ++ [t].

(** [handleBlock]: tell the chat gateway, then update the copy. *)
Definition handleBlock (userId target : Z) (bl : list Z) : list Z * list ActionMsg :=
  (toggle_blocked target bl, [ABlockUser userId target]).

(** [handlePassword(password === '' ? null : password)]. *)
Definition handlePassword (userId selectedId : Z) (password : string) : list ActionMsg :=
  [AHandlePassword userId selectedId (if bool_decide (password = "") then None else Some password)].

(** [handleLeave]: leave, drop the channel from the page's list (by id)
    and select nothing. *)
Definition handleLeave (userId selectedId : Z) (channelList : list Z) : list Z * Z * list ActionMsg :=
  (filter (fun c => c <> selectedId) channelList, 0, [ALeaveChannel selectedId userId]).

(** [Settings] is enabled for the [OWNER] role, [Leave] outside the
    general channel (id 1). *)
Definition settings_enabled (chatUser : option IChannelUser) : bool :=
  match chatUser with Some u => bool_decide (icu_role u = OWNER) | None => false end.

Definition leave_enabled (selectedId : Z) : bool := negb (selectedId =? 1).
End ChatActions.

(** The chat gateway's event for a message of socket [sid]. *)
Definition action_event (now : Z) (sid : string) (m : ActionMsg) : ChatEvent :=
  match m with
  | AHandlePassword u c pw => CHandlePassword sid u c pw
  | ALeaveChannel c u => CLeaveChannel now sid c u
  | ABlockUser u t => CBlockUser sid u t
  end.

Definition serve_actions (hash : string -> string) (now : Z) (sid : string) (ms : list ActionMsg)
    (w : ChatWorld) : ChatWorld :=
  foldl (fun w m => exec (chat_handle hash (action_event now sid m)) w) w ms.

(** Clicks on [Block]/[Unblock] for the targets [ts], each followed by
    the gateway's handling of the message it sends: the page's copy and
    the chat server. *)
Definition block_clicks (hash : string -> string) (now : Z) (sid : string) (userId : Z)
    (ts : list Z) (s : list Z * ChatWorld) : list Z * ChatWorld :=
  foldl (fun s t => let '(bl', ms) := ChatActions.handleBlock userId t s.1 in (bl', serve_actions hash now sid ms s.2))
        s ts.

(** ** The menu offers what the server performs *)

Lemma member_of_userId c cid uid u : member_of c cid uid = Some u -> cu_userId u = uid.
Proof.
  unfold member_of. intros [_ Hk]%find_first_Some. unfold is_member in Hk.
  by apply bool_decide_eq_true in Hk as [_ ?].
Qed.

Lemma moderation_offered_rows s t :
  moderation_offered (Some (of_row s)) (of_row t) =
    bool_decide (may_moderate s t /\ cu_userId s <> cu_userId t).
Proof.
  unfold moderation_offered, of_row, may_moderate. simpl. apply bool_decide_ext.
  destruct (role s), (role t); naive_solver.
Qed.

(** The user menu offers [Kick], [Ban] and [Mute] for another member
    exactly when the gateway's role checks let the session user do it:
    for the rows [getChannelUsers] sent, the menu's condition is the
    server's [moderation_allowed], so an entry the menu shows is carried
    out and one it hides would be refused. *)
Theorem menu_matches_server (c : ChatDB) (cid a t : Z) (ua ut : ChannelUser) :
  member_of c cid a = Some ua -> member_of c cid t = Some ut -> a <> t ->
  moderation_offered (Some (of_row ua)) (of_row ut) = moderation_allowed c cid a t.
Proof.
  intros Ha Ht Hne. rewrite moderation_offered_rows. unfold moderation_allowed. rewrite Ha, Ht.
  apply bool_decide_ext. rewrite (member_of_userId _ _ _ _ Ha), (member_of_userId _ _ _ _ Ht). tauto.
Qed.

Lemma menu_matches_server_witness :
  moderation_offered (Some (mkIChannelUser 2 ADMIN)) (mkIChannelUser 3 USER) =
    moderation_allowed demo_chat 5 2 3.
Proof.
  apply (menu_matches_server demo_chat 5 2 3 (mkChannelUser 5 2 ADMIN false 0 0 2)
           (mkChannelUser 5 3 USER false 0 0 3)); [reflexivity | reflexivity | lia].
Defined.

(** ** The listener follows the bits of [toUpdate] *)

Lemma land_pow2_eqb f k : 0 <= k -> (Z.land f (2 ^ k) =? 0) = negb (Z.testbit f k).
Proof.
  intros Hk. destruct (Z.testbit f k) eqn:E; simpl.
  - apply Z.eqb_neq. intros H0.
    assert (Hb : Z.testbit (Z.land f (2 ^ k)) k = true)
      by (rewrite Z.land_spec, E, Z.pow2_bits_true by done; reflexivity).
    rewrite H0, Z.testbit_0_l in Hb. discriminate.
  - apply Z.eqb_eq. apply Z.bits_inj'. intros n Hn. rewrite Z.land_spec, Z.testbit_0_l.
    rewrite Z.pow2_bits_eqb by done. destruct (Z.eqb_spec k n); subst; [by rewrite E|].
    apply andb_false_r.
Qed.

Lemma update_testbits f ch sel :
  update f ch sel =
    (if Z.testbit f 0 then [QChannelsJoined] else []) ++
    (if Z.testbit f 1 then [QPublicChannels] else []) ++
    (if Z.testbit f 2 then [QPrivateConvo] else []) ++
    (if Z.testbit f 3 then
       (if negb (id_truthy ch) || bool_decide (ch = Some sel) then [QChannelUsers sel] else [])
     else []) ++
    (if Z.testbit f 4 then [QOnlineUsers] else []).
Proof.
  unfold update, Update_channels, Update_publicChannels, Update_dm, Update_channelUsers,
    Update_onlineUsers.
  change 1 with (2 ^ 0). change 2 with (2 ^ 1). change 4 with (2 ^ 2). change 8 with (2 ^ 3).
  change 16 with (2 ^ 4). rewrite !land_pow2_eqb by lia. by rewrite !negb_involutive.
Qed.

(** C11. The chat page's [update] listener asks for exactly the lists
    whose bit is set in [toUpdate]: the joined channels (bit 0), the
    public channels (bit 1), the private conversations (bit 2), the
    users of the open conversation (bit 3, when the event names no
    channel or that one) and the online users (bit 4). *)
Theorem update_follows_bits (f : Z) (ch : option Z) (sel : Z) :
  (QChannelsJoined ∈ update f ch sel <-> Z.testbit f 0 = true) /\
  (QPublicChannels ∈ update f ch sel <-> Z.testbit f 1 = true) /\
  (QPrivateConvo ∈ update f ch sel <-> Z.testbit f 2 = true) /\
  (QChannelUsers sel ∈ update f ch sel <->
     Z.testbit f 3 = true /\ (id_truthy ch = false \/ ch = Some sel)) /\
  (QOnlineUsers ∈ update f ch sel <-> Z.testbit f 4 = true).
Proof.
  rewrite update_testbits.
  destruct (Z.testbit f 0), (Z.testbit f 1), (Z.testbit f 2), (Z.testbit f 3), (Z.testbit f 4);
    destruct (id_truthy ch) eqn:Ht; destruct (decide (ch = Some sel)) as [He|He];
    rewrite ?bool_decide_true, ?bool_decide_false by done; simpl;
    split_and!; set_solver.
Qed.

(** The game gateway's [{ toUpdate: 28 }], sent on every change of a
    player's status, makes the chat page refresh the private
    conversations, the open conversation's users and the online users:
    the views that show statuses. *)
Example game_update_refreshes_statuses (sel : Z) :
  update 28 None sel = [QPrivateConvo; QChannelUsers sel; QOnlineUsers].
Proof. reflexivity. Qed.

(** The menu offers [Admin] on the [OWNER] role, the gateway's
    [handleAdmin] checks [channel.ownerId]: an owner who left while muted
    and joined again keeps the role, so the menu offers "Set as Admin",
    and the gateway refuses it, the new owner being user 2. *)
Example admin_offered_to_former_owner :
  let c := exec (ChannelService.join (fun s => s) 600 "club" 1 None)
                (exec (ChannelService.leave 500 5 1) demo_chat) in
  of_row <$> member_of c 5 1 = Some (mkIChannelUser 1 OWNER) /\
  admin_offered (Some (mkIChannelUser 1 OWNER)) (mkIChannelUser 3 USER) = true /\
  eval (ChannelService.handleAdmin 1 5 3) c =
    Ok (mkIResult 1 (Some "You are not the owner of this channel"%string)) /\
  exec (ChannelService.handleAdmin 1 5 3) c = c.
Proof. vm_compute. split_and!; reflexivity. Qed.

(** [Invite] is enabled for exactly the [ONLINE] users not blocked, the
    status [inviteInit] requires. *)
Lemma invite_enabled_online blocked t st :
  invite_enabled blocked t st = true <-> t ∉ blocked /\ st = ONLINE.
Proof.
  unfold invite_enabled. rewrite negb_true_iff, orb_false_iff, negb_false_iff, !bool_decide_eq_false,
    bool_decide_eq_true.
  destruct st; simpl; naive_solver.
Qed.

(** ** The page's block list is the server's *)

Lemma remove_first_filter t bl :
  NoDup bl -> t ∈ bl ->
  match findIndex (fun x => x =? t) bl with Some i => remove_at i bl | None => bl end =
    filter (fun x => x <> t) bl.
Proof.
  induction bl as [|x l IH]; intros Hnd Hin; [set_solver|]. apply NoDup_cons in Hnd as [Hx Hnd].
  simpl. rewrite filter_cons. destruct (Z.eqb_spec x t) as [->|Hne].
  - rewrite decide_False by naive_solver. symmetry. apply filter_all. intros y Hy ->. done.
  - rewrite decide_True by done. apply elem_of_cons in Hin as [->|Hin]; [done|].
    specialize (IH Hnd Hin). destruct (findIndex _ l) eqn:E; simpl; [by rewrite IH|].
    apply findIndex_None in E. rewrite Forall_forall in E. specialize (E t Hin). by rewrite Z.eqb_refl in E.
Qed.

Lemma toggle_blocked_spec t bl :
  NoDup bl ->
  ChatActions.toggle_blocked t bl = if bool_decide (t ∈ bl) then filter (fun x => x <> t) bl else bl ++ [t].
Proof. unfold ChatActions.toggle_blocked. intros Hnd. case_bool_decide; [by apply remove_first_filter|done]. Qed.

Lemma toggle_blocked_NoDup t bl : NoDup bl -> NoDup (ChatActions.toggle_blocked t bl).
Proof.
  intros Hnd. rewrite toggle_blocked_spec by done. case_bool_decide.
  - by apply NoDup_filter.
  - apply NoDup_app. split_and!; [done| |apply NoDup_singleton]. set_solver.
Qed.

Lemma blockUser_gateway hash sid uid t w u :
  user_by_id (core (cdb w)) uid = Some u -> NoDup (map u_id (users (core (cdb w)))) -> NoDup (usersBlocked u) ->
  let w' := exec (chat_handle hash (CBlockUser sid uid t)) w in
  exists u', user_by_id (core (cdb w')) uid = Some u' /\
    usersBlocked u' = ChatActions.toggle_blocked t (usersBlocked u) /\ NoDup (map u_id (users (core (cdb w')))).
Proof.
  intros Hu Hnd Hb w'. subst w'. destruct (blockUser_server uid t (cdb w) u Hu Hnd) as (msg & c' & u' & Hr & Hu' & Hbl & Hnd').
  exists u'. rewrite toggle_blocked_spec by done.
  unfold chat_handle, ChatGateway.blockUser, exec, catch, bind, cdb_call, zoom. rewrite Hr.
  destruct w; simpl. by split_and!.
Qed.

(** C40. The chat page's copy of the block list, which decides the
    [Block]/[Unblock] label, [Invite] and [Send Message], refines the
    server's: after any sequence of clicks on [Block] for any targets,
    each sent to the chat gateway, the copy is the user's [usersBlocked]
    row and has no duplicate, when it started as that row without
    duplicates.  The two toggles agree because the server's [blockUser]
    removes every occurrence and the page's [splice] only the first. *)
Theorem block_list_mirrors_server (hash : string -> string) (now : Z) (sid : string) (uid : Z)
    (ts : list Z) (w : ChatWorld) (u : User) :
  user_by_id (core (cdb w)) uid = Some u -> NoDup (map u_id (users (core (cdb w)))) ->
  NoDup (usersBlocked u) ->
  let s' := block_clicks hash now sid uid ts (usersBlocked u, w) in
  exists u', user_by_id (core (cdb s'.2)) uid = Some u' /\ usersBlocked u' = s'.1 /\ NoDup s'.1.
Proof.
  revert w u. induction ts as [|t ts IH]; intros w u Hu Hnd Hb; [by exists u|].
  destruct (blockUser_gateway hash sid uid t w u Hu Hnd Hb) as (u' & Hu' & Hbl & Hnd').
  unfold block_clicks. simpl. unfold serve_actions. simpl. rewrite <- Hbl.
  apply (IH _ u' Hu' Hnd'). rewrite Hbl. by apply toggle_blocked_NoDup.
Qed.

Lemma block_list_mirrors_server_witness :
  let w := chat_boot (mkDB [mkUser 1 10 "u1" ONLINE 0 0 [3]; mkUser 2 20 "u2" ONLINE 0 0 []] [] 1) in
  let s' := block_clicks (fun s => s) 0 "s1" 1 [2; 3; 2] ([3], w) in
  exists u', user_by_id (core (cdb s'.2)) 1 = Some u' /\ usersBlocked u' = s'.1 /\ NoDup s'.1.
Proof.
  apply (block_list_mirrors_server (fun s => s) 0 "s1" 1 [2; 3; 2] _ (mkUser 1 10 "u1" ONLINE 0 0 [3]));
    [reflexivity | vm_compute; apply (bool_decide_eq_true_1 _); reflexivity |
     apply (bool_decide_eq_true_1 _); vm_compute; reflexivity].
Defined.
