(* ===== verification/ChatMenu.v ===== *)
(** * The user menus of the chat page and the home page

    src/app/frontend/src/components/Chat/UserSidebar/UserMenu.tsx: the
    nine menu items ([Admin], [Kick], [Ban], [Mute], [DirectMessage],
    [Invite], [Block], [Profile], [Friend]), each shown or hidden,
    enabled or disabled by its condition, and the message its click
    sends; UserList.tsx: the menus of a channel member and of an online
    user, the session row it looks up, and its effect asking for the
    channel's members; and src/app/frontend/src/components/Home/
    HomePage.tsx: the fetch of [GET /users/general-information], the
    welcome line and [handleAddFriend].

    A click answers the messages it sends ([MenuMsg]); the requests to
    the HTTP server run on the [Server] of Auth.v, the socket messages
    become the chat gateway's [ChatEvent]s, a navigation is the
    [navigate] of Browser.v. *)

From stdpp Require Import base list strings.
From Stdlib Require Import ZArith Lia.
From S2P Require Import Prelude Store Chat ChatGateway Profile Auth UserController Browser ChatPage.

Open Scope Z_scope.

(** ** The menu items *)

(** A shown item: its label, and [disabled] where it has one. *)
Inductive MenuItem :=
  | ISetAdmin | IRemoveAdmin | IKick | IBan | IMute
  | ISendMessage (disabled : bool) | IInvite (disabled : bool)
  | IBlock | IUnblock | IViewProfile | IAddFriend (disabled : bool).

#[export] Instance MenuItem_eq_dec : EqDecision MenuItem.
Proof. solve_decision. Defined.

(** What a click sends: a socket message ([sessionUser?.id] is
    [undefined] without a session row), a request, a navigation. *)
Inductive MenuMsg :=
  | MHandleAdmin (ownerId : option Z) (channelId userId : Z)
  | MKickUser (userId : option Z) (channelId toKickId : Z)
  | MBanUser (userId : option Z) (channelId toBanId : Z)
  | MMuteUser (userId : option Z) (channelId toMuteId : Z)
  | MStartPrivateConvo (fromId : option Z) (toId : Z)
  | MInviteInit (target : Z)
  | MBlockUser (userId toBlockId : Z)
  | MAddFriend (userId friendId : Z)
  | MNavigate (p : Path).

(** A menu's target: a member row ([IChannelUser]) or an online user,
    with the status string of [getStatus]. *)
Record MenuTarget := mkMenuTarget { mt_id : Z; mt_status : string }.

Module UserMenu.

(** [Admin]: shown by [admin_offered]; [target.role !== 'ADMIN' ?
    'Set as Admin' : 'Remove Admin']. *)
Definition Admin (session : option IChannelUser) (target : IChannelUser) : option MenuItem :=
  if admin_offered session target
  then Some (if bool_decide (icu_role target <> ADMIN) then ISetAdmin else IRemoveAdmin) else None.

Definition handleAdmin (session : option IChannelUser) (channelId : Z) (target : IChannelUser) : MenuMsg :=
  MHandleAdmin (icu_id <$> session) channelId (icu_id target).

(** [Kick], [Ban], [Mute]: shown by [moderation_offered]. *)
Definition Kick (session : option IChannelUser) (target : IChannelUser) : option MenuItem :=
  if moderation_offered session target then Some IKick else None.
Definition Ban (session : option IChannelUser) (target : IChannelUser) : option MenuItem :=
  if moderation_offered session target then Some IBan else None.
Definition Mute (session : option IChannelUser) (target : IChannelUser) : option MenuItem :=
  if moderation_offered session target then Some IMute else None.

Definition handleKick (session : option IChannelUser) (channelId : Z) (target : IChannelUser) : MenuMsg :=
  MKickUser (icu_id <$> session) channelId (icu_id target).
Definition handleBan (session : option IChannelUser) (channelId : Z) (target : IChannelUser) : MenuMsg :=
  MBanUser (icu_id <$> session) channelId (icu_id target).
Definition handleMute (session : option IChannelUser) (channelId : Z) (target : IChannelUser) : MenuMsg :=
  MMuteUser (icu_id <$> session) channelId (icu_id target).

(** [DirectMessage]: hidden on the session's own row, disabled for a
    user the session user blocked. *)
Definition DirectMessage (blocked : list Z) (sessionId : option Z) (target : MenuTarget) : option MenuItem :=
  if bool_decide (sessionId <> Some (mt_id target))
  then Some (ISendMessage (bool_decide (mt_id target ∈ blocked))) else None.

Definition handleMessage (sessionId : option Z) (target : MenuTarget) : MenuMsg :=
  MStartPrivateConvo sessionId (mt_id target).

(** The acknowledgment's [setSelectedId(response.id * -1)]: on a [null]
    answer the callback throws and the selection stays. *)
Definition on_private_convo (response : option Channel) (selectedId : Z) : Z :=
  match response with Some c => ch_id c * -1 | None => selectedId end.

(** [Invite]: disabled for a blocked user or a status other than
    ['available']. *)
Definition Invite (blocked : list Z) (sessionId : option Z) (target : MenuTarget) : option MenuItem :=
  if bool_decide (sessionId <> Some (mt_id target))
  then Some (IInvite (bool_decide (mt_id target ∈ blocked) ||
                      negb (bool_decide (mt_status target = "available"%string))))
  else None.

Definition handleInvite (target : MenuTarget) : MenuMsg := MInviteInit (mt_id target).

(** [Block]: hidden on the user's own row; its label tests
    [usersBlocked.find((i) => i === target.id)], a number, for truth. *)
Definition Block (userId : Z) (blocked : list Z) (target : MenuTarget) : option MenuItem :=
  if bool_decide (userId <> mt_id target) then
    Some (match find_first (fun i => i =? mt_id target) blocked with
          | Some i => if i =? 0 then IBlock else IUnblock
          | None => IBlock
          end)
  else None.

(** [handleBlock]: the message, and the context's list toggled in place
    ([push] or [splice]) and stored back by [setUser]. *)
Definition handleBlock (userId : Z) (blocked : list Z) (target : MenuTarget) : list Z * MenuMsg :=
  (ChatActions.toggle_blocked (mt_id target) blocked, MBlockUser userId (mt_id target)).

Definition Profile_item (targetId : Z) : MenuItem := IViewProfile.

(** [navigate(`/user/profile/${targetId}`)] *)
Definition handleProfile (targetId : Z) : MenuMsg := MNavigate ["user"; "profile"; js_string_of_Z targetId].

(** [Friend]: hidden on the user's own row, disabled for a blocked
    user. *)
Definition Friend (userId : Z) (blocked : list Z) (targetId : Z) : option MenuItem :=
  if bool_decide (userId <> targetId) then Some (IAddFriend (bool_decide (targetId ∈ blocked))) else None.

Definition handleFriend (userId targetId : Z) : MenuMsg := MAddFriend userId targetId.
End UserMenu.

(** ** UserList.tsx *)

Module UserList.
Import UserMenu.

(** [users.find((u) => u.id === user?.id)] *)
Definition sessionUser (users : list IChannelUser) (userId : Z) : option IChannelUser :=
  find_first (fun u => icu_id u =? userId) users.

(** The menu of a channel member ([ChannelUser]). *)
Definition ChannelUser_menu (userId : Z) (blocked : list Z) (users : list IChannelUser) (selected : IChannelUser)
    (status : string) : list MenuItem :=
  let s := sessionUser users userId in
  let t := mkMenuTarget (icu_id selected) status in
  omap id [Admin s selected; Kick s selected; Ban s selected; Mute s selected;
           DirectMessage blocked (icu_id <$> s) t; Invite blocked (icu_id <$> s) t;
           Block userId blocked t; Some (Profile_item (icu_id selected)); Friend userId blocked (icu_id selected)].

(** The menu of an online user ([ChatUser]). *)
Definition ChatUser (userId : Z) (blocked : list Z) (onlineUsers : list MenuTarget) (selected : MenuTarget)
    : list MenuItem :=
  let s := mt_id <$> find_first (fun u => mt_id u =? userId) onlineUsers in
  omap id [DirectMessage blocked s selected; Invite blocked s selected; Block userId blocked selected;
           Some (Profile_item (mt_id selected)); Friend userId blocked (mt_id selected)].

(** The effect on [selectedId]: [update({ toUpdate: Update.channelUsers,
    channelId: selectedId })] for a channel. *)
Definition effect (selectedId : Z) : list ChatRequest :=
  if 0 <? selectedId then update Update_channelUsers (Some selectedId) selectedId else [].

(** The members panel is shown for a channel. *)
Definition members_shown (selectedId : Z) : bool := 0 <? selectedId.
End UserList.

(** The chat gateway's event for a socket message of [sid], for a
    session that has its row. *)
Definition menu_event (now : Z) (sid : string) (m : MenuMsg) : option ChatEvent :=
  match m with
  | MHandleAdmin (Some o) c u => Some (CHandleAdmin sid o c u)
  | MKickUser (Some u) c t => Some (CKickUser now sid u c t)
  | MBanUser (Some u) c t => Some (CBanUser now sid u c t)
  | MMuteUser (Some u) c t => Some (CMuteUser now sid u c t)
  | MStartPrivateConvo (Some f) t => Some (CStartPrivateConvo now sid f t)
  | MBlockUser u t => Some (CBlockUser sid u t)
  | _ => None
  end.

(** A [MAddFriend] request and a [MNavigate] on the browser; the rest
    goes to the sockets. *)
Definition menu_browser (m : MenuMsg) (b : Browser) : SM Browser :=
  match m with
  | MAddFriend u f => UserController.addFriend u f;; ret b
  | MNavigate p => ret (navigate p b)
  | _ => ret b
  end.

(** ** HomePage.tsx *)

Module HomePage.

Record Home := mkHome {
  ranking : list User;
  games : list Game;
  usersStatus : list User;
  showFriends : list User;
  showMenu : bool;
  selectedUser : option Z
}.

Definition home0 : Home := mkHome [] [] [] [] false None.

(** [fetchGeneralInformation], run when there is a cookie: the four
    lists of the answer; an error leaves them. *)
Definition fetchGeneralInformation (now : Z) (c : option Cookie) (h : Home) : SM Home :=
  match c with
  | None => ret h
  | Some _ =>
      let* r := UserController.getGeneralInformation (request_of c now) in
      ret (match r with
           | HDone gi => mkHome (gi_ranking gi) (gi_games gi) (gi_usersStatus gi) (gi_friends gi)
                                (showMenu h) (selectedUser h)
           | _ => h
           end)
  end.

(** [· welcome{user?.isKnown && " back"} ·] *)
Definition welcome (u : option AuthUser) : string :=
  match u with
  | Some (_, x) => if bool_decide (isKnown x = Some true) then "welcome back" else "welcome"
  | None => "welcome"
  end.

Definition handleOpenMenu (userId : Z) (h : Home) : Home :=
  mkHome (ranking h) (games h) (usersStatus h) (showFriends h) true (Some userId).
Definition handleCloseMenu (h : Home) : Home :=
  mkHome (ranking h) (games h) (usersStatus h) (showFriends h) false None.

(** [handleAddFriend]: [POST /users/${user?.id}/add-friend], then an
    alert and a reload; an error is logged. *)
Definition handleAddFriend (now : Z) (friendId : Z) (b : Browser) : SM Browser :=
  match user b with
  | None => ret b
  | Some (u, _) =>
      let* r := UserController.addFriend (u_id u) friendId in
      match r with HDone _ => load now (cookie b) (path b) | _ => ret b end
  end.
End HomePage.

(** ** The requests behind [Add Friend] and the home page *)

Lemma jwt_user_row s req u x :
  authenticate_with jwt_validate s req = Some (u, x) -> user_by_id (pcore (app s)) (u_id u) = Some u.
Proof.
  unfold authenticate_with, jwt_validate. destruct (req_token req) as [t|]; [|done].
  destruct (token_valid s _ t); [|done].
  destruct (auth_user (app s) (tk_sub t)) as [[u' x']|] eqn:Ha; [|done].
  apply auth_user_Some in Ha as [Hu Hid].
  destruct (isTwoFactorEnabled x') as [[]|]; [destruct (tk_2faAuth t)| |]; try done;
    intros [= <- _]; by rewrite Hid.
Qed.

(** [JwtStrategy] reads the signed tokens, the users and their columns
    only. *)
Lemma authenticate_with_frame s s' req :
  issued s' = issued s -> pchat (app s') = pchat (app s) -> cols (app s') = cols (app s) ->
  authenticate_with jwt_validate s' req = authenticate_with jwt_validate s req.
Proof.
  intros Hi Hc Hx. unfold authenticate_with, token_valid, jwt_validate, auth_user, cols_of, pcore.
  by rewrite Hi, Hc, Hx.
Qed.

(** [POST /users/:userId/add-friend] for two present users: the pair is
    in the join table afterwards, everything else kept. *)
Lemma addFriend_run s a b va vb :
  user_by_id (pcore (app s)) a = Some va -> user_by_id (pcore (app s)) b = Some vb ->
  exists r s', UserController.addFriend a b s = (Ok (HDone r), s') /\ issued s' = issued s /\
    pchat (app s') = pchat (app s) /\ cols (app s') = cols (app s) /\ (a, b) ∈ friends (app s').
Proof.
  intros Ha Hb. unfold UserController.addFriend, UserController.done, respond, acall, zoom,
    ProfileService.addFriend, catch.
  cbv beta iota delta [bind ret]. rewrite Ha. case_bool_decide as Hin.
  - by eexists _, _.
  - rewrite Hb. eexists _, _. split_and!; [reflexivity|done|done|done|].
    simpl. apply elem_of_app. right. by apply list_elem_of_singleton.
Qed.

Lemma getGeneralInformation_run s req u x :
  authenticate_with jwt_validate s req = Some (u, x) ->
  UserController.getGeneralInformation req s =
    (Ok (HDone (let p := app s in
                mkGeneralInformation (rank (users (pcore p))) (reverse (games (pcore p)))
                  (filter (fun w => u_id w ∉ map u_id (friends_of p (u_id u)) ++ [u_id u]) (users (pcore p)))
                  (friends_of p (u_id u)))), s).
Proof.
  intros Ha. pose proof (jwt_user_row _ _ _ _ Ha) as Hu.
  unfold UserController.getGeneralInformation, JwtGuard, guard_with. rewrite Ha.
  unfold respond, UserController.done, acall, zoom, ProfileService.getGeneralInformation.
  cbv beta iota delta [bind ret get deref]. rewrite Hu. by destruct s as [[] ?].
Qed.

Lemma friends_of_elem p a b v :
  (a, b) ∈ friends p -> user_by_id (pcore p) b = Some v -> v ∈ friends_of p a.
Proof.
  intros Hin Hv. unfold friends_of. apply list_elem_of_omap. exists (a, b). simpl.
  split; [done|]. by rewrite bool_decide_true.
Qed.

Lemma user_by_id_key d i v : user_by_id d i = Some v -> u_id v = i.
Proof. intros [_ Hk]%find_first_Some. by apply bool_decide_eq_true in Hk. Qed.

(** C33. [Add Friend] in a user menu, then the home page: the home page's
    friends list has the target and its list of the other users does
    not, for a session the server admits and a target that exists. *)
Theorem add_friend_then_home_lists now b s h u x tid v h' s' :
  context_user s now (cookie b) = Some (u, x) -> user_by_id (pcore (app s)) tid = Some v ->
  (let* b1 := menu_browser (UserMenu.handleFriend (u_id u) tid) b in
   HomePage.fetchGeneralInformation now (cookie b1) h) s = (Ok h', s') ->
  (exists f, f ∈ HomePage.showFriends h' /\ u_id f = tid) /\
  Forall (fun w => u_id w <> tid) (HomePage.usersStatus h').
Proof.
  intros Hc Hv. destruct (cookie b) as [c|] eqn:Ec; [|done]. simpl in Hc.
  destruct (addFriend_run s (u_id u) tid u v (jwt_user_row _ _ _ _ Hc) Hv)
    as (r & s1 & Hrun & Hi & Hch & Hx & Hin).
  unfold menu_browser, UserMenu.handleFriend. rewrite bind_assoc, (bind_Ok _ _ _ _ _ Hrun).
  rewrite bind_ret_l. unfold HomePage.fetchGeneralInformation. rewrite Ec.
  rewrite <- (authenticate_with_frame s s1 _ Hi Hch Hx) in Hc.
  rewrite (bind_Ok _ _ _ _ _ (getGeneralInformation_run _ _ _ _ Hc)). intros [= <- _]. simpl.
  assert (Hv1 : user_by_id (pcore (app s1)) tid = Some v) by (unfold pcore; by rewrite Hch).
  pose proof (friends_of_elem _ _ _ _ Hin Hv1) as Hf. split.
  - exists v. split; [done|]. by apply user_by_id_key in Hv1.
  - apply Forall_forall. intros w (Hw & _)%list_elem_of_filter Hid. apply Hw.
    apply elem_of_app. left. apply list_elem_of_fmap. exists v. split; [|done].
    rewrite Hid. by apply user_by_id_key in Hv1.
Qed.

(** User 3 of Profile.v, logged in with a token of its own, on the chat
    page. *)
Definition demo_menu_server : Server := mkServer (app demo_server) [demo_token_3].
Definition demo_menu_browser : Browser := mkBrowser (Some (CookieToken demo_token_3)) None ["chat"] None.
Definition demo_user3 : User := mkUser 3 103 "u3" ONLINE 0 0 [].

Lemma add_friend_then_home_lists_witness :
  let run := (let* b1 := menu_browser (UserMenu.handleFriend (u_id demo_user3) 2) demo_menu_browser in
              HomePage.fetchGeneralInformation 0 (cookie b1) HomePage.home0) demo_menu_server in
  let h' := match run.1 with Ok h => h | Exn => HomePage.home0 end in
  (exists f, f ∈ HomePage.showFriends h' /\ u_id f = 2) /\ Forall (fun w => u_id w <> 2) (HomePage.usersStatus h').
Proof.
  intros run h'.
  apply (add_friend_then_home_lists 0 demo_menu_browser demo_menu_server HomePage.home0 demo_user3
           (demo_cols 3) 2 (mkUser 2 102 "u2" ONLINE 0 1 []) h' run.2); vm_compute; reflexivity.
Defined.
