(* ===== verification/ChatView.v ===== *)
(** * The chat page's conversation view

    src/app/frontend/src/components/Chat/ChatPage.tsx beyond its
    [update] listener (ChatPage.v): the selected conversation, the
    answers of the lists it asks for ([getChannelsJoined],
    [getPrivateConvo]), [sendMessage] with the input's [onSend],
    [updateMessages] and its answer, the listeners [recvMessage] and
    [handleAnnounce], and the message list, which hides the senders the
    user blocked.  The page's state is the part of the [ChatContext]
    (contexts/ChatContext.tsx) it uses; the requests it sends are
    [ViewRequest]s, whose answers the gateway's handlers of
    ChatGateway.v give. *)

From stdpp Require Import base list strings.
From Stdlib Require Import ZArith Lia.
From S2P Require Import Prelude Store World Chat ChatGateway ChatPage.

Open Scope Z_scope.

(** [IConversation] (interfaces/Conversation, absent from the
    repository): the fields the page reads; [ownerId] is the other user
    of a private conversation. *)
Record IConversation := mkIConversation { cv_id : Z; cv_name : string; cv_ownerId : option Z }.

(** The [ChatContext] state the page uses. *)
Record ChatView := mkChatView {
  channelList : list IConversation;
  dmList : list IConversation;
  selectedId : Z;
  view_messages : list Message
}.

(** What the page asks the gateway for. *)
Inductive ViewRequest :=
  | VUpdate (toUpdate : Z)
  | VGetMessages (channelId : Z).

#[export] Instance ViewRequest_eq_dec : EqDecision ViewRequest.
Proof. solve_decision. Defined.

#[export] Instance Message_eq_dec : EqDecision Message.
Proof. solve_decision. Defined.
#[export] Instance Target_eq_dec : EqDecision Target.
Proof. solve_decision. Defined.
#[export] Instance ChatPayload_eq_dec : EqDecision ChatPayload.
Proof. solve_decision. Defined.

(** [srv.Dm]: a private conversation with its users. *)
Record Dm := mkDm { dm_id : Z; dm_users : list (Z * string) }.

Module ChatView.

(** [selectedConvo]: a channel for a positive id, a private conversation
    (stored with its id negated) otherwise. *)
Definition selectedConvo (v : ChatView) : option IConversation :=
  if 0 <? selectedId v then find_first (fun c => cv_id c =? selectedId v) (channelList v)
  else find_first (fun d => cv_id d =? selectedId v) (dmList v).

(** [sendMessage(content, isDm)] with the input's
    [onSend={(s) => sendMessage(s, selectedId < 0)}]: the gateway's
    event for the session user [u] on socket [sid]. *)
Definition sendMessage (now : Z) (sid : string) (u : User) (v : ChatView) (content : string) : ChatEvent :=
  CSendMessage now sid (u_id u) (Z.abs (selectedId v)) (username u) (selectedId v <? 0) content.

(** [getChannelsJoined]'s answer: the list, and no selection when the
    selected channel is no longer in it. *)
Definition on_channels_joined (response : list IConversation) (v : ChatView) : ChatView :=
  mkChatView response (dmList v)
    (if (0 <? selectedId v) && negb (bool_decide (is_Some (find_first (fun c => cv_id c =? selectedId v) response)))
     then 0 else selectedId v)
    (view_messages v).

(** One entry of [getPrivateConvo]'s answer: the id negated, the name
    and the id of the user that is not the session user; [find(..)!] on a
    conversation without such a user throws.  The status and the type
    the entry also copies are not read by the model. *)
Definition dm_entry (userId : Z) (d : Dm) : option IConversation :=
  match find_first (fun u => negb (u.1 =? userId)) (dm_users d) with
  | Some u => Some (mkIConversation (dm_id d * -1) u.2 (Some u.1))
  | None => None
  end.

(** [setDmList(response.map(..))]: a throw in the [map] leaves the list. *)
Definition on_private_convo (userId : Z) (response : list Dm) (v : ChatView) : ChatView :=
  match mapM (dm_entry userId) response with
  | Some l => mkChatView (channelList v) l (selectedId v) (view_messages v)
  | None => v
  end.

(** [updateMessages(id)]: [getMessages] of [Math.abs(id)]. *)
Definition updateMessages (id : Z) : ViewRequest := VGetMessages (Z.abs id).

Definition on_messages (response : list Message) (v : ChatView) : ChatView :=
  mkChatView (channelList v) (dmList v) (selectedId v) response.

(** [recvMessage]: a private message refreshes the conversations and,
    for the open one, the messages; a channel message the messages of
    the open channel. *)
Definition recvMessage (m : Message) (v : ChatView) : list ViewRequest :=
  if dm m then
    VUpdate Update_dm :: (if bool_decide (toId m = Z.abs (selectedId v)) then [updateMessages (selectedId v)] else [])
  else if bool_decide (toId m = selectedId v) then [updateMessages (selectedId v)] else [].

(** [handleAnnounce]: for the open channel, a message of [Server] with
    the next id. *)
Definition handleAnnounce (announcement : string) (channelId : Z) (v : ChatView) : ChatView :=
  if bool_decide (selectedId v = channelId) then
    let i := match last (view_messages v) with Some m => msg_id m + 1 | None => 0 end in
    mkChatView (channelList v) (dmList v) (selectedId v)
               (view_messages v ++ [mkMessage i (-1) channelId "Server" false announcement])
  else v.

(** The [MessageList]: [messages.filter((m) => !user?.usersBlocked.includes(m.fromId))]. *)
Definition visible (blocked : list Z) (ms : list Message) : list Message :=
  filter (fun m => fromId m ∉ blocked) ms.

(** [ConversationHeader.Back]: no selection. *)
Definition back (v : ChatView) : ChatView := mkChatView (channelList v) (dmList v) 0 (view_messages v).
End ChatView.

(** ** A channel message reaches the pages that show the channel *)

Lemma drop_app_self {A} (l k : list A) : drop (length l) (l ++ k) = k.
Proof. by rewrite drop_app_length. Qed.

(** The only message event [sendMessage] emits for a channel is the new
    row it stores, from the sender to the channel. *)
Lemma sendMessage_channel_emits now sid a c name content w w' t m :
  ChatGateway.sendMessage now sid a c name false content w = (Ok tt, w') ->
  (t, CNewMessage m) ∈ drop (length (coutbox w)) (coutbox w') ->
  m ∈ messages (cdb w') /\ toId m = c /\ fromId m = a /\ dm m = false.
Proof.
  unfold ChatGateway.sendMessage, cdb_call, ChannelService.findUserInChannel, alert, cemit, cjoin.
  destruct w as [d us r o k]. run_m. destruct (member_of d c a) as [u|]; simpl.
  - case_bool_decide; simpl; intros [= <-]; cbn [coutbox cdb]; rewrite drop_app_self.
    + by intros ?%list_elem_of_singleton.
    + intros [= -> ->]%list_elem_of_singleton. simpl. split_and!; [|done|done|done].
      apply elem_of_app. right. by apply list_elem_of_singleton.
  - intros [= <-]. cbn [coutbox cdb]. rewrite drop_app_self. by intros ?%list_elem_of_singleton.
Qed.

Lemma getChannelMessage_run c w :
  eval (ChatGateway.getChannelMessage c) w = Ok (Some (filter (fun m => toId m = c) (messages (cdb w)))).
Proof. destruct w. unfold ChatGateway.getChannelMessage, cdb_call, ChatService.getMessages. by run_m. Qed.

(** C19. A message a member sends to a channel reaches every page that
    shows the channel: the page's [recvMessage] asks for the channel's
    messages, the gateway's answer has the message, and the list shows
    it unless the reader blocked the sender. *)
Theorem channel_message_reaches_open_page now sid a c name content w w' t m v blocked :
  0 < c -> ChatGateway.sendMessage now sid a c name false content w = (Ok tt, w') ->
  (t, CNewMessage m) ∈ drop (length (coutbox w)) (coutbox w') ->
  selectedId v = c -> a ∉ blocked ->
  ChatView.recvMessage m v = [VGetMessages c] /\
  exists ms, eval (ChatGateway.getChannelMessage c) w' = Ok (Some ms) /\
    m ∈ ChatView.visible blocked (view_messages (ChatView.on_messages ms v)).
Proof.
  intros Hc Hrun Hin Hsel Hb.
  destruct (sendMessage_channel_emits _ _ _ _ _ _ _ _ _ _ Hrun Hin) as (Hm & Hto & Hfrom & Hdm).
  split.
  - unfold ChatView.recvMessage, ChatView.updateMessages. rewrite Hdm, Hsel, Hto, bool_decide_true by done.
    by rewrite Z.abs_eq by lia.
  - eexists. split; [apply getChannelMessage_run|]. unfold ChatView.visible. simpl.
    apply list_elem_of_filter. split; [by rewrite Hfrom|]. by apply list_elem_of_filter.
Qed.

(** User 2 posts ["hi"] in channel 5 of Chat.v's database; user 3's
    page shows channel 5. *)
Definition demo_view_world : ChatWorld := mkChatWorld demo_chat [] JsRooms.empty [] [].
Definition demo_view : ChatView := mkChatView [mkIConversation 5 "club" (Some 1)] [] 5 [].

Lemma channel_message_reaches_open_page_witness :
  let run := ChatGateway.sendMessage 100 "s2" 2 5 "u2" false "hi" demo_view_world in
  let m := mkMessage 1 2 5 "u2" false "hi" in
  ChatView.recvMessage m demo_view = [VGetMessages 5] /\
  exists ms, eval (ChatGateway.getChannelMessage 5) run.2 = Ok (Some ms) /\
    m ∈ ChatView.visible [1] (view_messages (ChatView.on_messages ms demo_view)).
Proof.
  intros run m.
  apply (channel_message_reaches_open_page 100 "s2" 2 5 "u2" "hi" demo_view_world run.2
           (ToRooms [RChannel 5]) m demo_view [1]).
  - lia.
  - vm_compute. reflexivity.
  - apply (bool_decide_unpack _). vm_compute. reflexivity.
  - reflexivity.
  - apply (bool_decide_unpack _). vm_compute. reflexivity.
Defined.
