(* ===== verification/ChatBar.v ===== *)
(** * The conversation bar and the conversation lists of the chat page

    The rest of src/app/frontend/src/components/Chat/ChatActions/
    ChatActions.tsx (module [ChatActionsBar]: the session user's row,
    the [target] of a private conversation, the settings popover and
    the buttons the bar shows) and Chat/Conversations/Section.tsx
    (module [Section]: the public channels not joined, the click that
    joins one, and the click that selects a conversation).  The view is
    ChatView.v's [ChatView]; the requests go to the chat gateway of
    ChatGateway.v. *)

From stdpp Require Import base list strings relations.
From Stdlib Require Import ZArith Lia.
From S2P Require Import Prelude Store World Chat ChatGateway ChatPage ChatView.

Open Scope Z_scope.

#[export] Instance IConversation_eq_dec : EqDecision IConversation.
Proof. solve_decision. Defined.

(** A [Channel] row as the page reads it ([getChannelsJoined] answers
    rows, typed [IConversation[]] by the page). *)
Definition of_channel (ch : Channel) : IConversation := mkIConversation (ch_id ch) (ch_name ch) (ownerId ch).

(** [setSelectedId(id)] *)
Definition set_selected (id : Z) (v : ChatView) : ChatView :=
  mkChatView (channelList v) (dmList v) id (view_messages v).

Module ChatActionsBar.

(** [users.find((u) => u.id === user?.id)] *)
Definition chatUser (users : list IChannelUser) (userId : Z) : option IChannelUser :=
  find_first (fun u => icu_id u =? userId) users.

(** [target.id = selectedConvo.ownerId] *)
Definition target (c : IConversation) : option Z := cv_ownerId c.

(** The settings popover: [password] and whether [anchorEl] is set. *)
Record Popover := mkPopover { password : string; anchorEl : bool }.

Definition popover0 : Popover := mkPopover "" false.

Definition handleClick (p : Popover) : Popover := mkPopover (password p) true.

Definition handleClose (p : Popover) : Popover := mkPopover "" false.

(** The input's [onChange]. *)
Definition onChange (value : string) (p : Popover) : Popover := mkPopover value (anchorEl p).

(** The popover's button: [handlePassword(password === '' ? null : password)],
    which emits and closes. *)
Definition submit (userId selectedId : Z) (p : Popover) : Popover * list ActionMsg :=
  (handleClose p, ChatActions.handlePassword userId selectedId (password p)).

Definition submit_label (p : Popover) : string :=
  if bool_decide (password p = "") then "Remove password" else "Set new password".

(** [Options]: [disabled={user?.usersBlocked.includes(Math.abs(selectedId))}]. *)
Definition options_enabled (usersBlocked : list Z) (selectedId : Z) : bool :=
  negb (bool_decide (Z.abs selectedId ∈ usersBlocked)).

(** [user?.usersBlocked.includes(target.id) ? 'Unblock' : 'Block']; an
    undefined id is in no list. *)
Definition block_label (usersBlocked : list Z) (t : option Z) : string :=
  match t with
  | Some i => if bool_decide (i ∈ usersBlocked) then "Unblock" else "Block"
  | None => "Block"
  end.

(** What the bar shows: [selectedId > 0] gives [Settings] and [Leave],
    otherwise [Options] and [Block], with their enabled states. *)
Inductive Bar :=
  | ChannelBar (settings leave : bool)
  | DmBar (options : bool) (blockLabel : string).

Definition bar (userId : Z) (usersBlocked : list Z) (users : list IChannelUser) (selectedId : Z)
    (selectedConvo : IConversation) : Bar :=
  if 0 <? selectedId then
    ChannelBar (ChatActions.settings_enabled (chatUser users userId)) (ChatActions.leave_enabled selectedId)
  else DmBar (options_enabled usersBlocked selectedId) (block_label usersBlocked (target selectedConvo)).
End ChatActionsBar.

Module Section.

(** [PublicChannels]: the public channels with no entry of the same id
    in the joined list. *)
Definition publicShown (channelList channels : list IConversation) : list IConversation :=
  filter (fun c => find_first (fun ch => cv_id ch =? cv_id c) channelList = None) channels.

(** [PublicChannels.handleClick]: [joinChannel] with the password ['']. *)
Definition handleClick (now : Z) (sid : string) (userId : Z) (channel : IConversation) : ChatEvent :=
  CJoinChannel now sid (cv_name channel) userId (Some "").

(** Its acknowledgement, [setSelectedId(response.id)]: Nest's socket.io
    adapter sends no acknowledgement for a null answer. *)
Definition on_join (response : option Channel) (v : ChatView) : ChatView :=
  match response with Some ch => set_selected (ch_id ch) v | None => v end.

(** The click with its acknowledgement: the gateway's [joinChannel],
    then [on_join] of its answer. *)
Definition click_join (hash : string -> string) (now : Z) (sid : string) (userId : Z) (channel : IConversation)
    (v : ChatView) : CM ChatView :=
  let* response := ChatGateway.joinChannel hash now sid (cv_name channel) userId (Some "") in
  ret (on_join response v).

(** [Section]: a click selects the conversation, which is [active]. *)
Definition select (c : IConversation) (v : ChatView) : ChatView := set_selected (cv_id c) v.

Definition active (c : IConversation) (v : ChatView) : bool := bool_decide (cv_id c = selectedId v).
End Section.

(** [handleLeave] on the view: the channel of [selectedId] out of the
    list, and no selection. *)
Definition view_leave (v : ChatView) : ChatView :=
  mkChatView (filter (fun c => cv_id c <> selectedId v) (channelList v)) (dmList v) 0 (view_messages v).

(** ** What happens to the view

    The answers and clicks that change it.  The server's answers carry
    the database's ids, which are positive; a click selects an entry of
    the lists the page shows. *)
Inductive vstep : ChatView -> ChatView -> Prop :=
  | vs_channels_joined rs v :
      Forall (fun ch => 0 < ch_id ch) rs -> vstep v (ChatView.on_channels_joined (of_channel <$> rs) v)
  | vs_private_convo userId ds v :
      Forall (fun d => 0 < dm_id d) ds -> vstep v (ChatView.on_private_convo userId ds v)
  | vs_select c v : c ∈ channelList v ++ dmList v -> vstep v (Section.select c v)
  | vs_join r v : (forall ch, r = Some ch -> 0 < ch_id ch) -> vstep v (Section.on_join r v)
  | vs_leave v : vstep v (view_leave v)
  | vs_back v : vstep v (ChatView.back v)
  | vs_messages ms v : vstep v (ChatView.on_messages ms v)
  | vs_announce a cid v : vstep v (ChatView.handleAnnounce a cid v).

(** The ids the page gives its lists: channels positive, private
    conversations negated. *)
Definition view_typed (v : ChatView) : Prop :=
  Forall (fun c => 0 < cv_id c) (channelList v) /\ Forall (fun c => cv_id c < 0) (dmList v).

(** ** The ids keep their sign *)

Lemma dm_entry_id userId d c : ChatView.dm_entry userId d = Some c -> cv_id c = - dm_id d.
Proof. unfold ChatView.dm_entry. destruct (find_first _ _); intros; simplify_eq/=. lia. Qed.

Lemma Forall_filter_sub {A} (P : A -> Prop) (Q : A -> Prop) `{!forall x, Decision (Q x)} l :
  Forall P l -> Forall P (filter Q l).
Proof. rewrite !Forall_forall. intros HP x (_ & Hx)%list_elem_of_filter. by apply HP. Qed.

Lemma on_private_convo_typed userId ds v :
  Forall (fun d => 0 < dm_id d) ds -> view_typed v -> view_typed (ChatView.on_private_convo userId ds v).
Proof.
  intros Hds [Hc Hd]. unfold ChatView.on_private_convo. destruct (mapM _ ds) as [l|] eqn:E; [|done].
  split; [done|]. apply mapM_Some_1 in E. eapply Forall2_Forall_r; [exact E|].
  eapply Forall_impl; [exact Hds|]. intros d Hd0 c Hy. cbn in Hd0 |- *. rewrite (dm_entry_id _ _ _ Hy). lia.
Qed.

Lemma vstep_typed v v' : vstep v v' -> view_typed v -> view_typed v'.
Proof.
  destruct 1 as [rs v Hrs|userId ds v Hds|c v _|r v _|v|v|ms v|a cid v]; intros Hv.
  - destruct Hv as [_ Hd]. split; [|done]. simpl. apply Forall_fmap. eapply Forall_impl; [exact Hrs|]. done.
  - by apply on_private_convo_typed.
  - done.
  - by destruct r.
  - destruct Hv as [Hc Hd]. split; [by apply Forall_filter_sub|done].
  - done.
  - done.
  - unfold ChatView.handleAnnounce. by case_bool_decide.
Qed.

Lemma rtc_vstep_typed v v' : rtc vstep v v' -> view_typed v -> view_typed v'.
Proof. induction 1; eauto using vstep_typed. Qed.

(** On a typed view the selection is a channel of the list for a
    positive id and a private conversation of the list otherwise, never
    both, and nothing for the id 0. *)
Lemma selectedConvo_typed v c :
  view_typed v -> ChatView.selectedConvo v = Some c ->
  cv_id c = selectedId v /\
  ((c ∈ channelList v /\ (c ∉ dmList v) /\ 0 < cv_id c) \/ (c ∈ dmList v /\ cv_id c < 0)).
Proof.
  intros [Hc Hd]. unfold ChatView.selectedConvo.
  destruct (Z.ltb_spec 0 (selectedId v)); intros [Hin Hk%Z.eqb_eq]%find_first_Some; split; [done| |done|].
  - left. split_and!; [done| |lia]. intros Hdm. rewrite Forall_forall in Hd. specialize (Hd _ Hdm). lia.
  - right. split; [done|]. rewrite Forall_forall in Hd. by apply Hd.
Qed.

(** C20. Type of the selection: after any answers and clicks from a
    view whose channels have positive ids and whose private
    conversations negated ones, a message typed in the selected
    conversation is sent to it with the right kind (the [isDm] flag holds
    exactly for a private conversation, and the id is the
    conversation's), and the bar shows the buttons of that kind. *)
Theorem selection_kind_typed v0 v c now sid u content userId usersBlocked users :
  view_typed v0 -> rtc vstep v0 v -> ChatView.selectedConvo v = Some c ->
  ChatView.sendMessage now sid u v content =
    CSendMessage now sid (u_id u) (Z.abs (cv_id c)) (username u) (bool_decide (c ∈ dmList v)) content /\
  match ChatActionsBar.bar userId usersBlocked users (selectedId v) c with
  | ChatActionsBar.ChannelBar _ _ => c ∈ channelList v /\ (c ∉ dmList v)
  | ChatActionsBar.DmBar _ _ => c ∈ dmList v
  end.
Proof.
  intros Hv0 Hrun Hsel.
  destruct (selectedConvo_typed _ _ (rtc_vstep_typed _ _ Hrun Hv0) Hsel) as [Hid [(Hc & Hnd & Hpos)|(Hd & Hneg)]];
    unfold ChatView.sendMessage, ChatActionsBar.bar; rewrite <- Hid.
  - rewrite bool_decide_false by done. rewrite (proj2 (Z.ltb_ge _ _)) by lia.
    by rewrite (proj2 (Z.ltb_lt 0 _)) by lia.
  - rewrite bool_decide_true by done. rewrite (proj2 (Z.ltb_lt _ 0)) by lia.
    by rewrite (proj2 (Z.ltb_ge 0 _)) by lia.
Qed.

(** C26. The [Options] button of a private conversation tests the
    conversation's id against the block list, not the other user's: a
    conversation from [getPrivateConvo], selected in its section, shows
    [Options] enabled exactly when its id is not blocked, while the
    [Block] button reads [Unblock] exactly when the other user is. *)
Theorem dm_options_test_conversation_id userId d peer name usersBlocked users v :
  find_first (fun u => negb (u.1 =? userId)) (dm_users d) = Some (peer, name) -> 0 < dm_id d ->
  let c := mkIConversation (dm_id d * -1) name (Some peer) in
  let v' := Section.select c (ChatView.on_private_convo userId [d] v) in
  ChatView.selectedConvo v' = Some c /\
  ChatActionsBar.bar userId usersBlocked users (selectedId v') c =
    ChatActionsBar.DmBar (negb (bool_decide (dm_id d ∈ usersBlocked)))
                         (if bool_decide (peer ∈ usersBlocked) then "Unblock" else "Block").
Proof.
  intros Hpeer Hpos c v'.
  assert (Hv' : v' = mkChatView (channelList v) [c] (dm_id d * -1) (view_messages v)).
  { subst v'. unfold ChatView.on_private_convo. simpl. unfold ChatView.dm_entry. by rewrite Hpeer. }
  rewrite Hv'. unfold ChatView.selectedConvo, ChatActionsBar.bar, ChatActionsBar.options_enabled. simpl.
  rewrite (proj2 (Z.ltb_ge 0 _)) by lia. rewrite Z.eqb_refl. split; [done|].
  by replace (Z.abs (dm_id d * -1)) with (dm_id d) by lia.
Qed.

(** ** Witnesses *)

Definition demo_dm : Dm := mkDm 7 [(3, "u3"); (2, "u2")].
Definition demo_typed_view : ChatView := mkChatView [mkIConversation 5 "club" (Some 1)] [] 0 [].

Lemma selection_kind_typed_witness :
  let v := Section.select (mkIConversation (-7) "u2" (Some 2))
             (ChatView.on_private_convo 3 [demo_dm] demo_typed_view) in
  ChatView.sendMessage 0 "s3" (demo_user 3) v "hi" =
    CSendMessage 0 "s3" (u_id (demo_user 3)) (Z.abs (-7)) (username (demo_user 3))
                 (bool_decide (mkIConversation (-7) "u2" (Some 2) ∈ dmList v)) "hi" /\
  match ChatActionsBar.bar 3 [] [] (selectedId v) (mkIConversation (-7) "u2" (Some 2)) with
  | ChatActionsBar.ChannelBar _ _ => mkIConversation (-7) "u2" (Some 2) ∈ channelList v /\
                                     (mkIConversation (-7) "u2" (Some 2) ∉ dmList v)
  | ChatActionsBar.DmBar _ _ => mkIConversation (-7) "u2" (Some 2) ∈ dmList v
  end.
Proof.
  intros v. apply (selection_kind_typed demo_typed_view v (mkIConversation (-7) "u2" (Some 2))).
  - split; repeat constructor; simpl; lia.
  - eapply rtc_l; [apply (vs_private_convo 3 [demo_dm]); repeat constructor; simpl; lia|].
    eapply rtc_l; [apply (vs_select (mkIConversation (-7) "u2" (Some 2))); vm_compute; repeat constructor|].
    apply rtc_refl.
  - vm_compute. reflexivity.
Defined.

(** User 3 blocked user 2, with whom it has conversation 7: [Options] is
    enabled and [Block] reads [Unblock]. *)
Lemma dm_options_test_conversation_id_witness :
  let c := mkIConversation (dm_id demo_dm * -1) "u2" (Some 2) in
  let v' := Section.select c (ChatView.on_private_convo 3 [demo_dm] demo_typed_view) in
  ChatView.selectedConvo v' = Some c /\
  ChatActionsBar.bar 3 [2] [] (selectedId v') c = ChatActionsBar.DmBar true "Unblock".
Proof. apply (dm_options_test_conversation_id 3 demo_dm 2 "u2" [2] [] demo_typed_view); reflexivity. Defined.

(** ** Joining a public channel from its section *)

(** [join] of a user with no row in a channel without a password: a new
    [USER] row. *)
Lemma join_fresh hash now name uid pw c ch u :
  channel_by_name c name = Some ch -> ch_type ch <> DM -> js_truthy (ch_password ch) = false ->
  member_of c (ch_id ch) uid = None -> channel_by_id c (ch_id ch) = Some ch -> user_by_id (core c) uid = Some u ->
  ChannelService.join hash now name uid pw c =
    (Ok (mkIResult 3 None), set_members (members c ++ [mkChannelUser (ch_id ch) uid USER false now now now]) c).
Proof.
  intros Hn Ht Hp Hm Hi Hu.
  unfold ChannelService.join, ChannelService.getChannelByName, ChannelService.findUserInChannel,
    ChannelService.password_refusal, member_create.
  run_m. rewrite Hn. rewrite bool_decide_false by done. rewrite Hm, Hp, Hm, Hi, Hu. done.
Qed.

Lemma member_of_app_fresh c cid uid r :
  member_of c cid uid = None -> member_of (set_members (members c ++ [r]) c) cid uid =
    if is_member cid uid r then Some r else None.
Proof.
  intros Hm. destruct c as [dd chs mbs ms nc nm]. unfold member_of in *. simpl in *.
  induction mbs as [|x l IH]; simpl in *; [by rewrite ?orb_false_r; destruct (is_member cid uid r)|].
  destruct (is_member cid uid x); [done|]. by apply IH.
Qed.

Lemma channel_by_name_set_members mb c n : channel_by_name (set_members mb c) n = channel_by_name c n.
Proof. by destruct c. Qed.
Lemma core_set_members mb c : core (set_members mb c) = core c.
Proof. by destruct c. Qed.
Lemma member_of_set_core d c cid uid : member_of (set_core d c) cid uid = member_of c cid uid.
Proof. by destruct c. Qed.

(** [joinChannel] for such a user: the channel it answers, and the row. *)
Lemma joinChannel_fresh hash now sid name uid pw w ch u :
  channel_by_name (cdb w) name = Some ch -> ch_type ch <> DM -> js_truthy (ch_password ch) = false ->
  member_of (cdb w) (ch_id ch) uid = None -> channel_by_id (cdb w) (ch_id ch) = Some ch ->
  user_by_id (core (cdb w)) uid = Some u ->
  exists w', ChatGateway.joinChannel hash now sid name uid pw w = (Ok (Some ch), w') /\
    member_of (cdb w') (ch_id ch) uid = Some (mkChannelUser (ch_id ch) uid USER false now now now).
Proof.
  destruct w as [d us r o k]; simpl. intros Hn Ht Hp Hm Hi Hu.
  pose proof (join_fresh hash now name uid pw d ch u Hn Ht Hp Hm Hi Hu) as Hj.
  pose proof (member_of_app_fresh d (ch_id ch) uid (mkChannelUser (ch_id ch) uid USER false now now now) Hm) as Hm'.
  unfold ChatGateway.joinChannel, cdb_call, core_call, user_call, ChannelService.getChannelByName, UserService.getUserById,
    cemit, cjoin.
  run_m. rewrite Hj. simpl. rewrite channel_by_name_set_members, Hn. simpl.
  rewrite core_set_members, Hu. simpl. eexists. split; [reflexivity|]. simpl.
  rewrite member_of_set_core, Hm'. unfold is_member. by rewrite bool_decide_true.
Qed.

(** C22. Clicking a public channel in the list joins it and selects it:
    for a channel without a password where the user has no row, the
    gateway adds the user as a [USER] who has not left, and the page
    selects the channel's id. *)
Theorem public_channel_click_joins hash now sid uid c v w ch u :
  channel_by_name (cdb w) (cv_name c) = Some ch -> ch_type ch <> DM -> js_truthy (ch_password ch) = false ->
  member_of (cdb w) (ch_id ch) uid = None -> channel_by_id (cdb w) (ch_id ch) = Some ch ->
  user_by_id (core (cdb w)) uid = Some u ->
  exists w', Section.click_join hash now sid uid c v w = (Ok (set_selected (ch_id ch) v), w') /\
    member_of (cdb w') (ch_id ch) uid = Some (mkChannelUser (ch_id ch) uid USER false now now now).
Proof.
  intros Hn Ht Hp Hm Hi Hu.
  destruct (joinChannel_fresh hash now sid (cv_name c) uid (Some "") w ch u Hn Ht Hp Hm Hi Hu) as (w' & Hrun & Hrow).
  exists w'. unfold Section.click_join. by rewrite (bind_Ok _ _ _ _ _ Hrun).
Qed.

(** [join] refuses a channel with a password to a user with no row
    when no password comes. *)
Lemma join_needs_password hash now name uid c ch :
  channel_by_name c name = Some ch -> ch_type ch <> DM -> js_truthy (ch_password ch) = true ->
  member_of c (ch_id ch) uid = None ->
  ChannelService.join hash now name uid (Some "") c = (Ok (mkIResult 1 (Some "Password required")), c).
Proof.
  intros Hn Ht Hp Hm.
  unfold ChannelService.join, ChannelService.getChannelByName, ChannelService.findUserInChannel,
    ChannelService.password_refusal.
  run_m. rewrite Hn. rewrite bool_decide_false by done. by rewrite Hm, Hp.
Qed.

(** C27. A public channel whose owner set a password stays in the
    public list, but its click sends the empty password: the gateway
    alerts ["Password required"] to the socket and answers nothing, the
    page keeps its selection, and the database is unchanged.  The page
    offers no way to give the password. *)
Theorem public_channel_with_password_unjoinable hash now sid uid c v w ch :
  channel_by_name (cdb w) (cv_name c) = Some ch -> ch_type ch = PUBLIC -> js_truthy (ch_password ch) = true ->
  member_of (cdb w) (ch_id ch) uid = None ->
  exists w', Section.click_join hash now sid uid c v w = (Ok v, w') /\ cdb w' = cdb w /\
    coutbox w' = coutbox w ++ [(ToRooms [RSocket sid], CAlert "Password required")].
Proof.
  intros Hn Ht Hp Hm. destruct w as [d us r o k]; simpl in *.
  pose proof (join_needs_password hash now (cv_name c) uid d ch Hn ltac:(by rewrite Ht) Hp Hm) as Hj.
  unfold Section.click_join, ChatGateway.joinChannel, cdb_call, alert, cemit. run_m. rewrite Hj. simpl.
  by eexists.
Qed.

(** User 12 of Chat.v's database, with no row in the public channel
    [club] (5), clicks it in the list. *)
Definition demo_club : IConversation := mkIConversation 5 "club" (Some 1).
Definition demo_bar_world (c : ChatDB) : ChatWorld := mkChatWorld c [] JsRooms.empty [] [].

Lemma public_channel_click_joins_witness :
  exists w', Section.click_join (fun s => s) 0 "s12" 12 demo_club demo_typed_view (demo_bar_world demo_chat) =
    (Ok (set_selected 5 demo_typed_view), w') /\
    member_of (cdb w') 5 12 = Some (mkChannelUser 5 12 USER false 0 0 0).
Proof.
  apply (public_channel_click_joins (fun s => s) 0 "s12" 12 demo_club demo_typed_view (demo_bar_world demo_chat)
           (mkChannel 5 "club" PUBLIC None (Some 1)) (demo_user 12)); vm_compute; first [reflexivity|discriminate].
Defined.

(** The owner of [club] sets the password ["pw"]; [club] is still
    public, and user 12's click is refused. *)
Lemma public_channel_with_password_unjoinable_witness :
  let d := exec (ChannelService.handlePassword (fun s => s) 1 5 (Some "pw")) demo_chat in
  exists w', Section.click_join (fun s => s) 0 "s12" 12 demo_club demo_typed_view (demo_bar_world d) =
    (Ok demo_typed_view, w') /\ cdb w' = cdb (demo_bar_world d) /\
    coutbox w' = coutbox (demo_bar_world d) ++ [(ToRooms [RSocket "s12"], CAlert "Password required")].
Proof.
  intros d. apply (public_channel_with_password_unjoinable (fun s => s) 0 "s12" 12 demo_club demo_typed_view
                     (demo_bar_world d) (mkChannel 5 "club" PUBLIC (Some "pw") (Some 1))); vm_compute; reflexivity.
Defined.
