(* ===== verification/AddChannel.v ===== *)
(** * The [AddConversation] popup against the chat gateway

    src/app/frontend/src/components/Chat/Conversations/AddConversation.tsx:
    the popup's state (its task, the name form of Forms.v, the type
    select, the password and whether it is open), its buttons and
    inputs, and [addChannel] with the acknowledgement it waits for:
    [createChannel] and [joinChannel] of the gateway of ChatGateway.v,
    then [handleClose] and [setSelectedId(response.id)].  The step
    relation [pstep] is the popup under the user's inputs and the
    acknowledgements; its reachable states are well typed. *)

From stdpp Require Import base list strings relations.
From Stdlib Require Import ZArith Lia.
From S2P Require Import Prelude Store World Chat ChatGateway Forms ChatView ChatBar.

Open Scope Z_scope.

(** The [ChannelType] enum of the Prisma client: the strings it accepts. *)
Definition prisma_type (s : string) : option ChannelType :=
  if bool_decide (s = "PUBLIC") then Some PUBLIC
  else if bool_decide (s = "PRIVATE") then Some PRIVATE
  else if bool_decide (s = "DM") then Some DM
  else None.

Module AddConversation.

(** [task], the name form ([name], [chanNameSpecialChar]), [type],
    [password] and [Boolean(anchorEl)]. *)
Record Popup := mkPopup {
  task : string;
  form : ChanForm;
  type : string;
  password : string;
  anchorOpen : bool
}.

Definition popup0 : Popup := mkPopup "joinChannel" chan0 "PUBLIC" "" false.

(** [handleClick]: the popover opens at the button. *)
Definition handleClick (p : Popup) : Popup := mkPopup (task p) (form p) (type p) (password p) true.

(** [handleClose]: [setAnchorEl(null)], then [reset()] of the name and
    the password. *)
Definition handleClose (p : Popup) : Popup := mkPopup (task p) (reset (form p)) (type p) "" false.

(** The [Join] and [Create] buttons, the type select and the inputs. *)
Definition setTask (t : string) (p : Popup) : Popup := mkPopup t (form p) (type p) (password p) (anchorOpen p).
Definition join_disabled (p : Popup) : bool := bool_decide (task p = "joinChannel").
Definition create_disabled (p : Popup) : bool := bool_decide (task p = "createChannel").
Definition select_shown (p : Popup) : bool := bool_decide (task p = "createChannel").
Definition setType (t : string) (p : Popup) : Popup := mkPopup (task p) (form p) t (password p) (anchorOpen p).
Definition setPassword (s : string) (p : Popup) : Popup := mkPopup (task p) (form p) (type p) s (anchorOpen p).
Definition onName (v : string) (p : Popup) : Popup :=
  mkPopup (task p) (checkChanName v (form p)) (type p) (password p) (anchorOpen p).
Definition placeholder (p : Popup) : string :=
  if bool_decide (task p = "joinChannel") then "Password (if required)" else "Password (optional)".

(** The submit button's arguments: [password === '' ? null : password]. *)
Definition password_arg (p : Popup) : option string :=
  if bool_decide (password p = "") then None else Some (password p).

(** The event [addChannel] emits; a type Prisma rejects throws in
    [channelService.create], whose [catch] answers [undefined]. *)
Definition send (hash : string -> string) (now : Z) (sid : string) (r : ChanRequest) : CM (option Channel) :=
  match r with
  | RCreate n tp pw o =>
      match prisma_type tp with
      | Some t => ChatGateway.createChannel hash now sid n t pw o
      | None => ret None
      end
  | RJoin n u pw => ChatGateway.joinChannel hash now sid n u pw
  end.

(** The acknowledgement: [handleClose()] and [setSelectedId(response.id)];
    Nest's socket.io adapter sends none for a null answer. *)
Definition ack (response : option Channel) (p : Popup) (v : ChatView) : Popup * ChatView :=
  match response with
  | Some ch => (handleClose p, set_selected (ch_id ch) v)
  | None => (p, v)
  end.

(** The submit button's [onClick]: [addChannel(task, name, type, ...)]
    with [user?.id], then its acknowledgement; another task emits
    nothing. *)
Definition submit (hash : string -> string) (now : Z) (sid : string) (uid : Z) (p : Popup) (v : ChatView)
    : CM (Popup * ChatView) :=
  match addChannel (task p) (cf_name (form p)) (type p) (password_arg p) uid with
  | None => ret (p, v)
  | Some r => let* response := send hash now sid r in ret (ack response p v)
  end.

End AddConversation.

Import AddConversation.

(** ** The popup under the user's inputs

    The popover's content exists while it is open; the buttons'
    [disabled] conditions guard their steps; the select offers its two
    options; a submit runs against a world of the gateway
    and steps to the popup its acknowledgement leaves. *)
Inductive pstep : Popup -> Popup -> Prop :=
  | ps_click p : pstep p (handleClick p)
  | ps_close p : pstep p (handleClose p)
  | ps_join p : anchorOpen p = true -> join_disabled p = false -> pstep p (setTask "joinChannel" p)
  | ps_create p : anchorOpen p = true -> create_disabled p = false -> pstep p (setTask "createChannel" p)
  | ps_type p t : anchorOpen p = true -> select_shown p = true -> t ∈ ["PUBLIC"; "PRIVATE"] ->
      pstep p (setType t p)
  | ps_password p s : anchorOpen p = true -> pstep p (setPassword s p)
  | ps_name p s : anchorOpen p = true -> pstep p (onName s p)
  | ps_submit hash now sid uid p v w p' v' w' :
      anchorOpen p = true -> submit_enabled (form p) = true -> submit hash now sid uid p v w = (Ok (p', v'), w') ->
      pstep p p'.

(** The popup's type: a task of the two buttons, a type of the select's
    two options, and a name form whose flag vouches for its name. *)
Definition popup_wf (p : Popup) : Prop :=
  task p ∈ ["joinChannel"; "createChannel"] /\ type p ∈ ["PUBLIC"; "PRIVATE"] /\ chan_inv (form p).

(** The channel types a request may carry. *)
Definition req_type_ok (r : ChanRequest) : Prop :=
  match r with
  | RCreate _ tp _ _ => prisma_type tp = Some PUBLIC \/ prisma_type tp = Some PRIVATE
  | RJoin _ _ _ => True
  end.

(** ** Lemmas *)

Lemma submit_popup hash now sid uid p v w p' v' w' :
  submit hash now sid uid p v w = (Ok (p', v'), w') -> p' = p \/ p' = handleClose p.
Proof.
  unfold submit. destruct (addChannel _ _ _ _ _); [|intros [=]; by left].
  unfold bind. destruct (send _ _ _ _ _) as [[[ch|]|] ?]; intros [=]; simplify_eq; auto.
Qed.

Lemma popup_wf_step p p' : popup_wf p -> pstep p p' -> popup_wf p'.
Proof.
  intros (Ht & Hy & Hf) Hs.
  destruct Hs as [p|p|p _ _|p _ _|p t _ _ Ht'|p s _|p s _|hash now sid uid p v w p' v' w' _ _ Hrun];
    unfold popup_wf; simpl.
  - done.
  - split_and!; [done|done|apply (chan_inv_step _ CReset Hf)].
  - split_and!; [repeat constructor|done|done].
  - split_and!; [repeat constructor|done|done].
  - done.
  - done.
  - split_and!; [done|done|apply (chan_inv_step _ (CType s) Hf)].
  - destruct (submit_popup _ _ _ _ _ _ _ _ _ _ Hrun) as [->| ->]; [done|].
    split_and!; [done|done|apply (chan_inv_step _ CReset Hf)].
Qed.

Lemma popup_wf_rtc p p' : popup_wf p -> rtc pstep p p' -> popup_wf p'.
Proof. intros Hp Hr. induction Hr; eauto using popup_wf_step. Qed.

Lemma popup0_wf : popup_wf popup0.
Proof. split_and!; [repeat constructor|repeat constructor|by intros _ []]. Qed.

Lemma elem_of_two {A} (x a b : A) : x ∈ [a; b] -> x = a \/ x = b.
Proof. rewrite !elem_of_cons, elem_of_nil. tauto. Qed.

(** [password === '' ? null : password] is truthy exactly when present. *)
Lemma password_arg_hash (hash : string -> string) p :
  (if js_truthy (password_arg p) then hash <$> password_arg p else password_arg p) = hash <$> password_arg p.
Proof. unfold password_arg. case_bool_decide; [done|]. simpl. by rewrite bool_decide_true. Qed.

Lemma submit_enabled_nonempty f : submit_enabled f = true -> String.length (cf_name f) <> 0%nat.
Proof. unfold submit_enabled. rewrite negb_true_iff, orb_false_iff, Nat.ltb_ge. lia. Qed.

Lemma chat_ok_next_fresh c :
  chat_ok c -> channel_by_id c (next_channel_id c) = None /\ forall uid, member_of c (next_channel_id c) uid = None.
Proof.
  unfold chat_ok, tables_ok. intros (_ & _ & _ & Hlt & Hk). rewrite Forall_forall in Hlt. rewrite Forall_forall in Hk.
  assert (next_channel_id c ∉ map ch_id (channels c)) as Hni by (intros Hi; specialize (Hlt _ Hi); lia).
  split.
  - destruct (channel_by_id c (next_channel_id c)) eqn:E; [|done]. exfalso. apply Hni, channel_by_id_Some. by rewrite E.
  - intros uid. destruct (member_of c (next_channel_id c) uid) as [m|] eqn:E; [|done]. exfalso.
    apply find_first_Some in E as [Hm Hp]. apply Hni. unfold is_member in Hp. case_bool_decide as Hq; [|done].
    destruct Hq as [<- _]. apply (Hk (mkey m)), list_elem_of_fmap. by exists m.
Qed.

Lemma create_fresh hash now name t pw owner c u :
  chat_ok c -> name <> ""%string -> channel_by_name c name = None -> user_by_id (core c) owner = Some u ->
  exists c', ChannelService.create hash now name t pw owner c = (Ok None, c') /\
    channel_by_name c' name =
      Some (mkChannel (next_channel_id c) name t (if js_truthy pw then hash <$> pw else pw) (Some owner)) /\
    member_of c' (next_channel_id c) owner =
      Some (mkChannelUser (next_channel_id c) owner OWNER false now now now) /\
    core c' = core c.
Proof.
  intros Hok Hne Hn Hu. destruct (chat_ok_next_fresh c Hok) as [Hi Hm].
  unfold ChannelService.create, ChannelService.getChannelByName, channel_create, ChannelService.setPassword, channel_update.
  run_m. rewrite (bool_decide_true (name ≠ ""%string)) by done. simpl. rewrite Hn, bool_decide_false by (rewrite Hn; by intros []).
  rewrite Hu. simpl. unfold channel_by_id, channel_by_name, member_of in *.
  destruct (js_truthy pw); simpl; rewrite ?(find_first_app_r _ _ _ Hi), ?bool_decide_true by done;
    eexists; (split; [reflexivity|]); simpl;
    rewrite ?find_first_map, ?(find_first_app_r _ _ _ Hn), ?(find_first_app_r _ _ _ (Hm owner)).
  all: unfold is_member; repeat (cbn; rewrite ?bool_decide_true by done); try done.
  intros x. by destruct (bool_decide (ch_id x = next_channel_id c)).
Qed.

(** [createChannel] for a fresh name: the channel [create] inserted,
    with its owner's row. *)
Lemma createChannel_fresh hash now sid name t pw owner w u :
  chat_ok (cdb w) -> name <> ""%string -> channel_by_name (cdb w) name = None ->
  user_by_id (core (cdb w)) owner = Some u ->
  let ch := mkChannel (next_channel_id (cdb w)) name t (if js_truthy pw then hash <$> pw else pw) (Some owner) in
  exists w', ChatGateway.createChannel hash now sid name t pw owner w = (Ok (Some ch), w') /\
    channel_by_name (cdb w') name = Some ch /\
    member_of (cdb w') (next_channel_id (cdb w)) owner =
      Some (mkChannelUser (next_channel_id (cdb w)) owner OWNER false now now now).
Proof.
  intros Hok Hne Hn Hu ch. destruct w as [d us r o k]; simpl in *.
  destruct (create_fresh hash now name t pw owner d u Hok Hne Hn Hu) as (d' & Hc & Hn' & Hm' & _).
  unfold ChatGateway.createChannel, cdb_call, ChannelService.getChannelByName, cemit, cjoin.
  run_m. rewrite Hc. simpl. rewrite Hn'. by eexists.
Qed.

(** ** Properties *)

(** C21. Every popup the user can reach is well typed: its task is one
    of the two buttons', its type one of the select's options, and its
    flag vouches for its name.  So whenever its submit button is
    enabled, [addChannel] emits a request, whose channel name is a
    non-empty alphanumeric string and whose type, for a creation, is a
    channel type of Prisma other than [DM]. *)
Theorem popup_reachable_typed p uid :
  rtc pstep popup0 p -> submit_enabled (form p) = true ->
  exists r, addChannel (task p) (cf_name (form p)) (type p) (password_arg p) uid = Some r /\
    isAlphanumeric (req_name r) = true /\ String.length (req_name r) <> 0%nat /\ req_type_ok r.
Proof.
  intros Hr He. destruct (popup_wf_rtc _ _ popup0_wf Hr) as (Ht & Hy & Hf).
  pose proof (submit_enabled_valid _ Hf He). pose proof (submit_enabled_nonempty _ He).
  unfold addChannel.
  destruct (elem_of_two _ _ _ Ht) as [-> | ->], (elem_of_two _ _ _ Hy) as [-> | ->];
    (eexists; split; [reflexivity|]); simpl; (split_and!; [done|done|]); simpl; auto.
Qed.

(** C23. Creating a channel from the popup: for a task [createChannel], a
    type the select offers and an enabled submit button, a name no
    channel has and an existing user, the gateway inserts the channel
    with the hash of the typed password (none when it is empty) and the
    user as its [OWNER]; the acknowledgement closes the popup, clears
    its name and password, and selects the new channel. *)
Theorem create_submit_selects hash now sid uid p v w u t :
  task p = "createChannel" -> prisma_type (type p) = Some t -> submit_enabled (form p) = true ->
  chat_ok (cdb w) -> channel_by_name (cdb w) (cf_name (form p)) = None -> user_by_id (core (cdb w)) uid = Some u ->
  exists w', submit hash now sid uid p v w = (Ok (handleClose p, set_selected (next_channel_id (cdb w)) v), w') /\
    channel_by_name (cdb w') (cf_name (form p)) =
      Some (mkChannel (next_channel_id (cdb w)) (cf_name (form p)) t (hash <$> password_arg p) (Some uid)) /\
    member_of (cdb w') (next_channel_id (cdb w)) uid =
      Some (mkChannelUser (next_channel_id (cdb w)) uid OWNER false now now now).
Proof.
  intros Ht Hy He Hok Hn Hu.
  assert (cf_name (form p) <> ""%string) as Hne by (intros E; apply (submit_enabled_nonempty _ He); by rewrite E).
  destruct (createChannel_fresh hash now sid _ t (password_arg p) uid w u Hok Hne Hn Hu) as (w' & Hc & Hn' & Hm').
  rewrite password_arg_hash in Hc, Hn'. exists w'. split; [|done].
  unfold submit, addChannel. rewrite Ht. simpl. unfold send. rewrite Hy. by rewrite (bind_Ok _ _ _ _ _ Hc).
Qed.

(** A name already taken: the gateway alerts the sender, changes no
    table, and sends no acknowledgement, so the popup stays open with
    the typed name and password and the selection does not move. *)
Theorem taken_name_keeps_popup hash now sid uid p v w t ch :
  task p = "createChannel" -> prisma_type (type p) = Some t -> cf_name (form p) <> ""%string ->
  channel_by_name (cdb w) (cf_name (form p)) = Some ch ->
  submit hash now sid uid p v w =
    (Ok (p, v), mkChatWorld (cdb w) (client_user w) (crooms w)
                  (coutbox w ++ [(ToRooms [RSocket sid], CAlert "Channel name already taken")]) (cdisconnected w)).
Proof.
  intros Ht Hy Hne Hc. unfold submit, addChannel. rewrite Ht. simpl. unfold send. rewrite Hy.
  unfold ChatGateway.createChannel, ChannelService.create, ChannelService.getChannelByName, cdb_call, alert, cemit.
  run_m. rewrite (bool_decide_true (cf_name (form p) ≠ ""%string)) by done. simpl. rewrite Hc.
  by destruct w.
Qed.

(** ** Witnesses *)

(** User 12 on the demo chat: the Create button, the type [PRIVATE], the
    name [games], the password [pw]. *)
Definition demo_popup : Popup :=
  onName "games" (setPassword "pw" (setType "PRIVATE" (setTask "createChannel" (handleClick popup0)))).

Lemma demo_popup_reached : rtc pstep popup0 demo_popup.
Proof.
  eapply rtc_l; [apply ps_click|]. eapply rtc_l; [apply ps_create; reflexivity|].
  eapply rtc_l; [apply (ps_type _ "PRIVATE"); [reflexivity|reflexivity|repeat constructor]|].
  eapply rtc_l; [apply (ps_password _ "pw"); reflexivity|].
  eapply rtc_l; [apply (ps_name _ "games"); reflexivity|]. apply rtc_refl.
Qed.

Lemma popup_reachable_typed_witness :
  rtc pstep popup0 demo_popup /\ submit_enabled (form demo_popup) = true /\
  exists r, addChannel (task demo_popup) (cf_name (form demo_popup)) (type demo_popup) (password_arg demo_popup) 12
              = Some r /\
    isAlphanumeric (req_name r) = true /\ String.length (req_name r) <> 0%nat /\ req_type_ok r.
Proof.
  split; [exact demo_popup_reached|]. split; [reflexivity|].
  exact (popup_reachable_typed demo_popup 12 demo_popup_reached eq_refl).
Defined.

Lemma demo_chat_ok : chat_ok demo_chat.
Proof. apply (bool_decide_unpack _). vm_compute. reflexivity. Qed.

Lemma create_submit_selects_witness :
  exists w', submit (fun s => s) 0 "s12" 12 demo_popup demo_typed_view (demo_bar_world demo_chat) =
    (Ok (handleClose demo_popup, set_selected 7 demo_typed_view), w') /\
    channel_by_name (cdb w') "games" = Some (mkChannel 7 "games" PRIVATE (Some "pw") (Some 12)) /\
    member_of (cdb w') 7 12 = Some (mkChannelUser 7 12 OWNER false 0 0 0).
Proof.
  exact (create_submit_selects (fun s => s) 0 "s12" 12 demo_popup demo_typed_view (demo_bar_world demo_chat)
           (demo_user 12) PRIVATE eq_refl eq_refl eq_refl demo_chat_ok eq_refl eq_refl).
Defined.

(** The same popup with the name [club], which channel 5 has. *)
Lemma taken_name_keeps_popup_witness :
  let p := onName "club" demo_popup in
  submit (fun s => s) 0 "s12" 12 p demo_typed_view (demo_bar_world demo_chat) =
    (Ok (p, demo_typed_view),
     mkChatWorld demo_chat [] JsRooms.empty [(ToRooms [RSocket "s12"], CAlert "Channel name already taken")] []).
Proof.
  exact (taken_name_keeps_popup (fun s => s) 0 "s12" 12 (onName "club" demo_popup) demo_typed_view
           (demo_bar_world demo_chat) PRIVATE (mkChannel 5 "club" PUBLIC None (Some 1)) eq_refl eq_refl
           ltac:(discriminate) eq_refl).
Defined.
