(* ===== verification/ChatEffects.v ===== *)
(** * The chat page's listeners, effects and conversation pane

    src/app/frontend/src/components/Chat/ChatPage.tsx: the listeners its
    effects register on the chat socket ([update], [newMessage],
    [announcement], [alert]) as one function [on_payload] from a
    gateway event to the new view and the page's reactions (the requests
    it emits, the alerts it opens); the effects run on mount and on a
    change of [selectedId]; and the pane it draws: the selected
    conversation with its messages, or an empty container.  The view and
    the handlers are those of ChatView.v and ChatPage.v. *)

From stdpp Require Import base list strings.
From Stdlib Require Import ZArith Lia.
From S2P Require Import Prelude Store Chat ChatGateway ChatPage ChatView.

Open Scope Z_scope.

Module ChatListeners.

(** What the page does in answer to an event: a request of [update], a
    request of the view, or [alert(response)]. *)
Inductive Reaction := RChat (r : ChatRequest) | RView (r : ViewRequest) | RAlert (msg : string).

(** [handleAlert] *)
Definition handleAlert (msg : string) : list Reaction := [RAlert msg].

(** The view's requests: [update({ toUpdate })] carries no [channelId]. *)
Definition view_reactions (sel : Z) (rs : list ViewRequest) : list Reaction :=
  rs ≫= fun r => match r with
                 | VUpdate f => RChat <$> update f None sel
                 | VGetMessages c => [RView (VGetMessages c)]
                 end.

(** The four listeners, one per event of the gateway. *)
Definition on_payload (p : ChatPayload) (v : ChatView) : ChatView * list Reaction :=
  match p with
  | CUpdate f ch => (v, RChat <$> update f ch (selectedId v))
  | CNewMessage m => (v, view_reactions (selectedId v) (ChatView.recvMessage m v))
  | CAnnouncement a cid => (ChatView.handleAnnounce a cid v, [])
  | CAlert msg => (v, handleAlert msg)
  end.

(** The page's own effects of the first render, in their order: [update({ toUpdate:
    31 })], then [updateMessages(selectedId)]. *)
Definition mount (v : ChatView) : list Reaction :=
  (RChat <$> update 31 None (selectedId v)) ++ [RView (ChatView.updateMessages (selectedId v))].

(** The effect on [[selectedId]]: it runs when the id changed. *)
Definition select_effect (v v' : ChatView) : list Reaction :=
  if bool_decide (selectedId v = selectedId v') then [] else [RView (ChatView.updateMessages (selectedId v'))].

(** The pane: the selected conversation with the messages of senders the
    user did not block, or an empty [ChatContainer]. *)
Inductive Shown := SEmpty | SConvo (c : IConversation) (ms : list Message).

Definition shown (blocked : list Z) (v : ChatView) : Shown :=
  match ChatView.selectedConvo v with
  | Some c => SConvo c (ChatView.visible blocked (view_messages v))
  | None => SEmpty
  end.

(** A message's [position]: [last] for the server's announcements. *)
Definition message_position (m : Message) : string := if fromId m =? -1 then "last" else "single".

End ChatListeners.

Import ChatListeners.

(** ** Properties *)

(** The first render asks for everything: the five requests of
    [update(31)], the channel users of the selected conversation among
    them, then the selected conversation's messages. *)
Lemma mount_requests v :
  mount v = [RChat QChannelsJoined; RChat QPublicChannels; RChat QPrivateConvo;
             RChat (QChannelUsers (selectedId v)); RChat QOnlineUsers;
             RView (VGetMessages (Z.abs (selectedId v)))].
Proof. reflexivity. Qed.

(** An announcement for the open conversation is drawn at the end of
    its pane, as the server's, at position [last]; the listener asks
    nothing of the gateway. *)
Theorem announcement_drawn_last a v blocked c :
  ChatView.selectedConvo v = Some c -> -1 ∉ blocked ->
  exists m, on_payload (CAnnouncement a (selectedId v)) v =
              (mkChatView (channelList v) (dmList v) (selectedId v) (view_messages v ++ [m]), []) /\
    shown blocked (on_payload (CAnnouncement a (selectedId v)) v).1 =
      SConvo c (ChatView.visible blocked (view_messages v) ++ [m]) /\
    fromUsername m = "Server" /\ content m = a /\ message_position m = "last".
Proof.
  intros Hc Hb. unfold on_payload, ChatView.handleAnnounce. rewrite bool_decide_true by done.
  eexists. split; [reflexivity|]. split; [|done]. unfold shown, ChatView.visible. simpl.
  replace (ChatView.selectedConvo _) with (ChatView.selectedConvo v) by done. rewrite Hc.
  rewrite filter_app, filter_cons_True; [done|exact Hb].
Qed.

(** The open channel 5 of ChatView.v's demo view: [Server]'s line is
    drawn last. *)
Lemma announcement_drawn_last_witness :
  exists m, on_payload (CAnnouncement "u3 joined this channel" 5) demo_view =
              (mkChatView (channelList demo_view) (dmList demo_view) 5 (view_messages demo_view ++ [m]), []) /\
    shown [2] (on_payload (CAnnouncement "u3 joined this channel" 5) demo_view).1 =
      SConvo (mkIConversation 5 "club" (Some 1)) (ChatView.visible [2] (view_messages demo_view) ++ [m]) /\
    fromUsername m = "Server" /\ content m = "u3 joined this channel" /\ message_position m = "last".
Proof.
  apply (announcement_drawn_last "u3 joined this channel" demo_view [2] (mkIConversation 5 "club" (Some 1)));
    [reflexivity | rewrite list_elem_of_singleton; discriminate].
Defined.
