(* ===== verification/Avatar.v ===== *)
(** * The avatar card of the settings page and the upload route

    The avatar part of src/app/frontend/src/components/User/
    UserSettings.tsx ([handleChange] on the file input, the save button,
    the message or preview under it, [removeElement("avatar")],
    [handleAvatar]) and the route
    [POST /users/upload-avatar] of src/app/backend/src/user/
    user.controller.ts with its multer [FileInterceptor]: the
    [fileFilter] on the file's name, the stored name ([randomName] and
    [extname]) and the URL the handler stores.  The page checks the
    file's MIME type, the server its name: the two regular expressions
    are written out as the functions [mime_ok] and [ext_ok]. *)

From stdpp Require Import base list strings.
From Stdlib Require Import ZArith Lia Ascii.
From S2P Require Import Prelude Store Chat Profile Auth UserController Browser ChatMenu.

Open Scope Z_scope.

(** ** Strings *)

(** ASCII lower case, as the [i] flag compares. *)
Definition to_lower (c : ascii) : ascii :=
  let n := nat_of_ascii c in
  if ((65 <=? n) && (n <=? 90))%nat then ascii_of_nat (n + 32) else c.

Fixpoint lower (s : string) : string :=
  match s with EmptyString => EmptyString | String c s' => String (to_lower c) (lower s') end.

(** An unanchored regular expression on a literal: some suffix of [s]
    starts with [p]. *)
Fixpoint contains (p s : string) : bool :=
  String.prefix p s || match s with EmptyString => false | String _ s' => contains p s' end.

(** A regular expression anchored at the end, on a literal: some suffix
    of [s] is [p]. *)
Fixpoint ends_with (p s : string) : bool :=
  String.eqb s p || match s with EmptyString => false | String _ s' => ends_with p s' end.

(** [/image\/(png|jpg|jpeg)/i.test] of the page. *)
Definition mime_ok (t : string) : bool :=
  let t := lower t in contains "image/png" t || contains "image/jpg" t || contains "image/jpeg" t.

(** [file.originalname.match(/\.(jpg|jpeg|png)$/)] of the server. *)
Definition ext_ok (name : string) : bool :=
  ends_with ".jpg" name || ends_with ".jpeg" name || ends_with ".png" name.

(** The position of the last ["."]. *)
Fixpoint last_dot (s : string) (i : nat) : option nat :=
  match s with
  | EmptyString => None
  | String c s' =>
      match last_dot s' (S i) with
      | Some j => Some j
      | None => if Ascii.eqb c "."%char then Some i else None
      end
  end.

(** Node's [path.extname] of a file name: from the last dot, none for a
    name that starts with its only dot. *)
Definition extname (name : string) : string :=
  match last_dot name 0 with
  | Some i => if (i =? 0)%nat then "" else String.substring i (String.length name - i) name
  | None => ""
  end.

(** ** The upload route *)

(** The file the input holds: [originalname] and its MIME [type]. *)
Record File := mkFile { f_name : string; f_type : string }.

(** multer's [diskStorage] and [fileFilter]: the stored name
    [randomName + extname(file.originalname)], or the
    [BadRequestException] of a name without an image extension. *)
Definition FileInterceptor (randomName : string) (f : File) : option string :=
  if ext_ok (f_name f) then Some (randomName +:+ extname (f_name f)) else None.

(** [http://${APP_HOSTNAME_URL}:${BACKEND_PORT}/images/${file.filename}] *)
Definition image_url (host port filename : string) : string :=
  "http://" +:+ host +:+ ":" +:+ port +:+ "/images/" +:+ filename.

(** [POST /users/upload-avatar]: Nest runs the guard, then the
    interceptor (a refused file is a 400, an error answer), then
    [uploadFile]. *)
Definition uploadAvatarRoute (host port randomName : string) (req : Request) (f : File) : SM (Http string) :=
  JwtGuard req (fun _ =>
    match FileInterceptor randomName f with
    | None => ret HError
    | Some fn => UserController.uploadFile req (image_url host port fn)
    end).

(** ** The avatar card *)

Module AvatarCard.

(** [data.avatarStr], [data.avatarUrl] and [avatarFileOk]. *)
Record Card := mkCard { avatarStr : string; avatarUrl : option string; avatarFileOk : bool }.

Definition card0 : Card := mkCard "" None true.

(** [handleChange] on the file input: the input's value, the preview
    URL [URL.createObjectURL(file)], and the MIME check. *)
Definition handleChange_avatar (value objectURL : string) (f : File) (c : Card) : Card :=
  mkCard value (Some objectURL) (mime_ok (f_type f)).

(** [disabled={data.avatarStr.length === 0 || !avatarFileOk}] *)
Definition avatar_save_enabled (c : Card) : bool :=
  negb (String.length (avatarStr c) =? 0)%nat && avatarFileOk c.

(** Under the input: the invalid-file message, else the preview of
    [data.avatarUrl] when there is one. *)
Inductive AvatarMsg := AInvalid | APreview (url : string).

Definition avatar_message (c : Card) : option AvatarMsg :=
  if negb (avatarFileOk c) then Some AInvalid else APreview <$> avatarUrl c.

(** [removeElement("avatar")] *)
Definition removeAvatar (c : Card) : Card := mkCard "" None (avatarFileOk c).

(** [handleAvatar]: with a cookie, the upload; on its answer the URL,
    an alert and a reload.  A refused upload rejects the [await], which
    nothing catches: the page stays. *)
Definition handleAvatar (host port randomName : string) (now : Z) (f : File) (b : Browser) : SM Browser :=
  match cookie b with
  | None => ret b
  | Some _ =>
      let* r := uploadAvatarRoute host port randomName (request_of (cookie b) now) f in
      match r with HDone _ => load now (cookie b) (path b) | _ => ret b end
  end.
End AvatarCard.

(** ** What the upload does *)

(** The invalid-file message always comes with a disabled save button. *)
Lemma invalid_file_disables_save c :
  AvatarCard.avatar_message c = Some AvatarCard.AInvalid -> AvatarCard.avatar_save_enabled c = false.
Proof.
  unfold AvatarCard.avatar_message, AvatarCard.avatar_save_enabled.
  destruct (AvatarCard.avatarFileOk c); [|by rewrite andb_false_r]. by destruct (AvatarCard.avatarUrl c).
Qed.

Lemma jwt_validate_Some p t u x : jwt_validate p t = Some (u, x) -> auth_user p (tk_sub t) = Some (u, x).
Proof. unfold jwt_validate. destruct (auth_user p _) as [[v y]|]; [|done]. repeat case_match; intros; by simplify_eq. Qed.

(** [JwtStrategy] gives the same verdict on columns with the same 2FA
    flag. *)
Lemma jwt_validate_same_2fa p p' t u x y :
  auth_user p' (tk_sub t) = Some (u, y) -> isTwoFactorEnabled y = isTwoFactorEnabled x ->
  jwt_validate p t = Some (u, x) -> jwt_validate p' t = Some (u, y).
Proof.
  intros Ha Hf Hv. pose proof (jwt_validate_Some _ _ _ _ Hv) as Hx. revert Hv.
  unfold jwt_validate. rewrite Ha, Hx, Hf. repeat case_match; intros; by simplify_eq.
Qed.

Lemma authenticate_with_Some s req au :
  authenticate_with jwt_validate s req = Some au ->
  exists t, req_token req = Some t /\ token_valid s (req_now req) t = true /\ jwt_validate (app s) t = Some au.
Proof.
  unfold authenticate_with. destruct (req_token req) as [t|]; [|done].
  destruct (token_valid s _ t) eqn:?; [|done]. intros. by exists t.
Qed.

(** The avatar column [uploadAvatar] writes. *)
Definition with_avatar (url : string) (x : UserCols) : UserCols :=
  mkUserCols (x_id x) (email x) (Some url) (twoFactorSecret x) (isTwoFactorEnabled x) (isKnown x).

(** The route for an admitted user and a file the filter takes: the
    stored URL, written in the user's columns and nowhere else. *)
Lemma uploadAvatarRoute_run host port rnd req f s u x fn :
  authenticate_with jwt_validate s req = Some (u, x) -> FileInterceptor rnd f = Some fn ->
  exists p', uploadAvatarRoute host port rnd req f s = (Ok (HDone (image_url host port fn)), set_app p' s) /\
    pcore p' = pcore (app s) /\ cols_of p' (u_id u) = Some (with_avatar (image_url host port fn) x).
Proof.
  intros Ha Hfi. destruct (authenticate_with_Some _ _ _ Ha) as (t & _ & _ & Hv).
  pose proof (jwt_validate_Some _ _ _ _ Hv) as Hau.
  destruct (auth_user_Some _ _ _ _ Hau) as [Hu Hid].
  destruct (cols_update_run (u_id u) (with_avatar (image_url host port fn)) (app s) u x) as (p' & Hrun & Hcore & Hcols);
    [done|by rewrite Hid|by rewrite Hid; eapply auth_user_cols|].
  exists p'. split; [|done].
  unfold uploadAvatarRoute, JwtGuard, guard_with. rewrite Ha, Hfi.
  unfold UserController.uploadFile, JwtGuard, guard_with, respond. rewrite Ha.
  unfold acall, zoom, ProfileService.uploadAvatar, catch. cbv beta iota delta [bind ret].
  fold (with_avatar (image_url host port fn)). by rewrite Hrun.
Qed.

(** An admitted user stays admitted, with the new columns, after a write
    that keeps the users' rows, the tokens and the 2FA flag. *)
Lemma authenticate_with_set_app s p' req u x y :
  pcore p' = pcore (app s) -> cols_of p' (u_id u) = Some y -> isTwoFactorEnabled y = isTwoFactorEnabled x ->
  authenticate_with jwt_validate s req = Some (u, x) -> authenticate_with jwt_validate (set_app p' s) req = Some (u, y).
Proof.
  intros Hcore Hy Hf Ha. destruct (authenticate_with_Some _ _ _ Ha) as (t & Ht & Hval & Hv).
  destruct (auth_user_Some _ _ _ _ (jwt_validate_Some _ _ _ _ Hv)) as [Hu Hid].
  unfold authenticate_with. rewrite Ht. change (token_valid (set_app p' s)) with (token_valid s). rewrite Hval.
  apply (jwt_validate_same_2fa (app s) _ _ _ x); [|done|done].
  cbn [app set_app]. unfold auth_user. by rewrite Hcore, Hu, <- Hid, Hy.
Qed.

(** Saving an avatar whose name the server's filter takes, on a
    session the server admits, stores the URL [uploadFile] builds from
    the random name and the file's extension, and the page reloads with
    the user's new avatar at the same path; the tokens and the users'
    rows are kept. *)
Theorem avatar_save_shows_new_avatar host port rnd now f b s u x :
  context_user s now (cookie b) = Some (u, x) -> ext_ok (f_name f) = true ->
  let x' := with_avatar (image_url host port (rnd +:+ extname (f_name f))) x in
  exists s', AvatarCard.handleAvatar host port rnd now f b s =
    (Ok (mkBrowser (cookie b) (Some (u, x')) (App (Some (u, x')) (path b)).1 (App (Some (u, x')) (path b)).2), s')
    /\ issued s' = issued s /\ pcore (app s') = pcore (app s).
Proof.
  intros Hctx Hext x'. unfold AvatarCard.handleAvatar.
  destruct (cookie b) as [c|]; [|done]. simpl in Hctx.
  destruct (uploadAvatarRoute_run host port rnd _ f s u x (rnd +:+ extname (f_name f)) Hctx)
    as (p' & Hrun & Hcore & Hcols); [by unfold FileInterceptor; rewrite Hext|].
  rewrite (bind_Ok _ _ _ _ _ Hrun). simpl. rewrite load_run. simpl.
  rewrite (authenticate_with_set_app _ _ _ _ x x' Hcore Hcols eq_refl Hctx). by eexists.
Qed.

(** C39. A file whose name the server's filter refuses changes nothing:
    the upload is a 400 (or a 401), the [await] rejects, and the page
    and the server stay as they were. *)
Theorem refused_avatar_changes_nothing host port rnd now f b s :
  ext_ok (f_name f) = false -> AvatarCard.handleAvatar host port rnd now f b s = (Ok b, s).
Proof.
  intros Hext. unfold AvatarCard.handleAvatar, uploadAvatarRoute, JwtGuard, guard_with, FileInterceptor.
  rewrite Hext. destruct (cookie b); [|done]. cbv beta iota delta [bind ret respond].
  by destruct (authenticate_with _ _ _).
Qed.

(** ** The stored name *)

Lemma ends_with_sound p s : ends_with p s = true -> exists pre, s = pre +:+ p.
Proof.
  induction s as [|c s IH]; cbn [ends_with]; intros H; apply orb_true_iff in H as [H|H].
  - apply String.eqb_eq in H as <-. by exists "".
  - done.
  - apply String.eqb_eq in H as <-. by exists "".
  - destruct (IH H) as [pre ->]. by exists (String c pre).
Qed.

(** [String.append] is [simpl never]: its two equations. *)
Lemma string_app_nil s : "" +:+ s = s.
Proof. reflexivity. Qed.
Lemma string_app_cons c s t : String c s +:+ t = String c (s +:+ t).
Proof. reflexivity. Qed.

Lemma string_length_app s t : String.length (s +:+ t) = (String.length s + String.length t)%nat.
Proof. induction s as [|c s IH]; [done|]. rewrite string_app_cons. simpl. by rewrite IH. Qed.

Lemma substring_app pre p : String.substring (String.length pre) (String.length p) (pre +:+ p) = p.
Proof.
  induction pre as [|c pre IH].
  - rewrite string_app_nil. simpl. induction p as [|c p IHp]; simpl; [done|by rewrite IHp].
  - rewrite string_app_cons. exact IH.
Qed.

(** The last dot of [pre ++ p] is the one that starts [p], when [p]
    starts with its only dot. *)
Lemma last_dot_app pre p i :
  (forall j, last_dot p j = Some j) -> last_dot (pre +:+ p) i = Some (i + String.length pre)%nat.
Proof.
  intros Hp. revert i. induction pre as [|c pre IH]; intros i.
  - by rewrite string_app_nil, Hp, Nat.add_0_r.
  - rewrite string_app_cons. simpl. rewrite IH. f_equal. lia.
Qed.

Lemma extname_app pre p :
  (forall j, last_dot p j = Some j) ->
  extname (pre +:+ p) = if (String.length pre =? 0)%nat then "" else p.
Proof.
  intros Hp. unfold extname. rewrite last_dot_app by done. simpl.
  destruct (String.length pre =? 0)%nat; [done|].
  rewrite string_length_app, Nat.add_sub_swap, Nat.sub_diag by lia. simpl. apply substring_app.
Qed.

(** The three extensions the filter takes. *)
Definition image_exts : list string := [".jpg"; ".jpeg"; ".png"].

Lemma ext_ok_split name :
  ext_ok name = true -> exists pre e, e ∈ image_exts /\ (forall j, last_dot e j = Some j) /\ name = pre +:+ e.
Proof.
  unfold ext_ok. intros H. repeat apply orb_true_iff in H as [H|H];
    destruct (ends_with_sound _ _ H) as [pre ->]; eexists pre, _;
    (split_and!; [| |reflexivity]; [unfold image_exts; by repeat constructor|intros; reflexivity]).
Qed.

(** The file multer stores keeps the image extension of the
    uploaded name, after the random name; a name that is only an
    extension (the name [.png]) passes the filter, but [extname] gives it
    none, and the file is stored under the bare random name. *)
Theorem stored_name_extension rnd f fn :
  FileInterceptor rnd f = Some fn ->
  exists e, e ∈ image_exts /\ (fn = rnd +:+ e \/ (f_name f = e /\ fn = rnd)).
Proof.
  unfold FileInterceptor. destruct (ext_ok (f_name f)) eqn:E; [|done]. intros [= <-].
  destruct (ext_ok_split _ E) as (pre & e & He & Hdot & Hname). exists e. split; [done|].
  rewrite Hname, extname_app by done. destruct pre as [|c pre].
  - right. by rewrite string_app_nil_r.
  - by left.
Qed.

(** ** Witnesses

    User 3 of ChatMenu.v's server, on the chat page with its own token,
    on the server [localhost:3000]. *)

Definition demo_png : File := mkFile "cat.png" "image/png".

Lemma avatar_save_shows_new_avatar_witness :
  let x' := with_avatar "http://localhost:3000/images/0123.png" (demo_cols 3) in
  context_user demo_menu_server 0 (cookie demo_menu_browser) = Some (demo_user3, demo_cols 3) /\
  ext_ok (f_name demo_png) = true /\
  exists s', AvatarCard.handleAvatar "localhost" "3000" "0123" 0 demo_png demo_menu_browser demo_menu_server =
    (Ok (mkBrowser (cookie demo_menu_browser) (Some (demo_user3, x')) ["chat"] (Some 103)), s')
    /\ issued s' = issued demo_menu_server /\ pcore (app s') = pcore (app demo_menu_server).
Proof.
  intros x'. split; [vm_compute; reflexivity|]. split; [vm_compute; reflexivity|].
  apply (avatar_save_shows_new_avatar "localhost" "3000" "0123" 0 demo_png demo_menu_browser demo_menu_server
           demo_user3 (demo_cols 3)); vm_compute; reflexivity.
Defined.

(** The page takes [me.PNG] of type [image/png], the server refuses its
    upper-case extension. *)
Definition demo_upper : File := mkFile "me.PNG" "image/png".

Lemma refused_avatar_changes_nothing_witness :
  AvatarCard.avatar_save_enabled (AvatarCard.handleChange_avatar "C:\fakepath\me.PNG" "blob:1" demo_upper AvatarCard.card0) = true /\
  ext_ok (f_name demo_upper) = false /\
  AvatarCard.handleAvatar "localhost" "3000" "0123" 0 demo_upper demo_menu_browser demo_menu_server =
    (Ok demo_menu_browser, demo_menu_server).
Proof.
  split; [vm_compute; reflexivity|]. split; [vm_compute; reflexivity|].
  apply refused_avatar_changes_nothing. vm_compute. reflexivity.
Defined.

Lemma stored_name_extension_witness :
  FileInterceptor "0123" (mkFile ".png" "image/png") = Some "0123" /\
  exists e, e ∈ image_exts /\ ("0123" = "0123" +:+ e \/ (f_name (mkFile ".png" "image/png") = e /\ "0123" = "0123")).
Proof.
  split; [vm_compute; reflexivity|].
  apply (stored_name_extension "0123" (mkFile ".png" "image/png")). vm_compute. reflexivity.
Defined.
