(* ===== verification/Pages.v ===== *)
(** * The home and profile pages: ranking, rank medal and game history

    What the pages of the frontend compute from the answers of the HTTP
    API of UserController.v:
    - [Ranking] (src/app/frontend/src/components/Home/Ranking.tsx): the
      users with at least one game, the first three on the podium and
      the next four as cards, numbered;
    - [Stats] (src/app/frontend/src/components/User/ProfileUtils/Stats.tsx):
      the medal, the position of the requested user among the users with
      a game, shown only on the viewer's own profile;
    - [UserProfile] (.../User/UserProfile.tsx): the [requestedUser] it
      passes, the route parameter [id] (a string) or the viewer's numeric
      id;
    - [GameHistoryCard] (.../ProfileUtils/GameHistory.tsx) and
      [RecentGameCard] (.../Home/RecentGames.tsx): the result a card
      shows;
    - [RecentGames] (.../Home/RecentGames.tsx): the cards shown and the
      [Show more] toggle, with React's slot for its [useState], which a
      render returning early never reaches.
    JavaScript values compared with [===] are [JsVal]s: a number and a
    string are never strictly equal. *)

From stdpp Require Import base list strings sets.
From Stdlib Require Import ZArith Lia.
From S2P Require Import Prelude Store Chat Profile.

Open Scope Z_scope.

Inductive JsVal := JNum (n : Z) | JStr (s : string) | JUndefined.

(** [===] *)
Definition strict_eq (a b : JsVal) : bool :=
  match a, b with
  | JNum x, JNum y => x =? y
  | JStr x, JStr y => bool_decide (x = y)
  | JUndefined, JUndefined => true
  | _, _ => false
  end.

(** [user.wins || user.loses]: a user with at least one game. *)
Definition played (u : User) : bool := negb (wins u =? 0) || negb (loses u =? 0).

(** [Ranking]: [None] is "No ranking found" (at most one player); else
    the podium [ranking.slice(0, 3)] numbered from 1 and the cards
    [ranking.slice(3, 7)] numbered from 4. *)
Definition Ranking (rankingData : list User) : option (list (nat * User)) :=
  let ranking := filter played rankingData in
  if (length ranking <=? 1)%nat then None
  else Some (imap (fun i u => (i + 1, u)) (take 3 ranking) ++
             imap (fun i u => (i + 4, u)) (take 4 (drop 3 ranking)))%nat.

(** [Stats]' rank: [findIndex(ranked => ranked?.id === requestedUser)]
    among the users with a game, plus one; 0 ("none") when absent. *)
Definition stats_rank (rankData : list User) (requestedUser : JsVal) : nat :=
  match findIndex (fun r => strict_eq (JNum (u_id r)) requestedUser) (filter played rankData) with
  | Some i => S i
  | None => 0%nat
  end.

(** The medal is drawn when [requestedUser === user?.id]. *)
Definition stats_shows_rank (requestedUser : JsVal) (viewerId : Z) : bool :=
  strict_eq requestedUser (JNum viewerId).

(** [UserProfile]'s [requestedUser={id ? id : user?.id}]: the route
    parameter when there is a non-empty one. *)
Definition requested_user (id : option string) (viewerId : Z) : JsVal :=
  match id with
  | Some s => if bool_decide (s = "") then JNum viewerId else JStr s
  | None => JNum viewerId
  end.

(** [GameHistoryCard]: ["win"] when the viewer (not the profile's user)
    won the game. *)
Definition history_result (viewerAuthId : Z) (g : Game) : string :=
  if strict_eq (JNum viewerAuthId) (match winnerId g with Some w => JNum w | None => JUndefined end)
  then "win" else "lose".

(** [RecentGameCard]: which side is marked as the winner. *)
Definition recent_winner (g : Game) : bool * bool :=
  let w := match winnerId g with Some w => JNum w | None => JUndefined end in
  if strict_eq (JNum (leftPlayerId g)) w then (true, false)
  else if strict_eq (JNum (rightPlayerId g)) w then (false, true)
  else (false, false).

(** [RecentGames]: the cards shown and the [Show more] button.  The
    component returns early on an empty list, before its [useState]: the
    hook's slot is [None] until a render with games reaches it.  React
    mounts the slot on the first render that calls the hook (the fiber
    had no hook state) and afterwards keeps it, ignoring the initial
    value; a render that stops calling it throws ("Rendered fewer
    hooks"). *)
Module RecentGames.

Record Display := mkDisplay { gamesEl : list Game; btn : string }.

(** [recentGames.slice(0, 4)] *)
Definition shortGames (recentGames : list Game) : list Game := take 4 recentGames.

Definition display0 (recentGames : list Game) : Display := mkDisplay (shortGames recentGames) "Show more".

(** One render: the hook's slot afterwards, or [None] when React throws. *)
Definition render (recentGames : list Game) (slot : option Display) : option (option Display) :=
  match recentGames, slot with
  | [], None => Some None
  | [], Some _ => None
  | _ :: _, None => Some (Some (display0 recentGames))
  | _ :: _, Some d => Some (Some d)
  end.

(** The cards of a render: [No game found], or [display.gamesEl]. *)
Definition shown (slot : option Display) : list Game := match slot with Some d => gamesEl d | None => [] end.

(** [allGamesEl?.length > 4] *)
Definition button_shown (recentGames : list Game) : bool := bool_decide (4 < length recentGames)%nat.

(** [handleClick], with the lists of the render that drew the button. *)
Definition handleClick (recentGames : list Game) (d : Display) : Display :=
  if String.eqb (btn d) "Show more" then mkDisplay recentGames "Show less"
  else mkDisplay (shortGames recentGames) "Show more".
End RecentGames.

(** ** The rank on one's own profile is the ranking's number *)

Lemma findIndex_unique {A} (f : A -> Z) (l : list A) i u :
  NoDup (f <$> l) -> l !! i = Some u -> findIndex (fun x => f x =? f u) l = Some i.
Proof.
  revert i. induction l as [|x l IH]; intros i Hnd Hi; [done|].
  simpl in Hnd. apply NoDup_cons in Hnd as [Hx Hnd]. destruct i as [|i]; simpl in *.
  - injection Hi as ->. by rewrite Z.eqb_refl.
  - destruct (Z.eqb_spec (f x) (f u)) as [He|_]; [|by rewrite (IH i)].
    exfalso. apply Hx. rewrite He. by eapply list_elem_of_fmap_2, list_elem_of_lookup_2.
Qed.

(** An entry of [Ranking] is the user at its number minus one among
    the users with a game. *)
Lemma Ranking_entry r L k u :
  Ranking r = Some L -> (k, u) ∈ L ->
  exists j, filter played r !! j = Some u /\ k = S j.
Proof.
  unfold Ranking. case_match; [done|]. intros [= <-] Hin.
  apply elem_of_app in Hin as [Hin|Hin]; apply list_elem_of_lookup in Hin as [i Hi];
    apply list_lookup_imap_Some in Hi as (y & Hy & Hk); injection Hk as -> ->.
  - apply lookup_take_Some in Hy as [Hy _]. exists i. split; [done|lia].
  - apply lookup_take_Some in Hy as [Hy _]. rewrite lookup_drop in Hy.
    exists (3 + i)%nat. split; [done|lia].
Qed.

(** On a user's own profile ([/user/profile], no route parameter)
    the medal is drawn and shows the number the home page's [Ranking]
    gives that user, when the users' ids are distinct. *)
Theorem own_profile_rank_matches_ranking (r : list User) (L : list (nat * User)) k u :
  NoDup (u_id <$> r) -> Ranking r = Some L -> (k, u) ∈ L ->
  stats_shows_rank (requested_user None (u_id u)) (u_id u) = true /\
  stats_rank r (requested_user None (u_id u)) = k.
Proof.
  intros Hnd HR Hin. destruct (Ranking_entry _ _ _ _ HR Hin) as (j & Hj & ->).
  unfold stats_shows_rank, stats_rank, requested_user. simpl. rewrite Z.eqb_refl. split; [done|].
  by rewrite (findIndex_unique u_id _ j u (NoDup_map_filter u_id _ r Hnd) Hj).
Qed.

(** On the profile page of a user reached by id
    ([/user/profile/:id]) the rank is never shown, also when the id is
    the viewer's own: the route parameter is a string, [Stats] compares
    it with numeric ids by [===], so [findIndex] finds nobody and the
    medal's condition fails. *)
Theorem profile_by_id_hides_rank (r : list User) (s : string) (viewerId : Z) :
  s <> ""%string ->
  stats_shows_rank (requested_user (Some s) viewerId) viewerId = false /\
  stats_rank r (requested_user (Some s) viewerId) = 0%nat.
Proof.
  intros Hs. unfold stats_shows_rank, stats_rank, requested_user.
  rewrite bool_decide_false by done. split; [done|].
  assert (Hn : findIndex (fun x => strict_eq (JNum (u_id x)) (JStr s)) (filter played r) = None)
    by (apply findIndex_None, Forall_forall; done).
  by rewrite Hn.
Qed.

(** Three players and one without a game. *)
Definition demo_ranking : list User :=
  [mkUser 1 101 "u1" ONLINE 3 1 []; mkUser 2 102 "u2" ONLINE 0 0 [];
   mkUser 3 103 "u3" ONLINE 1 2 []; mkUser 4 104 "u4" ONLINE 0 3 []].

Lemma own_profile_rank_matches_ranking_witness :
  stats_shows_rank (requested_user None 4) 4 = true /\ stats_rank demo_ranking (requested_user None 4) = 3%nat.
Proof.
  apply (own_profile_rank_matches_ranking demo_ranking
           [(1, mkUser 1 101 "u1" ONLINE 3 1 []); (2, mkUser 3 103 "u3" ONLINE 1 2 []);
            (3, mkUser 4 104 "u4" ONLINE 0 3 [])]%nat
           3%nat (mkUser 4 104 "u4" ONLINE 0 3 [])).
  - apply (bool_decide_eq_true_1 _). vm_compute. reflexivity.
  - reflexivity.
  - apply (bool_decide_eq_true_1 _). vm_compute. reflexivity.
Defined.

Lemma profile_by_id_hides_rank_witness :
  stats_shows_rank (requested_user (Some "1") 1) 1 = false /\
  stats_rank demo_ranking (requested_user (Some "1") 1) = 0%nat.
Proof. apply (profile_by_id_hides_rank demo_ranking "1" 1). discriminate. Defined.

Definition demo_game : Game :=
  mkGame 7 None 101 102 (Some "u1") (Some "u2") None None 5 3 (Some 101) (Some 102)
         true false false false None None None.

(** A [GameHistoryCard] on another user's profile says "win" for the
    games the viewer won, not the profile's user: on the profile of user
    2, who lost to user 1, user 1 reads "win". *)
Example history_card_viewer_perspective :
  history_result 101 demo_game = "win"%string /\
  history_result 103 demo_game = "lose"%string.
Proof. split; reflexivity. Qed.

(** The home page renders [RecentGames] with no games, then with the
    games its fetch answers: the slot is mounted on the second render with
    the first four games, and each click on the button alternates
    between all the games and the first four. *)
Theorem recent_games_toggle (l : list Game) (k : nat) :
  l <> [] ->
  exists d, (RecentGames.render [] None ≫= RecentGames.render l) = Some (Some d) /\
    Nat.iter k (RecentGames.handleClick l) d =
      if Nat.even k then RecentGames.display0 l else RecentGames.mkDisplay l "Show less".
Proof.
  destruct l as [|g l]; [done|]. intros _. eexists. split; [reflexivity|].
  induction k as [|k IH]; [done|]. rewrite Nat.iter_succ, IH, Nat.even_succ, <- Nat.negb_even.
  by destruct (Nat.even k).
Qed.

Lemma recent_games_toggle_witness :
  exists d, (RecentGames.render [] None ≫= RecentGames.render [demo_game]) = Some (Some d) /\
    Nat.iter 3 (RecentGames.handleClick [demo_game]) d = RecentGames.mkDisplay [demo_game] "Show less".
Proof. apply (recent_games_toggle [demo_game] 3). discriminate. Defined.
