(* ===== verification/Lobby.v ===== *)
(** * The lobby: the matchmaking page and the invitation popup

    The two pages of the frontend that lead to a game, and how they
    meet the game gateway's [join-room], [leaveQueue], [inviteAccepted]
    and [inviteDeclined] handlers (Matchmaking.v, Invites.v):
    - [MatchMaking] (src/app/frontend/src/components/Game/MatchMaking.tsx):
      [handleJoinGame], [handleLeaveQueue], the ['error'] and
      ['match-found'] listeners and the cleanup of its effect;
    - [InvitePopup] (src/app/frontend/src/components/Chat/Invite/
      InvitePopup.tsx), mounted by the layout on every page: the list of
      received invitations, [selectedInvite], [handleYes], [handleNo],
      [handleBlock], the ['invitation'] and ['inviteAccepted'] listeners
      and the cleanup of its mount effect.
    A page is a record, a handler a function returning the new record
    and the messages it emits ([LobbyMsg]); [navigate] appends the path
    to the page's history. *)

From stdpp Require Import base list strings sets.
From Stdlib Require Import ZArith Lia.
From S2P Require Import Prelude Store World Chat Matchmaking Invites System.

Open Scope Z_scope.

(** The messages of the two pages ([blockUser] goes to the chat
    gateway, on the same socket). *)
Inductive LobbyMsg :=
  | LJoinRoom (userId userAuthId : Z)
  | LLeaveQueue (userAuthId : Z)
  | LInviteAccepted (invitedId : Z) (inviterId : option Z)
  | LInviteDeclined (invitedId : Z) (inviterId : option Z)
  | LBlockUser (userId : Z) (toBlockId : option Z).

(** [navigate(`/game/${gameId}`)] *)
Definition game_path (gameId : Z) : string := "/game/" +:+ js_string_of_Z gameId.

(** ** [MatchMaking] *)

Module MatchMaking.

(** [isInRoom], whether the effect's listeners are registered, the
    [window.alert]s shown and the paths [navigate] went to. *)
Record MMPage := mkMMPage {
  isInRoom : bool;
  listening : bool;
  alerts : list string;
  history : list string
}.

Definition set_in_room (b : bool) (p : MMPage) : MMPage :=
  mkMMPage b (listening p) (alerts p) (history p).

(** The effect, on mount: register ['error'] and ['match-found']. *)
Definition mount (p : MMPage) : MMPage := mkMMPage (isInRoom p) true (alerts p) (history p).

(** Its cleanup: remove both listeners and leave the queue. *)
Definition unmount (userAuthId : Z) (p : MMPage) : MMPage * list LobbyMsg :=
  (mkMMPage (isInRoom p) false (alerts p) (history p), [LLeaveQueue userAuthId]).

Definition handleJoinGame (userId userAuthId : Z) (p : MMPage) : MMPage * list LobbyMsg :=
  (set_in_room true p, [LJoinRoom userId userAuthId]).

Definition handleLeaveQueue (userAuthId : Z) (p : MMPage) : MMPage * list LobbyMsg :=
  (set_in_room false p, [LLeaveQueue userAuthId]).

(** The listeners: ['error'] clears [isInRoom] and alerts;
    ['match-found'] clears it and goes to the game. *)
Definition on_server (e : Payload) (p : MMPage) : MMPage :=
  if listening p then
    match e with
    | PError => mkMMPage false true (alerts p ++ ["You're already in queue / in game"]) (history p)
    | PMatchFound gameId => mkMMPage false true (alerts p) (history p ++ [game_path gameId])
    | _ => p
    end
  else p.

(** What the page draws: the [Join Queue] button, or [Waiting] with its
    [Leave Queue] button; a click on the drawn button runs its handler. *)
Inductive Shown := SJoinQueue | SWaiting.

Definition shown (p : MMPage) : Shown := if isInRoom p then SWaiting else SJoinQueue.

Definition click (userId userAuthId : Z) (p : MMPage) : MMPage * list LobbyMsg :=
  match shown p with
  | SJoinQueue => handleJoinGame userId userAuthId p
  | SWaiting => handleLeaveQueue userAuthId p
  end.
End MatchMaking.

(** ** [InvitePopup] *)

Module InvitePopup.

(** The popup's [IInvite]: the inviter's id and name. *)
Record PopupInvite := mkPopupInvite { inv_id : Z; inv_username : option string }.

(** [invites], the [invites] the unmount cleanup captured (the state of
    the first render: the effect has no dependencies), and the
    navigation history. *)
Record Popup := mkPopup {
  invites : list PopupInvite;
  captured : list PopupInvite;
  history : list string
}.

Definition popup0 : Popup := mkPopup [] [] [].

Definition set_invites (l : list PopupInvite) (p : Popup) : Popup := mkPopup l (captured p) (history p).

(** [invites.find((i) => i.id)?.id]: the first invitation whose id is
    truthy. *)
Definition selectedInvite (p : Popup) : option Z :=
  inv_id <$> find_first (fun i => negb (inv_id i =? 0)) (invites p).

(** [handleYes]: accept the selected invitation, and keep the
    invitations [i] with [i.id != i.id]: none. *)
Definition handleYes (userId : Z) (p : Popup) : Popup * list LobbyMsg :=
  (set_invites (filter (fun i => inv_id i <> inv_id i) (invites p)) p,
   [LInviteAccepted userId (selectedInvite p)]).

(** [handleNo] (also the modal's [onClose]): decline the selected
    invitation and drop it. *)
Definition handleNo (userId : Z) (p : Popup) : Popup * list LobbyMsg :=
  (set_invites (filter (fun i => Some (inv_id i) <> selectedInvite p) (invites p)) p,
   [LInviteDeclined userId (selectedInvite p)]).

(** [handleBlock]: decline, drop, and block the inviter.  The update of
    the context's copy of the block list is not modelled. *)
Definition handleBlock (userId : Z) (p : Popup) : Popup * list LobbyMsg :=
  (set_invites (filter (fun i => Some (inv_id i) <> selectedInvite p) (invites p)) p,
   [LInviteDeclined userId (selectedInvite p); LBlockUser userId (selectedInvite p)]).

(** [recvInvite] and [acceptInvite]: the ['invitation'] and
    ['inviteAccepted'] listeners; [acceptInvite] goes to ['/game/'],
    then, 10 ms later, to the game. *)
Definition on_server (e : Payload) (p : Popup) : Popup :=
  match e with
  | PInvitation inviterId inviterName =>
      set_invites (invites p ++ [mkPopupInvite inviterId inviterName]) p
  | PInviteAccepted _ gameId => mkPopup (invites p) (captured p) (history p ++ ["/game/"; game_path gameId])
  | _ => p
  end.

(** The [Modal]: open while there is an invitation, naming the inviter
    of [selectedInvite]. *)
Definition modal_open (p : Popup) : bool := negb (bool_decide (invites p = [])).

Definition modal_name (p : Popup) : option string :=
  selectedInvite p ≫= fun s => find_first (fun i => inv_id i =? s) (invites p) ≫= inv_username.

(** The cleanup of the mount effect declines the invitations it
    captured. *)
Definition unmount (userId : Z) (p : Popup) : list LobbyMsg :=
  map (fun i => LInviteDeclined userId (Some (inv_id i))) (captured p).
End InvitePopup.

(** ** The pages against the gateway *)

(** The gateway's handler of a message from socket [sid].  An
    [inviteAccepted] with an [undefined] inviter matches no invitation
    and does nothing; [inviteDeclined] never reads its payload. *)
Definition lobby_event (sid : string) (m : LobbyMsg) : option Event :=
  match m with
  | LJoinRoom i a => Some (EJoinRoom sid i a)
  | LLeaveQueue a => Some (ELeaveQueue sid a)
  | LInviteAccepted x (Some y) => Some (EInviteAccepted sid x y)
  | LInviteAccepted _ None => None
  | LInviteDeclined x y => Some (EInviteDeclined sid x (default 0 y))
  | LBlockUser _ _ => None
  end.

(** The page on socket [sid] receives, in order, the events of [out]
    that reach it. *)
Definition deliver_to {P} (on : Payload -> P -> P) (sid : string) (w : World)
    (out : list (Target * Payload)) (p : P) : P :=
  foldl (fun p tp => if bool_decide (sid ∈ recipients w tp.1) then on tp.2 p else p) p out.

(** Two pages of one kind and the gateway: a message of [from] is
    handled, then its events are delivered to both pages. *)
Section Pair.
Context {P : Type} (on : Payload -> P -> P) (sA sB : string).

Record Pair := mkPair { srv : World; pA : P; pB : P }.

Definition serve (from : string) (d : Pair) (m : LobbyMsg) : Pair :=
  match lobby_event from m with
  | None => d
  | Some e =>
      let w' := exec (handle e) (srv d) in
      let out := drop (length (outbox (srv d))) (outbox w') in
      mkPair w' (deliver_to on sA w' out (pA d)) (deliver_to on sB w' out (pB d))
  end.

Definition serve_all (from : string) (ms : list LobbyMsg) (d : Pair) : Pair :=
  foldl (serve from) d ms.

(** Page A (or B) runs a handler, then the gateway serves its messages. *)
Definition act_A (h : P -> P * list LobbyMsg) (d : Pair) : Pair :=
  let '(p', ms) := h (pA d) in serve_all sA ms (mkPair (srv d) p' (pB d)).
Definition act_B (h : P -> P * list LobbyMsg) (d : Pair) : Pair :=
  let '(p', ms) := h (pB d) in serve_all sB ms (mkPair (srv d) (pA d) p').
End Pair.

Arguments Pair : clear implicits.
Arguments mkPair {P}.
Arguments srv {P}.
Arguments pA {P}.
Arguments pB {P}.

(** ** Delivery and the gateway's frame *)

(** A handler step that touches neither the sockets nor the rooms. *)
Ltac frame_sockets :=
  first [apply db_call_frame | apply emit_frame | apply preserves_modify];
  intros until 1; repeat match goal with w : World |- _ => destruct w end; done.

Lemma joinRoom_sockets sid uid a s :
  preserves (fun w => sockets w = s) (Matchmaking.joinRoom sid uid a).
Proof. unfold Matchmaking.joinRoom, Matchmaking.pair_up. preserve_deep. all: frame_sockets. Qed.

Section Delivery.
Context {P : Type} (on : Payload -> P -> P).

Lemma deliver_to_nil sid w p : deliver_to on sid w [] p = p.
Proof. done. Qed.

Lemma deliver_to_skip sid w t e out p :
  on e p = p -> deliver_to on sid w ((t, e) :: out) p = deliver_to on sid w out p.
Proof. intros He. unfold deliver_to. simpl. by case_bool_decide; [rewrite He|]. Qed.

Lemma deliver_to_in sid w t e out p :
  sid ∈ recipients w t -> deliver_to on sid w ((t, e) :: out) p = deliver_to on sid w out (on e p).
Proof. intros Hin. unfold deliver_to. simpl. by rewrite bool_decide_eq_true_2. Qed.
Lemma deliver_to_out sid w t e out p :
  sid ∉ recipients w t -> deliver_to on sid w ((t, e) :: out) p = deliver_to on sid w out p.
Proof. intros Hin. unfold deliver_to. simpl. by rewrite bool_decide_eq_false_2. Qed.
End Delivery.

Lemma recipients_pair w s1 s2 :
  s1 ∈ sockets w -> s2 ∈ sockets w ->
  s1 ∈ recipients w (to_sockets [Some s1; Some s2]) /\ s2 ∈ recipients w (to_sockets [Some s1; Some s2]).
Proof. intros H1 H2. simpl. split; apply list_elem_of_filter; split; [done|set_solver|done|set_solver]. Qed.

(** The page's button: from [Join Queue], two clicks join the queue,
    draw [Waiting], leave it and draw [Join Queue] again. *)
Lemma mm_click_twice uid aid p :
  MatchMaking.shown p = MatchMaking.SJoinQueue ->
  let r1 := MatchMaking.click uid aid p in
  let r2 := MatchMaking.click uid aid (fst r1) in
  MatchMaking.shown (fst r1) = MatchMaking.SWaiting /\ MatchMaking.shown (fst r2) = MatchMaking.SJoinQueue /\
  snd r1 ++ snd r2 = [LJoinRoom uid aid; LLeaveQueue aid].
Proof.
  intros H. cbv zeta. unfold MatchMaking.click. rewrite H. cbn. split_and!; reflexivity.
Qed.

Lemma mm_on_update p : MatchMaking.on_server update28 p = p.
Proof. unfold MatchMaking.on_server. by destruct (MatchMaking.listening p). Qed.

(** C15. Two players meet through the queue (the spec's matchmaking
    scenario, end to end): on an empty queue, when two free users with
    distinct identities click "Join Queue" one after the other on their
    [MatchMaking] pages, both pages leave the waiting screen and go to
    [/game/g] for the same new game [g], which the gateway has created
    with the first player on the left and the second on the right, and
    the queue is empty again. *)
Theorem matchmaking_pairs_pages (sA sB : string) (uA aA uB aB : Z) (d : Pair MatchMaking.MMPage)
    (ua ub : User) :
  waitingQueue (srv d) = [] ->
  user_by_authId (db (srv d)) aA = Some ua -> user_by_authId (db (srv d)) aB = Some ub ->
  status ua <> INGAME -> status ua <> INQUEUE -> status ub <> INGAME -> status ub <> INQUEUE ->
  aA <> aB -> u_id ub <> uA ->
  sA ∈ sockets (srv d) -> sB ∈ sockets (srv d) ->
  MatchMaking.listening (pA d) = true -> MatchMaking.listening (pB d) = true ->
  let d' := act_B MatchMaking.on_server sA sB (MatchMaking.handleJoinGame uB aB)
              (act_A MatchMaking.on_server sA sB (MatchMaking.handleJoinGame uA aA) d) in
  let g := next_game_id (db (srv d)) in
  MatchMaking.history (pA d') = MatchMaking.history (pA d) ++ [game_path g] /\
  MatchMaking.history (pB d') = MatchMaking.history (pB d) ++ [game_path g] /\
  MatchMaking.isInRoom (pA d') = false /\ MatchMaking.isInRoom (pB d') = false /\
  waitingQueue (srv d') = [] /\
  last (games (db (srv d'))) =
    Some (new_game (db (srv d)) (Some (username ua)) (Some (username ub)) (Some sA) (Some sB) aA aB).
Proof.
  intros Hq HuA HuB HsA1 HsA2 HsB1 HsB2 Hne Hid HinA HinB HlA HlB d' g. subst d' g.
  destruct d as [w pa pb]; simpl in *.
  unfold act_A, act_B, MatchMaking.handleJoinGame, serve_all. simpl. unfold serve. simpl.
  destruct (joinRoom_enqueue sA uA aA w ua Hq HuA HsA1 HsA2) as (Hq1 & Ho1 & Hd1 & Hs1 & _).
  set (w1 := exec (Matchmaking.joinRoom sA uA aA) w) in *.
  rewrite Ho1.
  rewrite (drop_app_length (outbox w)), !deliver_to_skip by apply mm_on_update. rewrite !deliver_to_nil.
  destruct (proj2 (proj2 (proj2 (user_update_frame (key_id uA) [UStatus INQUEUE] (db w))) aA)
              (mk_is_Some _ _ HuA)) as [ua1 Hua1]. rewrite <- Hd1 in Hua1.
  assert (HuB1 : user_by_authId (db w1) aB = Some ub)
    by (rewrite Hd1; by apply user_by_authId_user_update_other).
  destruct (joinRoom_pairs_fifo sB uB aB w1 _ ua1 ub Hq1 Hne Hua1 HuB1 HsB1 HsB2) as (Hq2 & Hl2 & Ho2).
  set (w2 := exec (Matchmaking.joinRoom sB uB aB) w1) in *.
  assert (Hs2 : sockets w2 = sockets w) by (rewrite <- Hs1; by apply joinRoom_sockets).
  destruct (recipients_pair w2 sA sB) as [RA RB]; [by rewrite Hs2 | by rewrite Hs2 |].
  rewrite Ho2, Ho1, drop_app_length, !(deliver_to_skip _ _ _ _ update28) by apply mm_on_update.
  cbn [iu_socketId]. rewrite (deliver_to_in _ _ _ _ _ _ _ RA), (deliver_to_in _ _ _ _ _ _ _ RB), !deliver_to_nil.
  unfold MatchMaking.on_server, MatchMaking.set_in_room. simpl. rewrite HlA, HlB. simpl.
  unfold new_game in *. rewrite Hd1, next_game_id_user_update in Hl2 |- *. by split_and!.
Qed.

Lemma recipients_socket w s s' :
  s ∈ sockets w -> s' <> s ->
  s ∈ recipients w (to_socket (Some s)) /\ s' ∉ recipients w (to_socket (Some s)).
Proof.
  intros Hs Hne. simpl. split; [apply list_elem_of_filter; set_solver|].
  intros [_ Hin]%list_elem_of_filter. set_solver.
Qed.

Lemma filter_irrefl (l : list InvitePopup.PopupInvite) :
  filter (fun i => InvitePopup.inv_id i <> InvitePopup.inv_id i) l = [].
Proof. induction l as [|i l IH]; [done|]. rewrite filter_cons_False; naive_solver. Qed.

Lemma popup_on_update p : InvitePopup.on_server update28 p = p.
Proof. done. Qed.

Lemma inviteAccepted_sockets sid x y s :
  preserves (fun w => sockets w = s) (Invites.inviteAccepted sid x y).
Proof. unfold Invites.inviteAccepted. preserve_deep. all: frame_sockets. Qed.

(** C16. Accepting an invitation takes both players to the game: when
    the invited user's popup accepts the invitation it shows first and
    the gateway holds it, the invited and the inviter's pages both go to
    ['/game/'] and then to [/game/g] for the new game [g], with the
    inviter on the left.  The popup then shows no invitation at all
    ([i.id != i.id] keeps none), while the gateway drops only the
    invitations of that inviter: another user's invitation stays pending
    without being shown. *)
Theorem invitation_accept_pages (sA sB : string) (x y : Z) (d : Pair InvitePopup.Popup)
    (good : IInvite) (u1 u2 : User) :
  InvitePopup.selectedInvite (pA d) = Some y ->
  find_first (Invites.matching x y) (invitations (srv d)) = Some good ->
  user_by_authId (db (srv d)) (iu_authId (inviter good)) = Some u1 ->
  user_by_authId (db (srv d)) (iu_authId (invited good)) = Some u2 ->
  iu_socketId (inviter good) = Some sB -> iu_socketId (invited good) = Some sA ->
  sA ∈ sockets (srv d) -> sB ∈ sockets (srv d) -> sA <> sB ->
  let d' := act_A InvitePopup.on_server sA sB (InvitePopup.handleYes x) d in
  let g := next_game_id (db (srv d)) in
  InvitePopup.history (pA d') = InvitePopup.history (pA d) ++ ["/game/"; game_path g] /\
  InvitePopup.history (pB d') = InvitePopup.history (pB d) ++ ["/game/"; game_path g] /\
  InvitePopup.invites (pA d') = [] /\
  invitations (srv d') = filter (fun i => iu_id (inviter i) <> y) (invitations (srv d)) /\
  last (games (db (srv d'))) =
    Some (new_game (db (srv d)) (iu_username (inviter good)) (iu_username (invited good))
                   (Some sB) (Some sA) (iu_authId (inviter good)) (iu_authId (invited good))).
Proof.
  intros Hsel Hf Hu1 Hu2 HsB HsA HinA HinB Hne d' g. subst d' g.
  destruct d as [w pa pb]; cbn [srv pA pB] in *.
  unfold act_A, InvitePopup.handleYes, serve_all. cbn [srv pA pB]. rewrite Hsel. simpl. unfold serve. simpl.
  destruct (inviteAccepted_creates_game sA x y w good u1 u2 Hf Hu1 Hu2) as (Hi & Hl & Ho).
  set (w1 := exec (Invites.inviteAccepted sA x y) w) in *.
  assert (Hs1 : sockets w1 = sockets w) by (by apply inviteAccepted_sockets).
  rewrite HsA, HsB in *. rewrite Ho, drop_app_length.
  destruct (recipients_socket w1 sA sB) as [RAin RBout]; [by rewrite Hs1 | done |].
  destruct (recipients_socket w1 sB sA) as [RBin RAout]; [by rewrite Hs1 | done |].
  rewrite !(deliver_to_skip _ _ _ _ update28) by apply popup_on_update.
  rewrite (deliver_to_out _ _ _ _ _ _ _ RAout), (deliver_to_in _ _ _ _ _ _ _ RAin).
  rewrite (deliver_to_in _ _ _ _ _ _ _ RBin), (deliver_to_out _ _ _ _ _ _ _ RBout), !deliver_to_nil.
  cbn [InvitePopup.on_server InvitePopup.history InvitePopup.invites InvitePopup.set_invites].
  by rewrite filter_irrefl.
Qed.

Definition mm0 : MatchMaking.MMPage := MatchMaking.mkMMPage false true [] [].

Definition lobby_world : World :=
  mkWorld (mkDB [mkUser 1 10 "alice" ONLINE 0 0 []; mkUser 2 20 "bob" ONLINE 0 0 []] [] 1)
          ["s1"; "s2"] [] [] [("s1", 10); ("s2", 20)] [] [] [].

Lemma matchmaking_pairs_pages_witness :
  let d' := act_B MatchMaking.on_server "s1" "s2" (MatchMaking.handleJoinGame 2 20)
              (act_A MatchMaking.on_server "s1" "s2" (MatchMaking.handleJoinGame 1 10)
                 (mkPair lobby_world mm0 mm0)) in
  MatchMaking.history (pA d') = [game_path 1] /\ MatchMaking.history (pB d') = [game_path 1].
Proof.
  destruct (matchmaking_pairs_pages "s1" "s2" 1 10 2 20 (mkPair lobby_world mm0 mm0)
              (mkUser 1 10 "alice" ONLINE 0 0 []) (mkUser 2 20 "bob" ONLINE 0 0 []))
    as (HA & HB & _); first [reflexivity | discriminate | lia | (apply (bool_decide_eq_true_1 _); vm_compute; reflexivity) | idtac].
  split; [exact HA | exact HB].
Defined.

Definition invite_world : World :=
  let A := mkIUser 1 10 (Some "alice") (Some ONLINE) (Some "s1") in
  let B := mkIUser 2 20 (Some "bob") (Some ONLINE) (Some "s2") in
  mkWorld (mkDB [mkUser 1 10 "alice" ONLINE 0 0 []; mkUser 2 20 "bob" ONLINE 0 0 []] [] 1)
          ["s1"; "s2"] [] [mkIInvite A B] [("s1", 10); ("s2", 20)] [] [] [].

Definition bob_popup : InvitePopup.Popup :=
  InvitePopup.mkPopup [InvitePopup.mkPopupInvite 1 (Some "alice")] [] [].

Lemma invitation_accept_pages_witness :
  let d' := act_A InvitePopup.on_server "s2" "s1" (InvitePopup.handleYes 2)
              (mkPair invite_world bob_popup InvitePopup.popup0) in
  InvitePopup.history (pA d') = ["/game/"; game_path 1] /\
  InvitePopup.history (pB d') = ["/game/"; game_path 1].
Proof.
  destruct (invitation_accept_pages "s2" "s1" 2 1 (mkPair invite_world bob_popup InvitePopup.popup0)
              (mkIInvite (mkIUser 1 10 (Some "alice") (Some ONLINE) (Some "s1"))
                         (mkIUser 2 20 (Some "bob") (Some ONLINE) (Some "s2")))
              (mkUser 1 10 "alice" ONLINE 0 0 []) (mkUser 2 20 "bob" ONLINE 0 0 []))
    as (HA & HB & _); first [reflexivity | discriminate | (apply (bool_decide_eq_true_1 _); vm_compute; reflexivity) | idtac].
  split; [exact HA | exact HB].
Defined.

(** The popup's cleanup was built on the first render, when no
    invitation had arrived: whatever the page received, leaving it
    declines nothing and the gateway keeps the invitations. *)
Lemma popup_unmount_declines_nothing (userId : Z) (evs : list Payload) :
  InvitePopup.unmount userId (foldl (fun p e => InvitePopup.on_server e p) InvitePopup.popup0 evs) = [].
Proof.
  unfold InvitePopup.unmount.
  enough (H : forall p, InvitePopup.captured p = [] ->
            InvitePopup.captured (foldl (fun p e => InvitePopup.on_server e p) p evs) = [])
    by (by rewrite H).
  induction evs as [|e evs IH]; intros p Hp; [done|]. apply IH. by destruct e.
Qed.

(** Users 1 to 4 on sockets s1 to s4. *)
Definition four_users_world (invs : list IInvite) : World :=
  let u (i : Z) := mkUser i (10 * i) ("u" +:+ js_string_of_Z i) ONLINE 0 0 [] in
  mkWorld (mkDB [u 1; u 2; u 3; u 4] [] 1) ["s1"; "s2"; "s3"; "s4"] [] invs
          [("s1", 10); ("s2", 20); ("s3", 30); ("s4", 40)] [] [] [].

Definition iuser (i : Z) : IUser :=
  mkIUser i (10 * i) (Some ("u" +:+ js_string_of_Z i)) (Some ONLINE) (Some ("s" +:+ js_string_of_Z i)).

(** Declining drops another user's invitation: user 1 has invited user
    4, then user 3 invited user 2.  User 2 declines on its popup; the
    gateway's [inviteDeclined] removes the first invitation of its list,
    user 1's to user 4, and keeps user 3's.  User 4 then accepts user
    1's invitation, still shown on its popup: nothing happens, no game is
    created and no page moves; and user 3 can no longer invite user 2,
    the kept invitation counting as pending. *)
Example decline_drops_other_invitation :
  let d0 := mkPair (four_users_world [mkIInvite (iuser 1) (iuser 4); mkIInvite (iuser 3) (iuser 2)])
                   (InvitePopup.mkPopup [InvitePopup.mkPopupInvite 3 (Some "u3")] [] [])
                   (InvitePopup.mkPopup [InvitePopup.mkPopupInvite 1 (Some "u1")] [] []) in
  let d1 := act_A InvitePopup.on_server "s2" "s4" (InvitePopup.handleNo 2) d0 in
  let d2 := act_B InvitePopup.on_server "s2" "s4" (InvitePopup.handleYes 4) d1 in
  invitations (srv d1) = [mkIInvite (iuser 3) (iuser 2)] /\ InvitePopup.invites (pA d1) = [] /\
  games (db (srv d2)) = [] /\ InvitePopup.history (pB d2) = [] /\
  exec (Invites.inviteInit "s3" 2) (srv d2) = srv d2.
Proof. vm_compute. split_and!; reflexivity. Qed.
