(* ===== verification/ProfilePage.v ===== *)
(** * The profile page and the profile route

    src/app/frontend/src/components/User/UserProfile.tsx (module
    [UserProfile]: the page's state, its [fetchProfile] effect, and what
    it renders) against [GET /users/:id/profile] of
    src/app/backend/src/user/user.controller.ts, whose [:id] goes
    through JavaScript's [parseInt].  [parse_int] is [parseInt] in base
    10: leading white space, a sign, then the longest run of digits, and
    [NaN] ([None]) when there is none. *)

From stdpp Require Import base list strings.
From Stdlib Require Import ZArith Lia Ascii.
From S2P Require Import Prelude Store Chat Profile Auth UserController Browser ChatMenu Pages.

Open Scope Z_scope.

(** ** [parseInt] *)

(** The ASCII white space [parseInt] skips (tab, line feed, vertical
    tab, form feed, carriage return, space). *)
Definition is_ws (c : ascii) : bool :=
  let n := nat_of_ascii c in ((9 <=? n) && (n <=? 13))%nat || (n =? 32)%nat.

Fixpoint skip_ws (s : string) : string :=
  match s with
  | String c s' => if is_ws c then skip_ws s' else s
  | EmptyString => EmptyString
  end.

Definition digit_val (c : ascii) : option Z :=
  let n := nat_of_ascii c in
  if ((48 <=? n) && (n <=? 57))%nat then Some (Z.of_nat n - 48) else None.

(** The longest run of digits, accumulated into [acc] ([None] before
    the first digit). *)
Fixpoint parse_digits (s : string) (acc : option Z) : option Z :=
  match s with
  | String c s' =>
      match digit_val c with
      | Some d => parse_digits s' (Some (default 0 acc * 10 + d))
      | None => acc
      end
  | EmptyString => acc
  end.

Definition parse_int (s : string) : option Z :=
  match skip_ws s with
  | String c r =>
      if Ascii.eqb c "-" then Z.opp <$> parse_digits r None
      else if Ascii.eqb c "+" then parse_digits r None
      else parse_digits (String c r) None
  | EmptyString => None
  end.

(** ** The route and the page *)

(** [GET /users/:id/profile] with [parseInt(id)]: on [NaN] Prisma
    rejects the id, and the controller's [catch] answers [undefined]. *)
Definition getProfileRoute (req : Request) (id : string) : SM (Http (option Profile)) :=
  match parse_int id with
  | Some i => UserController.getUserProfileAndMatches req i
  | None => JwtGuard req (fun _ => ret (HDone None))
  end.

Module UserProfile.

Record Page := mkPage {
  dataOk : bool;
  gameHistory : list Game;
  requestedUser : option User;
  showMutualFriends : list User;
  showOnewayFriends : list User;
  gameStat : Z * Z * Z
}.

Definition page0 : Page := mkPage true [] None [] [] (0, 0, 0).

(** The path segment of the request: [${id ? id : user?.id}], the
    string ["undefined"] without a user. *)
Definition profile_id (id : option string) (viewer : option Z) : string :=
  match id with
  | Some s => if bool_decide (s = "") then
                match viewer with Some v => js_string_of_Z v | None => "undefined" end
              else s
  | None => match viewer with Some v => js_string_of_Z v | None => "undefined" end
  end.

(** The answer's fields, each into its state. *)
Definition of_profile (pr : Profile) : Page :=
  mkPage true (pr_games pr) (Some (pr_user pr)) (pr_mutualFriends pr) (pr_onewayFriends pr)
         (pr_wins pr, pr_losses pr, pr_score pr).

(** [fetchProfile], run when there is a cookie: a refusal, a server
    error and an empty answer all throw into the [catch], which sets
    [dataOk] to false. *)
Definition fetchProfile (now : Z) (c : option Cookie) (id : option string) (viewer : option Z) (pg : Page)
    : SM Page :=
  match c with
  | None => ret pg
  | Some _ =>
      let* r := getProfileRoute (request_of c now) (profile_id id viewer) in
      ret (match r with
           | HDone (Some pr) => of_profile pr
           | _ => mkPage false (gameHistory pg) (requestedUser pg) (showMutualFriends pg)
                         (showOnewayFriends pg) (gameStat pg)
           end)
  end.


End UserProfile.

(** ** [parseInt] reads back [String(n)] *)

Lemma digit_val_of (m : Z) :
  0 <= m < 10 -> digit_val (Ascii.ascii_of_nat (48 + Z.to_nat m)) = Some m.
Proof.
  intros Hm. assert (m = 0 \/ m = 1 \/ m = 2 \/ m = 3 \/ m = 4 \/ m = 5 \/ m = 6 \/ m = 7 \/ m = 8 \/ m = 9)
    as Hc by lia.
  by repeat destruct Hc as [->|Hc]; subst.
Qed.

Lemma digit_not_sign c d : digit_val c = Some d -> is_ws c = false /\ c <> "-"%char /\ c <> "+"%char.
Proof.
  unfold digit_val, is_ws. destruct (_ && _)%bool eqn:E; [|done]. intros _.
  apply andb_true_iff in E as [E1 E2]. apply Nat.leb_le in E1, E2.
  split_and!.
  - cbv zeta. apply orb_false_iff. split; [apply andb_false_iff; right; apply Nat.leb_gt; lia|apply Nat.eqb_neq; lia].
  - intros ->. change (nat_of_ascii "-") with 45%nat in E1. lia.
  - intros ->. change (nat_of_ascii "+") with 43%nat in E1. lia.
Qed.

(** [digits_of] writes the digits of [n] before [acc]: reading them
    continues a number already read with [k] more digits. *)
Lemma digits_of_S f n acc :
  digits_of (S f) n acc =
    let acc' := String (Ascii.ascii_of_nat (48 + Z.to_nat (n mod 10))) acc in
    if n <? 10 then acc' else digits_of f (n / 10) acc'.
Proof. reflexivity. Qed.

Lemma parse_digits_of f n :
  0 <= n < 10 ^ Z.of_nat (S f) ->
  exists k, 0 <= k /\ forall acc o,
    parse_digits (digits_of (S f) n acc) o = parse_digits acc (Some (default 0 o * 10 ^ k + n)).
Proof.
  revert n. induction f as [|f IH]; intros n Hn.
  - exists 1. split; [lia|]. intros acc o. rewrite digits_of_S. cbv zeta.
    rewrite (proj2 (Z.ltb_lt n 10)) by (cbn in Hn; lia). cbn [parse_digits].
    rewrite Z.mod_small, digit_val_of by (cbn in Hn; lia). do 2 f_equal; lia.
  - destruct (Z.ltb_spec n 10).
    + exists 1. split; [lia|]. intros acc o. rewrite digits_of_S. cbv zeta. rewrite (proj2 (Z.ltb_lt n 10)) by lia.
      cbn [parse_digits]. rewrite Z.mod_small, digit_val_of by lia. do 2 f_equal; lia.
    + destruct (IH (n / 10)) as (k & Hk0 & Hk).
      { split; [apply Z.div_pos; lia|]. apply Z.div_lt_upper_bound; [lia|].
        rewrite Nat2Z.inj_succ, Z.pow_succ_r in Hn by lia. lia. }
      exists (k + 1). split; [lia|]. intros acc o. rewrite digits_of_S. cbv zeta. rewrite (proj2 (Z.ltb_ge n 10)) by lia.
      rewrite Hk. cbn [parse_digits]. rewrite digit_val_of by (apply Z.mod_pos_bound; lia).
      f_equal. f_equal. rewrite Z.pow_add_r, Z.pow_1_r by lia. pose proof (Z.div_mod n 10 ltac:(lia)). cbn [default id] in *. nia.
Qed.

Lemma digits_of_head f n acc :
  0 <= n -> exists c r d, digits_of (S f) n acc = String c r /\ digit_val c = Some d.
Proof.
  revert n acc. induction f as [|f IH]; intros n acc Hn; rewrite digits_of_S; cbv zeta;
    destruct (n <? 10);
    try (eexists _, _, _; split; [reflexivity|apply digit_val_of, Z.mod_pos_bound; lia]).
  apply IH. apply Z.div_pos; lia.
Qed.

(** The digits of [String(n)] may be followed by any text. *)
Lemma digits_of_app f n acc junk : (digits_of f n acc +:+ junk)%string = digits_of f n (acc +:+ junk).
Proof.
  revert n acc. induction f as [|f IH]; intros n acc; [done|]. cbn [digits_of].
  destruct (n <? 10); [done|]. apply IH.
Qed.

(** A text at which [parseInt]'s run of digits stops: empty, or
    starting with a character that is no digit. *)
Definition stops_parse (junk : string) : Prop :=
  match junk with String c _ => digit_val c = None | EmptyString => True end.

Lemma parse_digits_stop junk x : stops_parse junk -> parse_digits junk (Some x) = Some x.
Proof. destruct junk as [|c r]; [done|]. simpl. by intros ->. Qed.

(** [parseInt] of [String(n)] followed by a text that stops the digits
    is [n], for every integer of at most 64 digits (every safe
    integer). *)
Theorem parse_int_js_string_app n junk :
  Z.abs n < 10 ^ 64 -> stops_parse junk -> parse_int (js_string_of_Z n +:+ junk) = Some n.
Proof.
  intros Hn Hj. unfold js_string_of_Z. destruct (Z.ltb_spec n 0).
  - change (("-" +:+ digits_of 64 (- n) "") +:+ junk)%string with (String "-" (digits_of 64 (- n) "" +:+ junk)).
    rewrite digits_of_app.
    unfold parse_int. cbn [skip_ws]. change (is_ws "-") with false. cbn iota.
    change (Ascii.eqb "-" "-") with true. cbn iota.
    destruct (parse_digits_of 63 (- n) ltac:(cbn; lia)) as (k & _ & Hk).
    rewrite Hk, parse_digits_stop by done. cbn. f_equal; lia.
  - rewrite digits_of_app.
    destruct (digits_of_head 63 n ("" +:+ junk) ltac:(lia)) as (c & r & d & Hcr & Hd).
    destruct (digit_not_sign _ _ Hd) as (Hws & Hm & Hp).
    destruct (parse_digits_of 63 n ltac:(cbn; lia)) as (k & _ & Hk).
    unfold parse_int. rewrite Hcr. cbn [skip_ws]. rewrite Hws.
    rewrite (proj2 (Ascii.eqb_neq _ _) Hm), (proj2 (Ascii.eqb_neq _ _) Hp), <- Hcr, Hk.
    rewrite parse_digits_stop by done. cbn. f_equal; lia.
Qed.

(** Round trip: [parseInt] of [String(n)] is [n]. *)
Corollary parse_int_js_string n : Z.abs n < 10 ^ 64 -> parse_int (js_string_of_Z n) = Some n.
Proof. intros Hn. rewrite <- (string_app_nil_r (js_string_of_Z n)). by apply parse_int_js_string_app. Qed.

(** ** What the page shows *)

Definition profile_of (p : AppDB) (user : User) (i : Z) : Profile :=
  let gs := ProfileService.games_of (pcore p) (authId user) in
  let m := ProfileService.mutual (friends_of p i) (friends_relation p i) in
  mkProfile user gs (wins user) (loses user) (ProfileService.total_score (authId user) gs) m
            (ProfileService.oneway (friends_of p i) m).

(** The route for an admitted session and an id of a present user: the
    service's profile, the server unchanged. *)
Lemma getProfileRoute_run req s id i v au :
  authenticate_with jwt_validate s req = Some au -> parse_int id = Some i -> user_by_id (pcore (app s)) i = Some v ->
  getProfileRoute req id s = (Ok (HDone (Some (profile_of (app s) v i))), s).
Proof.
  intros Ha Hi Hv. unfold getProfileRoute. rewrite Hi.
  unfold UserController.getUserProfileAndMatches, JwtGuard, guard_with. rewrite Ha.
  unfold respond, UserController.done, acall, zoom, ProfileService.getUserProfileInformation, pcall, catch,
    UserService.getUserById.
  cbv beta iota delta [bind ret get deref gets zoom]. rewrite Hv. by destruct s as [[[] ? ? ?] ?].
Qed.


Lemma fetchProfile_run now c id viewer pg s au r :
  context_user s now c = Some au -> getProfileRoute (request_of c now) (UserProfile.profile_id id viewer) s = (Ok r, s) ->
  UserProfile.fetchProfile now c id viewer pg s =
    (Ok (match r with
         | HDone (Some pr) => UserProfile.of_profile pr
         | _ => UserProfile.mkPage false (UserProfile.gameHistory pg) (UserProfile.requestedUser pg)
                  (UserProfile.showMutualFriends pg) (UserProfile.showOnewayFriends pg) (UserProfile.gameStat pg)
         end), s).
Proof.
  intros Hc Hr. destruct c as [c|]; [|done]. unfold UserProfile.fetchProfile. by rewrite (bind_Ok _ _ _ _ _ Hr).
Qed.

(** A path segment [parseInt] reads as the id of a user: the page
    holds the service's profile of that user. *)
Lemma fetchProfile_number now c x viewer pg s au n v :
  context_user s now c = Some au -> parse_int x = Some n -> user_by_id (pcore (app s)) n = Some v ->
  UserProfile.fetchProfile now c (Some x) viewer pg s = (Ok (UserProfile.of_profile (profile_of (app s) v n)), s).
Proof.
  intros Hc Hx Hv. destruct c as [c|]; [|done].
  assert (Hid : UserProfile.profile_id (Some x) viewer = x).
  { unfold UserProfile.profile_id. rewrite bool_decide_false; [done|]. intros ->. discriminate Hx. }
  rewrite <- Hid in Hx.
  by rewrite (fetchProfile_run _ _ _ _ _ _ au _ Hc (getProfileRoute_run _ _ _ _ _ au Hc Hx Hv)).
Qed.



(** C34. The [Profile] item of a user menu opens the target's profile:
    it navigates to [/user/profile/] followed by [String(targetId)], and
    the page there, for a session the server admits, holds the profile
    of the target, for every id of at most 64 digits. *)
Theorem profile_item_opens_target now c viewer pg s au t v :
  context_user s now c = Some au -> user_by_id (pcore (app s)) t = Some v -> Z.abs t < 10 ^ 64 ->
  match UserMenu.handleProfile t with
  | MNavigate ["user"; "profile"; id] =>
      UserProfile.fetchProfile now c (Some id) viewer pg s = (Ok (UserProfile.of_profile (profile_of (app s) v t)), s)
  | _ => False
  end.
Proof.
  intros Hc Hv Ht. unfold UserMenu.handleProfile.
  exact (fetchProfile_number _ _ _ _ _ _ au _ _ Hc (parse_int_js_string t Ht) Hv).
Qed.

(** The session of the demo browser, which the demo server admits. *)
Local Ltac demo_session Hc :=
  destruct (context_user demo_menu_server 0 (cookie demo_menu_browser)) as [au|] eqn:Hc;
  [|vm_compute in Hc; discriminate].

(** User 3 of ChatMenu.v opens [/user/profile/2abc]: [parseInt] reads
    2, the page shows user 2. *)
Definition demo_user2 : User := mkUser 2 102 "u2" ONLINE 0 1 [].



Lemma profile_item_opens_target_witness :
  UserProfile.fetchProfile 0 (cookie demo_menu_browser) (Some "2") (Some 3) UserProfile.page0 demo_menu_server =
    (Ok (UserProfile.of_profile (profile_of (app demo_menu_server) demo_user2 2)), demo_menu_server).
Proof.
  demo_session Hc.
  exact (profile_item_opens_target 0 (cookie demo_menu_browser) (Some 3) UserProfile.page0 demo_menu_server au 2
           demo_user2 Hc ltac:(vm_compute; reflexivity) ltac:(vm_compute; reflexivity)).
Defined.
