(* ===== verification/Players.v ===== *)
(** * The players above the game canvas: [getPlayers] and its shared object

    src/app/frontend/src/components/Game/Utils/getPlayers.tsx and the
    effect of src/app/frontend/src/components/Game/Pong.tsx that calls it.
    [getPlayers] allocates a [Players] object, starts two requests
    [GET /users/authid/:authId] whose [then] callbacks write into that
    object, and returns it at once; the effect hands the object to
    [setPlayers].  React's state and the callbacks share the object: the
    answers change what the next render draws, but no answer asks for a
    render.  The page's objects are a heap ([list PlayersObj], a location
    is an index), the state [players] a location, the requests in flight
    a list the browser completes in any order.  Module [RecentGameCard]
    is the contrast of src/app/frontend/src/components/Home/
    RecentGames.tsx: the same two requests answered through React's
    updater [setAvatars(prevData => ...)]. *)

From stdpp Require Import base list strings.
From Stdlib Require Import ZArith Lia.
From S2P Require Import Prelude Store Profile Auth UserController Browser ChatMenu.

Open Scope Z_scope.

Module Players.

(** [interface Players { leftPlayer; rightPlayer }] *)
Record PlayersObj := mkPlayersObj { leftPlayer : option User; rightPlayer : option User }.

Definition empty_players : PlayersObj := mkPlayersObj None None.

(** A request in flight: the side its callback writes, the object it
    captured, and the [authId] it asks for. *)
Inductive Side := SLeft | SRight.
Record PReq := mkPReq { rq_side : Side; rq_loc : nat; rq_authId : Z }.

(** The page: its heap of [Players] objects, the location React's
    [players] state holds, [playersReady], the requests in flight, and
    the names the last render drew. *)
Record Page := mkPage {
  heap : list PlayersObj;
  players : nat;
  playersReady : bool;
  pending : list PReq;
  drawn : option string * option string
}.

(** [useState<Players>({ leftPlayer: null, rightPlayer: null })]: the
    initial object at location 0, nothing drawn yet. *)
Definition page0 : Page := mkPage [empty_players] 0 false [] (None, None).

(** What a render draws: [players.leftPlayer?.username] and
    [players.rightPlayer?.username], read from the object at render time. *)
Definition view (pg : Page) : option string * option string :=
  match heap pg !! players pg with
  | Some o => (username <$> leftPlayer o, username <$> rightPlayer o)
  | None => (None, None)
  end.

(** A render, after a state update. *)
Definition render (pg : Page) : Page := mkPage (heap pg) (players pg) (playersReady pg) (pending pg) (view pg).

(** [getPlayers(allVar)]: a new object, and one request per side when
    there is a cookie; the object's location is returned at once. *)
Definition getPlayers (c : option Cookie) (leftPlayerId rightPlayerId : Z) (pg : Page) : Page * nat :=
  let l := length (heap pg) in
  let rqs := match c with
             | Some _ => [mkPReq SLeft l leftPlayerId; mkPReq SRight l rightPlayerId]
             | None => []
             end in
  (mkPage (heap pg ++ [empty_players]) (players pg) (playersReady pg) (pending pg ++ rqs) (drawn pg), l).

(** The effect on [isMount]: [setPlayers(getPlayers(allVar))] and
    [setPlayersReady(true)]; the two updates re-render the page. *)
Definition effect (isMount : bool) (c : option Cookie) (leftPlayerId rightPlayerId : Z) (pg : Page) : Page :=
  if isMount then
    let '(pg', l) := getPlayers c leftPlayerId rightPlayerId pg in
    render (mkPage (heap pg') l true (pending pg') (drawn pg'))
  else pg.

(** [players.leftPlayer = res.data] (or the right one) on the captured
    object. *)
Definition write (r : PReq) (u : User) (h : list PlayersObj) : list PlayersObj :=
  alter (fun o => match rq_side r with
                  | SLeft => mkPlayersObj (Some u) (rightPlayer o)
                  | SRight => mkPlayersObj (leftPlayer o) (Some u)
                  end) (rq_loc r) h.

(** The browser completes the [i]-th request in flight: the server
    answers the route; [then] writes a truthy [res.data]; an error
    status goes to [catch], which only logs.  Nothing re-renders. *)
Definition resolve (now : Z) (c : option Cookie) (i : nat) (pg : Page) : SM Page :=
  match pending pg !! i with
  | None => ret pg
  | Some r =>
      let* res := UserController.getUserByAuthId (request_of c now) (rq_authId r) in
      let rest := delete i (pending pg) in
      ret (match res with
           | HDone (Some u) => mkPage (write r u (heap pg)) (players pg) (playersReady pg) rest (drawn pg)
           | _ => mkPage (heap pg) (players pg) (playersReady pg) rest (drawn pg)
           end)
  end.

End Players.

(** [RecentGameCard]'s avatars (src/app/frontend/src/components/Home/
    RecentGames.tsx): the same two requests, but each answer goes
    through [setAvatars] with an updater ([prevData => ...]), a state
    update that re-renders the card. *)
Module RecentGameCard.
Import Players.

(** The row [GET /users/authid/:authId] answers, with its [avatar]
    column. *)
Definition row_avatar (p : AppDB) (u : User) : option string := cols_of p (u_id u) ≫= avatar.

(** [avatars] ([left], [right], initially [""]), the requests in flight,
    and the number of renders. *)
Record Card := mkCard { left : option string; right : option string; cpending : list PReq; renders : nat }.

(** The mount effect: one request per side when there is a cookie. *)
Definition mount (c : option Cookie) (leftPlayerId rightPlayerId : Z) : Card :=
  mkCard (Some "") (Some "")
    match c with
    | Some _ => [mkPReq SLeft 0 leftPlayerId; mkPReq SRight 0 rightPlayerId]
    | None => []
    end 1.

(** [setAvatars(prevData => ({ ...prevData, left: res.data.avatar }))]
    (or [right]), and the render it causes. *)
Definition setAvatar (sd : Side) (a : option string) (cd : Card) : Card :=
  match sd with
  | SLeft => mkCard a (right cd) (cpending cd) (S (renders cd))
  | SRight => mkCard (left cd) a (cpending cd) (S (renders cd))
  end.

(** The browser completes the [i]-th request: a truthy [res.data] sets
    that side's avatar; an error goes to [catch]. *)
Definition resolve (now : Z) (c : option Cookie) (i : nat) (cd : Card) : SM Card :=
  match cpending cd !! i with
  | None => ret cd
  | Some r =>
      let* res := UserController.getUserByAuthId (request_of c now) (rq_authId r) in
      let* s := get in
      let cd' := mkCard (left cd) (right cd) (delete i (cpending cd)) (renders cd) in
      ret (match res with
           | HDone (Some u) => setAvatar (rq_side r) (row_avatar (app s) u) cd'
           | _ => cd'
           end)
  end.
End RecentGameCard.

Import Players.

(** ** Lemmas *)

Lemma getUserByAuthId_run s req au a :
  authenticate_with jwt_validate s req = Some au ->
  UserController.getUserByAuthId req a s = (Ok (HDone (user_by_authId (pcore (app s)) a)), s).
Proof.
  intros Ha. unfold UserController.getUserByAuthId, JwtGuard, guard_with. rewrite Ha.
  unfold respond, UserController.done, acall, zoom, pcall, UserService.getUserByAuthId.
  cbv beta iota delta [bind ret gets zoom]. by destruct s as [[[] ? ? ?] ?].
Qed.

(** A completed request writes its user into the object it captured. *)
Lemma resolve_run now c i pg s au r u :
  authenticate_with jwt_validate s (request_of c now) = Some au -> pending pg !! i = Some r ->
  user_by_authId (pcore (app s)) (rq_authId r) = Some u ->
  resolve now c i pg s =
    (Ok (mkPage (write r u (heap pg)) (players pg) (playersReady pg) (delete i (pending pg)) (drawn pg)), s).
Proof.
  intros Ha Hr Hu. unfold resolve. rewrite Hr.
  by rewrite (bind_Ok _ _ _ _ _ (getUserByAuthId_run _ _ _ _ Ha)), Hu.
Qed.

Lemma write_last h x r u :
  rq_loc r = length h ->
  write r u (h ++ [x]) !! length h =
    Some (match rq_side r with
          | SLeft => mkPlayersObj (Some u) (rightPlayer x)
          | SRight => mkPlayersObj (leftPlayer x) (Some u)
          end).
Proof.
  intros Hl. unfold write. rewrite Hl, list_lookup_alter, lookup_app_r, Nat.sub_diag by lia. by rewrite decide_True.
Qed.

Lemma write_length r u h : length (write r u h) = length h.
Proof. apply length_alter. Qed.

Lemma write_lookup_same r u h :
  write r u h !! rq_loc r =
    (fun o => match rq_side r with
              | SLeft => mkPlayersObj (Some u) (rightPlayer o)
              | SRight => mkPlayersObj (leftPlayer o) (Some u)
              end) <$> h !! rq_loc r.
Proof. unfold write. by rewrite list_lookup_alter, decide_True. Qed.

(** The object [getPlayers] allocates is the last of the heap. *)
Lemma lookup_new_obj h : (h ++ [empty_players]) !! length h = Some empty_players.
Proof. by rewrite lookup_app_r, Nat.sub_diag by lia. Qed.

(** ** Properties *)

(** C38. The names above the canvas need a render that nothing asks for:
    the effect's render draws the fresh object's nulls; the two answers,
    completed in either order, write both players into the object React
    holds but trigger no render, so the page still shows no name; the
    next render, for any other state update, draws both. *)
Theorem players_drawn_only_on_rerender now k pg s au l r uL uR i :
  context_user s now (Some k) = Some au -> pending pg = [] ->
  user_by_authId (pcore (app s)) l = Some uL -> user_by_authId (pcore (app s)) r = Some uR -> (i < 2)%nat ->
  drawn (effect true (Some k) l r pg) = (None, None) /\
  exists pg3, (let* pg2 := resolve now (Some k) i (effect true (Some k) l r pg) in resolve now (Some k) 0 pg2) s
                = (Ok pg3, s) /\
    drawn pg3 = (None, None) /\ drawn (render pg3) = (Some (username uL), Some (username uR)).
Proof.
  intros Hc Hp HL HR Hi.
  assert (effect true (Some k) l r pg =
          mkPage (heap pg ++ [empty_players]) (length (heap pg)) true
                 [mkPReq SLeft (length (heap pg)) l; mkPReq SRight (length (heap pg)) r] (None, None)) as ->.
  { unfold effect, getPlayers, render, view. rewrite Hp. cbn [heap players pending drawn]. by rewrite lookup_new_obj. }
  split; [done|].
  destruct i as [|[|]]; [| |lia];
    [ match goal with |- context [resolve _ _ 0 ?p] =>
        rewrite (bind_Ok _ _ _ _ _ (resolve_run now _ 0 p s au _ uL Hc eq_refl HL)) end;
      match goal with |- context [resolve _ _ 0 ?p] => rewrite (resolve_run now _ 0 p s au _ uR Hc eq_refl HR) end
    | match goal with |- context [resolve _ _ 1 ?p] =>
        rewrite (bind_Ok _ _ _ _ _ (resolve_run now _ 1 p s au _ uR Hc eq_refl HR)) end;
      match goal with |- context [resolve _ _ 0 ?p] => rewrite (resolve_run now _ 0 p s au _ uL Hc eq_refl HL) end ];
    (eexists; split; [reflexivity|]; split; [done|]); unfold render, view; cbn [heap players drawn];
    rewrite ?(write_lookup_same (mkPReq SRight (length (heap pg)) r)),
      ?(write_lookup_same (mkPReq SLeft (length (heap pg)) l)); cbn [rq_loc];
    rewrite ?(write_lookup_same (mkPReq SRight (length (heap pg)) r)); cbn [rq_loc];
    by rewrite lookup_new_obj.
Qed.



Import RecentGameCard.

Lemma card_resolve_run now c i cd s au r u :
  authenticate_with jwt_validate s (request_of c now) = Some au -> cpending cd !! i = Some r ->
  user_by_authId (pcore (app s)) (rq_authId r) = Some u ->
  RecentGameCard.resolve now c i cd s =
    (Ok (setAvatar (rq_side r) (row_avatar (app s) u)
           (mkCard (left cd) (right cd) (delete i (cpending cd)) (renders cd))), s).
Proof.
  intros Ha Hr Hu. unfold RecentGameCard.resolve. rewrite Hr.
  rewrite (bind_Ok _ _ _ _ _ (getUserByAuthId_run _ _ _ _ Ha)), Hu. done.
Qed.

(** A recent game card shows both players' avatars whichever answer
    comes first: each answer's updater sets its own side of the state
    the previous one left, and re-renders the card. *)
Theorem card_avatars_any_order now k s au l r uL uR i :
  context_user s now (Some k) = Some au ->
  user_by_authId (pcore (app s)) l = Some uL -> user_by_authId (pcore (app s)) r = Some uR -> (i < 2)%nat ->
  exists cd, (let* c1 := RecentGameCard.resolve now (Some k) i (RecentGameCard.mount (Some k) l r) in
              RecentGameCard.resolve now (Some k) 0 c1) s = (Ok cd, s) /\
    left cd = row_avatar (app s) uL /\ right cd = row_avatar (app s) uR /\ renders cd = 3%nat /\ cpending cd = [].
Proof.
  intros Hc HL HR Hi. destruct i as [|[|]]; [| |lia];
    [ rewrite (bind_Ok _ _ _ _ _ (card_resolve_run now _ 0 (mount (Some k) l r) s au _ uL Hc eq_refl HL));
      match goal with |- context [RecentGameCard.resolve _ _ 0 ?c] =>
        rewrite (card_resolve_run now _ 0 c s au _ uR Hc eq_refl HR) end
    | rewrite (bind_Ok _ _ _ _ _ (card_resolve_run now _ 1 (mount (Some k) l r) s au _ uR Hc eq_refl HR));
      match goal with |- context [RecentGameCard.resolve _ _ 0 ?c] =>
        rewrite (card_resolve_run now _ 0 c s au _ uL Hc eq_refl HL) end ];
    by eexists.
Qed.

(** User 3 of ChatMenu.v watches the game of users 1 and 2 (authIds 101
    and 102); the right player's answer arrives first. *)
Lemma players_drawn_only_on_rerender_witness :
  let k := CookieToken demo_token_3 in
  drawn (effect true (Some k) 101 102 page0) = (None, None) /\
  exists pg3, (let* pg2 := Players.resolve 0 (Some k) 1 (effect true (Some k) 101 102 page0) in Players.resolve 0 (Some k) 0 pg2)
                demo_menu_server = (Ok pg3, demo_menu_server) /\
    drawn pg3 = (None, None) /\ drawn (Players.render pg3) = (Some "u1"%string, Some "u2"%string).
Proof.
  intros k.
  destruct (context_user demo_menu_server 0 (Some k)) as [au|] eqn:Hc; [|vm_compute in Hc; discriminate].
  exact (players_drawn_only_on_rerender 0 k page0 demo_menu_server au 101 102 (mkUser 1 101 "u1" ONLINE 1 0 [])
           (mkUser 2 102 "u2" ONLINE 0 1 []) 1 Hc eq_refl ltac:(vm_compute; reflexivity)
           ltac:(vm_compute; reflexivity) ltac:(lia)).
Defined.
