(* ===== verification/ProfileCards.v ===== *)
(** * The profile page's cards: [Stats] and [GameHistory]

    src/app/frontend/src/components/User/ProfileUtils/Stats.tsx (module
    [Stats]: its fetch of [GET /users/general-information], the rank it
    keeps, the score line and the medal) and
    src/app/frontend/src/components/User/ProfileUtils/GameHistory.tsx
    (module [GameHistory]: [GameHistoryCard]'s scores and result, the
    list with its [Show more] toggle and React's slot for its
    [useState]).  The rank and the result reuse [stats_rank] and
    [history_result] of Pages.v; the fetch runs against the server of
    UserController.v. *)

From stdpp Require Import base list strings sorting.
From Stdlib Require Import ZArith QArith Lia.
From S2P Require Import Prelude Store Profile Auth UserController Browser ChatMenu Pages.

Open Scope Z_scope.

Module Stats.

(** [fetchGameHistory], run when there is a cookie: the rank of
    [requestedUser] among the ranking's users with a game; an error
    keeps the rank. *)
Definition fetchRank (now : Z) (c : option Cookie) (requestedUser : JsVal) (rank : nat) : SM nat :=
  match c with
  | None => ret rank
  | Some _ =>
      let* r := UserController.getGeneralInformation (request_of c now) in
      ret (match r with HDone gi => stats_rank (gi_ranking gi) requestedUser | _ => rank end)
  end.

(** The medal's branches: [none], the three medals, or the number. *)
Inductive Medal := MNone | MGold | MSilver | MBronze | MNumber (n : nat).

Definition medal (rank : nat) : Medal :=
  match rank with
  | 0 => MNone
  | 1 => MGold
  | 2 => MSilver
  | 3 => MBronze
  | n => MNumber n
  end%nat.

(** [gameStat.score === 1 ? "point" : "points"] *)
Definition points_label (score : Z) : string := if score =? 1 then "point" else "points".

(** The rank container, drawn when [requestedUser === user?.id]. *)
Definition shown_medal (requestedUser : JsVal) (viewerId : Z) (rank : nat) : option Medal :=
  if stats_shows_rank requestedUser viewerId then Some (medal rank) else None.

End Stats.

Module GameHistory.

(** [GameHistoryCard]: [myScore] and [opScore] from the viewer's side
    ([data.leftPlayerId === user?.authId]); the card draws the left and
    right scores and the [result] of [history_result]. *)
Definition card_scores (viewerAuthId : Z) (g : Game) : Z * Z :=
  if leftPlayerId g =? viewerAuthId then (scoreLeftPlayer g, scoreRightPlayer g)
  else (scoreRightPlayer g, scoreLeftPlayer g).

Definition card_drawn (viewerAuthId : Z) (g : Game) : Z * Z * string :=
  (scoreLeftPlayer g, scoreRightPlayer g, history_result viewerAuthId g).

Record Display := mkDisplay { gamesEl : list Game; btn : string }.

(** [gameHistory.slice(0, 3)] *)
Definition shortGames (gameHistory : list Game) : list Game := take 3 gameHistory.

Definition display0 (gameHistory : list Game) : Display := mkDisplay (shortGames gameHistory) "Show more".

(** One render: the hook's slot afterwards, or [None] when React throws
    (the same early return before [useState] as [RecentGames]). *)
Definition render (gameHistory : list Game) (slot : option Display) : option (option Display) :=
  match gameHistory, slot with
  | [], None => Some None
  | [], Some _ => None
  | _ :: _, None => Some (Some (display0 gameHistory))
  | _ :: _, Some d => Some (Some d)
  end.

(** [allGamesEl?.length > 3] *)
Definition button_shown (gameHistory : list Game) : bool := bool_decide (3 < length gameHistory)%nat.

Definition handleClick (gameHistory : list Game) (d : Display) : Display :=
  if String.eqb (btn d) "Show more" then mkDisplay gameHistory "Show less"
  else mkDisplay (shortGames gameHistory) "Show more".

End GameHistory.

Import Stats GameHistory.

(** ** Lemmas *)

#[local] Instance ranked_trans : Transitive ranked.
Proof. intros a b c Hab Hbc. unfold ranked in *. by apply (Qle_trans _ (ratio b)). Qed.

Lemma StronglySorted_filter {A} (R : relation A) (P : A -> Prop) `{forall x, Decision (P x)} l :
  StronglySorted R l -> StronglySorted R (filter P l).
Proof.
  induction l as [|x l IH]; intros Hs; [constructor|]. inversion Hs as [|? ? Hl Hx]; subst.
  rewrite filter_cons. case_decide; [|by apply IH]. constructor; [by apply IH|].
  rewrite Forall_forall in Hx |- *. intros y [_ Hy]%list_elem_of_filter. by apply Hx.
Qed.

(** In a strongly sorted list an entry is related to every later one. *)
Lemma StronglySorted_lookup {A} (R : relation A) l j i w v :
  StronglySorted R l -> (j < i)%nat -> l !! j = Some w -> l !! i = Some v -> R w v.
Proof.
  revert j i. induction l as [|x l IH]; intros j i Hs Hji Hj Hi; [done|].
  inversion Hs as [|? ? Hl Hx]; subst. destruct j as [|j], i as [|i]; simpl in *; [lia| |lia|].
  - injection Hj as ->. rewrite Forall_forall in Hx. by apply Hx, list_elem_of_lookup_2 with i.
  - apply (IH j i); [done|lia|done|done].
Qed.

(** The ranking [getGeneralInformation] answers, strongly sorted. *)
Lemma played_ranking_sorted (us : list User) : StronglySorted ranked (filter played (rank us)).
Proof. apply StronglySorted_filter, Sorted_StronglySorted; [apply _|apply rank_sorted_perm]. Qed.

Lemma fetchRank_run now c s u x req r0 :
  context_user s now c = Some (u, x) ->
  fetchRank now c req r0 s = (Ok (stats_rank (rank (users (pcore (app s)))) req), s).
Proof.
  destruct c as [c|]; [|done]. intros Hc. unfold fetchRank.
  by rewrite (bind_Ok _ _ _ _ _ (getGeneralInformation_run _ _ _ _ Hc)).
Qed.

(** A function that swaps two values alternates between them. *)
Lemma iter_toggle {A} (f : A -> A) a b k :
  f a = b -> f b = a -> Nat.iter k f a = if Nat.even k then a else b.
Proof.
  intros Ha Hb. induction k as [|k IH]; [done|].
  rewrite Nat.iter_succ, IH, Nat.even_succ, <- Nat.negb_even. by destruct (Nat.even k).
Qed.

(** ** Properties *)

(** C36. On one's own profile, the [Stats] card shows the user's place in
    the server's ranking: for a session the server admits, a user with
    a game and distinct user ids, the rank the card fetches is [i + 1]
    where the user is the [i]-th of the users with a game in the order
    [getGeneralInformation] sorts them; every user before has at least
    the user's ratio and every user after at most, and the medal of that
    rank is drawn. *)
Theorem own_stats_rank_position now c s u x :
  context_user s now c = Some (u, x) -> NoDup (u_id <$> users (pcore (app s))) -> played u = true ->
  exists i, fetchRank now c (JNum (u_id u)) 0 s = (Ok (S i), s) /\
    filter played (rank (users (pcore (app s)))) !! i = Some u /\
    (forall j w, filter played (rank (users (pcore (app s)))) !! j = Some w ->
       ((j < i)%nat -> (ratio u <= ratio w)%Q) /\ ((i < j)%nat -> (ratio w <= ratio u)%Q)) /\
    shown_medal (JNum (u_id u)) (u_id u) (S i) = Some (medal (S i)).
Proof.
  intros Hc Hnd Hp. rewrite (fetchRank_run _ _ _ _ _ _ _ Hc).
  destruct c as [c|]; [|done]. pose proof (jwt_user_row _ _ _ _ Hc) as Hu.
  apply find_first_Some in Hu as [Hin _].
  destruct (rank_sorted_perm (users (pcore (app s)))) as [_ Hperm].
  assert (u ∈ filter played (rank (users (pcore (app s))))) as Hf.
  { apply list_elem_of_filter. split; [by rewrite Hp|by rewrite Hperm]. }
  apply list_elem_of_lookup in Hf as [i Hi]. exists i.
  assert (NoDup (u_id <$> filter played (rank (users (pcore (app s)))))) as Hnd'.
  { apply NoDup_map_filter. by rewrite Hperm. }
  split_and!; [|done| |].
  - unfold stats_rank. simpl. by rewrite (findIndex_unique u_id _ i u Hnd' Hi).
  - intros j w Hj. split; intros Hlt.
    + exact (StronglySorted_lookup _ _ j i w u (played_ranking_sorted _) Hlt Hj Hi).
    + exact (StronglySorted_lookup _ _ i j u w (played_ranking_sorted _) Hlt Hi Hj).
  - unfold shown_medal, stats_shows_rank. simpl. by rewrite Z.eqb_refl.
Qed.

(** The profile page renders [GameHistory] with its initial empty list,
    then with the games its fetch answers: the slot is mounted with the
    first three games, the button is drawn for more than three, and each
    click alternates between all the games and the first three. *)
Theorem game_history_toggle (l : list Game) (k : nat) :
  l <> [] ->
  exists d, (GameHistory.render [] None ≫= GameHistory.render l) = Some (Some d) /\
    gamesEl d = take 3 l /\
    Nat.iter k (GameHistory.handleClick l) d = if Nat.even k then display0 l else mkDisplay l "Show less".
Proof.
  destruct l as [|g l]; [done|]. intros _. eexists. split_and!; [reflexivity|reflexivity|].
  by apply iter_toggle.
Qed.

(** ** Witnesses *)

(** User 1 of Auth.v's demo server, with its second factor checked,
    opens its own profile: first of the two users with a game, gold. *)
Definition demo_u1 : User := mkUser 1 101 "u1" ONLINE 1 0 [].
Definition demo_u1_cols : UserCols := mkUserCols 1 (Some "u1@42.fr") None (Some "S") (Some true) (Some true).

Lemma own_stats_rank_position_witness :
  exists i, fetchRank 0 (Some (CookieToken demo_token_2fa)) (JNum 1) 0 demo_server = (Ok (S i), demo_server) /\
    filter played (rank (users (pcore (app demo_server)))) !! i = Some demo_u1 /\
    (forall j w, filter played (rank (users (pcore (app demo_server)))) !! j = Some w ->
       ((j < i)%nat -> (ratio demo_u1 <= ratio w)%Q) /\ ((i < j)%nat -> (ratio w <= ratio demo_u1)%Q)) /\
    shown_medal (JNum 1) 1 (S i) = Some (medal (S i)).
Proof.
  apply (own_stats_rank_position 0 (Some (CookieToken demo_token_2fa)) demo_server demo_u1 demo_u1_cols).
  - vm_compute. reflexivity.
  - apply (bool_decide_unpack _). vm_compute. reflexivity.
  - reflexivity.
Defined.

Lemma game_history_toggle_witness :
  exists d, (GameHistory.render [] None ≫= GameHistory.render [demo_game]) = Some (Some d) /\
    gamesEl d = [demo_game] /\
    Nat.iter 2 (GameHistory.handleClick [demo_game]) d = display0 [demo_game].
Proof. apply (game_history_toggle [demo_game] 2). discriminate. Defined.
